(* ===== verification/_CoqProject ===== *)
-Q . S2P
Prelude.v
PyDict.v
PyValue.v
Runtime.v
Events.v
Identity.v
HashNum.v
Apply.v
Message.v
StoryCodec.v
Display.v
Registry.v
DictCodec.v
Logging.v
Loop.v
RoundTrip.v
WellFormed.v
Replay.v
Store.v
Aliasing.v
Construct.v
Batch.v
Sharing.v
Reencode.v
