(* ===== verification/Prelude.v ===== *)
(** * Verification of the event model of [rasa.core.events]

    The program is the single module [src/rasa/core/events/__init__.py]:
    the event classes of a dialogue tracker and the codecs that turn
    events into dictionaries or story lines and back.  An event is built
    by the constructor of its class, which stamps it with the clock when
    no timestamp is given; it is written to a dictionary by [as_dict];
    a dictionary is read back by [Event.from_parameters], which finds the
    class of the tag with [Event.resolve_by_type] and hands the
    dictionary to the decoder of that class; [deserialise_events] does so
    for a list of dictionaries.  The same events are written to and read
    from the lines of a story file, compared and hashed, printed, and
    applied to a dialogue tracker.  The decoders hand two warnings to the
    logger of the module.

    ** The files, in the order of their dependencies

    - [Prelude.v] (this file): the error type [result] with its monad
      instances, the state-and-error monad [eff], the notations of scope
      [py_scope], the hint databases [py] and [pyrw], the tactics shared
      by all files, and generic lemmas on options and lists.
    - [PyDict.v]: Python's insertion-ordered [dict] with string keys as an
      association list ([d.get], [d[k] = v], [d.update], [k in d],
      [len], [==]), its invariant [dict_wf] (the keys are distinct) and
      the refinement [to_gmap] to a finite map.
    - [PyValue.v]: the values the module computes with ([None], [bool],
      [int], [float], [str], [list], [dict]) as the nested inductive
      [pyval]; truthiness ([truthy], behind every [x or d] and [if x:]
      of the source); Python's [==] ([py_eq]: [True == 1 == 1.0],
      dictionaries compare without order); the exceptions the module
      raises ([exn]); the helper [first_key] of the source.
    - [Runtime.v]: the environment.  [World] is the clock read by
      [time.time()] and the generator behind [uuid.uuid1()], each an
      infinite supply with a counter, and the log that
      [logger.warning] appends to; [M] is the monad that threads the
      world and carries exceptions.  The libraries the module calls are
      classes: [DateTimeLib] ([dateutil.parser.parse],
      [datetime.isoformat], [str] of a date), [Pickler], [JsonLib],
      [MarkdownLib], [Formatter].
    - [Events.v]: the base class ([EventBase], [Event_init], the
      [metadata] property), the eighteen subclasses as the constructors
      of the type [Event] with their tags [type_name], and every
      [__init__], [empty] and [_from_parse_data] of the source.  The
      relation [constructed] collects the constructor calls and
      [event_inv] is the invariant of their results.
    - [Identity.v]: every [__eq__] and [__hash__] and [Event.__ne__];
      [event_eq] is [==] on events and [event_hash] the value that
      [hash] is applied to; [identity_key] is the identity rule of each
      class and [eq_spec] the comparison it specifies.  The pickler
      [jsonpickle.encode] is the class [Pickler].
    - [HashNum.v]: the number [hash] returns for an integer
      ([int_hash], the reduction modulo [sys.hash_info.modulus]), for
      the seven classes whose [__hash__] hashes a constant.
    - [Apply.v]: every [apply_to] against the class [TrackerOps], the
      tracker as the events use it; [calls] is the sequence of tracker
      calls of each event and [trace_tracker] the tracker that records
      them.
    - [Message.v]: [deserialise_entities], [md_format_message] and the
      property [BotUttered.message].
    - [StoryCodec.v]: every [as_story_string]; [story_params] is the
      dictionary a story line carries.
    - [Display.v]: every [__str__] and [BotUttered.__repr__];
      [py_format] is [str.format], and [render] with [str_fields] the
      specification of the printed form.
    - [Registry.v]: [Event.resolve_by_type] as a scan over the subclass
      list, and the table [registry] with [resolve_spec] as its
      specification.
    - [DictCodec.v]: every [as_dict], every [_from_story_string] and
      [_from_parameters], the three entry points
      [Event.from_story_string], [Event.from_parameters] and
      [deserialise_events], and the reference decoder [decode_ref].
    - [Logging.v]: the warnings the decoders log, and the text of a
      warning ([log_text]).
    - [Loop.v]: the loop of [deserialise_events] as a transition
      system, [loop_step], with the step function [loop_next] and the
      invariant [loop_inv].
    - [RoundTrip.v]: the two codecs and the identity rules together.
    - [WellFormed.v]: what type a decoded event has: its class, the
      invariant of constructed events, and the values without NaN and
      with distinct keys ([val_wf]) lifted to events ([event_wf]).
    - [Replay.v]: the dictionary codec and [apply_to] together: the
      tracker calls of a log that was written and read back, and the
      clock readings that reading it back costs ([reread]).
    - [Store.v]: lists and dictionaries as objects in a store, values
      as scalars or references, and the operations that allocate, read
      and change objects ([d[k] = v], [d.update], [d.copy], [==]);
      [heap_vals] reads a store back as trees.
    - [Aliasing.v]: every [as_dict] and [BotUttered.message] run on
      that store, on event objects whose attributes are references
      ([SEvent]); [abs_event] reads an event object back as an [Event].
    - [Construct.v]: every constructor, [Event.from_parameters] and
      [Event.from_story_string] with the decoders of every class, run on
      the world and that store together; [sim] relates a run on the
      store to a run on trees.
    - [Batch.v]: [deserialise_events] on that store, on a reference to
      a list of records.
    - [Sharing.v]: a program logic ([keeps]) for the computations on
      the store, and what the decoders keep of the record.
    - [Reencode.v]: [Event.from_parameters] followed by [as_dict], both
      on the store.

    ** How the model corresponds to the code

    A method [C.m] of the source is the definition [C_m]; a method that
    is dispatched on the class is a definition on the type ([as_dict],
    [cls_from_parameters], [cls_from_story_string]).  Attributes are
    fields of the constructors of [Event], typed [pyval] because the
    source does not check what it stores; an attribute that the source
    reads with [getattr] or [hasattr] is an [option].  A call that reads
    the clock, draws an identifier or logs a warning is a computation in
    [M]; a [raise] is the value [Raise] and an [except KeyError] block
    is [eff_catch].
    The closed forms [stamp], [tick], [new_base], [fresh_name] and [draw]
    say what a constructor returns and what it does to the world
    ([Event_init_eq], [super_init_eq]).

    ** What the theorems show

    - [PyDict], [PyValue]: the laws of lookup after update, preservation
      of [dict_wf], agreement with [gmap]; [py_eq] is a partial
      equivalence that is reflexive on values without NaN; [first_key]
      on every size of dictionary.
    - [Events]: every constructed event satisfies [event_inv]; the
      timestamp is the given one when truthy and the next clock reading
      otherwise; a constructor reads the clock at most once and draws at
      most one identifier; unnamed reminders get distinct names.
    - [Identity]: [==] compares classes and identity keys
      ([event_eq_identity]) and is a partial equivalence; which classes
      hash what they compare and which do not; when a comparison raises.
    - [HashNum]: the hash of an integer stays below the modulus; the
      seven constants are their own hash on a 64-bit build, are reduced
      on a 32-bit build, and never collide with one another.
    - [Apply]: a replay on any tracker is the run of the calls of the
      events, in order, up to the first call that raises; which events
      make no call.
    - [Message]: what each key of the message of a bot utterance holds;
      [deserialise_entities] returns dictionaries and is idempotent.
    - [StoryCodec]: the line of each class, which classes have none, and
      which lines escape the characters outside ASCII.
    - [Display]: a printed event is the name of its class and its
      fields in parentheses; printing raises only for an executed action
      that lacks an attribute; no printer reads the timestamp.
    - [Registry]: the tags are pairwise distinct; the scan implements the
      lookup in the table; known, legacy, unknown and defaulted tags.
    - [DictCodec]: the entries of every encoded dictionary and when the
      key [metadata] is written; the decoders implement [decode_ref] on
      every branch, errors included; the round trip
      [from_parameters (as_dict e)] on the events [rt_ok] describes, and
      for lists of them; which errors a decoder can raise; the behaviour
      of [deserialise_events] on records with unknown, legacy or missing
      tags; that [deserialise_events] hands every record with a tag to
      the decoder, in the world the records before it left, and returns
      its event at the position of the record; that a decoded event
      writes back, under each key of [as_dict], the truthy value the
      record has under that key; the events of a [slot] story line.
    - [Logging]: the decoders of one record log nothing;
      [deserialise_events] logs one warning for each record whose tag
      is [None] or the legacy tag, and every record with a tag gives an
      event or a warning; the text of that warning does not name the
      record.
    - [Loop]: every state the machine reaches satisfies [loop_inv], by
      induction on the run; the machine is deterministic and runs to
      the state the function [deserialise_loop] computes, so the
      invariant holds of what [deserialise_events] returns.
    - [RoundTrip]: decoding the dictionary of an event gives an event
      that [==] identifies with it, for single events and for lists, also
      where the decoded event differs in a timestamp or in a payload
      that [as_dict] does not write; and so does decoding the parameters
      of its story line.
    - [WellFormed]: a decoded event is an instance of the class its tag
      resolves to and satisfies [event_inv]; a well-formed record
      decodes to a well-formed event, and a well-formed event encodes
      to a well-formed record.
    - [Replay]: a log that was written and read back makes the tracker
      calls of the original, except for a [StoryExported], whose export
      is lost with its path; reading it back reads the clock once for
      each event whose timestamp is falsy (a [0] is stamped again),
      draws no identifier and logs nothing.
    - [Store], [Aliasing]: each [as_dict] and [BotUttered.message]
      allocates one dictionary, its result, and changes no other object;
      the result read back as a tree is what the tree model computes
      (the tree model is a refinement target of the store model for
      these methods); the result of [as_dict] holds the references of
      the event, so the encoded record and the event share their
      metadata, data and parse data.
    - [Construct]: each constructor and each decoder on the store does
      what its tree model does, in the same world, with the same
      exception or a result that reads back as the result on trees, and
      changes no object that existed; the proof composes one rule for
      each primitive ([sim_bind], [sim_catch], [sim_get], [sim_or_new]).
      A constructor keeps a truthy argument by reference, so a decoded
      event holds the objects of its record.
    - [Batch]: [deserialise_events] on the store does what it does on
      trees, for a list of dictionary objects; two records that share
      their metadata decode to events that share it.
    - [Sharing]: the [_metadata] of a decoded event, of any class, is
      the reference its record holds under ["metadata"] when that
      dictionary is not empty; what the caller then writes into the
      metadata of the record, the event reads.
    - [Reencode]: decoding a record object and encoding the event again
      allocates one dictionary, which reads back as [as_dict] of the
      decoded event and holds the metadata object of the record.

    ** Bounds, fuel and abstraction

    No definition uses fuel: every function of the module terminates by
    structural recursion on its input.  The one loop with an effect in
    its body, that of [deserialise_events], is also a step relation,
    whose steps decrease [loop_size], the number of records left plus
    one.  Integers are unbounded ([Z]), as
    in Python.  A finite float is a dyadic rational [m * 2^e]; NaN and
    the infinities are separate constructors.  Only equality and
    emptiness of strings are used by the code, and their concatenation
    by the printers.  The hash of an integer is modelled for both word
    sizes of CPython (moduli [2^61 - 1] and [2^31 - 1]); the constants of
    the module need 35 bits.

    Events are values in every file but [Store.v], [Aliasing.v],
    [Construct.v], [Batch.v], [Sharing.v] and [Reencode.v].  The
    methods that create an object or keep one they are given (the constructors, the decoders, [as_dict],
    [BotUttered.message]) are run on the store as well, where the
    theorems show that they change no object that existed and that the
    tree model says what their result holds.  The methods that only
    read ([__eq__], [__hash__], [__str__], [as_story_string],
    [apply_to]) are modelled on trees.  A store reads back as trees
    when every object refers to older objects only; the methods keep
    that, since they write into the newest object.  Python's identity
    shortcut in container comparison is absent: NaN is unequal to
    everything in [py_eq].  The subclass list of [resolve_by_type] is
    the list of the classes this module defines; a class defined
    elsewhere would extend it.

    ** Not modelled

    The tracker itself, the text that [json.dumps], [jsonpickle.encode]
    and the markdown writer produce, and the parser of story files are
    outside the module: they are interfaces, and the theorems hold for
    every implementation of them.  The handlers and the level of the
    logger are configuration: the model records every warning the module
    hands to it.  The number that [hash]
    returns for a string or a tuple depends on the seed of the process
    and is not modelled, only the value that is hashed.  Event objects
    are not objects of the store: a tracker that keeps a reference to an
    event ([tracker.latest_message = self]) is outside the model with
    the tracker.  Where a result depends on the identity or the address
    of an object (two instances of the base class under [==], the
    printed form of an instance of the base class) or on a dictionary
    key that is not a string, the model ends and the definition returns
    [None].  The trigger time of a reminder is a date: a
    [ReminderScheduled] built by other code around a value without
    [isoformat], on which [as_dict] and [as_story_string] would raise
    [AttributeError], is not an event of the model.  The call
    [cls(timestamp, metadata)] of the inherited [_from_story_string] is
    modelled for the classes that reach it; [ReminderScheduled]
    overrides the method, so the module never makes the call for it.
    Python would build a reminder with the metadata as its trigger
    time; [init2] has [TypeError] in that place, which no definition
    of the model reaches. *)

From stdpp Require Export base option strings numbers list.

Declare Scope py_scope.
Delimit Scope py_scope with py.
#[global] Open Scope py_scope.

(** ** Errors as values *)

Inductive result (E A : Type) : Type :=
| Ok (a : A)
| Raise (e : E).
Arguments Ok {E A} a.
Arguments Raise {E A} e.

#[export] Instance result_eq_dec {E A} `{EqDecision E, EqDecision A} :
  EqDecision (result E A).
Proof. solve_decision. Defined.

#[export] Instance result_ret {E} : MRet (result E) := fun _ a => Ok a.

#[export] Instance result_bind {E} : MBind (result E) :=
  fun _ _ f r => match r with Ok a => f a | Raise e => Raise e end.

#[export] Instance result_fmap {E} : FMap (result E) :=
  fun _ _ f r => match r with Ok a => Ok (f a) | Raise e => Raise e end.

Definition is_Ok {E A} (r : result E A) : bool :=
  match r with Ok _ => true | Raise _ => false end.

Definition res_to_option {E A} (r : result E A) : option A :=
  match r with Ok a => Some a | Raise _ => None end.

(** [try: m except: h] runs the handler on the errors [sel] selects and
    lets every other error through, like a Python [except] clause for one
    exception class. *)
Definition res_catch {E A} (sel : E -> bool) (m : result E A)
    (h : E -> result E A) : result E A :=
  match m with
  | Ok a => Ok a
  | Raise e => if sel e then h e else Raise e
  end.

(** ** State and errors: the monad of effectful Python code *)

Definition eff (S E A : Type) : Type := S -> result E A * S.

#[export] Instance eff_ret {S E} : MRet (eff S E) := fun _ a s => (Ok a, s).

#[export] Instance eff_bind {S E} : MBind (eff S E) :=
  fun _ _ f m s =>
    match m s with
    | (Ok a, s') => f a s'
    | (Raise e, s') => (Raise e, s')
    end.

#[export] Instance eff_fmap {S E} : FMap (eff S E) :=
  fun _ _ f m s =>
    match m s with
    | (Ok a, s') => (Ok (f a), s')
    | (Raise e, s') => (Raise e, s')
    end.

Definition eff_lift {S E A} (r : result E A) : eff S E A := fun s => (r, s).

Definition eff_raise {S E A} (e : E) : eff S E A := fun s => (Raise e, s).

Definition eff_catch {S E A} (sel : E -> bool) (m : eff S E A)
    (h : E -> eff S E A) : eff S E A :=
  fun s =>
    match m s with
    | (Ok a, s') => (Ok a, s')
    | (Raise e, s') => if sel e then h e s' else (Raise e, s')
    end.

Definition eff_value {S E A} (m : eff S E A) (s : S) : result E A := fst (m s).

Definition eff_state {S E A} (m : eff S E A) (s : S) : S := snd (m s).

(** [eff_mapM f l] runs [f] on the elements of [l] from left to right and
    stops at the first error. *)
Fixpoint eff_mapM {S E A B} (f : A -> eff S E B) (l : list A) : eff S E (list B) :=
  match l with
  | [] => mret []
  | x :: l' => y ← f x; ys ← eff_mapM f l'; mret (y :: ys)
  end.

(** Python's [x if c else y] and [x or y] are written with [if]; the
    option [None] of a lookup becomes a default with [default]. *)
Notation "o '??' d" := (default d o) (at level 45, left associativity) : py_scope.

(** ** Hint databases and tactics *)

Create HintDb py discriminated.
Create Rewrite HintDb pyrw.

(** Destruct the result or pair that the goal or a hypothesis matches on. *)
Ltac case_res :=
  match goal with
  | |- context [match ?r with Ok _ => _ | Raise _ => _ end] =>
      let E := fresh "Hres" in destruct r eqn:E
  | H : context [match ?r with Ok _ => _ | Raise _ => _ end] |- _ =>
      let E := fresh "Hres" in destruct r eqn:E
  end.

Ltac case_if :=
  match goal with
  | |- context [if ?b then _ else _] =>
      let E := fresh "Hif" in destruct b eqn:E
  | H : context [if ?b then _ else _] |- _ =>
      let E := fresh "Hif" in destruct b eqn:E
  end.

(** Unfold the monad operations of [result] and [eff]. *)
Ltac unfold_monad :=
  unfold mbind, mret, fmap, eff_bind, eff_ret, eff_fmap, result_bind,
    result_ret, result_fmap, eff_lift, eff_raise, eff_catch, res_catch,
    eff_value, eff_state in *.

Ltac simp_eff := unfold_monad; simpl in *.

(** Close a goal by computation, after unfolding the monads. *)
Ltac by_compute := vm_compute; reflexivity.

(** ** Laws of the two monads *)

Section monad_laws.
Context {S E : Type}.

Lemma result_bind_Ok {A B} (f : A -> result E B) a : (Ok a ≫= f) = f a.
Proof. reflexivity. Qed.

Lemma result_bind_Raise {A B} (f : A -> result E B) e :
  (Raise e ≫= f) = Raise e.
Proof. reflexivity. Qed.

Lemma result_bind_ret_r {A} (r : result E A) : (r ≫= mret) = r.
Proof. by destruct r. Qed.

Lemma result_bind_assoc {A B C} (r : result E A) (f : A -> result E B)
    (g : B -> result E C) :
  ((r ≫= f) ≫= g) = (r ≫= fun a => f a ≫= g).
Proof. by destruct r. Qed.

Lemma result_bind_inv {A B} (r : result E A) (f : A -> result E B) b :
  (r ≫= f) = Ok b -> exists a, r = Ok a /\ f a = Ok b.
Proof. destruct r; simp_eff; [eauto | discriminate]. Qed.

Lemma eff_bind_run {A B} (m : eff S E A) (f : A -> eff S E B) s :
  (m ≫= f) s =
  match m s with (Ok a, s') => f a s' | (Raise e, s') => (Raise e, s') end.
Proof. reflexivity. Qed.

Lemma eff_ret_run {A} (a : A) s : (mret a : eff S E A) s = (Ok a, s).
Proof. reflexivity. Qed.

Lemma eff_bind_ret_l {A B} (a : A) (f : A -> eff S E B) s :
  (mret a ≫= f) s = f a s.
Proof. reflexivity. Qed.

Lemma eff_bind_ret_r {A} (m : eff S E A) s : (m ≫= mret) s = m s.
Proof. simp_eff. by destruct (m s) as [[]]. Qed.

Lemma eff_bind_assoc {A B C} (m : eff S E A) (f : A -> eff S E B)
    (g : B -> eff S E C) s :
  ((m ≫= f) ≫= g) s = (m ≫= fun a => f a ≫= g) s.
Proof. simp_eff. by destruct (m s) as [[]]. Qed.

Lemma eff_bind_Ok {A B} (m : eff S E A) (f : A -> eff S E B) s a s' :
  m s = (Ok a, s') -> (m ≫= f) s = f a s'.
Proof. intros H. by rewrite eff_bind_run, H. Qed.

Lemma eff_bind_Raise {A B} (m : eff S E A) (f : A -> eff S E B) s e s' :
  m s = (Raise e, s') -> (m ≫= f) s = (Raise e, s').
Proof. intros H. by rewrite eff_bind_run, H. Qed.

Lemma eff_lift_run {A} (r : result E A) (s : S) : eff_lift r s = (r, s).
Proof. reflexivity. Qed.

Lemma eff_catch_Ok {A} sel (m : eff S E A) h s a s' :
  m s = (Ok a, s') -> eff_catch sel m h s = (Ok a, s').
Proof. intros H. unfold eff_catch. by rewrite H. Qed.

(** A handler for errors the body never raises is dead code. *)
Lemma eff_catch_unreached {A} sel (m : eff S E A) h s :
  (forall e s', m s = (Raise e, s') -> sel e = false) ->
  eff_catch sel m h s = m s.
Proof.
  intros H. unfold eff_catch. destruct (m s) as [[a|e] s'] eqn:Hm; [done|].
  by rewrite (H e s').
Qed.

Lemma eff_mapM_length {A B} (f : A -> eff S E B) l s ys s' :
  eff_mapM f l s = (Ok ys, s') -> length ys = length l.
Proof.
  revert s ys s'. induction l as [|x l IH]; intros s ys s'; simpl.
  - by intros [= <- _].
  - rewrite eff_bind_run. destruct (f x s) as [[y|e] s1]; [|done].
    rewrite eff_bind_run.
    destruct (eff_mapM f l s1) as [[zs|e] s2] eqn:Hl; [|done].
    rewrite eff_ret_run. intros [= <- _]. simpl. f_equal. eauto.
Qed.

End monad_laws.

#[export] Hint Rewrite @result_bind_Ok @result_bind_Raise @result_bind_ret_r
  @eff_bind_run @eff_ret_run @eff_lift_run : pyrw.

(** ** Generic lemmas on options and lists *)

Lemma string_app_nil_r (s : string) : s +:+ "" = s.
Proof.
  induction s as [|c s IH]; [done|].
  change (String c (s +:+ "") = String c s). by rewrite IH.
Qed.

Lemma string_app_cons (c : Ascii.ascii) (s t : string) : String c s +:+ t = String c (s +:+ t).
Proof. reflexivity. Qed.

#[export] Instance string_app_assoc : Assoc (=) String.append.
Proof.
  intros s t u. induction s as [|c s IH]; [done|].
  rewrite !string_app_cons. by rewrite IH.
Qed.

Lemma default_Some {A} (d x : A) : (Some x ?? d) = x.
Proof. reflexivity. Qed.

Lemma default_None {A} (d : A) : (None ?? d) = d.
Proof. reflexivity. Qed.

Lemma NoDup_fst_lookup {K A} `{EqDecision K} (l : list (K * A)) k v w :
  NoDup l.*1 -> (k, v) ∈ l -> (k, w) ∈ l -> v = w.
Proof.
  induction l as [|[k' v'] l IH]; simpl; intros Hnd Hv Hw.
  - by apply elem_of_nil in Hv.
  - apply NoDup_cons in Hnd as [Hk Hnd].
    apply elem_of_cons in Hv as [Hv|Hv]; apply elem_of_cons in Hw as [Hw|Hw];
      simplify_eq; try done.
    + exfalso. apply Hk, list_elem_of_fmap. by exists (k', w).
    + exfalso. apply Hk, list_elem_of_fmap. by exists (k', v).
    + eauto.
Qed.

Lemma forallb_true_Forall {A} (f : A -> bool) (l : list A) :
  forallb f l = true <-> Forall (fun x => f x = true) l.
Proof.
  induction l as [|x l IH]; simpl; [by split; auto|].
  rewrite Forall_cons, <- IH. by destruct (f x), (forallb f l); intuition.
Qed.

#[export] Hint Rewrite @default_Some @default_None : pyrw.
