(* ===== verification/PyDict.v ===== *)
(** * PyDict: the insertion-ordered dictionary of Python

    The module builds and reads [dict]s everywhere: event parameters
    ([parameters.get("name")]), the encoded form of an event
    ([d = {"event": ..., "timestamp": ...}], [d["metadata"] = ...],
    [d.update({...})]), and the iteration of
    [SlotSet._from_story_string] and [first_key] over [d.items()].
    Iteration order is observable, so a dictionary is an association list
    in insertion order: assignment to an existing key keeps its place,
    assignment to a new key appends.

    The invariant is key uniqueness ([dict_wf]).  The abstract
    specification is the finite map [to_gmap d]; the refinement lemmas
    say that [dict_get], [dict_set] and [dict_update] implement lookup,
    insert and (right-biased) union. *)

From stdpp Require Import gmap.
From S2P Require Import Prelude.

Abbreviation pydict V := (list (string * V)).

Section pydict.
Context {V : Type}.
Implicit Types (d o : pydict V) (k : string) (v : V).

(** [d.get(k)]: the value of the first (and, in a well-formed
    dictionary, only) entry for [k]. *)
Fixpoint dict_get d k : option V :=
  match d with
  | [] => None
  | (k', v) :: d' => if decide (k = k') then Some v else dict_get d' k
  end.

(** [k in d]. *)
Definition dict_contains d k : bool :=
  match dict_get d k with Some _ => true | None => false end.

(** [d[k] = v]. *)
Fixpoint dict_set d k v : pydict V :=
  match d with
  | [] => [(k, v)]
  | (k', v') :: d' =>
      if decide (k = k') then (k, v) :: d' else (k', v') :: dict_set d' k v
  end.

(** [d.update(o)]: the entries of [o] are assigned in [o]'s order. *)
Definition dict_update d o : pydict V :=
  foldl (fun acc kv => dict_set acc kv.1 kv.2) d o.

(** A dictionary display [{k1: v1, ..., kn: vn}]. *)
Definition dict_of_list (l : list (string * V)) : pydict V := dict_update [] l.

Definition dict_keys d : list string := d.*1.

Definition dict_len d : nat := length d.

(** A dictionary comprehension with a filter on the values,
    [{k: v for k, v in d.items() if p(v)}]. *)
Definition dict_filter (p : V -> bool) d : pydict V :=
  List.filter (fun kv => p kv.2) d.

(** Python's [d1 == d2] given the equality of the values: same length,
    and every entry of [d1] has an equal value under the same key in
    [d2], whatever the order. *)
Definition dict_eqb (veq : V -> V -> bool) d1 d2 : bool :=
  (length d1 =? length d2)%nat &&
  forallb (fun kv => match dict_get d2 kv.1 with
                     | Some w => veq kv.2 w
                     | None => false
                     end) d1.

Definition dict_wf d : Prop := NoDup (dict_keys d).

Definition to_gmap d : gmap string V := list_to_map d.

(** ** Lookup *)

Lemma dict_get_Some_elem d k v : dict_get d k = Some v -> (k, v) ∈ d.
Proof.
  induction d as [|[k' v'] d IH]; simpl; [done|].
  case_decide; [intros [= ->]; subst; left | right; auto].
Qed.

Lemma dict_get_None d k : dict_get d k = None <-> k ∉ dict_keys d.
Proof.
  unfold dict_keys. induction d as [|[k' v'] d IH]; simpl.
  - split; [intros _; apply not_elem_of_nil | done].
  - rewrite not_elem_of_cons. case_decide; [|rewrite IH]; naive_solver.
Qed.

Lemma dict_get_elem d k v : dict_wf d -> (k, v) ∈ d -> dict_get d k = Some v.
Proof.
  intros Hwf Hin. destruct (dict_get d k) as [w|] eqn:Hg.
  - f_equal. apply dict_get_Some_elem in Hg.
    by eapply (NoDup_fst_lookup d k).
  - apply dict_get_None in Hg. exfalso. apply Hg, list_elem_of_fmap.
    by exists (k, v).
Qed.

Lemma dict_contains_keys d k : dict_contains d k = true <-> k ∈ dict_keys d.
Proof.
  unfold dict_contains, dict_keys.
  destruct (dict_get d k) eqn:Hg.
  - split; [intros _|done]. apply dict_get_Some_elem in Hg.
    apply list_elem_of_fmap. by eexists (_, _).
  - apply dict_get_None in Hg. split; [done|by intros].
Qed.

Lemma dict_get_to_gmap d k : dict_get d k = to_gmap d !! k.
Proof.
  unfold to_gmap. induction d as [|[k' v'] d IH]; simpl; [done|].
  case_decide; subst; [by rewrite lookup_insert_eq|by rewrite lookup_insert_ne].
Qed.

(** ** Assignment *)

Lemma dict_get_set_eq d k v : dict_get (dict_set d k v) k = Some v.
Proof.
  induction d as [|[k' v'] d IH]; simpl; repeat (case_decide; simpl); done.
Qed.

Lemma dict_get_set_ne d k k' v :
  k ≠ k' -> dict_get (dict_set d k v) k' = dict_get d k'.
Proof.
  intros Hne. induction d as [|[k0 v0] d IH]; simpl;
    repeat (case_decide; simpl); by simplify_eq.
Qed.

Lemma dict_get_set d k k' v :
  dict_get (dict_set d k v) k' =
  if decide (k = k') then Some v else dict_get d k'.
Proof.
  case_decide; [subst; apply dict_get_set_eq | by apply dict_get_set_ne].
Qed.

Lemma dict_keys_set d k v :
  dict_keys (dict_set d k v) =
  if dict_contains d k then dict_keys d else dict_keys d ++ [k].
Proof.
  unfold dict_contains, dict_keys.
  induction d as [|[k' v'] d IH]; [done|]. cbn [dict_set dict_get].
  case_decide; subst; rewrite !fmap_cons; [done|].
  rewrite IH. by destruct (dict_get d k).
Qed.

Lemma dict_set_wf d k v : dict_wf d -> dict_wf (dict_set d k v).
Proof.
  unfold dict_wf. intros Hwf. rewrite dict_keys_set.
  destruct (dict_contains d k) eqn:Hc; [done|].
  apply NoDup_app. split_and!; [done | | apply NoDup_singleton].
  intros x Hx ->%list_elem_of_singleton.
  apply dict_contains_keys in Hx. congruence.
Qed.

Lemma dict_len_set d k v :
  dict_len (dict_set d k v) =
  if dict_contains d k then dict_len d else S (dict_len d).
Proof.
  unfold dict_len. rewrite <- !(length_fmap fst).
  fold (dict_keys (dict_set d k v)) (dict_keys d). rewrite dict_keys_set.
  destruct (dict_contains d k); [done|]. rewrite length_app. simpl. lia.
Qed.

Lemma dict_set_to_gmap d k v : to_gmap (dict_set d k v) = <[k:=v]> (to_gmap d).
Proof.
  apply map_eq. intros k'. rewrite <- dict_get_to_gmap, dict_get_set.
  case_decide; subst; [by rewrite lookup_insert_eq|].
  by rewrite lookup_insert_ne, dict_get_to_gmap.
Qed.

(** Assigning to a key that is not there appends the entry. *)
Lemma dict_set_fresh d k v : dict_get d k = None -> dict_set d k v = d ++ [(k, v)].
Proof.
  induction d as [|[k' v'] d IH]; simpl; [done|].
  case_decide; [done|]. intros H'. by rewrite IH.
Qed.

(** ** Update *)

Lemma dict_update_nil d : dict_update d [] = d.
Proof. reflexivity. Qed.

Lemma dict_update_cons d k v o :
  dict_update d ((k, v) :: o) = dict_update (dict_set d k v) o.
Proof. reflexivity. Qed.

Lemma dict_update_app d o1 o2 :
  dict_update d (o1 ++ o2) = dict_update (dict_update d o1) o2.
Proof. unfold dict_update. apply foldl_app. Qed.

Lemma dict_update_wf d o : dict_wf d -> dict_wf (dict_update d o).
Proof.
  revert d. induction o as [|[k v] o IH]; intros d Hwf; [done|].
  rewrite dict_update_cons. by apply IH, dict_set_wf.
Qed.

Lemma dict_update_to_gmap d o :
  dict_wf o -> to_gmap (dict_update d o) = to_gmap o ∪ to_gmap d.
Proof.
  revert d. induction o as [|[k v] o IH]; intros d Hwf.
  - unfold to_gmap at 2. simpl. by rewrite (left_id_L ∅ (∪)).
  - apply NoDup_cons in Hwf as [Hk Hwf].
    rewrite dict_update_cons, IH, dict_set_to_gmap by done.
    unfold to_gmap at 3. simpl. fold (to_gmap o).
    rewrite <- insert_union_r, insert_union_l; [done|].
    rewrite <- dict_get_to_gmap. by apply dict_get_None.
Qed.

(** What [d.get(k)] returns after [d.update(o)]: the value from [o] when
    [o] has the key, the old value otherwise. *)
Lemma dict_get_update d o k :
  dict_wf o ->
  dict_get (dict_update d o) k =
  match dict_get o k with Some v => Some v | None => dict_get d k end.
Proof.
  intros Hwf. rewrite !dict_get_to_gmap, dict_update_to_gmap by done.
  rewrite lookup_union. destruct (to_gmap o !! k), (to_gmap d !! k); done.
Qed.

Lemma dict_of_list_wf (l : list (string * V)) : dict_wf (dict_of_list l).
Proof. apply dict_update_wf, NoDup_nil_2. Qed.

(** A display whose keys are distinct is the list itself. *)
Lemma dict_update_fresh d o :
  dict_wf (d ++ o) -> dict_update d o = d ++ o.
Proof.
  revert d. induction o as [|[k v] o IH]; intros d Hwf.
  - by rewrite app_nil_r.
  - rewrite dict_update_cons, dict_set_fresh.
    + rewrite IH; rewrite <- app_assoc; done.
    + apply dict_get_None. unfold dict_wf, dict_keys in *.
      rewrite fmap_app, NoDup_app in Hwf. destruct Hwf as (_ & Hd & _).
      intros Hin. apply (Hd k Hin). simpl. left.
Qed.

Lemma dict_of_list_NoDup (l : list (string * V)) :
  dict_wf l -> dict_of_list l = l.
Proof. intros H. unfold dict_of_list. by rewrite dict_update_fresh. Qed.

(** ** Filter *)

Lemma dict_filter_wf p d : dict_wf d -> dict_wf (dict_filter p d).
Proof.
  unfold dict_wf, dict_keys, dict_filter. induction d as [|[k v] d IH]; [done|].
  rewrite fmap_cons, NoDup_cons. intros [Hk Hwf]. simpl.
  destruct (p v); simpl; [|by auto].
  apply NoDup_cons. split; [|by auto].
  intros Hin. apply Hk. apply list_elem_of_fmap in Hin as ([k' v'] & -> & Hin).
  apply list_elem_of_fmap. exists (k', v'). split; [done|].
  apply list_elem_of_In. apply list_elem_of_In, filter_In in Hin. tauto.
Qed.

Lemma dict_get_filter p d k :
  dict_wf d ->
  dict_get (dict_filter p d) k =
  match dict_get d k with
  | Some v => if p v then Some v else None
  | None => None
  end.
Proof.
  unfold dict_wf, dict_keys, dict_filter. induction d as [|[k' v'] d IH]; [done|].
  rewrite fmap_cons, NoDup_cons. intros [Hk Hwf]. simpl.
  destruct (p v') eqn:Hp; simpl; case_decide; subst; rewrite ?Hp; auto.
  rewrite IH by done.
  by assert (dict_get d k' = None) as -> by (by apply dict_get_None).
Qed.

(** ** Equality of dictionaries *)

Lemma dict_keys_is_Some d k : k ∈ dict_keys d <-> is_Some (dict_get d k).
Proof.
  rewrite <- not_eq_None_Some, dict_get_None.
  destruct (decide (k ∈ dict_keys d)); naive_solver.
Qed.

(** Two well-formed dictionaries of the same length, one of whose key
    sets is inside the other's, have the same keys. *)
Lemma dict_keys_pigeonhole d1 d2 k :
  dict_wf d1 -> length d1 = length d2 ->
  (forall x, x ∈ dict_keys d1 -> x ∈ dict_keys d2) ->
  k ∈ dict_keys d2 -> k ∈ dict_keys d1.
Proof.
  intros Hwf Hlen Hsub Hk.
  assert (dict_keys d1 ≡ₚ dict_keys d2) as HP; [|by rewrite HP].
  apply submseteq_length_Permutation; [by apply NoDup_submseteq|].
  unfold dict_keys. rewrite !length_fmap. lia.
Qed.

(** [dict_eqb] says that the two dictionaries have related values under
    every key: the order of the entries does not matter. *)
Lemma dict_eqb_spec (veq : V -> V -> bool) d1 d2 :
  dict_wf d1 -> dict_wf d2 ->
  dict_eqb veq d1 d2 = true <->
  forall k, option_Forall2 (fun v w => veq v w = true) (dict_get d1 k) (dict_get d2 k).
Proof.
  intros Hwf1 Hwf2. unfold dict_eqb.
  rewrite andb_true_iff, Nat.eqb_eq, forallb_true_Forall, Forall_forall. split.
  - intros [Hlen Hall] k.
    assert (forall x, x ∈ dict_keys d1 -> x ∈ dict_keys d2) as Hsub.
    { intros x [v Hx%dict_get_Some_elem]%dict_keys_is_Some.
      apply dict_keys_is_Some. specialize (Hall _ Hx). simpl in Hall.
      by destruct (dict_get d2 x). }
    destruct (dict_get d1 k) as [v|] eqn:H1.
    + apply dict_get_Some_elem in H1. specialize (Hall _ H1). simpl in Hall.
      destruct (dict_get d2 k); [by constructor|done].
    + destruct (dict_get d2 k) as [w|] eqn:H2; [|constructor].
      apply dict_get_None in H1. destruct H1.
      eapply dict_keys_pigeonhole; [done..|]. apply dict_keys_is_Some. eauto.
  - intros Hrel. split.
    + rewrite <- !(length_fmap fst). apply Permutation_length.
      apply NoDup_Permutation; [done..|]. intros x.
      fold (dict_keys d1) (dict_keys d2). rewrite !dict_keys_is_Some.
      specialize (Hrel x). inversion Hrel; split; intros [? ?]; eauto; congruence.
    + intros [k v] Hin. simpl. specialize (Hrel k).
      rewrite (dict_get_elem _ _ _ Hwf1 Hin) in Hrel. by inversion Hrel.
Qed.

Lemma dict_wf_length_size d : dict_wf d -> length d = size (to_gmap d).
Proof.
  unfold dict_wf, dict_keys, to_gmap. induction d as [|[k v] d IH]; simpl.
  - by rewrite map_size_empty.
  - rewrite NoDup_cons. intros [Hk Hwf].
    rewrite map_size_insert_None, IH; [done..|].
    apply not_elem_of_list_to_map_1. done.
Qed.

End pydict.

#[export] Hint Resolve dict_set_wf dict_update_wf dict_of_list_wf
  dict_filter_wf : py.
#[export] Hint Rewrite @dict_get_set_eq @dict_update_nil @dict_update_cons : pyrw.
