(* ===== verification/PyValue.v ===== *)
(** * PyValue: the dynamically typed values the module handles

    Event fields, event parameters and encoded events are JSON-like
    Python values.  This file holds

    - [pyfloat] and [pyval]: [None], [bool], [int], [float], [str],
      [list] and [dict] (an insertion-ordered [pydict]);
    - [exn]: the exceptions that operations of the module raise;
    - [truthy]: Python's [bool(x)], the test behind [x or y], [if x:]
      and [x if x else y];
    - [py_eq]: Python's [==], which identifies [True], [1] and [1.0] and
      compares dictionaries without order;
    - the operations on values of unknown type: [.get], subscripting,
      iteration;
    - the module-level helper [first_key] and [remove_none_values] of
      [rasa.core.utils];
    - [val_wf]: the values Python can build (dictionary keys are unique,
      no NaN), on which [py_eq] is an equivalence relation. *)

From stdpp Require Import gmap.
From S2P Require Import Prelude PyDict.

(** ** Values *)

(** A finite float is the dyadic rational [m * 2^e]. *)
Inductive pyfloat :=
| FNan
| FInf (neg : bool)
| FFin (m e : Z).

Unset Elimination Schemes.
Inductive pyval :=
| PNone
| PBool (b : bool)
| PInt (z : Z)
| PFloat (f : pyfloat)
| PStr (s : string)
| PList (l : list pyval)
| PDict (d : pydict pyval).
Set Elimination Schemes.

(** The induction principle with the hypotheses for the elements of a
    list and the values of a dictionary. *)
Section pyval_ind.
Variable P : pyval -> Prop.
Hypothesis HNone : P PNone.
Hypothesis HBool : forall b, P (PBool b).
Hypothesis HInt : forall z, P (PInt z).
Hypothesis HFloat : forall f, P (PFloat f).
Hypothesis HStr : forall s, P (PStr s).
Hypothesis HList : forall l, Forall P l -> P (PList l).
Hypothesis HDict : forall d, Forall (fun kv => P kv.2) d -> P (PDict d).

Fixpoint pyval_ind (v : pyval) : P v :=
  match v with
  | PNone => HNone
  | PBool b => HBool b
  | PInt z => HInt z
  | PFloat f => HFloat f
  | PStr s => HStr s
  | PList l =>
      HList l ((fix go l : Forall P l :=
                  match l with
                  | [] => Forall_nil_2 _
                  | x :: l' => Forall_cons_2 _ _ _ (pyval_ind x) (go l')
                  end) l)
  | PDict d =>
      HDict d ((fix go d : Forall (fun kv => P kv.2) d :=
                  match d with
                  | [] => Forall_nil_2 _
                  | kv :: d' =>
                      Forall_cons_2 (fun kv => P kv.2) _ _ (pyval_ind kv.2) (go d')
                  end) d)
  end.
End pyval_ind.

#[export] Instance pyfloat_eq_dec : EqDecision pyfloat.
Proof. solve_decision. Defined.

Lemma pyval_eq_dec_aux : forall x y : pyval, {x = y} + {x <> y}.
Proof.
  fix IH 1. intros x y.
  destruct x, y; try (right; discriminate); try (left; reflexivity).
  - destruct (decide (b = b0)); [left; congruence | right; congruence].
  - destruct (decide (z = z0)); [left; congruence | right; congruence].
  - destruct (decide (f = f0)); [left; congruence | right; congruence].
  - destruct (decide (s = s0)); [left; congruence | right; congruence].
  - destruct (List.list_eq_dec IH l l0); [left; congruence | right; congruence].
  - refine (match List.list_eq_dec (fun p q : string * pyval => _) d d0 with
            | left _ => left _
            | right _ => right _
            end); try congruence.
    destruct p as [k v], q as [k' v'].
    destruct (decide (k = k')); [|right; congruence].
    destruct (IH v v'); [left; congruence | right; congruence].
Defined.

#[export] Instance pyval_eq_dec : EqDecision pyval := pyval_eq_dec_aux.

#[export] Instance pyval_inhabited : Inhabited pyval := populate PNone.

(** ** Exceptions *)

(** The two messages of the [ValueError]s the module raises. *)
Inductive errmsg :=
| UnknownEventName (type_name : pyval)
| FailedToParse (what : string) (cause : pyval).

Inductive exn :=
| ValueError (msg : errmsg)
| KeyError (key : pyval)
| AttributeError (attr : string)
| TypeError
| NotImplementedError
| JSONDecodeError
| IndexError.

#[export] Instance errmsg_eq_dec : EqDecision errmsg.
Proof. solve_decision. Defined.

#[export] Instance exn_eq_dec : EqDecision exn.
Proof. solve_decision. Defined.

Definition is_KeyError (e : exn) : bool :=
  match e with KeyError _ => true | _ => false end.

(** ** Truthiness *)

Definition float_truthy (f : pyfloat) : bool :=
  match f with
  | FFin m _ => negb (m =? 0)%Z
  | _ => true
  end.

(** [bool(v)]. *)
Definition truthy (v : pyval) : bool :=
  match v with
  | PNone => false
  | PBool b => b
  | PInt z => negb (z =? 0)%Z
  | PFloat f => float_truthy f
  | PStr s => negb (bool_decide (s = ""))
  | PList l => negb (bool_decide (l = []))
  | PDict d => negb (bool_decide (d = []))
  end.

(** [a or b] on two values that are already evaluated. *)
Definition py_or (a b : pyval) : pyval := if truthy a then a else b.

(** [v is None]. *)
Definition is_none (v : pyval) : bool :=
  match v with PNone => true | _ => false end.

(** ** Python's [==] *)

(** Strip the factors of two of a mantissa. *)
Fixpoint strip2 (p : positive) : positive * Z :=
  match p with
  | xO q => let '(r, k) := strip2 q in (r, (k + 1)%Z)
  | _ => (p, 0%Z)
  end.

(** The canonical form of a float: [None] for NaN, which equals
    nothing; an odd mantissa with its exponent, zero, or an infinity. *)
Definition float_key (f : pyfloat) : option (Z * Z + bool) :=
  match f with
  | FNan => None
  | FInf neg => Some (inr neg)
  | FFin Z0 _ => Some (inl (0, 0)%Z)
  | FFin (Zpos p) e => let '(r, k) := strip2 p in Some (inl (Zpos r, e + k)%Z)
  | FFin (Zneg p) e => let '(r, k) := strip2 p in Some (inl (Zneg r, e + k)%Z)
  end.

Definition float_eqb (f g : pyfloat) : bool :=
  match float_key f, float_key g with
  | Some a, Some b => bool_decide (a = b)
  | _, _ => false
  end.

(** The numeric tower: [bool] is a subtype of [int], and an [int]
    compares with a [float] by value. *)
Definition num_of (v : pyval) : option pyfloat :=
  match v with
  | PBool b => Some (FFin (Z.b2z b) 0)
  | PInt z => Some (FFin z 0)
  | PFloat f => Some f
  | _ => None
  end.

Fixpoint py_eq (a b : pyval) : bool :=
  match a, b with
  | PNone, PNone => true
  | PStr s, PStr s' => bool_decide (s = s')
  | PList l, PList l' =>
      (fix go l l' :=
         match l, l' with
         | [], [] => true
         | x :: l, y :: l' => py_eq x y && go l l'
         | _, _ => false
         end) l l'
  | PDict d, PDict d' => dict_eqb py_eq d d'
  | _, _ =>
      match num_of a, num_of b with
      | Some f, Some g => float_eqb f g
      | _, _ => false
      end
  end.

(** [a != b]. *)
Definition py_ne (a b : pyval) : bool := negb (py_eq a b).

(** Elementwise equality of two lists, as [py_eq] computes it. *)
Fixpoint list_py_eq (l l' : list pyval) : bool :=
  match l, l' with
  | [], [] => true
  | x :: l, y :: l' => py_eq x y && list_py_eq l l'
  | _, _ => false
  end.

(** ** Well-formed values *)

Definition float_is_nan (f : pyfloat) : bool :=
  match f with FNan => true | _ => false end.

(** No NaN, and the keys of every dictionary are distinct. *)
Fixpoint val_wf (v : pyval) : bool :=
  match v with
  | PFloat f => negb (float_is_nan f)
  | PList l => forallb val_wf l
  | PDict d => bool_decide (NoDup (dict_keys d)) && forallb (fun kv => val_wf kv.2) d
  | _ => true
  end.

(** ** Operations on values of unknown type *)

(** [v.get(k)]: only a dictionary has the method. *)
Definition py_get (v : pyval) (k : string) : result exn pyval :=
  match v with
  | PDict d => Ok (dict_get d k ?? PNone)
  | _ => Raise (AttributeError "get")
  end.

(** [v.get(k, dflt)]. *)
Definition py_get_default (v : pyval) (k : string) (dflt : pyval) : result exn pyval :=
  match v with
  | PDict d => Ok (dict_get d k ?? dflt)
  | _ => Raise (AttributeError "get")
  end.

(** [v[k]] for a string [k]. *)
Definition py_getitem (v : pyval) (k : string) : result exn pyval :=
  match v with
  | PDict d =>
      match dict_get d k with
      | Some x => Ok x
      | None => Raise (KeyError (PStr k))
      end
  | _ => Raise TypeError
  end.

Fixpoint string_chars (s : string) : list pyval :=
  match s with
  | EmptyString => []
  | String c s' => PStr (String c EmptyString) :: string_chars s'
  end.

(** [for x in v]: the elements of a list, the keys of a dictionary, the
    characters of a string (exact for ASCII text). *)
Definition py_iter (v : pyval) : result exn (list pyval) :=
  match v with
  | PList l => Ok l
  | PDict d => Ok (PStr <$> dict_keys d)
  | PStr s => Ok (string_chars s)
  | _ => Raise TypeError
  end.

(** The parameters of an event: [parameters.get(k)]. *)
Definition param (d : pydict pyval) (k : string) : pyval := dict_get d k ?? PNone.

(** [utils.remove_none_values(obj)]:
    [{k: v for k, v in obj.items() if v is not None}]. *)
Definition remove_none_values (d : pydict pyval) : pydict pyval :=
  dict_filter (fun v => negb (is_none v)) d.

(** ** [first_key] *)

Definition first_key (d : pydict pyval) (default_key : pyval) : pyval :=
  if (1 <? dict_len d)%nat then
    match List.find (fun kv => py_ne (PStr kv.1) default_key) d with
    | Some kv => PStr kv.1
    | None => PNone
    end
  else if (dict_len d =? 1)%nat then
    match dict_keys d with
    | k :: _ => PStr k
    | [] => PNone
    end
  else PNone.

(** ** Truthiness *)

Lemma truthy_py_or a b : truthy (py_or a b) = truthy a || truthy b.
Proof. unfold py_or. by destruct (truthy a) eqn:Ha; rewrite ?Ha. Qed.

(** [None] is falsy, so [x or d] is never [None] when [d] is not. *)
Lemma py_or_not_none a b : is_none b = false -> is_none (py_or a b) = false.
Proof.
  intros Hb. unfold py_or. destruct (truthy a) eqn:Ha; [by destruct a | done].
Qed.

Lemma py_or_truthy a b : truthy a = true -> py_or a b = a.
Proof. unfold py_or. by intros ->. Qed.

Lemma py_or_falsy a b : truthy a = false -> py_or a b = b.
Proof. unfold py_or. by intros ->. Qed.

(** ** Equality of numbers *)

Lemma float_key_is_Some f : float_is_nan f = false -> is_Some (float_key f).
Proof.
  destruct f as [|neg|[|p|p] e]; simpl; try done; intros _; eauto;
    by destruct (strip2 p).
Qed.

Lemma float_eqb_refl f : float_is_nan f = false -> float_eqb f f = true.
Proof.
  intros [a Ha]%float_key_is_Some. unfold float_eqb. rewrite Ha.
  by apply bool_decide_eq_true.
Qed.

Lemma float_eqb_sym f g : float_eqb f g = float_eqb g f.
Proof.
  unfold float_eqb. destruct (float_key f), (float_key g); try done.
  apply bool_decide_ext. naive_solver.
Qed.

Lemma float_eqb_trans f g h :
  float_eqb f g = true -> float_eqb g h = true -> float_eqb f h = true.
Proof.
  unfold float_eqb.
  destruct (float_key f), (float_key g), (float_key h); try done.
  rewrite !bool_decide_eq_true. congruence.
Qed.

Lemma float_key_zero m e : float_key (FFin m e) = Some (inl (0, 0)%Z) <-> m = 0%Z.
Proof.
  destruct m as [|p|p]; simpl; [done|..]; destruct (strip2 p); naive_solver.
Qed.

Lemma float_eqb_truthy f g :
  float_eqb f g = true -> float_truthy f = float_truthy g.
Proof.
  unfold float_eqb.
  destruct (float_key f) as [a|] eqn:Hf, (float_key g) as [b|] eqn:Hg; try done.
  intros ->%bool_decide_eq_true.
  destruct f as [|?|m e], g as [|?|m' e']; simplify_eq/=; try done.
  - by destruct m' as [|p|p]; simplify_eq/=; destruct (strip2 p).
  - by destruct m as [|p|p]; simplify_eq/=; destruct (strip2 p).
  - destruct (decide (m = 0%Z)) as [->|Hm].
    + simpl in Hf. simplify_eq. apply float_key_zero in Hg as ->. done.
    + assert (m' ≠ 0%Z) as Hm'.
      { intros ->. simpl in Hg. simplify_eq. by apply float_key_zero in Hf. }
      by rewrite (proj2 (Z.eqb_neq m 0)), (proj2 (Z.eqb_neq m' 0)).
Qed.

Lemma truthy_num v f : num_of v = Some f -> truthy v = float_truthy f.
Proof. destruct v as [|[]| | | | |]; intros; simplify_eq/=; done. Qed.

(** ** The shape of [py_eq] *)

Lemma py_eq_list l l' : py_eq (PList l) (PList l') = list_py_eq l l'.
Proof.
  simpl. revert l'. by induction l as [|x l IH]; intros [|y l']; simpl; rewrite ?IH.
Qed.

Lemma py_eq_dict d d' : py_eq (PDict d) (PDict d') = dict_eqb py_eq d d'.
Proof. reflexivity. Qed.

Lemma py_eq_num a b f :
  num_of a = Some f ->
  py_eq a b = match num_of b with Some g => float_eqb f g | None => false end.
Proof. destruct a, b; intros; simplify_eq/=; done. Qed.

Lemma py_eq_num_r a b g :
  num_of b = Some g ->
  py_eq a b = match num_of a with Some f => float_eqb f g | None => false end.
Proof. destruct a, b; intros; simplify_eq/=; done. Qed.

Lemma py_eq_str s v : py_eq (PStr s) v = true <-> v = PStr s.
Proof.
  destruct v; simpl; try done. rewrite bool_decide_eq_true. naive_solver.
Qed.

Lemma py_eq_none v : py_eq PNone v = true <-> v = PNone.
Proof. by destruct v. Qed.

(** The values that are neither numbers, strings nor [None]. *)
Lemma num_of_None_cases v :
  num_of v = None ->
  v = PNone \/ (exists s, v = PStr s) \/ (exists l, v = PList l) \/ (exists d, v = PDict d).
Proof. destruct v; naive_solver. Qed.

(** ** Well-formed values *)

Lemma val_wf_list l : val_wf (PList l) = true <-> Forall (fun x => val_wf x = true) l.
Proof. simpl. apply forallb_true_Forall. Qed.

Lemma val_wf_dict d :
  val_wf (PDict d) = true <->
  dict_wf d /\ Forall (fun kv => val_wf kv.2 = true) d.
Proof.
  simpl. rewrite andb_true_iff, bool_decide_eq_true, forallb_true_Forall. done.
Qed.

Lemma dict_values_Forall (Q : string * pyval -> Prop) (d : pydict pyval) k v :
  Forall Q d -> dict_get d k = Some v -> Q (k, v).
Proof.
  intros HF Hg%dict_get_Some_elem. rewrite Forall_forall in HF. apply (HF _ Hg).
Qed.

Lemma list_py_eq_Forall2 l l' :
  list_py_eq l l' = true <-> Forall2 (fun x y => py_eq x y = true) l l'.
Proof.
  revert l'. induction l as [|x l IH]; intros [|y l']; simpl;
    rewrite ?andb_true_iff, ?IH; split; try done;
    try (by inversion 1); try (by intros [? ?]; constructor).
Qed.

(** ** [py_eq] is an equivalence on well-formed values *)

Lemma py_eq_sym_num a b f :
  num_of a = Some f -> py_eq a b = true -> py_eq b a = true.
Proof.
  intros Hf. rewrite (py_eq_num a b f Hf), (py_eq_num_r b a f Hf).
  destruct (num_of b); [by rewrite float_eqb_sym|done].
Qed.

Lemma py_eq_trans_num a b c f :
  num_of a = Some f -> py_eq a b = true -> py_eq b c = true -> py_eq a c = true.
Proof.
  intros Hf. rewrite (py_eq_num a b f Hf), (py_eq_num a c f Hf).
  destruct (num_of b) as [g|] eqn:Hg; [|done].
  rewrite (py_eq_num b c g Hg). destruct (num_of c); [apply float_eqb_trans|done].
Qed.

Lemma py_eq_refl v : val_wf v = true -> py_eq v v = true.
Proof.
  induction v as [|b|z|f|s|l IH|d IH] using pyval_ind; intros Hwf;
    try done; simpl in Hwf.
  - by apply float_eqb_refl.
  - by apply float_eqb_refl.
  - simpl. apply float_eqb_refl. by destruct f.
  - simpl. by apply bool_decide_eq_true.
  - rewrite py_eq_list, list_py_eq_Forall2.
    apply val_wf_list in Hwf. induction IH as [|x l Hx _ IHl]; [constructor|].
    apply Forall_cons in Hwf as [? ?]. constructor; auto.
  - apply val_wf_dict in Hwf as [Hd Hv]. rewrite py_eq_dict.
    apply dict_eqb_spec; [done..|]. intros k.
    destruct (dict_get d k) as [v|] eqn:Hg; constructor.
    pose proof (dict_values_Forall _ _ _ _ IH Hg) as IHv.
    pose proof (dict_values_Forall _ _ _ _ Hv Hg). simpl in *. auto.
Qed.

Lemma py_eq_sym a b :
  val_wf a = true -> val_wf b = true -> py_eq a b = true -> py_eq b a = true.
Proof.
  revert b. induction a as [|x|z|f|s|l IH|d IH] using pyval_ind; intros b Ha Hb.
  - by intros ->%py_eq_none.
  - by apply py_eq_sym_num with (f := FFin (Z.b2z x) 0).
  - by apply py_eq_sym_num with (f := FFin z 0).
  - by apply py_eq_sym_num with (f := f).
  - intros ->%py_eq_str. by apply py_eq_str.
  - destruct b as [| | | | |l'|]; try done.
    rewrite !py_eq_list, !list_py_eq_Forall2.
    apply val_wf_list in Ha, Hb. intros H2. revert Ha Hb IH.
    induction H2 as [|x y l l' Hxy _ IHl]; [constructor|].
    intros [? ?]%Forall_cons [? ?]%Forall_cons [? ?]%Forall_cons.
    constructor; auto.
  - destruct b as [| | | | | |d']; try done.
    apply val_wf_dict in Ha as [Hd Hv], Hb as [Hd' Hv'].
    rewrite !py_eq_dict, !dict_eqb_spec by done. intros Hrel k.
    specialize (Hrel k).
    destruct (dict_get d k) as [v|] eqn:Hg, (dict_get d' k) as [w|] eqn:Hg';
      inversion Hrel; subst; constructor.
    pose proof (dict_values_Forall _ _ _ _ IH Hg) as IHv.
    pose proof (dict_values_Forall _ _ _ _ Hv Hg).
    pose proof (dict_values_Forall _ _ _ _ Hv' Hg'). simpl in *. auto.
Qed.

Lemma py_eq_trans a b c :
  val_wf a = true -> val_wf b = true -> val_wf c = true ->
  py_eq a b = true -> py_eq b c = true -> py_eq a c = true.
Proof.
  revert b c.
  induction a as [|x|z|f|s|l IH|d IH] using pyval_ind; intros b c Ha Hb Hc.
  - by intros ->%py_eq_none.
  - by apply py_eq_trans_num with (f := FFin (Z.b2z x) 0).
  - by apply py_eq_trans_num with (f := FFin z 0).
  - by apply py_eq_trans_num with (f := f).
  - by intros ->%py_eq_str.
  - destruct b as [| | | | |l'|]; try done. destruct c as [| | | | |l''|]; try done.
    rewrite !py_eq_list, !list_py_eq_Forall2.
    apply val_wf_list in Ha, Hb, Hc. intros H1. revert l'' Ha Hb Hc IH.
    induction H1 as [|x y l l' Hxy _ IHl]; intros l'' Ha Hb Hc IH H2;
      inversion H2; subst; constructor;
      apply Forall_cons in Ha as [? ?], Hb as [? ?], Hc as [? ?], IH as [? ?];
      eauto.
  - destruct b as [| | | | | |d']; try done. destruct c as [| | | | | |d'']; try done.
    apply val_wf_dict in Ha as [Hd Hv], Hb as [Hd' Hv'], Hc as [Hd'' Hv''].
    rewrite !py_eq_dict, !dict_eqb_spec by done. intros H1 H2 k.
    specialize (H1 k). specialize (H2 k).
    destruct (dict_get d k) as [v|] eqn:Hg, (dict_get d' k) as [w|] eqn:Hg',
      (dict_get d'' k) as [u|] eqn:Hg''; inversion H1; inversion H2; subst;
      constructor.
    pose proof (dict_values_Forall _ _ _ _ IH Hg) as IHv.
    pose proof (dict_values_Forall _ _ _ _ Hv Hg).
    pose proof (dict_values_Forall _ _ _ _ Hv' Hg').
    pose proof (dict_values_Forall _ _ _ _ Hv'' Hg''). simpl in *. eauto.
Qed.

(** Equality of well-formed values as a relation: symmetric and
    transitive everywhere, reflexive exactly on the well-formed values. *)
(** Tuples and lists: [list_py_eq] inherits the three laws. *)
Lemma list_py_eq_refl l : forallb val_wf l = true -> list_py_eq l l = true.
Proof. intros H. rewrite <- py_eq_list. by apply (py_eq_refl (PList l)). Qed.

Lemma list_py_eq_sym l l' :
  forallb val_wf l = true -> forallb val_wf l' = true ->
  list_py_eq l l' = true -> list_py_eq l' l = true.
Proof. rewrite <- !py_eq_list. apply (py_eq_sym (PList l) (PList l')). Qed.

Lemma list_py_eq_trans l1 l2 l3 :
  forallb val_wf l1 = true -> forallb val_wf l2 = true -> forallb val_wf l3 = true ->
  list_py_eq l1 l2 = true -> list_py_eq l2 l3 = true -> list_py_eq l1 l3 = true.
Proof.
  rewrite <- !py_eq_list. apply (py_eq_trans (PList l1) (PList l2) (PList l3)).
Qed.

Definition py_equiv (a b : pyval) : Prop :=
  val_wf a = true /\ val_wf b = true /\ py_eq a b = true.

#[export] Instance py_equiv_per : RelationClasses.PER py_equiv.
Proof.
  split.
  - intros a b (Ha & Hb & H). split_and!; auto using py_eq_sym.
  - intros a b c (Ha & Hb & H) (_ & Hc & H'). split_and!; eauto using py_eq_trans.
Qed.

Lemma py_equiv_refl v : val_wf v = true -> py_equiv v v.
Proof. intros H. split_and!; auto using py_eq_refl. Qed.

Lemma py_equiv_eq a b : py_equiv a b -> py_eq a b = true.
Proof. by intros (_ & _ & H). Qed.

(** [==] cannot tell equal values apart. *)
#[export] Instance py_eq_proper : Proper (py_equiv ==> py_equiv ==> eq) py_eq.
Proof.
  intros a a' Ha b b' Hb.
  destruct (py_eq a b) eqn:Hab, (py_eq a' b') eqn:Hab'; try done.
  - assert (py_equiv a' b') as ?%py_equiv_eq; [|congruence].
    transitivity a; [by symmetry|]. transitivity b; [|done].
    destruct Ha as (? & ? & _), Hb as (? & ? & _). by split_and!.
  - assert (py_equiv a b) as ?%py_equiv_eq; [|congruence].
    transitivity a'; [done|]. transitivity b'; [|by symmetry].
    destruct Ha as (? & ? & _), Hb as (? & ? & _). by split_and!.
Qed.

(** Equal values have the same truth value. *)
Lemma py_eq_truthy a b : py_eq a b = true -> truthy a = truthy b.
Proof.
  destruct (num_of a) as [f|] eqn:Hf.
  - rewrite (py_eq_num a b f Hf). destruct (num_of b) as [g|] eqn:Hg; [|done].
    rewrite (truthy_num a f Hf), (truthy_num b g Hg). apply float_eqb_truthy.
  - apply num_of_None_cases in Hf as [->|[[s ->]|[[l ->]|[d ->]]]].
    + by intros ->%py_eq_none.
    + by intros ->%py_eq_str.
    + destruct b as [| | | | |l'|]; try done. rewrite py_eq_list.
      by destruct l, l'.
    + destruct b as [| | | | | |d']; try done. rewrite py_eq_dict.
      unfold dict_eqb. intros [Hlen%Nat.eqb_eq _]%andb_true_iff.
      by destruct d, d'.
Qed.

#[export] Instance truthy_proper : Proper (py_equiv ==> eq) truthy.
Proof. intros a b (_ & _ & H). by apply py_eq_truthy. Qed.

(** ** [remove_none_values] *)

Lemma remove_none_values_wf d : dict_wf d -> dict_wf (remove_none_values d).
Proof. apply dict_filter_wf. Qed.

Lemma remove_none_values_get d k :
  dict_wf d ->
  dict_get (remove_none_values d) k =
  match dict_get d k with
  | Some PNone => None
  | o => o
  end.
Proof.
  intros Hwf. unfold remove_none_values. rewrite dict_get_filter by done.
  by destruct (dict_get d k) as [[]|].
Qed.

Lemma remove_none_values_no_none d k :
  dict_get (remove_none_values d) k ≠ Some PNone.
Proof.
  unfold remove_none_values, dict_filter. intros Hg%dict_get_Some_elem.
  apply list_elem_of_In, filter_In in Hg as [_ Hg]. done.
Qed.

(** ** [first_key] *)

Lemma first_key_empty dk : first_key [] dk = PNone.
Proof. reflexivity. Qed.

Lemma first_key_single k v dk : first_key [(k, v)] dk = PStr k.
Proof. reflexivity. Qed.

Lemma first_key_find d dk :
  (1 < dict_len d)%nat ->
  first_key d dk =
  match List.find (fun kv => py_ne (PStr kv.1) dk) d with
  | Some kv => PStr kv.1
  | None => PNone
  end.
Proof. intros H%Nat.ltb_lt. unfold first_key. by rewrite H. Qed.

(** On a dictionary with two or more keys, [first_key] returns a
    key of the dictionary that differs from the default key: the loop
    always finds one and never falls through to an implicit [None]. *)
Theorem first_key_many d dk :
  dict_wf d -> (1 < dict_len d)%nat ->
  exists k, first_key d dk = PStr k /\ k ∈ dict_keys d /\ py_eq (PStr k) dk = false.
Proof.
  intros Hwf Hlen. rewrite first_key_find by done.
  destruct (List.find _ d) as [[k v]|] eqn:Hf.
  - apply find_some in Hf as [Hin Hne]. exists k. split_and!; [done| |].
    + apply list_elem_of_fmap. exists (k, v). by rewrite list_elem_of_In.
    + unfold py_ne in Hne. by apply negb_true_iff in Hne.
  - exfalso. destruct d as [|[k1 v1] [|[k2 v2] d]]; simpl in Hlen; [lia..|].
    pose proof (find_none _ _ Hf (k1, v1) ltac:(left; done)) as H1.
    pose proof (find_none _ _ Hf (k2, v2) ltac:(right; left; done)) as H2.
    unfold py_ne in H1, H2. simpl in H1, H2.
    apply negb_false_iff, py_eq_str in H1. apply negb_false_iff, py_eq_str in H2.
    unfold dict_wf, dict_keys in Hwf. rewrite !fmap_cons, !NoDup_cons in Hwf.
    destruct Hwf as (Hk & _). apply Hk. simplify_eq/=. left.
Qed.

Lemma first_key_many_witness :
  exists k, first_key [("text", PStr "hi"); ("image", PNone)] (PStr "text") = PStr k /\
            k ∈ dict_keys [("text", PStr "hi"); ("image", PNone)] /\
            py_eq (PStr k) (PStr "text") = false.
Proof.
  apply (first_key_many [("text", PStr "hi"); ("image", PNone)] (PStr "text"));
    [compute_done|simpl; lia].
Defined.
