(* ===== verification/Runtime.v ===== *)
(** * Runtime: the environment of the module

    What the module reads from outside itself:

    - the clock, [time.time()], read by [Event.__init__] when no
      timestamp is given;
    - the generator of unique identifiers, [str(uuid.uuid1())], read by
      [ReminderScheduled.__init__] when no name is given;
    - the libraries it calls on values: [dateutil.parser.parse] and
      [datetime.isoformat], [jsonpickle.encode], [json.dumps] and
      [json.loads], the markdown reader and writer, and [str];

    and what it writes outside itself: the warnings it hands to its
    logger.

    The clock, the generator and the log are the state [World] threaded
    by the monad [M]; a reading consumes one element of an infinite
    supply, so two readings may differ, and a warning is appended to the
    log.  The libraries are the classes [DateTimeLib],
    [Pickler], [JsonLib], [MarkdownLib] and [Formatter]: the development
    is proved against these interfaces, and [string_datetime] and the
    [demo_] instances are implementations used to run the model on
    concrete inputs. *)

From stdpp Require Import pretty.
From S2P Require Import Prelude PyDict PyValue.

(** ** The world *)

(** A record handed to [logger.warning]: the text of the message with
    [{}] in place of each interpolated value, and the values. *)
Record LogRecord := {
  log_msg : string;
  log_args : list pyval;
}.

Record World := {
  w_clock : nat -> pyfloat;   (* the successive readings of [time.time()] *)
  w_ticks : nat;              (* how many have been consumed *)
  w_uuid : nat -> string;     (* the successive results of [str(uuid.uuid1())] *)
  w_uuids : nat;              (* how many have been consumed *)
  w_log : list LogRecord;     (* the warnings logged so far, oldest first *)
}.

Abbreviation M := (eff World exn).

(** [time.time()]. *)
Definition time_time : M pyval := fun w =>
  (Ok (PFloat (w_clock w (w_ticks w))),
   {| w_clock := w_clock w; w_ticks := S (w_ticks w);
      w_uuid := w_uuid w; w_uuids := w_uuids w; w_log := w_log w |}).

(** [str(uuid.uuid1())]. *)
Definition uuid1_str : M pyval := fun w =>
  (Ok (PStr (w_uuid w (w_uuids w))),
   {| w_clock := w_clock w; w_ticks := w_ticks w;
      w_uuid := w_uuid w; w_uuids := S (w_uuids w); w_log := w_log w |}).

(** The world with one more record in its log. *)
Definition logged (r : LogRecord) (w : World) : World :=
  {| w_clock := w_clock w; w_ticks := w_ticks w;
     w_uuid := w_uuid w; w_uuids := w_uuids w; w_log := w_log w ++ [r] |}.

(** [logger.warning(f"...")], for the f-string with the text [msg]
    around the values [args]. *)
Definition logger_warning (msg : string) (args : list pyval) : M unit := fun w =>
  (Ok tt, logged {| log_msg := msg; log_args := args |} w).

(** [a or <effectful b>]: the right operand runs only when the left one
    is falsy. *)
Definition or_else (a : pyval) (b : M pyval) : M pyval :=
  if truthy a then mret a else b.

(** The world with its counters only: what a computation may change. *)
Definition world_pos (w : World) : nat * nat := (w_ticks w, w_uuids w).

(** ** The libraries *)

(** [dateutil.parser.parse], [datetime.isoformat] and [str] of a date.
    The law says that a date printed by [isoformat] parses back to
    itself. *)
Class DateTimeLib := {
  datetime : Type;
  datetime_eq_dec :: EqDecision datetime;
  dt_parse : pyval -> result exn datetime;
  dt_isoformat : datetime -> string;
  dt_str : datetime -> string;
  dt_parse_isoformat : forall t, dt_parse (PStr (dt_isoformat t)) = Ok t;
}.

(** [jsonpickle.encode] on JSON-like values. *)
Class Pickler := {
  jp_encode : pyval -> string;
}.

(** [json.dumps(v, ensure_ascii=...)] and [json.loads]. *)
Class JsonLib := {
  json_dumps : bool -> pyval -> string;
  json_loads : string -> result exn pyval;
}.

(** The markdown reader and writer of [rasa.nlu.training_data.formats]:
    [MarkdownReader()._parse_training_example(text).text] and
    [MarkdownWriter()._generate_message_md(message)]. *)
Class MarkdownLib := {
  md_parse_text : pyval -> result exn pyval;
  md_generate_message : pydict pyval -> result exn pyval;
}.

(** [str(v)], as [str.format] applies it; a string is its own text. *)
Class Formatter := {
  py_str : pyval -> string;
  py_str_str : forall s, py_str (PStr s) = s;
  py_str_none : py_str PNone = "None";
}.

(** Dates kept as their ISO text: parsing a string is the identity and
    anything else is a [TypeError], as in [dateutil]. *)
#[export] Instance string_datetime : DateTimeLib := {|
  datetime := string;
  dt_parse v := match v with PStr s => Ok s | _ => Raise TypeError end;
  dt_isoformat s := s;
  dt_str s := s;
  dt_parse_isoformat _ := eq_refl;
|}.



(** Libraries for examples.  The printer writes scalars as JSON does
    and containers as a mark; the reader knows the empty list only; the
    markdown library returns the text and the intent it is given. *)
Definition demo_print (v : pyval) : string :=
  match v with
  | PNone => "null"
  | PBool true => "true"
  | PBool false => "false"
  | PInt z => pretty z
  | PStr s => s
  | PFloat _ => "float"
  | PList _ => "[...]"
  | PDict _ => "{...}"
  end.

#[export] Instance demo_json : JsonLib := {|
  json_dumps _ v := demo_print v;
  json_loads s := if String.eqb s "[]" then Ok (PList []) else Raise JSONDecodeError;
|}.

#[export] Instance demo_markdown : MarkdownLib := {|
  md_parse_text text := Ok text;
  md_generate_message m := Ok (param m "text");
|}.

#[export] Instance demo_formatter : Formatter := {|
  py_str v := match v with PNone => "None" | _ => demo_print v end;
  py_str_str _ := eq_refl;
  py_str_none := eq_refl;
|}.

(** A pickler for examples: it tells [1] from [True], as [jsonpickle]
    does. *)
#[export] Instance demo_pickler : Pickler := {| jp_encode := demo_print |}.

(** A world for examples: the clock starts at [1.5e9] seconds and
    advances by one second per reading. *)
Definition demo_world : World := {|
  w_clock n := FFin (1500000000 + Z.of_nat n) 0;
  w_ticks := 0;
  w_uuid n := "uuid-" +:+ pretty n;
  w_uuids := 0;
  w_log := [];
|}.

(** ** Laws *)

Lemma time_time_run w :
  time_time w =
  (Ok (PFloat (w_clock w (w_ticks w))),
   {| w_clock := w_clock w; w_ticks := S (w_ticks w);
      w_uuid := w_uuid w; w_uuids := w_uuids w; w_log := w_log w |}).
Proof. reflexivity. Qed.

Lemma or_else_truthy a b w : truthy a = true -> or_else a b w = (Ok a, w).
Proof. unfold or_else. by intros ->. Qed.

Lemma or_else_falsy a b w : truthy a = false -> or_else a b w = b w.
Proof. unfold or_else. by intros ->. Qed.

(** The clock is not read when a truthy value is given. *)
Lemma or_else_time_ticks a w :
  w_ticks (eff_state (or_else a time_time) w) =
  if truthy a then w_ticks w else S (w_ticks w).
Proof. unfold or_else, eff_state. by destruct (truthy a). Qed.

(** Two identifiers drawn one after the other differ when the generator
    never repeats itself. *)
Lemma uuid1_str_fresh w a w1 b w2 :
  Inj (=) (=) (w_uuid w) ->
  uuid1_str w = (Ok a, w1) -> uuid1_str w1 = (Ok b, w2) -> a ≠ b.
Proof.
  intros Hinj [= <- <-] [= <- _]. simpl. intros [= Heq].
  apply Hinj in Heq. lia.
Qed.

(** The generator of the example world never repeats itself. *)
Lemma demo_world_uuid_inj : Inj (=) (=) (w_uuid demo_world).
Proof.
  intros m n H. cbn [demo_world w_uuid String.app] in H.
  injection H as H. by apply (inj pretty).
Qed.

#[export] Hint Rewrite time_time_run : pyrw.
