(* ===== verification/Events.v ===== *)
(** * Events: the event classes and their constructors

    The base class [Event] and its eighteen subclasses
    ([src/rasa/core/events/__init__.py]).  An event object is a value of
    the inductive type [Event]: one constructor per class, whose
    arguments are the attributes [__init__] assigns, in the order it
    assigns them, and the attributes of the base class ([EventBase]).

    An attribute that [as_dict] reads with [getattr(self, name, None)] or
    guards with [hasattr] is an [option]: [None] is an object unpickled
    from an old version that lacks the attribute; [__init__] always sets
    it.

    [X_init] is [X.__init__] (with the defaults of the signature passed
    explicitly): a computation in [M], because the base constructor reads
    the clock when no timestamp is given and [ReminderScheduled] draws an
    identifier when no name is given.

    [constructed w e w'] says that some constructor call returns [e] and
    takes the world from [w] to [w']; [event_inv] is what every
    constructed event satisfies. *)

From S2P Require Import Prelude PyDict PyValue Runtime.

(** ** Classes and their tags *)

Inductive EventClass :=
| CEvent
| CUserUttered
| CBotUttered
| CSlotSet
| CRestarted
| CUserUtteranceReverted
| CAllSlotsReset
| CReminderScheduled
| CReminderCancelled
| CActionReverted
| CStoryExported
| CFollowupAction
| CConversationPaused
| CConversationResumed
| CActionExecuted
| CAgentUttered
| CForm
| CFormValidation
| CActionExecutionRejected.

#[export] Instance EventClass_eq_dec : EqDecision EventClass.
Proof. solve_decision. Defined.

(** The class attribute [type_name]. *)
Definition type_name (c : EventClass) : string :=
  match c with
  | CEvent => "event"
  | CUserUttered => "user"
  | CBotUttered => "bot"
  | CSlotSet => "slot"
  | CRestarted => "restart"
  | CUserUtteranceReverted => "rewind"
  | CAllSlotsReset => "reset_slots"
  | CReminderScheduled => "reminder"
  | CReminderCancelled => "cancel_reminder"
  | CActionReverted => "undo"
  | CStoryExported => "export"
  | CFollowupAction => "followup"
  | CConversationPaused => "pause"
  | CConversationResumed => "resume"
  | CActionExecuted => "action"
  | CAgentUttered => "agent"
  | CForm => "form"
  | CFormValidation => "form_validation"
  | CActionExecutionRejected => "action_execution_rejected"
  end.

(** ** The base class *)

Record EventBase := {
  timestamp : pyval;
  _metadata : option pyval;
}.

#[export] Instance EventBase_eq_dec : EqDecision EventBase.
Proof. solve_decision. Defined.

(** The property [metadata]: [getattr(self, "_metadata", {})]. *)
Definition metadata (b : EventBase) : pyval := _metadata b ?? PDict [].

(** [Event.__init__]: [timestamp or time.time()], [metadata or {}]. *)
Definition Event_init (timestamp metadata : pyval) : M EventBase :=
  t ← or_else timestamp time_time;
  mret {| timestamp := t; _metadata := Some (py_or metadata (PDict [])) |}.

(** What [Event.__init__] computes, in closed form: the timestamp, the
    world after the call, the attributes of the base class. *)
Definition stamp (ts : pyval) (w : World) : pyval :=
  if truthy ts then ts else PFloat (w_clock w (w_ticks w)).

Definition tick (ts : pyval) (w : World) : World :=
  if truthy ts then w
  else {| w_clock := w_clock w; w_ticks := S (w_ticks w);
          w_uuid := w_uuid w; w_uuids := w_uuids w; w_log := w_log w |}.

Definition new_base (ts md : pyval) (w : World) : EventBase :=
  {| timestamp := stamp ts w; _metadata := Some (py_or md (PDict [])) |}.

(** What [ReminderScheduled.__init__] computes for the name. *)
Definition fresh_name (name : pyval) (w : World) : pyval :=
  if is_none name then PStr (w_uuid w (w_uuids w)) else name.

Definition draw (name : pyval) (w : World) : World :=
  if is_none name
  then {| w_clock := w_clock w; w_ticks := w_ticks w;
          w_uuid := w_uuid w; w_uuids := S (w_uuids w); w_log := w_log w |}
  else w.

Section events.
Context {DT : DateTimeLib}.

(** ** The event objects *)

Inductive Event :=
| BareEvent (b : EventBase)
| UserUttered (text intent entities : pyval)
    (input_channel message_id : option pyval) (parse_data : pyval) (b : EventBase)
| BotUttered (text data : pyval) (b : EventBase)
| SlotSet (key value : pyval) (b : EventBase)
| Restarted (b : EventBase)
| UserUtteranceReverted (b : EventBase)
| AllSlotsReset (b : EventBase)
| ReminderScheduled (action_name : pyval) (trigger_date_time : datetime)
    (kill_on_user_message name : pyval) (b : EventBase)
| ReminderCancelled (action_name : pyval) (b : EventBase)
| ActionReverted (b : EventBase)
| StoryExported (path : pyval) (b : EventBase)
| FollowupAction (action_name : pyval) (b : EventBase)
| ConversationPaused (b : EventBase)
| ConversationResumed (b : EventBase)
| ActionExecuted (action_name : pyval) (policy confidence : option pyval)
    (unpredictable : bool) (b : EventBase)
| AgentUttered (text data : pyval) (b : EventBase)
| Form (name : pyval) (b : EventBase)
| FormValidation (validate : pyval) (b : EventBase)
| ActionExecutionRejected (action_name policy confidence : pyval) (b : EventBase).

#[export] Instance Event_eq_dec : EqDecision Event.
Proof. solve_decision. Defined.

(** [type(e)]. *)
Definition class_of (e : Event) : EventClass :=
  match e with
  | BareEvent _ => CEvent
  | UserUttered _ _ _ _ _ _ _ => CUserUttered
  | BotUttered _ _ _ => CBotUttered
  | SlotSet _ _ _ => CSlotSet
  | Restarted _ => CRestarted
  | UserUtteranceReverted _ => CUserUtteranceReverted
  | AllSlotsReset _ => CAllSlotsReset
  | ReminderScheduled _ _ _ _ _ => CReminderScheduled
  | ReminderCancelled _ _ => CReminderCancelled
  | ActionReverted _ => CActionReverted
  | StoryExported _ _ => CStoryExported
  | FollowupAction _ _ => CFollowupAction
  | ConversationPaused _ => CConversationPaused
  | ConversationResumed _ => CConversationResumed
  | ActionExecuted _ _ _ _ _ => CActionExecuted
  | AgentUttered _ _ _ => CAgentUttered
  | Form _ _ => CForm
  | FormValidation _ _ => CFormValidation
  | ActionExecutionRejected _ _ _ _ => CActionExecutionRejected
  end.

(** The attributes of the base class. *)
Definition event_base (e : Event) : EventBase :=
  match e with
  | BareEvent b | UserUttered _ _ _ _ _ _ b | BotUttered _ _ b | SlotSet _ _ b
  | Restarted b | UserUtteranceReverted b | AllSlotsReset b
  | ReminderScheduled _ _ _ _ b | ReminderCancelled _ b | ActionReverted b
  | StoryExported _ b | FollowupAction _ b | ConversationPaused b
  | ConversationResumed b | ActionExecuted _ _ _ _ b | AgentUttered _ _ b
  | Form _ b | FormValidation _ b | ActionExecutionRejected _ _ _ b => b
  end.

(** ** The constructors *)

(** The common shape of [__init__]: assign the attributes of the class,
    then [super().__init__(timestamp, metadata)]. *)
Definition super_init (mk : EventBase -> Event) (timestamp metadata : pyval) : M Event :=
  b ← Event_init timestamp metadata;
  mret (mk b).

Definition UserUttered_init
    (text intent entities parse_data timestamp input_channel message_id
     md : pyval) : M Event :=
  let intent := if truthy intent then intent else PDict [] in
  let entities := if truthy entities then entities else PList [] in
  b ← Event_init timestamp md;
  let parse_data :=
    if truthy parse_data then parse_data
    else PDict (dict_of_list
           [("intent", intent); ("entities", entities); ("text", text);
            ("message_id", message_id); ("metadata", metadata b)]) in
  mret (UserUttered text intent entities (Some input_channel) (Some message_id)
          parse_data b).

(** [UserUttered._from_parse_data]. *)
Definition UserUttered_from_parse_data
    (text parse_data timestamp input_channel message_id metadata : pyval)
    : M Event :=
  intent ← eff_lift (py_get parse_data "intent");
  entities ← eff_lift (py_get_default parse_data "entities" (PList []));
  UserUttered_init text intent entities parse_data timestamp input_channel
    message_id metadata.

(** [UserUttered.empty()]. *)
Definition UserUttered_empty : M Event :=
  UserUttered_init PNone PNone PNone PNone PNone PNone PNone PNone.

Definition BotUttered_init (text data metadata timestamp : pyval) : M Event :=
  super_init (BotUttered text (py_or data (PDict []))) timestamp metadata.

(** [BotUttered.empty()]. *)
Definition BotUttered_empty : M Event := BotUttered_init PNone PNone PNone PNone.

Definition SlotSet_init (key value timestamp metadata : pyval) : M Event :=
  super_init (SlotSet key value) timestamp metadata.

Definition Restarted_init : pyval -> pyval -> M Event := super_init Restarted.

Definition UserUtteranceReverted_init : pyval -> pyval -> M Event :=
  super_init UserUtteranceReverted.

Definition AllSlotsReset_init : pyval -> pyval -> M Event :=
  super_init AllSlotsReset.

Definition ReminderScheduled_init
    (action_name : pyval) (trigger_date_time : datetime)
    (name kill_on_user_message timestamp metadata : pyval) : M Event :=
  name ← (if is_none name then uuid1_str else mret name);
  super_init
    (ReminderScheduled action_name trigger_date_time kill_on_user_message name)
    timestamp metadata.

Definition ReminderCancelled_init (action_name timestamp metadata : pyval) : M Event :=
  super_init (ReminderCancelled action_name) timestamp metadata.

Definition ActionReverted_init : pyval -> pyval -> M Event :=
  super_init ActionReverted.

Definition StoryExported_init (path timestamp metadata : pyval) : M Event :=
  super_init (StoryExported path) timestamp metadata.

Definition FollowupAction_init (name timestamp metadata : pyval) : M Event :=
  super_init (FollowupAction name) timestamp metadata.

Definition ConversationPaused_init : pyval -> pyval -> M Event :=
  super_init ConversationPaused.

Definition ConversationResumed_init : pyval -> pyval -> M Event :=
  super_init ConversationResumed.

Definition ActionExecuted_init
    (action_name policy confidence timestamp metadata : pyval) : M Event :=
  super_init (ActionExecuted action_name (Some policy) (Some confidence) false)
    timestamp metadata.

Definition AgentUttered_init (text data timestamp metadata : pyval) : M Event :=
  super_init (AgentUttered text data) timestamp metadata.

(** [AgentUttered.empty()]. *)
Definition AgentUttered_empty : M Event := AgentUttered_init PNone PNone PNone PNone.

Definition Form_init (name timestamp metadata : pyval) : M Event :=
  super_init (Form name) timestamp metadata.

Definition FormValidation_init (validate timestamp metadata : pyval) : M Event :=
  super_init (FormValidation validate) timestamp metadata.

Definition ActionExecutionRejected_init
    (action_name policy confidence timestamp metadata : pyval) : M Event :=
  super_init (ActionExecutionRejected action_name policy confidence)
    timestamp metadata.

(** [ReminderScheduled._data_obj]. *)
Definition ReminderScheduled_data_obj (action_name : pyval)
    (trigger_date_time : datetime) (name kill_on_user_message : pyval)
    : pydict pyval :=
  dict_of_list
    [("action", action_name);
     ("date_time", PStr (dt_isoformat trigger_date_time));
     ("name", name);
     ("kill_on_user_msg", kill_on_user_message)].

(** [cls(a, b)]: a class called with two positional arguments, as
    [Event._from_story_string] calls it.  [ReminderScheduled] takes a
    date as its second argument, which this model keeps typed: the call
    is outside the model, and the module never makes it because the class
    overrides [_from_story_string]. *)
Definition init2 (c : EventClass) (a b : pyval) : M Event :=
  match c with
  | CEvent => super_init BareEvent a b
  | CUserUttered => UserUttered_init a b PNone PNone PNone PNone PNone PNone
  | CBotUttered => BotUttered_init a b PNone PNone
  | CSlotSet => SlotSet_init a b PNone PNone
  | CRestarted => Restarted_init a b
  | CUserUtteranceReverted => UserUtteranceReverted_init a b
  | CAllSlotsReset => AllSlotsReset_init a b
  | CReminderScheduled => eff_raise TypeError
  | CReminderCancelled => ReminderCancelled_init a b PNone
  | CActionReverted => ActionReverted_init a b
  | CStoryExported => StoryExported_init a b PNone
  | CFollowupAction => FollowupAction_init a b PNone
  | CConversationPaused => ConversationPaused_init a b
  | CConversationResumed => ConversationResumed_init a b
  | CActionExecuted => ActionExecuted_init a b PNone PNone PNone
  | CAgentUttered => AgentUttered_init a b PNone PNone
  | CForm => Form_init a b PNone
  | CFormValidation => FormValidation_init a b PNone
  | CActionExecutionRejected => ActionExecutionRejected_init a b PNone PNone PNone
  end.

(** ** Constructed events *)

(** [constructed w e w']: a constructor call in world [w] returns [e]
    and leaves the world [w']. *)
Inductive constructed (w : World) (e : Event) (w' : World) : Prop :=
| c_bare ts md : super_init BareEvent ts md w = (Ok e, w') -> constructed w e w'
| c_user text intent entities pd ts ic mid md :
    UserUttered_init text intent entities pd ts ic mid md w = (Ok e, w') ->
    constructed w e w'
| c_bot text data md ts :
    BotUttered_init text data md ts w = (Ok e, w') -> constructed w e w'
| c_slot key value ts md :
    SlotSet_init key value ts md w = (Ok e, w') -> constructed w e w'
| c_restarted ts md : Restarted_init ts md w = (Ok e, w') -> constructed w e w'
| c_rewind ts md :
    UserUtteranceReverted_init ts md w = (Ok e, w') -> constructed w e w'
| c_reset ts md : AllSlotsReset_init ts md w = (Ok e, w') -> constructed w e w'
| c_reminder a t name kill ts md :
    ReminderScheduled_init a t name kill ts md w = (Ok e, w') ->
    constructed w e w'
| c_cancel a ts md :
    ReminderCancelled_init a ts md w = (Ok e, w') -> constructed w e w'
| c_undo ts md : ActionReverted_init ts md w = (Ok e, w') -> constructed w e w'
| c_export path ts md :
    StoryExported_init path ts md w = (Ok e, w') -> constructed w e w'
| c_followup name ts md :
    FollowupAction_init name ts md w = (Ok e, w') -> constructed w e w'
| c_pause ts md :
    ConversationPaused_init ts md w = (Ok e, w') -> constructed w e w'
| c_resume ts md :
    ConversationResumed_init ts md w = (Ok e, w') -> constructed w e w'
| c_action a p c ts md :
    ActionExecuted_init a p c ts md w = (Ok e, w') -> constructed w e w'
| c_agent text data ts md :
    AgentUttered_init text data ts md w = (Ok e, w') -> constructed w e w'
| c_form name ts md :
    Form_init name ts md w = (Ok e, w') -> constructed w e w'
| c_validation v ts md :
    FormValidation_init v ts md w = (Ok e, w') -> constructed w e w'
| c_rejected a p c ts md :
    ActionExecutionRejected_init a p c ts md w = (Ok e, w') ->
    constructed w e w'.

(** ** The invariant of event objects *)

(** The base attributes: the timestamp and the metadata are there and
    are not [None]. *)
Definition base_inv (b : EventBase) : bool :=
  negb (is_none (timestamp b)) &&
  match _metadata b with
  | Some md => negb (is_none md)
  | None => false
  end.

(** [x if x else d] leaves a truthy value or [d]. *)
Definition truthy_or (d v : pyval) : bool := truthy v || bool_decide (v = d).

Definition present (o : option pyval) : bool :=
  match o with Some _ => true | None => false end.

Definition event_inv (e : Event) : bool :=
  base_inv (event_base e) &&
  match e with
  | UserUttered _ intent entities ic mid pd _ =>
      truthy_or (PDict []) intent && truthy_or (PList []) entities &&
      present ic && present mid && truthy pd
  | BotUttered _ data _ => truthy_or (PDict []) data
  | ReminderScheduled _ _ _ name _ => negb (is_none name)
  | ActionExecuted _ p c u _ => present p && present c && negb u
  | _ => true
  end.

End events.

(** ** The base constructor *)

(** [Event.__init__] never raises; it returns the given timestamp when it
    is truthy and a reading of the clock otherwise, and reads the clock
    at most once. *)
Lemma Event_init_eq ts md w :
  Event_init ts md w = (Ok (new_base ts md w), tick ts w).
Proof.
  unfold Event_init, new_base, stamp, tick, or_else. rewrite eff_bind_run.
  by destruct (truthy ts).
Qed.

Lemma base_inv_new_base ts md w : base_inv (new_base ts md w) = true.
Proof.
  unfold base_inv, new_base, stamp. simpl.
  rewrite py_or_not_none by done.
  destruct (truthy ts) eqn:Hts; [by destruct ts|done].
Qed.

(** The metadata of an event is never [None]: absence is an empty
    dictionary. *)
Lemma metadata_not_none b : base_inv b = true -> is_none (metadata b) = false.
Proof.
  unfold base_inv, metadata. intros [_ H]%andb_true_iff.
  destruct (_metadata b); [by apply negb_true_iff in H|done].
Qed.

Lemma metadata_legacy ts : metadata {| timestamp := ts; _metadata := None |} = PDict [].
Proof. reflexivity. Qed.

Lemma tick_truthy ts w : truthy ts = true -> tick ts w = w.
Proof. unfold tick. by intros ->. Qed.

Lemma stamp_truthy ts w : truthy ts = true -> stamp ts w = ts.
Proof. unfold stamp. by intros ->. Qed.

Lemma tick_fields ts w :
  w_clock (tick ts w) = w_clock w /\ w_uuid (tick ts w) = w_uuid w /\
  w_uuids (tick ts w) = w_uuids w /\
  w_ticks (tick ts w) = (if truthy ts then w_ticks w else S (w_ticks w)).
Proof. unfold tick. by destruct (truthy ts). Qed.

Lemma draw_fields name w :
  w_clock (draw name w) = w_clock w /\ w_uuid (draw name w) = w_uuid w /\
  w_ticks (draw name w) = w_ticks w /\
  w_uuids (draw name w) = (if is_none name then S (w_uuids w) else w_uuids w).
Proof. unfold draw. by destruct (is_none name). Qed.

(** Neither writes to the log. *)
Lemma tick_log ts w : w_log (tick ts w) = w_log w.
Proof. unfold tick. by destruct (truthy ts). Qed.

Lemma draw_log name w : w_log (draw name w) = w_log w.
Proof. unfold draw. by destruct (is_none name). Qed.

Section events_theory.
Context {DT : DateTimeLib}.

Lemma truthy_or_if d v : truthy_or d (if truthy v then v else d) = true.
Proof.
  unfold truthy_or. destruct (truthy v) eqn:Hv; rewrite ?Hv; [done|].
  rewrite bool_decide_eq_true_2 by done. apply orb_true_r.
Qed.

Lemma truthy_or_py_or d v : truthy_or d (py_or v d) = true.
Proof. apply truthy_or_if. Qed.

(** ** The constructors in closed form *)

Lemma super_init_eq mk ts md w :
  super_init mk ts md w = (Ok (mk (new_base ts md w)), tick ts w).
Proof. unfold super_init. by rewrite eff_bind_run, Event_init_eq. Qed.

Lemma UserUttered_init_eq text intent entities pd ts ic mid md w :
  UserUttered_init text intent entities pd ts ic mid md w =
  (Ok (UserUttered text
         (if truthy intent then intent else PDict [])
         (if truthy entities then entities else PList [])
         (Some ic) (Some mid)
         (if truthy pd then pd
          else PDict [("intent", if truthy intent then intent else PDict []);
                      ("entities", if truthy entities then entities else PList []);
                      ("text", text); ("message_id", mid);
                      ("metadata", py_or md (PDict []))])
         (new_base ts md w)), tick ts w).
Proof. unfold UserUttered_init. by rewrite eff_bind_run, Event_init_eq. Qed.

Lemma ReminderScheduled_init_eq a t name kill ts md w :
  ReminderScheduled_init a t name kill ts md w =
  (Ok (ReminderScheduled a t kill (fresh_name name w) (new_base ts md w)),
   tick ts (draw name w)).
Proof.
  unfold ReminderScheduled_init, fresh_name, draw. rewrite eff_bind_run.
  destruct (is_none name); [unfold uuid1_str|rewrite eff_ret_run];
    by rewrite super_init_eq.
Qed.

End events_theory.

(** Rewrite every constructor call to its closed form. *)
Ltac init_eq :=
  unfold BotUttered_init, SlotSet_init, Restarted_init,
    UserUtteranceReverted_init, AllSlotsReset_init, ReminderCancelled_init,
    ActionReverted_init, StoryExported_init, FollowupAction_init,
    ConversationPaused_init, ConversationResumed_init, ActionExecuted_init,
    AgentUttered_init, Form_init, FormValidation_init,
    ActionExecutionRejected_init in *;
  rewrite ?super_init_eq, ?UserUttered_init_eq, ?ReminderScheduled_init_eq in *.

Section constructed_theory.
Context {DT : DateTimeLib}.

(** A constructed event and the world after its construction. *)
Lemma constructed_inv_eq w e w' :
  constructed w e w' ->
  exists ts md name,
    event_base e = new_base ts md w /\ w' = tick ts (draw name w) /\
    event_inv e = true.
Proof.
  destruct 1 as [ts md H|? ? ? pd ts ? ? md H|? ? md ts H|? ? ts md H|ts md H
                |ts md H|ts md H|? ? name ? ts md H|? ts md H|ts md H
                |? ts md H|? ts md H|ts md H|ts md H|? ? ? ts md H|? ? ts md H
                |? ts md H|? ts md H|? ? ? ts md H];
    init_eq; simplify_eq.
  8: { exists ts, md, name. split_and!; [done..|].
       unfold event_inv. simpl. rewrite base_inv_new_base. simpl.
       unfold fresh_name. by destruct name. }
  all: exists ts, md, (PStr ""); (split_and!; [done..|]);
    unfold event_inv; simpl; rewrite base_inv_new_base, ?truthy_or_py_or,
      ?truthy_or_if; simpl; try done.
  by destruct (truthy pd) eqn:Hpd; rewrite ?Hpd.
Qed.

(** ** Every constructed event satisfies the invariant *)

(** C7: every event returned by a constructor of the module satisfies
    the invariant [event_inv]: its timestamp and metadata are not [None],
    the intent, entities and data of messages are truthy or the empty
    default, the parse data of a user message is truthy, and a scheduled
    reminder has a name. *)
Theorem constructed_inv w e w' : constructed w e w' -> event_inv e = true.
Proof. intros (? & ? & ? & _ & _ & H)%constructed_inv_eq. done. Qed.

(** ** What a constructor does to the world *)

(** C24: the timestamp of a constructed event is a truthy value, and
    then [Event.__init__] did not read the clock, or it is the next
    reading of the clock, which was read once. *)
Theorem constructed_timestamp w e w' :
  constructed w e w' ->
  (truthy (timestamp (event_base e)) = true /\ w_ticks w' = w_ticks w) \/
  (timestamp (event_base e) = PFloat (w_clock w (w_ticks w)) /\
   w_ticks w' = S (w_ticks w)).
Proof.
  intros (ts & md & name & -> & -> & _)%constructed_inv_eq.
  destruct (tick_fields ts (draw name w)) as (_ & _ & _ & ->).
  destruct (draw_fields name w) as (_ & _ & -> & _).
  unfold new_base, stamp. simpl.
  destruct (truthy ts) eqn:Hts; [left|right]; done.
Qed.

(** C25: a constructor reads the clock at most once and draws at most
    one identifier; it changes nothing else of its environment, and
    logs nothing. *)
Theorem constructed_world w e w' :
  constructed w e w' ->
  w_clock w' = w_clock w /\ w_uuid w' = w_uuid w /\
  (w_ticks w' = w_ticks w \/ w_ticks w' = S (w_ticks w)) /\
  (w_uuids w' = w_uuids w \/ w_uuids w' = S (w_uuids w)) /\
  w_log w' = w_log w.
Proof.
  intros (ts & md & name & _ & -> & _)%constructed_inv_eq.
  rewrite tick_log, draw_log.
  destruct (tick_fields ts (draw name w)) as (-> & -> & -> & ->).
  destruct (draw_fields name w) as (-> & -> & -> & ->).
  destruct (truthy ts), (is_none name); auto 6.
Qed.

(** C26: two [ReminderScheduled] events constructed without a name,
    one after the other, get different names when the generator of
    identifiers never repeats itself. *)
Theorem unnamed_reminders_distinct a1 t1 k1 ts1 md1 a2 t2 k2 ts2 md2 w e1 w1 e2 w2 :
  Inj (=) (=) (w_uuid w) ->
  ReminderScheduled_init a1 t1 PNone k1 ts1 md1 w = (Ok e1, w1) ->
  ReminderScheduled_init a2 t2 PNone k2 ts2 md2 w1 = (Ok e2, w2) ->
  exists n1 n2 b1 b2,
    e1 = ReminderScheduled a1 t1 k1 n1 b1 /\
    e2 = ReminderScheduled a2 t2 k2 n2 b2 /\ n1 ≠ n2.
Proof.
  intros Hinj. rewrite !ReminderScheduled_init_eq. intros [= <- <-] [= <- _].
  eexists _, _, _, _. split_and!; [done..|]. unfold fresh_name. simpl.
  destruct (tick_fields ts1 (draw PNone w)) as (_ & -> & -> & _). simpl.
  intros [= Heq%Hinj]. lia.
Qed.

(** A name that is given is kept. *)
Lemma fresh_name_given name w : is_none name = false -> fresh_name name w = name.
Proof. unfold fresh_name. by intros ->. Qed.

Lemma draw_given name w : is_none name = false -> draw name w = w.
Proof. unfold draw. by intros ->. Qed.

(** [_from_parse_data] needs a dictionary: anything else has no [get]. *)
Lemma UserUttered_from_parse_data_error text pd ts ic mid md w :
  (forall d, pd ≠ PDict d) ->
  UserUttered_from_parse_data text pd ts ic mid md w =
  (Raise (AttributeError "get"), w).
Proof.
  intros Hpd. unfold UserUttered_from_parse_data.
  rewrite eff_bind_run, eff_lift_run.
  destruct pd; try done. by destruct (Hpd d).
Qed.

Lemma UserUttered_from_parse_data_dict text d ts ic mid md w :
  UserUttered_from_parse_data text (PDict d) ts ic mid md w =
  UserUttered_init text (param d "intent") (dict_get d "entities" ?? PList [])
    (PDict d) ts ic mid md w.
Proof. reflexivity. Qed.

End constructed_theory.

(** ** The theorems at concrete events *)

Lemma constructed_inv_witness :
  event_inv (DT := string_datetime)
    (UserUttered (PStr "hello") (PDict []) (PList []) (Some PNone) (Some PNone)
       (PDict [("intent", PDict []); ("entities", PList []);
               ("text", PStr "hello"); ("message_id", PNone);
               ("metadata", PDict [])])
       (new_base PNone PNone demo_world)) = true.
Proof.
  apply (constructed_inv (DT := string_datetime) demo_world _ (tick PNone demo_world)).
  by apply (c_user _ _ _ (PStr "hello") PNone PNone PNone PNone PNone PNone PNone).
Defined.

Lemma constructed_timestamp_witness :
  let e := SlotSet (DT := string_datetime) (PStr "city") (PStr "Oslo")
             (new_base (PInt 7) PNone demo_world) in
  (truthy (timestamp (event_base e)) = true /\ w_ticks demo_world = w_ticks demo_world) \/
  (timestamp (event_base e) = PFloat (w_clock demo_world (w_ticks demo_world)) /\
   w_ticks demo_world = S (w_ticks demo_world)).
Proof.
  apply (constructed_timestamp (DT := string_datetime) demo_world _ demo_world).
  by apply (c_slot _ _ _ (PStr "city") (PStr "Oslo") (PInt 7) PNone).
Defined.

Lemma constructed_world_witness :
  let w' := tick PNone (draw PNone demo_world) in
  w_clock w' = w_clock demo_world /\ w_uuid w' = w_uuid demo_world /\
  (w_ticks w' = w_ticks demo_world \/ w_ticks w' = S (w_ticks demo_world)) /\
  (w_uuids w' = w_uuids demo_world \/ w_uuids w' = S (w_uuids demo_world)) /\
  w_log w' = w_log demo_world.
Proof.
  apply (constructed_world (DT := string_datetime) demo_world
           (ReminderScheduled (DT := string_datetime) (PStr "ping") "2020-01-01"
              (PBool true) (fresh_name PNone demo_world)
              (new_base PNone PNone (draw PNone demo_world)))).
  by apply (c_reminder (DT := string_datetime) _ _ _
              (PStr "ping") "2020-01-01" PNone (PBool true) PNone PNone).
Defined.

Lemma unnamed_reminders_distinct_witness :
  exists n1 n2 b1 b2,
    ReminderScheduled (DT := string_datetime) (PStr "ping") "2020-01-01" (PBool true)
      (PStr "uuid-0") (new_base PNone PNone demo_world) =
      ReminderScheduled (DT := string_datetime) (PStr "ping") "2020-01-01"
        (PBool true) n1 b1 /\
    ReminderScheduled (DT := string_datetime) (PStr "pong") "2020-01-02" (PBool false)
      (PStr "uuid-1") (new_base PNone PNone (tick PNone demo_world)) =
      ReminderScheduled (DT := string_datetime) (PStr "pong") "2020-01-02"
        (PBool false) n2 b2 /\
    n1 ≠ n2.
Proof.
  apply (unnamed_reminders_distinct (DT := string_datetime)
           (PStr "ping") "2020-01-01" (PBool true) PNone PNone
           (PStr "pong") "2020-01-02" (PBool false) PNone PNone
           demo_world _ (tick PNone (draw PNone demo_world))
           _ (tick PNone (draw PNone (tick PNone (draw PNone demo_world)))));
    [apply demo_world_uuid_inj|reflexivity..].
Defined.
