(* ===== verification/Identity.v ===== *)
(** * Identity: equality and hashing of events

    Every subclass of [Event] overrides [__eq__] and [__hash__]; the base
    class adds [__ne__].  [X_eq] is [X.__eq__] and [X_hash] is
    [X.__hash__], with the attributes that the method reads as
    arguments.  An [__eq__] returns a boolean or raises: the one of
    [UserUttered] calls [self.intent.get] and iterates over
    [self.entities], and the one of [BotUttered] calls
    [utils.remove_none_values], which fail on values that are not
    dictionaries or not iterable.

    A tuple is the list of its components; two tuples are equal when
    they are equal component by component ([list_py_eq]).  The built-in
    [hash] is not computed: [X_hash] returns the value that is hashed
    ([hkey]), or [TypeError] when a component is a list or a dictionary,
    which have no hash.  Python guarantees that values equal under [==]
    have equal hashes, so two events whose keys are equal ([hkey_eq])
    hash alike; events whose keys differ hash differently except by
    collision.

    The base class inherits [object.__eq__] and [object.__hash__], which
    go by the identity of the object.  Identity is outside the model:
    [dunder_eq], [event_eq] and [event_hash] are [None] where it
    decides.

    [identity_key] is the specification: the identity rule of each
    class as the tuple of values that two events of the class must agree
    on.  The theorems show that [event_eq] compares classes and identity
    keys, that it is a partial equivalence, which classes hash
    consistently with it and which do not. *)

From S2P Require Import Prelude PyDict PyValue Runtime Events.

Section identity.
Context {DT : DateTimeLib} {JP : Pickler}.

(** ** Built-ins *)

(** [isinstance(other, C)]: no subclass of [Event] has subclasses of its
    own, so an instance of [C] is an object whose class is [C]. *)
Definition isinstance (other : Event) (c : EventClass) : bool :=
  match c with
  | CEvent => true
  | _ => bool_decide (class_of other = c)
  end.

(** What [hash] is applied to: one value or a tuple. *)
Inductive hkey :=
| HScalar (v : pyval)
| HTuple (l : list pyval).

Definition hashable (v : pyval) : bool :=
  match v with
  | PList _ | PDict _ => false
  | _ => true
  end.

(** [hash(v)] and [hash((v1, ..., vn))]. *)
Definition py_hash (v : pyval) : result exn hkey :=
  if hashable v then Ok (HScalar v) else Raise TypeError.

Definition py_hash_tuple (l : list pyval) : result exn hkey :=
  if forallb hashable l then Ok (HTuple l) else Raise TypeError.

(** Keys that [==] identifies have the same hash. *)
Definition hkey_eq (h h' : hkey) : bool :=
  match h, h' with
  | HScalar v, HScalar v' => py_eq v v'
  | HTuple l, HTuple l' => list_py_eq l l'
  | _, _ => false
  end.

(** [utils.remove_none_values(obj)] on a value of unknown type. *)
Definition py_remove_none_values (obj : pyval) : result exn (pydict pyval) :=
  match obj with
  | PDict d => Ok (remove_none_values d)
  | _ => Raise (AttributeError "items")
  end.

(** ** The methods of each class *)

(** The tuple that [UserUttered.__eq__] builds for one operand. *)
Definition UserUttered_eq_key (text intent entities : pyval) : result exn (list pyval) :=
  name ← py_get intent "name";
  ents ← py_iter entities;
  mret [text; name; PList ((fun ent => PStr (jp_encode ent)) <$> ents)].

Definition UserUttered_hash (text intent entities : pyval) : result exn hkey :=
  name ← py_get intent "name";
  py_hash_tuple [text; name; PStr (jp_encode entities)].

Definition UserUttered_eq (text intent entities : pyval) (other : Event)
    : result exn bool :=
  match other with
  | UserUttered text' intent' entities' _ _ _ _ =>
      k ← UserUttered_eq_key text intent entities;
      k' ← UserUttered_eq_key text' intent' entities';
      mret (list_py_eq k k')
  | _ => Ok false
  end.

(** [BotUttered.__members]. *)
Definition BotUttered_members (text data : pyval) (b : EventBase)
    : result exn (list pyval) :=
  data_no_nones ← py_remove_none_values data;
  meta_no_nones ← py_remove_none_values (metadata b);
  mret [text; PStr (jp_encode (PDict data_no_nones));
        PStr (jp_encode (PDict meta_no_nones))].

Definition BotUttered_hash (text data : pyval) (b : EventBase) : result exn hkey :=
  m ← BotUttered_members text data b;
  py_hash_tuple m.

Definition BotUttered_eq (text data : pyval) (b : EventBase) (other : Event)
    : result exn bool :=
  match other with
  | BotUttered text' data' b' =>
      m ← BotUttered_members text data b;
      m' ← BotUttered_members text' data' b';
      mret (list_py_eq m m')
  | _ => Ok false
  end.

Definition SlotSet_hash (key value : pyval) : result exn hkey :=
  py_hash_tuple [key; PStr (jp_encode value)].

Definition SlotSet_eq (key value : pyval) (other : Event) : result exn bool :=
  match other with
  | SlotSet key' value' _ => Ok (list_py_eq [key; value] [key'; value'])
  | _ => Ok false
  end.

Definition Restarted_hash : result exn hkey := py_hash (PInt 32143124312).

Definition Restarted_eq (other : Event) : result exn bool :=
  Ok (isinstance other CRestarted).

Definition UserUtteranceReverted_hash : result exn hkey := py_hash (PInt 32143124315).

Definition UserUtteranceReverted_eq (other : Event) : result exn bool :=
  Ok (isinstance other CUserUtteranceReverted).

Definition AllSlotsReset_hash : result exn hkey := py_hash (PInt 32143124316).

Definition AllSlotsReset_eq (other : Event) : result exn bool :=
  Ok (isinstance other CAllSlotsReset).

Definition ReminderScheduled_hash (action_name : pyval)
    (trigger_date_time : datetime) (kill_on_user_message name : pyval)
    : result exn hkey :=
  py_hash_tuple [action_name; PStr (dt_isoformat trigger_date_time);
                 kill_on_user_message; name].

Definition ReminderScheduled_eq (name : pyval) (other : Event) : result exn bool :=
  match other with
  | ReminderScheduled _ _ _ name' _ => Ok (py_eq name name')
  | _ => Ok false
  end.

Definition ReminderCancelled_hash (action_name : pyval) : result exn hkey :=
  py_hash action_name.

Definition ReminderCancelled_eq (other : Event) : result exn bool :=
  Ok (isinstance other CReminderCancelled).

Definition ActionReverted_hash : result exn hkey := py_hash (PInt 32143124318).

Definition ActionReverted_eq (other : Event) : result exn bool :=
  Ok (isinstance other CActionReverted).

Definition StoryExported_hash : result exn hkey := py_hash (PInt 32143124319).

Definition StoryExported_eq (other : Event) : result exn bool :=
  Ok (isinstance other CStoryExported).

Definition FollowupAction_hash (action_name : pyval) : result exn hkey :=
  py_hash action_name.

Definition FollowupAction_eq (action_name : pyval) (other : Event) : result exn bool :=
  match other with
  | FollowupAction action_name' _ => Ok (py_eq action_name action_name')
  | _ => Ok false
  end.

Definition ConversationPaused_hash : result exn hkey := py_hash (PInt 32143124313).

Definition ConversationPaused_eq (other : Event) : result exn bool :=
  Ok (isinstance other CConversationPaused).

Definition ConversationResumed_hash : result exn hkey := py_hash (PInt 32143124314).

Definition ConversationResumed_eq (other : Event) : result exn bool :=
  Ok (isinstance other CConversationResumed).

Definition ActionExecuted_hash (action_name : pyval) : result exn hkey :=
  py_hash action_name.

Definition ActionExecuted_eq (action_name : pyval) (other : Event) : result exn bool :=
  match other with
  | ActionExecuted action_name' _ _ _ _ => Ok (py_eq action_name action_name')
  | _ => Ok false
  end.

Definition AgentUttered_hash (text data : pyval) : result exn hkey :=
  py_hash_tuple [text; PStr (jp_encode data)].

Definition AgentUttered_eq (text data : pyval) (other : Event) : result exn bool :=
  match other with
  | AgentUttered text' data' _ =>
      Ok (list_py_eq [text; PStr (jp_encode data)] [text'; PStr (jp_encode data')])
  | _ => Ok false
  end.

Definition Form_hash (name : pyval) : result exn hkey := py_hash name.

Definition Form_eq (name : pyval) (other : Event) : result exn bool :=
  match other with
  | Form name' _ => Ok (py_eq name name')
  | _ => Ok false
  end.

Definition FormValidation_hash (validate : pyval) : result exn hkey :=
  py_hash validate.

Definition FormValidation_eq (other : Event) : result exn bool :=
  Ok (isinstance other CFormValidation).

Definition ActionExecutionRejected_hash (action_name : pyval) : result exn hkey :=
  py_hash action_name.

Definition ActionExecutionRejected_eq (action_name : pyval) (other : Event)
    : result exn bool :=
  match other with
  | ActionExecutionRejected action_name' _ _ _ => Ok (py_eq action_name action_name')
  | _ => Ok false
  end.

(** ** Dispatch *)

(** [e.__eq__(other)]: the method of the class of [e]; [None] for an
    instance of the base class, which compares by identity. *)
Definition dunder_eq (e other : Event) : option (result exn bool) :=
  match e with
  | BareEvent _ => None
  | UserUttered text intent entities _ _ _ _ =>
      Some (UserUttered_eq text intent entities other)
  | BotUttered text data b => Some (BotUttered_eq text data b other)
  | SlotSet key value _ => Some (SlotSet_eq key value other)
  | Restarted _ => Some (Restarted_eq other)
  | UserUtteranceReverted _ => Some (UserUtteranceReverted_eq other)
  | AllSlotsReset _ => Some (AllSlotsReset_eq other)
  | ReminderScheduled _ _ _ name _ => Some (ReminderScheduled_eq name other)
  | ReminderCancelled _ _ => Some (ReminderCancelled_eq other)
  | ActionReverted _ => Some (ActionReverted_eq other)
  | StoryExported _ _ => Some (StoryExported_eq other)
  | FollowupAction a _ => Some (FollowupAction_eq a other)
  | ConversationPaused _ => Some (ConversationPaused_eq other)
  | ConversationResumed _ => Some (ConversationResumed_eq other)
  | ActionExecuted a _ _ _ _ => Some (ActionExecuted_eq a other)
  | AgentUttered text data _ => Some (AgentUttered_eq text data other)
  | Form name _ => Some (Form_eq name other)
  | FormValidation _ _ => Some (FormValidation_eq other)
  | ActionExecutionRejected a _ _ _ => Some (ActionExecutionRejected_eq a other)
  end.

(** [e == other]: the method of [e], or, when [e] is an instance of the
    base class and [other] of a subclass, the method of [other], which
    Python tries first. *)
Definition event_eq (e other : Event) : option (result exn bool) :=
  match e with
  | BareEvent _ => dunder_eq other e
  | _ => dunder_eq e other
  end.

(** [Event.__ne__]: [not (self == other)]. *)
Definition Event_ne (e other : Event) : option (result exn bool) :=
  fmap (M := result exn) negb <$> event_eq e other.

(** [hash(e)]. *)
Definition event_hash (e : Event) : option (result exn hkey) :=
  match e with
  | BareEvent _ => None
  | UserUttered text intent entities _ _ _ _ =>
      Some (UserUttered_hash text intent entities)
  | BotUttered text data b => Some (BotUttered_hash text data b)
  | SlotSet key value _ => Some (SlotSet_hash key value)
  | Restarted _ => Some Restarted_hash
  | UserUtteranceReverted _ => Some UserUtteranceReverted_hash
  | AllSlotsReset _ => Some AllSlotsReset_hash
  | ReminderScheduled a t kill name _ => Some (ReminderScheduled_hash a t kill name)
  | ReminderCancelled a _ => Some (ReminderCancelled_hash a)
  | ActionReverted _ => Some ActionReverted_hash
  | StoryExported _ _ => Some StoryExported_hash
  | FollowupAction a _ => Some (FollowupAction_hash a)
  | ConversationPaused _ => Some ConversationPaused_hash
  | ConversationResumed _ => Some ConversationResumed_hash
  | ActionExecuted a _ _ _ _ => Some (ActionExecuted_hash a)
  | AgentUttered text data _ => Some (AgentUttered_hash text data)
  | Form name _ => Some (Form_hash name)
  | FormValidation v _ => Some (FormValidation_hash v)
  | ActionExecutionRejected a _ _ _ => Some (ActionExecutionRejected_hash a)
  end.

(** ** Specification: the identity rule of each class *)

(** The values two events of one class must agree on to be equal. *)
Definition identity_key (e : Event) : result exn (list pyval) :=
  match e with
  | UserUttered text intent entities _ _ _ _ =>
      UserUttered_eq_key text intent entities
  | BotUttered text data b => BotUttered_members text data b
  | SlotSet key value _ => Ok [key; value]
  | ReminderScheduled _ _ _ name _ => Ok [name]
  | FollowupAction a _ => Ok [a]
  | ActionExecuted a _ _ _ _ => Ok [a]
  | AgentUttered text data _ => Ok [text; PStr (jp_encode data)]
  | Form name _ => Ok [name]
  | ActionExecutionRejected a _ _ _ => Ok [a]
  | _ => Ok []
  end.

(** What [==] promises on two events of subclasses. *)
Definition eq_spec (e other : Event) : result exn bool :=
  if bool_decide (class_of other = class_of e) then
    k ← identity_key e;
    k' ← identity_key other;
    mret (list_py_eq k k')
  else Ok false.

(** The events whose identity key can be computed and holds values on
    which [==] is an equivalence. *)
Definition key_wf (e : Event) : bool :=
  match identity_key e with
  | Ok k => forallb val_wf k
  | Raise _ => false
  end.

(** The classes whose [__hash__] hashes the identity key. *)
Definition hash_consistent_class (c : EventClass) : bool :=
  match c with
  | CUserUttered | CSlotSet | CReminderScheduled | CReminderCancelled
  | CFormValidation | CEvent => false
  | _ => true
  end.

(** Events with a well-formed identity key, up to [==]. *)
Definition event_equiv (e o : Event) : Prop :=
  key_wf e = true /\ key_wf o = true /\ event_eq e o = Some (Ok true).

End identity.

Section identity_theory.
Context {DT : DateTimeLib} {JP : Pickler}.

(** ** Equality compares classes and identity keys *)

Lemma isinstance_class other c :
  c ≠ CEvent -> isinstance other c = bool_decide (class_of other = c).
Proof. by destruct c. Qed.

Lemma list_py_eq_1 a b : list_py_eq [a] [b] = py_eq a b.
Proof. simpl. apply andb_true_r. Qed.

(** The method of a subclass implements the identity rule. *)
Lemma dunder_eq_spec e other :
  class_of e ≠ CEvent -> dunder_eq e other = Some (eq_spec e other).
Proof.
  intros He. unfold eq_spec.
  destruct e; try done; destruct other; simpl; try done;
    by rewrite ?andb_true_r.
Qed.

Lemma event_eq_bare b other :
  event_eq (BareEvent b) other =
  match other with BareEvent _ => None | _ => Some (Ok false) end.
Proof. by destruct other. Qed.

Lemma event_eq_dunder e other :
  class_of e ≠ CEvent -> event_eq e other = dunder_eq e other.
Proof. by destruct e. Qed.

Lemma event_eq_sub e other :
  class_of e ≠ CEvent -> event_eq e other = Some (eq_spec e other).
Proof. intros He. by rewrite event_eq_dunder, dunder_eq_spec. Qed.

(** C9: [==] on events implements the identity rules: two events of
    subclasses are equal exactly when they are of the same class and
    their identity keys are equal, and the comparison raises what the
    computation of a key raises; an instance of the base class is unequal
    to every instance of a subclass, and two instances of the base class
    compare by object identity. *)
Theorem event_eq_identity e other :
  event_eq e other =
  match e, other with
  | BareEvent _, BareEvent _ => None
  | BareEvent _, _ => Some (Ok false)
  | _, _ => Some (eq_spec e other)
  end.
Proof.
  destruct e; try (rewrite event_eq_sub by done; by destruct other).
  rewrite event_eq_bare. by destruct other.
Qed.

(** ** Equality is a partial equivalence *)

Lemma eq_spec_true e o :
  eq_spec e o = Ok true <->
  class_of o = class_of e /\
  exists k k', identity_key e = Ok k /\ identity_key o = Ok k' /\
               list_py_eq k k' = true.
Proof.
  unfold eq_spec. case_bool_decide as Hc; [|naive_solver].
  destruct (identity_key e) as [k|x], (identity_key o) as [k'|x']; simpl;
    (split; [intros [= H]; eauto 6|]).
  - by intros (_ & ? & ? & [= <-] & [= <-] & ->).
  - by intros (_ & ? & ? & _ & [=] & _).
  - by intros (_ & ? & ? & [=] & _).
  - by intros (_ & ? & ? & [=] & _).
Qed.

Lemma key_wf_Ok e k : key_wf e = true -> identity_key e = Ok k -> forallb val_wf k = true.
Proof. unfold key_wf. intros H Hk. by rewrite Hk in H. Qed.

Lemma eq_spec_refl e : key_wf e = true -> eq_spec e e = Ok true.
Proof.
  intros Hwf. apply eq_spec_true. split; [done|].
  unfold key_wf in Hwf. destruct (identity_key e) as [k|] eqn:Hk; [|done].
  exists k, k. auto using list_py_eq_refl.
Qed.

Lemma eq_spec_sym e o :
  key_wf e = true -> key_wf o = true -> eq_spec e o = Ok true -> eq_spec o e = Ok true.
Proof.
  intros He Ho (Hc & k & k' & Hk & Hk' & Heq)%eq_spec_true.
  apply eq_spec_true. split; [done|]. exists k', k. split_and!; [done..|].
  apply list_py_eq_sym; eauto using key_wf_Ok.
Qed.

Lemma eq_spec_trans e1 e2 e3 :
  key_wf e1 = true -> key_wf e2 = true -> key_wf e3 = true ->
  eq_spec e1 e2 = Ok true -> eq_spec e2 e3 = Ok true -> eq_spec e1 e3 = Ok true.
Proof.
  intros H1 H2 H3 (Hc & k1 & k2 & Hk1 & Hk2 & Heq)%eq_spec_true
    (Hc' & k2' & k3 & Hk2' & Hk3 & Heq')%eq_spec_true.
  rewrite Hk2 in Hk2'. injection Hk2' as <-.
  apply eq_spec_true. split; [congruence|]. exists k1, k3. split_and!; [done..|].
  apply (list_py_eq_trans k1 k2 k3); eauto using key_wf_Ok.
Qed.

(** An event that is equal to another is an instance of a subclass. *)
Lemma event_eq_true_sub e o :
  event_eq e o = Some (Ok true) ->
  class_of e ≠ CEvent /\ class_of o = class_of e /\ eq_spec e o = Ok true.
Proof.
  destruct e; try (rewrite event_eq_sub by done; intros [= H];
    split; [done|]; split; [by apply eq_spec_true in H as [? _]|done]).
  rewrite event_eq_bare. by destruct o.
Qed.

#[export] Instance event_equiv_per : RelationClasses.PER event_equiv.
Proof.
  split.
  - intros e o (He & Ho & (Hs & Hc & H)%event_eq_true_sub). split_and!; [done..|].
    rewrite event_eq_sub by congruence. f_equal. by apply eq_spec_sym.
  - intros e1 e2 e3 (H1 & H2 & (Hs & Hc & H)%event_eq_true_sub)
      (_ & H3 & (_ & _ & H')%event_eq_true_sub).
    split_and!; [done..|]. rewrite event_eq_sub by done. f_equal.
    by apply (eq_spec_trans e1 e2 e3).
Qed.

(** C18: [==] is an equivalence on the events of subclasses whose
    identity key can be computed and holds no NaN: it is reflexive,
    symmetric and transitive there. *)
Theorem event_eq_equivalence :
  (forall e, class_of e ≠ CEvent -> key_wf e = true -> event_eq e e = Some (Ok true)) /\
  (forall e o, key_wf e = true -> key_wf o = true ->
     event_eq e o = Some (Ok true) -> event_eq o e = Some (Ok true)) /\
  (forall e1 e2 e3, key_wf e1 = true -> key_wf e2 = true -> key_wf e3 = true ->
     event_eq e1 e2 = Some (Ok true) -> event_eq e2 e3 = Some (Ok true) ->
     event_eq e1 e3 = Some (Ok true)).
Proof.
  split_and!.
  - intros e He Hwf. rewrite event_eq_sub by done. by rewrite eq_spec_refl.
  - intros e o He Ho H. by apply (symmetry (R := event_equiv)).
  - intros e1 e2 e3 H1 H2 H3 H H'.
    by apply (transitivity (R := event_equiv) (y := e2)).
Qed.

(** [!=] is the negation of [==]. *)
Lemma Event_ne_spec e o r :
  event_eq e o = Some r -> Event_ne e o = Some (negb <$> r).
Proof. unfold Event_ne. by intros ->. Qed.

(** ** Hashing *)

Lemma py_hash_Ok v h : py_hash v = Ok h -> h = HScalar v /\ hashable v = true.
Proof. unfold py_hash. destruct (hashable v); naive_solver. Qed.

Lemma py_hash_tuple_Ok l h :
  py_hash_tuple l = Ok h -> h = HTuple l /\ forallb hashable l = true.
Proof. unfold py_hash_tuple. destruct (forallb hashable l); naive_solver. Qed.

Lemma py_hash_hashable v : hashable v = true -> py_hash v = Ok (HScalar v).
Proof. unfold py_hash. by intros ->. Qed.

Lemma py_hash_tuple_hashable l :
  forallb hashable l = true -> py_hash_tuple l = Ok (HTuple l).
Proof. unfold py_hash_tuple. by intros ->. Qed.

(** Unfold the hash of an event and name what it hashed. *)
Ltac hash_inv :=
  unfold UserUttered_hash, BotUttered_hash, SlotSet_hash, Restarted_hash,
    UserUtteranceReverted_hash, AllSlotsReset_hash, ReminderScheduled_hash,
    ReminderCancelled_hash, ActionReverted_hash, StoryExported_hash,
    FollowupAction_hash, ConversationPaused_hash, ConversationResumed_hash,
    ActionExecuted_hash, AgentUttered_hash, Form_hash, FormValidation_hash,
    ActionExecutionRejected_hash in *;
  repeat match goal with
  | H : Some _ = Some _ |- _ => injection H as H
  | H : py_hash _ = Ok _ |- _ => apply py_hash_Ok in H as [-> _]
  | H : py_hash_tuple _ = Ok _ |- _ => apply py_hash_tuple_Ok in H as [-> _]
  end.

(** C17: for every class other than [UserUttered], [SlotSet],
    [ReminderScheduled], [ReminderCancelled] and [FormValidation], equal
    events hash alike: [__hash__] hashes what [__eq__] compares. *)
Theorem hash_consistent e o h h' :
  hash_consistent_class (class_of e) = true ->
  event_eq e o = Some (Ok true) ->
  event_hash e = Some (Ok h) -> event_hash o = Some (Ok h') ->
  hkey_eq h h' = true.
Proof.
  intros Hc (_ & Hco & Heq)%event_eq_true_sub.
  destruct e; try done; destruct o; try done; simpl; intros Hh Hh';
    unfold eq_spec in Heq; simpl in Heq.
  all: try (hash_inv; subst; try injection Heq as Heq; simpl in *;
            by rewrite ?andb_true_r in * ).
  unfold BotUttered_hash in *.
  destruct (BotUttered_members text data b),
    (BotUttered_members text0 data0 b0); try done.
  simpl in *. hash_inv. by injection Heq as Heq.
Qed.

(** C12: [ReminderScheduled], [ReminderCancelled] and [FormValidation]
    break the contract between [__eq__] and [__hash__]: two reminders
    with the same name and different actions are equal, and so are any
    two [ReminderCancelled] and any two [FormValidation], but their
    hashes are taken of values that differ. *)
Theorem hash_inconsistent a a' t kill name v v' b b' :
  val_wf name = true ->
  forallb hashable [a; a'; kill; name; v; v'] = true ->
  py_eq a a' = false -> py_eq v v' = false ->
  Forall (fun p : Event * Event =>
    event_eq p.1 p.2 = Some (Ok true) /\
    exists h h', event_hash p.1 = Some (Ok h) /\ event_hash p.2 = Some (Ok h') /\
                 hkey_eq h h' = false)
    [(ReminderScheduled a t kill name b, ReminderScheduled a' t kill name b');
     (ReminderCancelled a b, ReminderCancelled a' b');
     (FormValidation v b, FormValidation v' b')].
Proof.
  intros Hn Hh Ha Hv. simpl in Hh. rewrite !andb_true_iff in Hh. destruct_and?.
  repeat apply Forall_cons_2; [..|done]; simpl.
  - split; [by rewrite py_eq_refl|].
    unfold ReminderScheduled_hash.
    rewrite !py_hash_tuple_hashable
      by (simpl; repeat (apply andb_true_iff; split); done).
    eexists _, _. split_and!; [done..|]. simpl. by rewrite Ha.
  - split; [done|]. unfold ReminderCancelled_hash. rewrite !py_hash_hashable by done.
    by eexists _, _.
  - split; [done|]. unfold FormValidation_hash. rewrite !py_hash_hashable by done.
    by eexists _, _.
Qed.

(** [SlotSet] compares values with [==] and hashes their encoding:
    values that [==] identifies and the pickler tells apart, as [1] and
    [True], give equal events with different hashes. *)
Lemma SlotSet_hash_inconsistent key v v' b b' :
  val_wf key = true -> hashable key = true ->
  py_eq v v' = true -> jp_encode v ≠ jp_encode v' ->
  event_eq (SlotSet key v b) (SlotSet key v' b') = Some (Ok true) /\
  exists h h', event_hash (SlotSet key v b) = Some (Ok h) /\
               event_hash (SlotSet key v' b') = Some (Ok h') /\
               hkey_eq h h' = false.
Proof.
  intros Hk Hh Hv Hne. simpl. rewrite py_eq_refl, Hv by done. split; [done|].
  unfold SlotSet_hash. rewrite !py_hash_tuple_hashable by (simpl; by rewrite Hh).
  eexists _, _. split_and!; [done..|]. simpl.
  rewrite py_eq_refl by done. by rewrite bool_decide_eq_false_2.
Qed.

(** Two [ActionExecuted] events with the same action name are
    equal and hash the same value, whatever their policy, confidence and
    timestamp; two [SlotSet] events for the same slot with values that
    differ are not equal. *)
Theorem identity_fidelity a p c u b p' c' u' b' key v v' b1 b2 :
  val_wf a = true ->
  event_eq (ActionExecuted a p c u b) (ActionExecuted a p' c' u' b') = Some (Ok true) /\
  event_hash (ActionExecuted a p c u b) = event_hash (ActionExecuted a p' c' u' b') /\
  (py_eq v v' = false ->
   event_eq (SlotSet key v b1) (SlotSet key v' b2) = Some (Ok false)).
Proof.
  intros Ha. simpl. rewrite py_eq_refl by done. split_and!; [done..|].
  intros ->. by rewrite andb_false_r.
Qed.

(** ** Errors of the comparison *)

Lemma UserUttered_eq_key_raises text intent entities x :
  UserUttered_eq_key text intent entities = Raise x ->
  x = AttributeError "get" \/ x = TypeError.
Proof.
  unfold UserUttered_eq_key.
  destruct intent; simpl; try (intros [= <-]; by left).
  destruct entities; simpl; intros [= <-]; by right.
Qed.

Lemma BotUttered_members_raises text data b x :
  BotUttered_members text data b = Raise x -> x = AttributeError "items".
Proof.
  unfold BotUttered_members.
  destruct data; simpl; try (by intros [= <-]).
  destruct (metadata b); simpl; by intros [= <-].
Qed.

Lemma bind2_raises {A} (m m' : result exn A) (f : A -> A -> bool) x :
  (k ← m; k' ← m'; mret (f k k')) = Raise x -> m = Raise x \/ m' = Raise x.
Proof. destruct m, m'; simpl; intros [= <-]; auto. Qed.

(** C33: a comparison raises only between two [UserUttered] events or
    two [BotUttered] events, and only because an intent has no [get], the
    entities cannot be iterated, or the data or metadata of a bot message
    is not a dictionary. *)
Theorem event_eq_raises e o x :
  event_eq e o = Some (Raise x) ->
  class_of o = class_of e /\
  (class_of e = CUserUttered \/ class_of e = CBotUttered) /\
  x ∈ [AttributeError "get"; TypeError; AttributeError "items"].
Proof.
  destruct e; try (rewrite event_eq_bare; by destruct o);
    destruct o; try done; simpl; intros [= H]; (split; [done|]).
  - split; [by left|]. rewrite !elem_of_cons.
    apply bind2_raises in H as [H|H];
      apply UserUttered_eq_key_raises in H as [->| ->]; auto.
  - split; [by right|]. rewrite !elem_of_cons.
    apply bind2_raises in H as [H|H];
      apply BotUttered_members_raises in H as ->; auto.
Qed.

End identity_theory.

(** ** The theorems at concrete events *)

Lemma hash_consistent_witness :
  hkey_eq (HScalar (PStr "action_listen")) (HScalar (PStr "action_listen")) = true.
Proof.
  apply (hash_consistent (DT := string_datetime)
           (ActionExecuted (PStr "action_listen") (Some (PStr "policy_1")) (Some (PInt 1))
              false {| timestamp := PInt 1; _metadata := Some (PDict []) |})
           (ActionExecuted (PStr "action_listen") (Some PNone) (Some PNone)
              false {| timestamp := PInt 2; _metadata := Some (PDict []) |}));
    reflexivity.
Defined.

Lemma hash_inconsistent_witness :
  let b := {| timestamp := PInt 1; _metadata := Some (PDict []) |} in
  Forall (fun p : Event * Event =>
    event_eq p.1 p.2 = Some (Ok true) /\
    exists h h', event_hash p.1 = Some (Ok h) /\ event_hash p.2 = Some (Ok h') /\
                 hkey_eq h h' = false)
    [(ReminderScheduled (DT := string_datetime) (PStr "ping") "2020-01-01" (PBool true)
        (PStr "wake") b,
      ReminderScheduled (PStr "pong") "2020-01-01" (PBool true) (PStr "wake") b);
     (ReminderCancelled (PStr "ping") b, ReminderCancelled (PStr "pong") b);
     (FormValidation (PBool true) b, FormValidation (PBool false) b)].
Proof.
  by apply (hash_inconsistent (DT := string_datetime) (PStr "ping") (PStr "pong")
              "2020-01-01" (PBool true) (PStr "wake") (PBool true) (PBool false)).
Defined.

Lemma identity_fidelity_witness :
  let b := {| timestamp := PInt 1; _metadata := Some (PDict []) |} in
  let b' := {| timestamp := PInt 2; _metadata := Some (PDict []) |} in
  event_eq (DT := string_datetime)
    (ActionExecuted (PStr "action_listen") (Some (PStr "policy_1")) (Some (PInt 1)) false b)
    (ActionExecuted (PStr "action_listen") (Some PNone) (Some PNone) false b') =
    Some (Ok true) /\
  event_hash (DT := string_datetime)
    (ActionExecuted (PStr "action_listen") (Some (PStr "policy_1")) (Some (PInt 1)) false b) =
  event_hash
    (ActionExecuted (PStr "action_listen") (Some PNone) (Some PNone) false b') /\
  (py_eq (PInt 1) (PInt 2) = false ->
   event_eq (DT := string_datetime) (SlotSet (PStr "x") (PInt 1) b)
     (SlotSet (PStr "x") (PInt 2) b') = Some (Ok false)).
Proof.
  by apply (identity_fidelity (DT := string_datetime) (PStr "action_listen")).
Defined.

Lemma event_eq_raises_witness :
  let b := {| timestamp := PInt 1; _metadata := Some (PDict []) |} in
  let e := UserUttered (DT := string_datetime) (PStr "hi") (PStr "greet") (PList [])
             (Some PNone) (Some PNone) (PDict [("intent", PStr "greet")]) b in
  class_of e = class_of e /\
  (class_of e = CUserUttered \/ class_of e = CBotUttered) /\
  AttributeError "get" ∈ [AttributeError "get"; TypeError; AttributeError "items"].
Proof.
  by apply (event_eq_raises (DT := string_datetime)
              (UserUttered (PStr "hi") (PStr "greet") (PList []) (Some PNone) (Some PNone)
                 (PDict [("intent", PStr "greet")])
                 {| timestamp := PInt 1; _metadata := Some (PDict []) |})).
Defined.

(** [SlotSet("x", 1)] and [SlotSet("x", True)] are equal and hash
    different values. *)
Example SlotSet_one_true :
  let b := {| timestamp := PInt 1; _metadata := Some (PDict []) |} in
  event_eq (DT := string_datetime) (SlotSet (PStr "x") (PInt 1) b)
    (SlotSet (PStr "x") (PBool true) b) = Some (Ok true) /\
  event_hash (DT := string_datetime) (SlotSet (PStr "x") (PInt 1) b) =
    Some (Ok (HTuple [PStr "x"; PStr "1"])) /\
  event_hash (DT := string_datetime) (SlotSet (PStr "x") (PBool true) b) =
    Some (Ok (HTuple [PStr "x"; PStr "true"])).
Proof. by vm_compute. Qed.
