(* ===== verification/HashNum.v ===== *)
(** * HashNum: the numbers that [hash] returns for integers

    Seven classes hash a constant: [Restarted.__hash__] is
    [hash(32143124312)], and so on for [ConversationPaused],
    [ConversationResumed], [UserUtteranceReverted], [AllSlotsReset],
    [ActionReverted] and [StoryExported].  The constants need 35 bits.

    CPython hashes an integer by reducing its magnitude modulo the
    Mersenne prime [sys.hash_info.modulus], which is [2^61 - 1] on
    64-bit builds and [2^31 - 1] on 32-bit builds, keeps the sign, and
    returns [-2] in place of [-1].  [int_hash] is that function and
    [hash_number] its application to the value an event hashes; the
    hash of a string depends on the seed of the process and is not
    modelled.

    The theorems bound [int_hash], and show that the seven constants are
    their own hash on a 64-bit build, are reduced on a 32-bit build, and
    stay pairwise distinct on both. *)

From S2P Require Import Prelude PyDict PyValue Runtime Events Identity.

Local Open Scope Z_scope.

(** [sys.hash_info.modulus] for a word of 64 or of 32 bits. *)
Definition hash_modulus (width : Z) : Z :=
  if decide (width = 64) then 2 ^ 61 - 1 else 2 ^ 31 - 1.

(** [hash(z)] for an integer [z] under the modulus [P]. *)
Definition int_hash (P z : Z) : Z :=
  let h := Z.sgn z * (Z.abs z mod P) in
  if decide (h = -1) then -2 else h.

(** The number [hash] returns for a key, where the key is an integer
    or a boolean, which is an integer. *)
Definition hash_number (P : Z) (k : hkey) : option Z :=
  match k with
  | HScalar (PInt z) => Some (int_hash P z)
  | HScalar (PBool b) => Some (int_hash P (Z.b2z b))
  | _ => None
  end.

Section hash_number.
Context {DT : DateTimeLib} {JP : Pickler}.

(** [hash(e)] as a number. *)
Definition event_hash_number (P : Z) (e : Event) : option Z :=
  match event_hash e with
  | Some (Ok k) => hash_number P k
  | _ => None
  end.

(** The classes that hash a constant. *)
Definition constant_hash_class (c : EventClass) : bool :=
  match c with
  | CRestarted | CUserUtteranceReverted | CAllSlotsReset | CActionReverted
  | CStoryExported | CConversationPaused | CConversationResumed => true
  | _ => false
  end.

(** The constant such a class hashes. *)
Definition hash_constant (c : EventClass) : Z :=
  match c with
  | CRestarted => 32143124312
  | CConversationPaused => 32143124313
  | CConversationResumed => 32143124314
  | CUserUtteranceReverted => 32143124315
  | CAllSlotsReset => 32143124316
  | CActionReverted => 32143124318
  | CStoryExported => 32143124319
  | _ => 0
  end.

(** ** Bounds *)

(** The hash of an integer fits the word: its magnitude is below the
    modulus. *)
Lemma int_hash_bounds P z : 2 < P -> - P < int_hash P z < P.
Proof.
  intros HP. unfold int_hash. pose proof (Z.mod_pos_bound (Z.abs z) P).
  destruct (Z.sgn_spec z) as [[? ->]|[[? ->]|[? ->]]]; case_decide; lia.
Qed.

(** A natural number below the modulus is its own hash. *)
Lemma int_hash_small P z : 0 <= z < P -> int_hash P z = z.
Proof.
  intros Hz. unfold int_hash. rewrite Z.abs_eq, Z.mod_small by lia.
  destruct (Z.sgn_spec z) as [[? ->]|[[? ->]|[? ->]]]; case_decide; lia.
Qed.

(** Integers congruent modulo [P] and of the same sign collide. *)
Lemma int_hash_mod P z : 0 < P -> 0 <= z -> int_hash P (z + P) = int_hash P z.
Proof.
  intros HP Hz. unfold int_hash.
  rewrite !Z.abs_eq by lia.
  replace (z + P) with (z + 1 * P) by lia. rewrite Z.mod_add by lia.
  destruct (decide (z = 0)) as [->|]; [|by rewrite !Z.sgn_pos by lia].
  rewrite Z.mod_0_l by lia. by rewrite !Z.mul_0_r.
Qed.

(** ** The constants *)

(** The key of a class that hashes a constant is that constant. *)
Lemma constant_hash_key e :
  constant_hash_class (class_of e) = true ->
  event_hash e = Some (Ok (HScalar (PInt (hash_constant (class_of e))))).
Proof. by destruct e. Qed.

(** The constants need more than 31 bits and fewer than 61. *)
Lemma hash_constant_bounds c :
  constant_hash_class c = true -> 2 ^ 31 <= hash_constant c < 2 ^ 61 - 1.
Proof. destruct c; try done; intros _; simpl; lia. Qed.

(** They stay distinct when they are reduced. *)
Lemma hash_constant_inj width c c' :
  constant_hash_class c = true -> constant_hash_class c' = true ->
  int_hash (hash_modulus width) (hash_constant c) =
  int_hash (hash_modulus width) (hash_constant c') -> c = c'.
Proof.
  intros Hc Hc' H.
  destruct c; try discriminate Hc; destruct c'; try discriminate Hc';
    try reflexivity; unfold hash_modulus in H; case_decide;
    vm_compute in H; discriminate H.
Qed.

Lemma event_hash_number_constant P e :
  constant_hash_class (class_of e) = true ->
  event_hash_number P e = Some (int_hash P (hash_constant (class_of e))).
Proof. intros He. unfold event_hash_number. by rewrite constant_hash_key. Qed.

(** C39: for the seven classes that hash a constant, the number
    [hash] returns is the constant itself on a 64-bit build, where
    nothing is reduced, and a different number below [2^31] on a 32-bit
    build, where the constant does not fit; on both builds two such
    events have the same hash exactly when they are of the same class. *)
Theorem constant_hash_numbers e e' :
  constant_hash_class (class_of e) = true ->
  constant_hash_class (class_of e') = true ->
  (exists n h32,
     event_hash e = Some (Ok (HScalar (PInt n))) /\
     event_hash_number (hash_modulus 64) e = Some n /\
     event_hash_number (hash_modulus 32) e = Some h32 /\
     h32 ≠ n /\ 0 <= h32 < 2 ^ 31) /\
  (forall width,
     event_hash_number (hash_modulus width) e =
     event_hash_number (hash_modulus width) e' <->
     class_of e = class_of e').
Proof.
  intros He He'. split.
  - exists (hash_constant (class_of e)),
      (int_hash (hash_modulus 32) (hash_constant (class_of e))).
    rewrite !event_hash_number_constant, constant_hash_key by done.
    pose proof (hash_constant_bounds _ He).
    pose proof (int_hash_bounds (hash_modulus 32) (hash_constant (class_of e)) eq_refl).
    repeat split.
    + apply f_equal, int_hash_small. change (hash_modulus 64) with (2 ^ 61 - 1). lia.
    + destruct (class_of e); try discriminate He; by vm_compute.
    + destruct (class_of e); try discriminate He; by vm_compute.
    + change (hash_modulus 32) with (2 ^ 31 - 1) in *. lia.
  - intros width. rewrite !event_hash_number_constant by done.
    split; [intros [= H]; eauto using hash_constant_inj|by intros ->].
Qed.

End hash_number.

(** ** The theorems at concrete events *)

Lemma constant_hash_numbers_witness :
  let b := {| timestamp := PInt 1; _metadata := Some (PDict []) |} in
  let e := Restarted (DT := string_datetime) b in
  let e' := StoryExported (DT := string_datetime) (PStr "stories.md") b in
  (exists n h32,
     event_hash e = Some (Ok (HScalar (PInt n))) /\
     event_hash_number (hash_modulus 64) e = Some n /\
     event_hash_number (hash_modulus 32) e = Some h32 /\
     h32 ≠ n /\ 0 <= h32 < 2 ^ 31) /\
  (forall width,
     event_hash_number (hash_modulus width) e =
     event_hash_number (hash_modulus width) e' <->
     class_of e = class_of e').
Proof.
  intros b e e'.
  exact (constant_hash_numbers (DT := string_datetime) e e' eq_refl eq_refl).
Defined.

Example Restarted_hash_32 :
  int_hash (hash_modulus 32) 32143124312 = 2078353254.
Proof. reflexivity. Qed.
