(* ===== verification/Apply.v ===== *)
(** * Apply: what an event does to the tracker

    [apply_to] is the one method through which an event acts: it calls
    methods of the [DialogueStateTracker] it is given, or assigns to its
    attributes.  The tracker is not part of the module: it is the class
    [TrackerOps], one operation per method or attribute the events use.
    An operation returns the new tracker or raises, and an exception
    ends [apply_to] where it is raised.

    [X_apply_to] is [X.apply_to]; [apply_to] dispatches on the class of
    the event; [apply_all] applies the events of a list one after the
    other, as a replay does.

    The specification is [calls]: the sequence of tracker calls of each
    event.  [apply_to_run] says that [apply_to] on any tracker is the run
    of that sequence, and [apply_all_calls] the same of a replay; on the
    tracker that records its calls ([trace_tracker]) a replay therefore
    returns the sequence itself. *)

From S2P Require Import Prelude PyDict PyValue Runtime Events.

(** [rasa.core.actions.action.ACTION_LISTEN_NAME]. *)
Definition ACTION_LISTEN_NAME : pyval := PStr "action_listen".

Section apply.
Context {DT : DateTimeLib}.

(** ** The tracker as the events use it *)

Class TrackerOps (T : Type) := {
  set_latest_message : Event -> T -> result exn T;
  clear_followup_action : T -> result exn T;
  set_latest_bot_utterance : Event -> T -> result exn T;
  set_slot : pyval -> pyval -> T -> result exn T;
  reset : T -> result exn T;
  trigger_followup_action : pyval -> T -> result exn T;
  replay_events : T -> result exn T;
  reset_slots : T -> result exn T;
  export_stories_to_file : pyval -> T -> result exn T;
  set_paused : bool -> T -> result exn T;
  set_latest_action_name : pyval -> T -> result exn T;
  change_form_to : pyval -> T -> result exn T;
  set_form_validation : pyval -> T -> result exn T;
  reject_action : pyval -> T -> result exn T;
}.

(** One call of the tracker. *)
Inductive TrackerCall :=
| Call_set_latest_message (e : Event)
| Call_clear_followup_action
| Call_set_latest_bot_utterance (e : Event)
| Call_set_slot (key value : pyval)
| Call_reset
| Call_trigger_followup_action (name : pyval)
| Call_replay_events
| Call_reset_slots
| Call_export_stories_to_file (path : pyval)
| Call_set_paused (b : bool)
| Call_set_latest_action_name (name : pyval)
| Call_change_form_to (name : pyval)
| Call_set_form_validation (validate : pyval)
| Call_reject_action (name : pyval).

#[export] Instance TrackerCall_eq_dec : EqDecision TrackerCall.
Proof. solve_decision. Defined.

(** The tracker that records the calls made on it. *)
#[export] Instance trace_tracker : TrackerOps (list TrackerCall) := {|
  set_latest_message e t := Ok (t ++ [Call_set_latest_message e]);
  clear_followup_action t := Ok (t ++ [Call_clear_followup_action]);
  set_latest_bot_utterance e t := Ok (t ++ [Call_set_latest_bot_utterance e]);
  set_slot k v t := Ok (t ++ [Call_set_slot k v]);
  reset t := Ok (t ++ [Call_reset]);
  trigger_followup_action n t := Ok (t ++ [Call_trigger_followup_action n]);
  replay_events t := Ok (t ++ [Call_replay_events]);
  reset_slots t := Ok (t ++ [Call_reset_slots]);
  export_stories_to_file p t := Ok (t ++ [Call_export_stories_to_file p]);
  set_paused b t := Ok (t ++ [Call_set_paused b]);
  set_latest_action_name n t := Ok (t ++ [Call_set_latest_action_name n]);
  change_form_to n t := Ok (t ++ [Call_change_form_to n]);
  set_form_validation v t := Ok (t ++ [Call_set_form_validation v]);
  reject_action n t := Ok (t ++ [Call_reject_action n]);
|}.

Section methods.
Context {T : Type} {TO : TrackerOps T}.

(** ** The methods of each class *)

(** [Event.apply_to]: [pass].  [ReminderScheduled], [ReminderCancelled]
    inherit it. *)
Definition Event_apply_to (tracker : T) : result exn T := Ok tracker.

Definition UserUttered_apply_to (self : Event) (tracker : T) : result exn T :=
  tracker ← set_latest_message self tracker;
  clear_followup_action tracker.

Definition BotUttered_apply_to (self : Event) (tracker : T) : result exn T :=
  set_latest_bot_utterance self tracker.

Definition SlotSet_apply_to (key value : pyval) (tracker : T) : result exn T :=
  set_slot key value tracker.

Definition Restarted_apply_to (tracker : T) : result exn T :=
  tracker ← reset tracker;
  trigger_followup_action ACTION_LISTEN_NAME tracker.

Definition UserUtteranceReverted_apply_to (tracker : T) : result exn T :=
  tracker ← reset tracker;
  replay_events tracker.

Definition AllSlotsReset_apply_to (tracker : T) : result exn T :=
  reset_slots tracker.

Definition ActionReverted_apply_to (tracker : T) : result exn T :=
  tracker ← reset tracker;
  replay_events tracker.

Definition StoryExported_apply_to (path : pyval) (tracker : T) : result exn T :=
  if truthy path then export_stories_to_file path tracker else Ok tracker.

Definition FollowupAction_apply_to (action_name : pyval) (tracker : T) : result exn T :=
  trigger_followup_action action_name tracker.

Definition ConversationPaused_apply_to (tracker : T) : result exn T :=
  set_paused true tracker.

Definition ConversationResumed_apply_to (tracker : T) : result exn T :=
  set_paused false tracker.

Definition ActionExecuted_apply_to (action_name : pyval) (tracker : T) : result exn T :=
  tracker ← set_latest_action_name action_name tracker;
  clear_followup_action tracker.

Definition AgentUttered_apply_to (tracker : T) : result exn T := Ok tracker.

Definition Form_apply_to (name : pyval) (tracker : T) : result exn T :=
  change_form_to name tracker.

Definition FormValidation_apply_to (validate : pyval) (tracker : T) : result exn T :=
  set_form_validation validate tracker.

Definition ActionExecutionRejected_apply_to (action_name : pyval) (tracker : T)
    : result exn T :=
  reject_action action_name tracker.

(** [e.apply_to(tracker)]. *)
Definition apply_to (e : Event) (tracker : T) : result exn T :=
  match e with
  | BareEvent _ => Event_apply_to tracker
  | UserUttered _ _ _ _ _ _ _ => UserUttered_apply_to e tracker
  | BotUttered _ _ _ => BotUttered_apply_to e tracker
  | SlotSet key value _ => SlotSet_apply_to key value tracker
  | Restarted _ => Restarted_apply_to tracker
  | UserUtteranceReverted _ => UserUtteranceReverted_apply_to tracker
  | AllSlotsReset _ => AllSlotsReset_apply_to tracker
  | ReminderScheduled _ _ _ _ _ => Event_apply_to tracker
  | ReminderCancelled _ _ => Event_apply_to tracker
  | ActionReverted _ => ActionReverted_apply_to tracker
  | StoryExported path _ => StoryExported_apply_to path tracker
  | FollowupAction a _ => FollowupAction_apply_to a tracker
  | ConversationPaused _ => ConversationPaused_apply_to tracker
  | ConversationResumed _ => ConversationResumed_apply_to tracker
  | ActionExecuted a _ _ _ _ => ActionExecuted_apply_to a tracker
  | AgentUttered _ _ _ => AgentUttered_apply_to tracker
  | Form name _ => Form_apply_to name tracker
  | FormValidation v _ => FormValidation_apply_to v tracker
  | ActionExecutionRejected a _ _ _ => ActionExecutionRejected_apply_to a tracker
  end.

(** The events of a list, applied in order; the first exception ends
    the replay. *)
Fixpoint apply_all (es : list Event) (tracker : T) : result exn T :=
  match es with
  | [] => Ok tracker
  | e :: es' => tracker ← apply_to e tracker; apply_all es' tracker
  end.

(** ** Specification: the calls of each event *)

Definition run_call (c : TrackerCall) (tracker : T) : result exn T :=
  match c with
  | Call_set_latest_message e => set_latest_message e tracker
  | Call_clear_followup_action => clear_followup_action tracker
  | Call_set_latest_bot_utterance e => set_latest_bot_utterance e tracker
  | Call_set_slot k v => set_slot k v tracker
  | Call_reset => reset tracker
  | Call_trigger_followup_action n => trigger_followup_action n tracker
  | Call_replay_events => replay_events tracker
  | Call_reset_slots => reset_slots tracker
  | Call_export_stories_to_file p => export_stories_to_file p tracker
  | Call_set_paused b => set_paused b tracker
  | Call_set_latest_action_name n => set_latest_action_name n tracker
  | Call_change_form_to n => change_form_to n tracker
  | Call_set_form_validation v => set_form_validation v tracker
  | Call_reject_action n => reject_action n tracker
  end.

Fixpoint run_calls (cs : list TrackerCall) (tracker : T) : result exn T :=
  match cs with
  | [] => Ok tracker
  | c :: cs' => tracker ← run_call c tracker; run_calls cs' tracker
  end.

End methods.

(** The calls an event makes, in their order. *)
Definition calls (e : Event) : list TrackerCall :=
  match e with
  | UserUttered _ _ _ _ _ _ _ => [Call_set_latest_message e; Call_clear_followup_action]
  | BotUttered _ _ _ => [Call_set_latest_bot_utterance e]
  | SlotSet key value _ => [Call_set_slot key value]
  | Restarted _ => [Call_reset; Call_trigger_followup_action ACTION_LISTEN_NAME]
  | UserUtteranceReverted _ | ActionReverted _ => [Call_reset; Call_replay_events]
  | AllSlotsReset _ => [Call_reset_slots]
  | StoryExported path _ => if truthy path then [Call_export_stories_to_file path] else []
  | FollowupAction a _ => [Call_trigger_followup_action a]
  | ConversationPaused _ => [Call_set_paused true]
  | ConversationResumed _ => [Call_set_paused false]
  | ActionExecuted a _ _ _ _ => [Call_set_latest_action_name a; Call_clear_followup_action]
  | Form name _ => [Call_change_form_to name]
  | FormValidation v _ => [Call_set_form_validation v]
  | ActionExecutionRejected a _ _ _ => [Call_reject_action a]
  | BareEvent _ | ReminderScheduled _ _ _ _ _ | ReminderCancelled _ _
  | AgentUttered _ _ _ => []
  end.

End apply.

Section apply_theory.
Context {DT : DateTimeLib}.

(** ** Runs of calls *)

Section runs.
Context {T : Type} {TO : TrackerOps T}.

Lemma run_calls_app cs cs' (t : T) :
  run_calls (cs ++ cs') t = (t' ← run_calls cs t; run_calls cs' t').
Proof.
  revert t. induction cs as [|c cs IH]; intros t; simpl; [done|].
  destruct (run_call c t); simpl; auto.
Qed.

Lemma run_calls_1 c (t : T) : run_calls [c] t = run_call c t.
Proof. simpl. by destruct (run_call c t). Qed.

Lemma run_calls_2 c c' (t : T) :
  run_calls [c; c'] t = (t' ← run_call c t; run_call c' t').
Proof. simpl. destruct (run_call c t) as [t'|]; simpl; [|done]. apply run_calls_1. Qed.

(** The method of every class is the run of the calls of the event. *)
Lemma apply_to_run e (t : T) : apply_to e t = run_calls (calls e) t.
Proof.
  destruct e; try done; unfold apply_to, calls;
    rewrite ?run_calls_1, ?run_calls_2; try done.
  unfold StoryExported_apply_to. destruct (truthy path); [|done].
  by rewrite run_calls_1.
Qed.

Lemma apply_all_run es (t : T) :
  apply_all es t = run_calls (concat (calls <$> es)) t.
Proof.
  revert t. induction es as [|e es IH]; intros t; [done|].
  rewrite fmap_cons, concat_cons, run_calls_app. simpl.
  rewrite apply_to_run. destruct (run_calls (calls e) t); simpl; auto.
Qed.

End runs.

(** On the recording tracker a run appends its calls. *)
Lemma run_calls_trace cs (t : list TrackerCall) : run_calls cs t = Ok (t ++ cs).
Proof.
  revert t. induction cs as [|c cs IH]; intros t; simpl.
  - by rewrite app_nil_r.
  - destruct c; simpl; by rewrite IH, <- app_assoc.
Qed.

Lemma apply_all_app es es' (t : list TrackerCall) :
  apply_all (es ++ es') t = (t' ← apply_all es t; apply_all es' t').
Proof.
  revert t. induction es as [|e es IH]; intros t; simpl; [done|].
  destruct (apply_to e t); simpl; auto.
Qed.

(** C34: replaying a list of events on any tracker makes the calls of
    the events, in the order of the events and, within an event, in the
    order of [calls]; the first call that raises ends the replay with
    its exception. *)
Theorem apply_all_calls {T} {TO : TrackerOps T} es (t : T) :
  apply_all es t = run_calls (concat (calls <$> es)) t.
Proof. apply apply_all_run. Qed.

(** On the tracker that records its calls, a replay never raises
    and appends exactly the calls of the events; a [UserUttered] sets the
    latest message before it clears the follow-up action. *)
Theorem apply_all_trace es (t : list TrackerCall) :
  apply_all es t = Ok (t ++ concat (calls <$> es)) /\
  (forall e, class_of e = CUserUttered ->
     apply_to e t = Ok (t ++ [Call_set_latest_message e; Call_clear_followup_action])).
Proof.
  split; [by rewrite apply_all_run, run_calls_trace|].
  intros e He. rewrite apply_to_run, run_calls_trace. by destruct e.
Qed.

(** An event makes no call exactly when it is an instance of the base
    class, a [ReminderScheduled], a [ReminderCancelled], an
    [AgentUttered] or a [StoryExported] without a path. *)
Lemma calls_nil e :
  calls e = [] <->
  match e with
  | BareEvent _ | ReminderScheduled _ _ _ _ _ | ReminderCancelled _ _
  | AgentUttered _ _ _ => True
  | StoryExported path _ => truthy path = false
  | _ => False
  end.
Proof. destruct e; simpl; try (by split). destruct (truthy path); by split. Qed.

(** An event makes two calls at most. *)
Lemma calls_length e :
  length (calls e) <= 2 /\
  (length (calls e) = 2 <->
   class_of e ∈ [CUserUttered; CRestarted; CUserUtteranceReverted; CActionReverted;
                 CActionExecuted]).
Proof.
  rewrite !elem_of_cons, elem_of_nil.
  destruct e; simpl; try destruct (truthy path); simpl;
    (split; [lia|split; [try done; auto 6|intros; by intuition]]).
Qed.

(** C35: how many calls an event makes.  On the tracker that records
    its calls, [apply_to] leaves the record as it is exactly for an
    instance of the base class, a [ReminderScheduled], a
    [ReminderCancelled], an [AgentUttered] and a [StoryExported] without
    a path, and these leave every tracker as it is; every event makes
    two calls at most, and two exactly when it is a [UserUttered], a
    [Restarted], a [UserUtteranceReverted], an [ActionReverted] or an
    [ActionExecuted]. *)
Theorem apply_to_silent e (t : list TrackerCall) :
  let silent :=
    match e with
    | BareEvent _ | ReminderScheduled _ _ _ _ _ | ReminderCancelled _ _
    | AgentUttered _ _ _ => True
    | StoryExported path _ => truthy path = false
    | _ => False
    end in
  (apply_to e t = Ok t <-> silent) /\
  (silent -> forall T (TO : TrackerOps T) (t' : T), apply_to e t' = Ok t') /\
  (exists cs, apply_to e t = Ok (t ++ cs) /\ length cs <= 2 /\
     (length cs = 2 <->
      class_of e ∈ [CUserUttered; CRestarted; CUserUtteranceReverted;
                    CActionReverted; CActionExecuted])).
Proof.
  intros silent. subst silent. rewrite <- calls_nil. split_and!.
  - rewrite apply_to_run, run_calls_trace. split; [|by intros ->; rewrite app_nil_r].
    intros [= H]. by apply (app_inv_head t); rewrite app_nil_r.
  - intros He T TO t'. by rewrite apply_to_run, He.
  - exists (calls e). rewrite apply_to_run, run_calls_trace. split; [done|apply calls_length].
Qed.

(** A call that raises ends the run: the calls after it are not made. *)
Lemma run_calls_raise {T} {TO : TrackerOps T} cs c cs' (t t' : T) x :
  run_calls cs t = Ok t' -> run_call c t' = Raise x ->
  run_calls (cs ++ c :: cs') t = Raise x.
Proof. intros H Hc. rewrite run_calls_app, H. simpl. by rewrite Hc. Qed.

End apply_theory.

(** ** The theorems at concrete events *)

(** A cancelled reminder makes no call, a user message two. *)
Example apply_to_counts :
  let b := {| timestamp := PInt 1; _metadata := Some (PDict []) |} in
  apply_to (DT := string_datetime) (ReminderCancelled (PStr "ping") b)
    [Call_set_paused true] = Ok [Call_set_paused true] /\
  length (calls (DT := string_datetime)
            (UserUttered (PStr "hi") (PDict []) (PList []) None None (PDict []) b)) = 2.
Proof. by split. Qed.
