(* ===== verification/Message.v ===== *)
(** * Message: entities and the message of a bot utterance

    - [deserialise_entities]: the entities of a user message, given as a
      list or as its JSON text, with everything dropped that is not a
      dictionary.
    - [md_format_message]: the markdown form of a user message, through
      the markdown reader and writer ([MarkdownLib]).
    - [BotUttered_message]: the property [BotUttered.message], which
      merges the data, the text, the timestamp and the metadata of the
      event into one dictionary, and then sets [attachment] to [None]
      when it equals [image].

    [BotUttered_message] is [None] where the model ends: the metadata is
    not a dictionary, and [dict.update] would read it as a sequence of
    pairs.  [message_spec] says what each key of the message holds. *)

From S2P Require Import Prelude PyDict PyValue Runtime Events.

Section message.
Context {DT : DateTimeLib} {JL : JsonLib} {MD : MarkdownLib}.

(** [isinstance(v, dict)] and [isinstance(v, str)]. *)
Definition is_dict (v : pyval) : bool :=
  match v with PDict _ => true | _ => false end.

Definition deserialise_entities (entities : pyval) : result exn (list pyval) :=
  entities ← match entities with
             | PStr s => json_loads s
             | _ => Ok entities
             end;
  l ← py_iter entities;
  mret (List.filter is_dict l).

Definition md_format_message (text intent entities : pyval) : result exn pyval :=
  message_from_md ← md_parse_text text;
  deserialised_entities ← deserialise_entities entities;
  md_generate_message
    (dict_of_list [("text", message_from_md); ("intent", intent);
                   ("entities", PList deserialised_entities)]).

(** [BotUttered.message]. *)
Definition BotUttered_message (text data : pyval) (b : EventBase)
    : option (result exn (pydict pyval)) :=
  match data with
  | PDict d =>
      let m := d in
      let m := dict_set m "text" text in
      let m := dict_set m "timestamp" (timestamp b) in
      match metadata b with
      | PDict md =>
          let m := dict_update m md in
          Some (Ok (if py_eq (param m "image") (param m "attachment")
                    then dict_set m "attachment" PNone
                    else m))
      | _ => None
      end
  | PList _ => Some (Raise TypeError)
  | _ => Some (Raise (AttributeError "copy"))
  end.

(** ** Specification of the message *)

(** The merged dictionary before the attachment is looked at: the
    metadata wins over the text and the timestamp, which win over the
    data. *)
Definition merged (text : pyval) (d md : pydict pyval) (ts : pyval) (k : string)
    : option pyval :=
  match dict_get md k with
  | Some v => Some v
  | None =>
      if decide (k = "timestamp") then Some ts
      else if decide (k = "text") then Some text
      else dict_get d k
  end.

(** What the message holds under each key. *)
Definition message_spec (text : pyval) (d md : pydict pyval) (ts : pyval) (k : string)
    : option pyval :=
  let image := merged text d md ts "image" ?? PNone in
  let attachment := merged text d md ts "attachment" ?? PNone in
  if decide (k = "attachment") then
    if py_eq image attachment then Some PNone else merged text d md ts k
  else merged text d md ts k.

End message.

Section message_theory.
Context {DT : DateTimeLib} {JL : JsonLib} {MD : MarkdownLib}.

(** ** Entities *)

Lemma filter_is_dict_Forall l : Forall (fun e => is_dict e = true) (List.filter is_dict l).
Proof.
  apply Forall_forall. intros e He%list_elem_of_In. by apply filter_In in He as [_ ?].
Qed.

Lemma filter_is_dict_id l :
  Forall (fun e => is_dict e = true) l -> List.filter is_dict l = l.
Proof. induction 1 as [|e l He _ IH]; simpl; [done|]. by rewrite He, IH. Qed.

Lemma deserialise_entities_list l :
  deserialise_entities (PList l) = Ok (List.filter is_dict l).
Proof. reflexivity. Qed.

Lemma deserialise_entities_inv v l :
  deserialise_entities v = Ok l ->
  exists l0, l = List.filter is_dict l0.
Proof.
  unfold deserialise_entities.
  destruct (match v with PStr s => json_loads s | _ => Ok v end) as [v'|]; [|done].
  simpl. destruct (py_iter v') as [l0|]; [|done]. simpl. intros [= <-]. by exists l0.
Qed.

(** [deserialise_entities] returns dictionaries only, and applied
    to its own result it returns it unchanged. *)
Theorem deserialise_entities_spec v l :
  deserialise_entities v = Ok l ->
  Forall (fun e => is_dict e = true) l /\ deserialise_entities (PList l) = Ok l.
Proof.
  intros [l0 ->]%deserialise_entities_inv. split; [apply filter_is_dict_Forall|].
  rewrite deserialise_entities_list. f_equal.
  apply filter_is_dict_id, filter_is_dict_Forall.
Qed.

(** ** The message of a bot utterance *)

Lemma merged_get text d md ts k :
  dict_wf md ->
  dict_get (dict_update (dict_set (dict_set d "text" text) "timestamp" ts) md) k =
  merged text d md ts k.
Proof.
  intros Hmd. rewrite dict_get_update by done. unfold merged.
  destruct (dict_get md k); [done|]. rewrite !dict_get_set.
  repeat case_decide; congruence.
Qed.

Lemma merged_param text d md ts k :
  dict_wf md ->
  param (dict_update (dict_set (dict_set d "text" text) "timestamp" ts) md) k =
  merged text d md ts k ?? PNone.
Proof. intros Hmd. unfold param. by rewrite merged_get. Qed.

(** C37: [BotUttered.message] on an event whose data and metadata are
    dictionaries returns a dictionary that holds, under each key, the
    value of the metadata, else the timestamp and the text of the event,
    else the value of the data; except that [attachment] is [None] when
    it equals [image], also when neither is there.  The keys of the
    message are distinct. *)
Theorem BotUttered_message_spec text d b md :
  metadata b = PDict md -> dict_wf d -> dict_wf md ->
  exists m, BotUttered_message text (PDict d) b = Some (Ok m) /\
            dict_wf m /\
            forall k, dict_get m k = message_spec text d md (timestamp b) k.
Proof.
  intros Hb Hd Hmd. unfold BotUttered_message. rewrite Hb. cbv zeta.
  rewrite !merged_param by done. eexists. split; [done|]. unfold message_spec.
  destruct (py_eq _ _).
  - split; [auto using dict_set_wf, dict_update_wf|].
    intros k. rewrite dict_get_set, merged_get by done.
    by repeat case_decide.
  - split; [auto using dict_set_wf, dict_update_wf|].
    intros k. rewrite merged_get by done. by case_decide.
Qed.

(** Data that is not a dictionary makes the property raise. *)
Lemma BotUttered_message_raises text data b :
  is_dict data = false ->
  exists x, BotUttered_message text data b = Some (Raise x).
Proof. destruct data; try done; by eexists. Qed.

End message_theory.

(** ** The theorems at concrete values *)

Lemma deserialise_entities_spec_witness :
  Forall (fun e => is_dict e = true) [PDict [("entity", PStr "city")]] /\
  deserialise_entities (PList [PDict [("entity", PStr "city")]]) =
    Ok [PDict [("entity", PStr "city")]].
Proof.
  by apply (deserialise_entities_spec
              (PList [PStr "x"; PDict [("entity", PStr "city")]; PInt 3])).
Defined.

Lemma BotUttered_message_spec_witness :
  let b := {| timestamp := PInt 7; _metadata := Some (PDict [("text", PStr "meta")]) |} in
  exists m, BotUttered_message (PStr "hello") (PDict [("image", PStr "a.png")]) b =
              Some (Ok m) /\
            dict_wf m /\
            forall k, dict_get m k =
              message_spec (PStr "hello") [("image", PStr "a.png")]
                [("text", PStr "meta")] (PInt 7) k.
Proof.
  apply (BotUttered_message_spec (PStr "hello") [("image", PStr "a.png")]
           {| timestamp := PInt 7; _metadata := Some (PDict [("text", PStr "meta")]) |}
           [("text", PStr "meta")]); [done|compute_done..].
Defined.

(** A message without image and attachment gains the key [attachment],
    and a key [text] of the metadata replaces the text of the event. *)
Example BotUttered_message_example :
  BotUttered_message (PStr "hello") (PDict [("buttons", PList [])])
    {| timestamp := PInt 7; _metadata := Some (PDict [("text", PStr "meta")]) |} =
  Some (Ok [("buttons", PList []); ("text", PStr "meta"); ("timestamp", PInt 7);
            ("attachment", PNone)]).
Proof. by vm_compute. Qed.
