(* ===== verification/StoryCodec.v ===== *)
(** * StoryCodec: events to story lines

    [X_as_story_string] is [X.as_story_string]: the text of the event in
    a story file, [None] for the classes that stories do not hold, the
    action name for an executed action, and for a user message its
    intent with its entities or, in end-to-end mode, its intent with the
    markdown form of the message.  A method returns a Python value,
    because [UserUttered] returns its text and [ActionExecuted] its
    action name as they are.

    [json.dumps], [str.format] and the markdown writer are the
    interfaces [JsonLib], [Formatter] and [MarkdownLib].  A dictionary of
    the model has strings as keys: where the source builds a dictionary
    with a key that is another hashable value (the key of a [SlotSet],
    the [entity] of an entity), the model ends and the result is [None].
    The dictionary comprehension over the entities evaluates the key of
    an item before its value, as Python 3.8 and later do.

    [story_params] is the specification of the lines that carry
    parameters: the class tag followed by the JSON text of a dictionary,
    with [ensure_ascii] as the class passes it.  The decoding of a line
    from these parameters is [from_story_string] of [DictCodec]; the two
    meet in [RoundTrip]. *)

From S2P Require Import Prelude PyDict PyValue Runtime Events Message.

Section story.
Context {DT : DateTimeLib} {JL : JsonLib} {MD : MarkdownLib} {FM : Formatter}.

(** [f"{self.type_name}{props}"] with [props = json.dumps(d, ...)]. *)
Definition tag_props (c : EventClass) (ensure_ascii : bool) (d : pydict pyval) : pyval :=
  PStr (type_name c +:+ json_dumps ensure_ascii (PDict d)).

(** [{ent["entity"]: ent["value"] for ent in entities}], item by item. *)
Fixpoint entity_dict (ents : list pyval) (acc : pydict pyval)
    : option (result exn (pydict pyval)) :=
  match ents with
  | [] => Some (Ok acc)
  | ent :: rest =>
      match py_getitem ent "entity" with
      | Raise x => Some (Raise x)
      | Ok k =>
          match py_getitem ent "value" with
          | Raise x => Some (Raise x)
          | Ok v =>
              match k with
              | PStr s => entity_dict rest (dict_set acc s v)
              | PList _ | PDict _ => Some (Raise TypeError)
              | _ => None
              end
          end
      end
  end.

(** The text of the entities of a user message. *)
Definition ent_string (entities : pyval) : option (result exn string) :=
  if truthy entities then
    match py_iter entities with
    | Raise x => Some (Raise x)
    | Ok ents =>
        d ← entity_dict ents [];
        Some (fmap (M := result exn) (fun d => json_dumps false (PDict d)) d)
    end
  else Some (Ok "").

(** ** The methods of each class *)

(** [Event.as_story_string]. *)
Definition Event_as_story_string : result exn pyval := Raise NotImplementedError.

Definition UserUttered_as_story_string (text intent entities : pyval) (e2e : bool)
    : option (result exn pyval) :=
  if truthy intent then
    s ← ent_string entities;
    Some (ent_string ← s;
          name ← py_get_default intent "name" (PStr "");
          let parse_string := py_str name +:+ ent_string in
          if e2e then
            message ← md_format_message text intent entities;
            name ← py_get intent "name";
            mret (PStr (py_str name +:+ ": " +:+ py_str message))
          else mret (PStr parse_string))
  else Some (Ok text).

Definition BotUttered_as_story_string : result exn pyval := Ok PNone.

Definition SlotSet_as_story_string (key value : pyval) : option (result exn pyval) :=
  match key with
  | PStr k => Some (Ok (tag_props CSlotSet false [(k, value)]))
  | PList _ | PDict _ => Some (Raise TypeError)
  | _ => None
  end.

Definition Restarted_as_story_string : result exn pyval :=
  Ok (PStr (type_name CRestarted)).

Definition UserUtteranceReverted_as_story_string : result exn pyval :=
  Ok (PStr (type_name CUserUtteranceReverted)).

Definition AllSlotsReset_as_story_string : result exn pyval :=
  Ok (PStr (type_name CAllSlotsReset)).

Definition ReminderScheduled_as_story_string (action_name : pyval)
    (trigger_date_time : datetime) (name kill_on_user_message : pyval)
    : result exn pyval :=
  Ok (tag_props CReminderScheduled true
        (ReminderScheduled_data_obj action_name trigger_date_time name
           kill_on_user_message)).

Definition ReminderCancelled_as_story_string (action_name : pyval) : result exn pyval :=
  Ok (tag_props CReminderCancelled true [("action", action_name)]).

Definition ActionReverted_as_story_string : result exn pyval :=
  Ok (PStr (type_name CActionReverted)).

Definition StoryExported_as_story_string : result exn pyval :=
  Ok (PStr (type_name CStoryExported)).

Definition FollowupAction_as_story_string (action_name : pyval) : result exn pyval :=
  Ok (tag_props CFollowupAction true [("name", action_name)]).

Definition ConversationPaused_as_story_string : result exn pyval :=
  Ok (PStr (type_name CConversationPaused)).

Definition ConversationResumed_as_story_string : result exn pyval :=
  Ok (PStr (type_name CConversationResumed)).

Definition ActionExecuted_as_story_string (action_name : pyval) : result exn pyval :=
  Ok action_name.

Definition AgentUttered_as_story_string : result exn pyval := Ok PNone.

Definition Form_as_story_string (name : pyval) : result exn pyval :=
  Ok (tag_props CForm true [("name", name)]).

Definition FormValidation_as_story_string : result exn pyval := Ok PNone.

Definition ActionExecutionRejected_as_story_string : result exn pyval := Ok PNone.

(** [e.as_story_string()], and [e.as_story_string(e2e)] for a user
    message. *)
Definition as_story_string (e : Event) (e2e : bool) : option (result exn pyval) :=
  match e with
  | BareEvent _ => Some Event_as_story_string
  | UserUttered text intent entities _ _ _ _ =>
      UserUttered_as_story_string text intent entities e2e
  | BotUttered _ _ _ => Some BotUttered_as_story_string
  | SlotSet key value _ => SlotSet_as_story_string key value
  | Restarted _ => Some Restarted_as_story_string
  | UserUtteranceReverted _ => Some UserUtteranceReverted_as_story_string
  | AllSlotsReset _ => Some AllSlotsReset_as_story_string
  | ReminderScheduled a t kill name _ =>
      Some (ReminderScheduled_as_story_string a t name kill)
  | ReminderCancelled a _ => Some (ReminderCancelled_as_story_string a)
  | ActionReverted _ => Some ActionReverted_as_story_string
  | StoryExported _ _ => Some StoryExported_as_story_string
  | FollowupAction a _ => Some (FollowupAction_as_story_string a)
  | ConversationPaused _ => Some ConversationPaused_as_story_string
  | ConversationResumed _ => Some ConversationResumed_as_story_string
  | ActionExecuted a _ _ _ _ => Some (ActionExecuted_as_story_string a)
  | AgentUttered _ _ _ => Some AgentUttered_as_story_string
  | Form name _ => Some (Form_as_story_string name)
  | FormValidation _ _ => Some FormValidation_as_story_string
  | ActionExecutionRejected _ _ _ _ => Some ActionExecutionRejected_as_story_string
  end.

(** ** Specification: the lines with parameters *)

(** The parameters a line carries and whether its JSON text escapes
    the characters outside ASCII. *)
Definition story_params (e : Event) : option (bool * pydict pyval) :=
  match e with
  | SlotSet (PStr k) value _ => Some (false, [(k, value)])
  | ReminderScheduled a t kill name _ =>
      Some (true, ReminderScheduled_data_obj a t name kill)
  | ReminderCancelled a _ => Some (true, [("action", a)])
  | FollowupAction a _ => Some (true, [("name", a)])
  | Form name _ => Some (true, [("name", name)])
  | _ => None
  end.

(** The classes whose line is the tag alone. *)
Definition bare_tag_class (c : EventClass) : bool :=
  match c with
  | CRestarted | CUserUtteranceReverted | CAllSlotsReset | CActionReverted
  | CStoryExported | CConversationPaused | CConversationResumed => true
  | _ => false
  end.

(** The classes that stories do not hold. *)
Definition not_in_stories (c : EventClass) : bool :=
  match c with
  | CBotUttered | CAgentUttered | CFormValidation | CActionExecutionRejected => true
  | _ => false
  end.

(** The events whose text or action name stands for the line and is
    [None]. *)
Definition empty_line (e : Event) : bool :=
  match e with
  | UserUttered text intent _ _ _ _ _ => negb (truthy intent) && is_none text
  | ActionExecuted a _ _ _ _ => is_none a
  | _ => false
  end.

End story.

Section story_theory.
Context {DT : DateTimeLib} {JL : JsonLib} {MD : MarkdownLib} {FM : Formatter}.

(** ** Lines with parameters *)

(** C36: the story line of a [SlotSet] with a string key, a
    [ReminderScheduled], a [ReminderCancelled], a [FollowupAction] and a
    [Form] is the tag of the class followed by the JSON text of its
    parameters, whatever the mode; only the line of a [SlotSet] keeps
    the characters outside ASCII, the others are written with escapes. *)
Theorem story_line_params e flag p e2e :
  story_params e = Some (flag, p) ->
  as_story_string e e2e = Some (Ok (tag_props (class_of e) flag p)) /\
  (flag = false <-> class_of e = CSlotSet).
Proof.
  destruct e; try done; simpl.
  - destruct key; try done. intros [= <- <-]. by split.
  - intros [= <- <-]. by split.
  - intros [= <- <-]. by split.
  - intros [= <- <-]. by split.
  - intros [= <- <-]. by split.
Qed.

(** The line of a class without parameters is its tag. *)
Lemma story_line_bare e e2e :
  bare_tag_class (class_of e) = true ->
  as_story_string e e2e = Some (Ok (PStr (type_name (class_of e)))).
Proof. by destruct e. Qed.

(** ** Events without a line *)

Lemma UserUttered_as_story_string_intent text intent entities e2e v :
  truthy intent = true ->
  UserUttered_as_story_string text intent entities e2e = Some (Ok v) ->
  exists s, v = PStr s.
Proof.
  unfold UserUttered_as_story_string. intros ->.
  destruct (ent_string entities) as [[s|x]|]; simpl; try done.
  destruct (py_get_default intent "name" (PStr "")); simpl; [|done].
  destruct e2e; [|intros [= <-]; eauto].
  destruct (md_format_message text intent entities); simpl; [|done].
  destruct (py_get intent "name"); simpl; [|done]. intros [= <-]. eauto.
Qed.

(** [as_story_string] returns [None], the mark of an event that a
    story does not hold, exactly for [BotUttered], [AgentUttered],
    [FormValidation] and [ActionExecutionRejected], for a user message
    without intent whose text is [None], and for an executed action whose
    name is [None]. *)
Theorem as_story_string_absent e e2e :
  as_story_string e e2e = Some (Ok PNone) <->
  not_in_stories (class_of e) = true \/ empty_line e = true.
Proof.
  destruct e; simpl; try (split; [done|by intros [|]]); try (split; by auto).
  - destruct (truthy intent) eqn:Hi.
    + split; [|by intros [|]].
      intros [s Hs]%UserUttered_as_story_string_intent; done.
    + unfold UserUttered_as_story_string. rewrite Hi. simpl.
      split; [intros [= ->]; by right|intros [|H]; [done|by destruct text]].
  - unfold SlotSet_as_story_string. destruct key; simpl; split; (done || by intros [|]).
  - unfold ActionExecuted_as_story_string.
    split; [intros [= ->]; by right|intros [|H]; [done|by destruct action_name]].
Qed.

(** ** User messages *)

(** A user message with an intent and without entities is written as
    the name of its intent, and as the empty text when the intent has no
    name. *)
Lemma UserUttered_as_story_string_name text d entities :
  truthy (PDict d) = true -> truthy entities = false ->
  UserUttered_as_story_string text (PDict d) entities false =
  Some (Ok (PStr (py_str (dict_get d "name" ?? PStr "")))).
Proof.
  intros Hd He. unfold UserUttered_as_story_string, ent_string.
  rewrite Hd, He. simpl. by rewrite string_app_nil_r.
Qed.

(** An intent that is not a dictionary makes the method raise. *)
Lemma UserUttered_as_story_string_raises text intent e2e :
  truthy intent = true -> is_dict intent = false ->
  UserUttered_as_story_string text intent (PList []) e2e =
  Some (Raise (AttributeError "get")).
Proof.
  intros Hi Hd. unfold UserUttered_as_story_string, ent_string. rewrite Hi. simpl.
  by destruct intent.
Qed.

End story_theory.

(** ** The theorems at concrete events *)

Lemma story_line_params_witness :
  let b := {| timestamp := PInt 1; _metadata := Some (PDict []) |} in
  as_story_string (DT := string_datetime) (SlotSet (PStr "city") (PStr "Oslo") b) false =
    Some (Ok (tag_props CSlotSet false [("city", PStr "Oslo")])) /\
  (false = false <-> CSlotSet = CSlotSet).
Proof.
  by apply (story_line_params (DT := string_datetime)
              (SlotSet (PStr "city") (PStr "Oslo")
                 {| timestamp := PInt 1; _metadata := Some (PDict []) |})).
Defined.
