(* ===== verification/Display.v ===== *)
(** * Display: the printed form of events

    Every subclass of [Event] defines [__str__], and [BotUttered] also
    [__repr__].  [X_str] is [X.__str__] with the attributes that the
    method reads as arguments.  A method written with [str.format] is a
    call of [py_format], the substitution of the fields [{}] of a
    template by the texts of the arguments; a method written as an
    f-string is the concatenation it stands for.  [str(v)] is the class
    [Formatter], [json.dumps] with its default [ensure_ascii=True] the
    class [JsonLib], and [str] of a date the field [dt_str] of
    [DateTimeLib].

    The base class inherits [object.__str__], which prints the address
    of the object: [event_str] is [None] there.

    [class_name] is the name each [class] statement gives its class, and
    [str_fields] the texts an event shows, in their order.  The theorems
    show that a printed event is the name of its class followed by its
    fields in parentheses, that printing raises only for an executed
    action that lacks an attribute, and that no printer reads the
    timestamp. *)

From Stdlib Require Import Ascii.
From S2P Require Import Prelude PyDict PyValue Runtime Events.

(** ** [str.format] *)

(** [template.format( *args)] for a template whose replacement fields
    are all [{}]: each field takes the next argument, arguments left
    over are ignored, and a field without an argument raises
    [IndexError]. *)
Fixpoint py_format (template : string) (args : list string) : result exn string :=
  match template with
  | "" => Ok ""
  | String "{"%char (String "}"%char rest) =>
      match args with
      | a :: args => String.append a <$> py_format rest args
      | [] => Raise IndexError
      end
  | String c rest => String c <$> py_format rest args
  end.

(** The text [name(f1, ..., fn)] of the fields [fs], each a label and a
    text, or a text alone. *)
Definition show_field (f : option string * string) : string :=
  match f with
  | (Some label, s) => label +:+ ": " +:+ s
  | (None, s) => s
  end.

Fixpoint join_fields (fs : list (option string * string)) : string :=
  match fs with
  | [] => ""
  | [f] => show_field f
  | f :: fs => show_field f +:+ ", " +:+ join_fields fs
  end.

Definition render (name : string) (fs : list (option string * string)) : string :=
  name +:+ "(" +:+ join_fields fs +:+ ")".

(** The name of a class, from its [class] statement. *)
Definition class_name (c : EventClass) : string :=
  match c with
  | CEvent => "Event"
  | CUserUttered => "UserUttered"
  | CBotUttered => "BotUttered"
  | CSlotSet => "SlotSet"
  | CRestarted => "Restarted"
  | CUserUtteranceReverted => "UserUtteranceReverted"
  | CAllSlotsReset => "AllSlotsReset"
  | CReminderScheduled => "ReminderScheduled"
  | CReminderCancelled => "ReminderCancelled"
  | CActionReverted => "ActionReverted"
  | CStoryExported => "StoryExported"
  | CFollowupAction => "FollowupAction"
  | CConversationPaused => "ConversationPaused"
  | CConversationResumed => "ConversationResumed"
  | CActionExecuted => "ActionExecuted"
  | CAgentUttered => "AgentUttered"
  | CForm => "Form"
  | CFormValidation => "FormValidation"
  | CActionExecutionRejected => "ActionExecutionRejected"
  end.

Section display.
Context {DT : DateTimeLib} {JL : JsonLib} {FM : Formatter}.

(** ** The methods of each class *)

Definition UserUttered_str (text intent entities : pyval) : result exn string :=
  py_format "UserUttered(text: {}, intent: {}, entities: {})"
    [py_str text; py_str intent; py_str entities].

Definition BotUttered_str (text data : pyval) (b : EventBase) : result exn string :=
  py_format "BotUttered(text: {}, data: {}, metadata: {})"
    [py_str text; json_dumps true data; json_dumps true (metadata b)].

(** [BotUttered.__repr__]. *)
Definition BotUttered_repr (text data : pyval) (b : EventBase) : result exn string :=
  py_format "BotUttered('{}', {}, {}, {})"
    [py_str text; json_dumps true data; json_dumps true (metadata b);
     py_str (timestamp b)].

Definition SlotSet_str (key value : pyval) : result exn string :=
  Ok ("SlotSet(key: " +:+ py_str key +:+ ", value: " +:+ py_str value +:+ ")").

Definition Restarted_str : result exn string := Ok "Restarted()".

Definition UserUtteranceReverted_str : result exn string :=
  Ok "UserUtteranceReverted()".

Definition AllSlotsReset_str : result exn string := Ok "AllSlotsReset()".

Definition ReminderScheduled_str (action_name : pyval)
    (trigger_date_time : datetime) (name : pyval) : result exn string :=
  py_format ("ReminderScheduled(" +:+ "action: {}, trigger_date: {}, name: {}" +:+ ")")
    [py_str action_name; dt_str trigger_date_time; py_str name].

Definition ReminderCancelled_str (action_name : pyval) : result exn string :=
  Ok ("ReminderCancelled(action: " +:+ py_str action_name +:+ ")").

Definition ActionReverted_str : result exn string := Ok "ActionReverted()".

Definition StoryExported_str : result exn string := Ok "StoryExported()".

Definition FollowupAction_str (action_name : pyval) : result exn string :=
  Ok ("FollowupAction(action: " +:+ py_str action_name +:+ ")").

Definition ConversationPaused_str : result exn string := Ok "ConversationPaused()".

Definition ConversationResumed_str : result exn string := Ok "ConversationResumed()".

(** [self.policy] and [self.confidence] are read without [hasattr]:
    an object that lacks one raises [AttributeError]. *)
Definition ActionExecuted_str (action_name : pyval) (policy confidence : option pyval)
    : result exn string :=
  match policy, confidence with
  | None, _ => Raise (AttributeError "policy")
  | Some _, None => Raise (AttributeError "confidence")
  | Some policy, Some confidence =>
      py_format "ActionExecuted(action: {}, policy: {}, confidence: {})"
        [py_str action_name; py_str policy; py_str confidence]
  end.

Definition AgentUttered_str (text data : pyval) : result exn string :=
  py_format "AgentUttered(text: {}, data: {})" [py_str text; json_dumps true data].

Definition Form_str (name : pyval) : result exn string :=
  Ok ("Form(" +:+ py_str name +:+ ")").

Definition FormValidation_str (validate : pyval) : result exn string :=
  Ok ("FormValidation(" +:+ py_str validate +:+ ")").

Definition ActionExecutionRejected_str (action_name policy confidence : pyval)
    : result exn string :=
  py_format
    ("ActionExecutionRejected(" +:+ "action: {}, policy: {}, confidence: {})" +:+ "")
    [py_str action_name; py_str policy; py_str confidence].

(** [str(e)]. *)
Definition event_str (e : Event) : option (result exn string) :=
  match e with
  | BareEvent _ => None
  | UserUttered text intent entities _ _ _ _ =>
      Some (UserUttered_str text intent entities)
  | BotUttered text data b => Some (BotUttered_str text data b)
  | SlotSet key value _ => Some (SlotSet_str key value)
  | Restarted _ => Some Restarted_str
  | UserUtteranceReverted _ => Some UserUtteranceReverted_str
  | AllSlotsReset _ => Some AllSlotsReset_str
  | ReminderScheduled a t _ name _ => Some (ReminderScheduled_str a t name)
  | ReminderCancelled a _ => Some (ReminderCancelled_str a)
  | ActionReverted _ => Some ActionReverted_str
  | StoryExported _ _ => Some StoryExported_str
  | FollowupAction a _ => Some (FollowupAction_str a)
  | ConversationPaused _ => Some ConversationPaused_str
  | ConversationResumed _ => Some ConversationResumed_str
  | ActionExecuted a policy confidence _ _ => Some (ActionExecuted_str a policy confidence)
  | AgentUttered text data _ => Some (AgentUttered_str text data)
  | Form name _ => Some (Form_str name)
  | FormValidation validate _ => Some (FormValidation_str validate)
  | ActionExecutionRejected a policy confidence _ =>
      Some (ActionExecutionRejected_str a policy confidence)
  end.

(** ** Specification *)

(** The fields an event shows: a label and a text.  [Form] and
    [FormValidation] show one text without a label. *)
Definition str_fields (e : Event) : list (option string * string) :=
  match e with
  | UserUttered text intent entities _ _ _ _ =>
      [(Some "text", py_str text); (Some "intent", py_str intent);
       (Some "entities", py_str entities)]
  | BotUttered text data b =>
      [(Some "text", py_str text); (Some "data", json_dumps true data);
       (Some "metadata", json_dumps true (metadata b))]
  | SlotSet key value _ => [(Some "key", py_str key); (Some "value", py_str value)]
  | ReminderScheduled a t _ name _ =>
      [(Some "action", py_str a); (Some "trigger_date", dt_str t);
       (Some "name", py_str name)]
  | ReminderCancelled a _ | FollowupAction a _ => [(Some "action", py_str a)]
  | ActionExecuted a policy confidence _ _ =>
      [(Some "action", py_str a); (Some "policy", py_str (policy ?? PNone));
       (Some "confidence", py_str (confidence ?? PNone))]
  | AgentUttered text data _ =>
      [(Some "text", py_str text); (Some "data", json_dumps true data)]
  | Form name _ => [(None, py_str name)]
  | FormValidation validate _ => [(None, py_str validate)]
  | ActionExecutionRejected a policy confidence _ =>
      [(Some "action", py_str a); (Some "policy", py_str policy);
       (Some "confidence", py_str confidence)]
  | _ => []
  end.

(** The attribute that [__str__] reads and the object lacks. *)
Definition str_missing (e : Event) : option string :=
  match e with
  | ActionExecuted _ None _ _ _ => Some "policy"
  | ActionExecuted _ (Some _) None _ _ => Some "confidence"
  | _ => None
  end.

(** The event with another base: timestamp and metadata replaced. *)
Definition with_base (b : EventBase) (e : Event) : Event :=
  match e with
  | BareEvent _ => BareEvent b
  | UserUttered t i en ic mid pd _ => UserUttered t i en ic mid pd b
  | BotUttered t d _ => BotUttered t d b
  | SlotSet k v _ => SlotSet k v b
  | Restarted _ => Restarted b
  | UserUtteranceReverted _ => UserUtteranceReverted b
  | AllSlotsReset _ => AllSlotsReset b
  | ReminderScheduled a t k n _ => ReminderScheduled a t k n b
  | ReminderCancelled a _ => ReminderCancelled a b
  | ActionReverted _ => ActionReverted b
  | StoryExported p _ => StoryExported p b
  | FollowupAction a _ => FollowupAction a b
  | ConversationPaused _ => ConversationPaused b
  | ConversationResumed _ => ConversationResumed b
  | ActionExecuted a p c u _ => ActionExecuted a p c u b
  | AgentUttered t d _ => AgentUttered t d b
  | Form n _ => Form n b
  | FormValidation v _ => FormValidation v b
  | ActionExecutionRejected a p c _ => ActionExecutionRejected a p c b
  end.

End display.

Section display_theory.
Context {DT : DateTimeLib} {JL : JsonLib} {FM : Formatter}.

(** ** Templates *)

(** A template without fields is printed as it is. *)
Lemma py_format_plain (s : string) args :
  (forall c, c ∈ String.list_ascii_of_string s -> c ≠ "{"%char) ->
  py_format s args = Ok s.
Proof.
  induction s as [|c s IH]; [done|]. intros Hs. unfold py_format; fold py_format.
  assert (c ≠ "{"%char) as Hc by (apply Hs; left).
  rewrite IH by (intros c' Hc'; apply Hs; by right).
  destruct c as [[] [] [] [] [] [] [] []]; done.
Qed.

(** ** The printed form *)

(** An event is printed as the name of its class and its fields, or
    raises for the attribute it lacks. *)
Lemma event_str_spec e :
  class_of e ≠ CEvent ->
  event_str e =
  Some (match str_missing e with
        | Some a => Raise (AttributeError a)
        | None => Ok (render (class_name (class_of e)) (str_fields e))
        end).
Proof.
  intros Hc. destruct e; try done; try reflexivity; simpl; f_equal;
    try destruct policy, confidence; try done;
    unfold render; simpl; f_equal; repeat f_equal;
    by rewrite <- ?(assoc_L String.append).
Qed.

(** An event that satisfies the invariant lacks no attribute. *)
Lemma str_missing_inv e : event_inv e = true -> str_missing e = None.
Proof.
  destruct e; try done. unfold event_inv. simpl.
  rewrite !andb_true_iff. intros (_ & (Hp & Hc) & _).
  by destruct policy, confidence.
Qed.

(** No printer reads the timestamp, and only the printer of a bot
    message reads the metadata. *)
Lemma event_str_with_base b e :
  class_of e ≠ CBotUttered \/ metadata b = metadata (event_base e) ->
  event_str (with_base b e) = event_str e.
Proof.
  destruct e; try done. simpl. intros [?|H]; [done|].
  unfold BotUttered_str. by rewrite H.
Qed.

(** [repr] of a bot message shows its text in quotes and its timestamp
    last. *)
Lemma BotUttered_repr_eq text data b :
  BotUttered_repr text data b =
  Ok ("BotUttered('" +:+ py_str text +:+ "', " +:+ json_dumps true data +:+ ", " +:+
      json_dumps true (metadata b) +:+ ", " +:+ py_str (timestamp b) +:+ ")").
Proof. reflexivity. Qed.

(** C38: the printed form of an event of a subclass that satisfies the
    invariant of constructed events is the name of its class followed,
    in parentheses, by the fields the class shows, and printing does not
    raise; the text does not change with the timestamp, nor with the
    metadata unless the event is a [BotUttered]. *)
Theorem event_str_render e b :
  class_of e ≠ CEvent -> event_inv e = true ->
  event_str e = Some (Ok (render (class_name (class_of e)) (str_fields e))) /\
  (class_of e ≠ CBotUttered -> event_str (with_base b e) = event_str e).
Proof.
  intros Hc Hinv. split.
  - by rewrite event_str_spec, str_missing_inv.
  - intros Hb. apply event_str_with_base. by left.
Qed.

End display_theory.

(** ** The theorems at concrete events *)

Lemma event_str_render_witness :
  let b := {| timestamp := PInt 1; _metadata := Some (PDict []) |} in
  let b' := {| timestamp := PInt 2; _metadata := Some (PDict [("k", PNone)]) |} in
  let e := SlotSet (DT := string_datetime) (PStr "city") (PStr "Oslo") b in
  event_str e = Some (Ok "SlotSet(key: city, value: Oslo)") /\
  (class_of e ≠ CBotUttered -> event_str (with_base b' e) = event_str e).
Proof.
  intros b b' e.
  exact (event_str_render (DT := string_datetime) e b' ltac:(done) eq_refl).
Defined.

Example BotUttered_repr_example :
  BotUttered_repr (PStr "hi") (PDict []) {| timestamp := PInt 7; _metadata := None |} =
  Ok "BotUttered('hi', {...}, {...}, 7)".
Proof. reflexivity. Qed.
