(* ===== verification/Registry.v ===== *)
(** * Registry: from a tag to an event class

    [Event.resolve_by_type] scans the subclasses of [Event] for the one
    whose [type_name] equals the tag.  The legacy tag [topic] resolves to
    no class; any other unknown tag resolves to the default class when
    one is given and raises [ValueError] otherwise.

    The abstract specification is the table [registry], a finite map from
    tags to classes; [resolve_by_type_registry] says that the scan
    implements a lookup in the table, which is sound because the tags of
    the classes are pairwise distinct ([type_name_inj]). *)

From stdpp Require Import gmap.
From S2P Require Import Prelude PyDict PyValue Runtime Events.

(** [utils.all_subclasses(Event)]: the subclasses this module defines, in
    the order of their definition. *)
Definition all_subclasses : list EventClass :=
  [CUserUttered; CBotUttered; CSlotSet; CRestarted; CUserUtteranceReverted;
   CAllSlotsReset; CReminderScheduled; CReminderCancelled; CActionReverted;
   CStoryExported; CFollowupAction; CConversationPaused; CConversationResumed;
   CActionExecuted; CAgentUttered; CForm; CFormValidation;
   CActionExecutionRejected].

(** [Event.resolve_by_type(type_name, default)]. *)
Definition resolve_by_type (name : pyval) (default : option EventClass)
    : result exn (option EventClass) :=
  match List.find (fun cls => py_eq (PStr (type_name cls)) name) all_subclasses with
  | Some cls => Ok (Some cls)
  | None =>
      if py_eq name (PStr "topic") then Ok None
      else match default with
           | Some d => Ok (Some d)
           | None => Raise (ValueError (UnknownEventName name))
           end
  end.

(** The registration table. *)
Definition registry : gmap string EventClass :=
  list_to_map ((fun c => (type_name c, c)) <$> all_subclasses).

(** What the table promises for a string tag. *)
Definition resolve_spec (tag : string) (default : option EventClass)
    : result exn (option EventClass) :=
  match registry !! tag with
  | Some c => Ok (Some c)
  | None =>
      if decide (tag = "topic") then Ok None
      else match default with
           | Some d => Ok (Some d)
           | None => Raise (ValueError (UnknownEventName (PStr tag)))
           end
  end.

(** A tag that is neither registered nor the legacy tag. *)
Definition unknown_tag (s : string) : Prop :=
  registry !! s = None /\ s ≠ "topic".

(** ** Tags *)

(** No two classes share a tag. *)
Lemma type_name_inj : Inj (=) (=) type_name.
Proof. intros c1 c2 H. destruct c1, c2; (done || discriminate H). Qed.

Lemma all_subclasses_NoDup : NoDup all_subclasses.
Proof. compute_done. Qed.

Lemma all_subclasses_tags_NoDup : NoDup (type_name <$> all_subclasses).
Proof. compute_done. Qed.

Lemma all_subclasses_spec c : c ∈ all_subclasses <-> c ≠ CEvent.
Proof.
  split.
  - intros Hin ->. revert Hin. compute_done.
  - intros Hc. destruct c; try done; compute_done.
Qed.

(** No class uses the legacy tag. *)
Lemma topic_not_a_tag c : type_name c ≠ "topic".
Proof. by destruct c. Qed.

(** ** The scan finds the class of a tag *)

Lemma find_tag_Some (l : list EventClass) s c :
  List.find (fun cls => py_eq (PStr (type_name cls)) (PStr s)) l = Some c ->
  c ∈ l /\ type_name c = s.
Proof.
  intros [Hin Heq]%find_some. split; [by apply list_elem_of_In|].
  simpl in Heq. by apply bool_decide_eq_true in Heq.
Qed.

Lemma find_tag_elem (l : list EventClass) c :
  c ∈ l ->
  List.find (fun cls => py_eq (PStr (type_name cls)) (PStr (type_name c))) l = Some c.
Proof.
  induction 1 as [c l|c c' l Hin IH]; simpl.
  - by rewrite bool_decide_eq_true_2.
  - case_bool_decide as Hc; [by apply type_name_inj in Hc as ->|done].
Qed.

Lemma find_tag_non_string (l : list EventClass) v :
  (forall s, v ≠ PStr s) ->
  List.find (fun cls => py_eq (PStr (type_name cls)) v) l = None.
Proof.
  intros Hv. induction l as [|c l IH]; [done|]. cbn [List.find].
  destruct (py_eq _ v) eqn:Hc; [|done]. apply py_eq_str in Hc. by destruct (Hv _ Hc).
Qed.

Lemma registry_lookup c : c ≠ CEvent -> registry !! type_name c = Some c.
Proof.
  intros Hc%all_subclasses_spec. unfold registry.
  apply elem_of_list_to_map_1.
  - rewrite <- list_fmap_compose. apply all_subclasses_tags_NoDup.
  - apply list_elem_of_fmap. by exists c.
Qed.

Lemma registry_lookup_Some s c :
  registry !! s = Some c -> c ≠ CEvent /\ type_name c = s.
Proof.
  unfold registry. intros Hin%elem_of_list_to_map_2.
  apply list_elem_of_fmap in Hin as (c' & [= -> ->] & Hin).
  by apply all_subclasses_spec in Hin.
Qed.

(** ** Resolution *)

(** The scan over the subclasses is the lookup in the table. *)
Lemma find_registry s :
  List.find (fun cls => py_eq (PStr (type_name cls)) (PStr s)) all_subclasses =
  registry !! s.
Proof.
  destruct (List.find _ all_subclasses) as [c|] eqn:Hf.
  - apply find_tag_Some in Hf as [Hin%all_subclasses_spec <-].
    by rewrite registry_lookup.
  - destruct (registry !! s) as [c|] eqn:Hr; [|done].
    apply registry_lookup_Some in Hr as [Hc%all_subclasses_spec <-].
    by rewrite find_tag_elem in Hf.
Qed.

Lemma resolve_registered s c d :
  registry !! s = Some c -> resolve_by_type (PStr s) d = Ok (Some c).
Proof. intros Hr. unfold resolve_by_type. by rewrite find_registry, Hr. Qed.

Lemma resolve_unregistered s d :
  registry !! s = None -> s ≠ "topic" ->
  resolve_by_type (PStr s) d =
  match d with
  | Some c => Ok (Some c)
  | None => Raise (ValueError (UnknownEventName (PStr s)))
  end.
Proof.
  intros Hr Ht. unfold resolve_by_type. rewrite find_registry, Hr. simpl.
  by rewrite bool_decide_eq_false_2 by congruence.
Qed.

(** A tag that is not a string matches no class and is not the legacy
    tag. *)
Lemma resolve_non_string v d :
  (forall s, v ≠ PStr s) ->
  resolve_by_type v d =
  match d with
  | Some c => Ok (Some c)
  | None => Raise (ValueError (UnknownEventName v))
  end.
Proof.
  intros Hv. unfold resolve_by_type. rewrite find_tag_non_string by done.
  destruct (py_eq v (PStr "topic")) eqn:Ht; [|done].
  destruct v; try done. by destruct (Hv s).
Qed.

(** Only the legacy tag resolves to no class. *)
Lemma resolve_None v d : resolve_by_type v d = Ok None -> v = PStr "topic".
Proof.
  assert ((exists s, v = PStr s) \/ forall s, v ≠ PStr s) as [[s ->]|Hv]
    by (destruct v; eauto).
  - destruct (registry !! s) as [c|] eqn:Hr; [by rewrite (resolve_registered _ _ _ Hr)|].
    destruct (decide (s = "topic")) as [->|Ht]; [done|].
    rewrite resolve_unregistered by done. by destruct d.
  - rewrite resolve_non_string by done. by destruct d.
Qed.

(** Without a default, only a subclass is returned. *)
Lemma resolve_subclass v c :
  resolve_by_type v None = Ok (Some c) -> c ≠ CEvent.
Proof.
  unfold resolve_by_type. destruct (List.find _ _) as [c'|] eqn:Hf.
  - intros [= ->]. apply find_some in Hf as [Hin%list_elem_of_In _].
    by apply all_subclasses_spec.
  - by destruct (py_eq v _).
Qed.

(** C6: [Event.resolve_by_type] on a string tag implements the lookup in
    the registration table: the class registered under the tag; for a tag
    that is not registered, no class when the tag is [topic], else the
    default class, else the error [ValueError] that names the tag. *)
Theorem resolve_by_type_registry s d : resolve_by_type (PStr s) d = resolve_spec s d.
Proof.
  unfold resolve_by_type, resolve_spec. rewrite find_registry.
  destruct (registry !! s); [done|]. simpl.
  by repeat case_bool_decide; case_decide.
Qed.

(** The tag of a subclass of [Event] resolves to that subclass,
    whatever the default class. *)
Theorem resolve_known c d :
  c ≠ CEvent -> resolve_by_type (PStr (type_name c)) d = Ok (Some c).
Proof. intros Hc. by apply resolve_registered, registry_lookup. Qed.

Lemma resolve_known_witness :
  resolve_by_type (PStr (type_name CSlotSet)) None = Ok (Some CSlotSet).
Proof. by apply (resolve_known CSlotSet None). Defined.

(** The legacy tag [topic] resolves to no class and raises nothing,
    even when a default class is given. *)
Theorem resolve_topic d : resolve_by_type (PStr "topic") d = Ok None.
Proof. by destruct d. Qed.

(** A tag that is neither registered nor [topic], resolved without
    a default class, raises the [ValueError] that names the tag. *)
Theorem resolve_unknown s :
  unknown_tag s ->
  resolve_by_type (PStr s) None = Raise (ValueError (UnknownEventName (PStr s))).
Proof. intros [Hr Ht]. by rewrite resolve_unregistered. Qed.

Lemma resolve_unknown_witness :
  resolve_by_type (PStr "bogus") None =
  Raise (ValueError (UnknownEventName (PStr "bogus"))).
Proof. apply (resolve_unknown "bogus"). by vm_compute. Defined.

(** A tag that is neither registered nor [topic] resolves to the
    default class when one is given. *)
Theorem resolve_default s c :
  unknown_tag s -> resolve_by_type (PStr s) (Some c) = Ok (Some c).
Proof. intros [Hr Ht]. by rewrite resolve_unregistered. Qed.

Lemma resolve_default_witness :
  resolve_by_type (PStr "bogus") (Some CActionExecuted) = Ok (Some CActionExecuted).
Proof. apply (resolve_default "bogus"). by vm_compute. Defined.

(** A class returned by [Event.resolve_by_type] is the subclass
    whose tag was asked for, or the default class: the base class is
    returned only as a default. *)
Theorem resolve_sound v d c :
  resolve_by_type v d = Ok (Some c) ->
  (c ≠ CEvent /\ v = PStr (type_name c)) \/ d = Some c.
Proof.
  assert ((exists s, v = PStr s) \/ forall s, v ≠ PStr s) as [[s ->]|Hv]
    by (destruct v; eauto).
  - destruct (registry !! s) as [c'|] eqn:Hr.
    + rewrite (resolve_registered _ _ _ Hr). intros [= ->].
      apply registry_lookup_Some in Hr as [? <-]. by left.
    + destruct (decide (s = "topic")) as [->|Ht]; [by destruct d|].
      rewrite resolve_unregistered by done.
      destruct d; [|done]. intros [= ->]. by right.
  - rewrite resolve_non_string by done.
    destruct d; [|done]. intros [= ->]. by right.
Qed.

Lemma resolve_sound_witness :
  (CForm ≠ CEvent /\ PStr "form" = PStr (type_name CForm)) \/ None = Some CForm.
Proof. by apply (resolve_sound (PStr "form") None CForm). Defined.

(** Matching is exact: tags are case-sensitive, and the tag of the base
    class itself is not registered. *)
Example resolve_case_sensitive :
  resolve_by_type (PStr "User") None =
    Raise (ValueError (UnknownEventName (PStr "User"))) /\
  resolve_by_type (PStr "event") None =
    Raise (ValueError (UnknownEventName (PStr "event"))) /\
  resolve_by_type (PStr "slot") None = Ok (Some CSlotSet).
Proof. by vm_compute. Qed.
