(* ===== verification/DictCodec.v ===== *)
(** * DictCodec: events to dictionaries and back

    - [as_dict]: the method [as_dict] of every class.  [Event.as_dict]
      writes the tag, the timestamp and, when it is truthy, the metadata;
      a subclass updates that dictionary with its own entries.
    - [cls_from_story_string]: [cls._from_story_string(parameters)], the
      decoder of a parsed story line, which returns a list of events (one
      per key for [SlotSet]) or [None].
    - [cls_from_parameters]: [cls._from_parameters(parameters)], the
      decoder of a dictionary, which by default returns the first event
      of [_from_story_string].
    - [from_story_string] and [from_parameters]: the static methods of
      [Event] that resolve the class from the tag first.
    - [deserialise_events]: the decoder of a list of dictionaries.

    Method dispatch on the class of the receiver is a [match] on the
    class.  A [try ... except KeyError] block is [eff_catch is_KeyError].
    A call of [logger.warning] appends a record to the log of the world.

    The specification is the reference decoder [decode_ref], which says
    for each class which event a dictionary decodes to and what becomes
    of the world, and [rt_ok], the events that a round trip through
    [as_dict] returns unchanged.  The theorems show that the decoders
    implement [decode_ref], that [decode_ref] inverts [as_dict] on
    [rt_ok], that a decoded event writes the truthy values of its
    record back under their keys, which errors can be raised, and what
    [deserialise_events] does with a list of records: which records
    give an event, that every record with a tag is decoded in the world
    its predecessors left, and where its event stands in the result. *)

From S2P Require Import Prelude PyDict PyValue Runtime Events Registry.

Section codec.
Context {DT : DateTimeLib}.

(** ** Encoding *)

(** [Event.as_dict]. *)
Definition Event_as_dict (c : EventClass) (b : EventBase) : pydict pyval :=
  let d := dict_of_list [("event", PStr (type_name c)); ("timestamp", timestamp b)] in
  if truthy (metadata b) then dict_set d "metadata" (metadata b) else d.

Definition UserUttered_as_dict (text parse_data : pyval)
    (input_channel message_id : option pyval) (b : EventBase) : pydict pyval :=
  dict_update (Event_as_dict CUserUttered b)
    (dict_of_list
       [("text", text); ("parse_data", parse_data);
        ("input_channel", input_channel ?? PNone);
        ("message_id", message_id ?? PNone);
        ("metadata", metadata b)]).

Definition BotUttered_as_dict (text data : pyval) (b : EventBase) : pydict pyval :=
  dict_update (Event_as_dict CBotUttered b)
    (dict_of_list [("text", text); ("data", data); ("metadata", metadata b)]).

Definition SlotSet_as_dict (key value : pyval) (b : EventBase) : pydict pyval :=
  dict_update (Event_as_dict CSlotSet b)
    (dict_of_list [("name", key); ("value", value)]).

Definition ReminderScheduled_as_dict (action_name : pyval)
    (trigger_date_time : datetime) (name kill_on_user_message : pyval)
    (b : EventBase) : pydict pyval :=
  dict_update (Event_as_dict CReminderScheduled b)
    (ReminderScheduled_data_obj action_name trigger_date_time name
       kill_on_user_message).

Definition FollowupAction_as_dict (action_name : pyval) (b : EventBase) : pydict pyval :=
  dict_update (Event_as_dict CFollowupAction b)
    (dict_of_list [("name", action_name)]).

Definition ActionExecuted_as_dict (action_name : pyval)
    (policy confidence : option pyval) (b : EventBase) : pydict pyval :=
  let d := Event_as_dict CActionExecuted b in
  let policy := match policy with Some p => p | None => PNone end in
  let confidence := match confidence with Some c => c | None => PNone end in
  dict_update d
    (dict_of_list
       [("name", action_name); ("policy", policy); ("confidence", confidence)]).

Definition AgentUttered_as_dict (text data : pyval) (b : EventBase) : pydict pyval :=
  dict_update (Event_as_dict CAgentUttered b)
    (dict_of_list [("text", text); ("data", data)]).

Definition Form_as_dict (name : pyval) (b : EventBase) : pydict pyval :=
  dict_update (Event_as_dict CForm b) (dict_of_list [("name", name)]).

Definition FormValidation_as_dict (validate : pyval) (b : EventBase) : pydict pyval :=
  dict_update (Event_as_dict CFormValidation b)
    (dict_of_list [("validate", validate)]).

Definition ActionExecutionRejected_as_dict (action_name policy confidence : pyval)
    (b : EventBase) : pydict pyval :=
  dict_update (Event_as_dict CActionExecutionRejected b)
    (dict_of_list
       [("name", action_name); ("policy", policy); ("confidence", confidence)]).

(** [e.as_dict()]: the method of the class of [e]; a class that does not
    define [as_dict] inherits [Event.as_dict]. *)
Definition as_dict (e : Event) : pydict pyval :=
  match e with
  | UserUttered text _ _ ic mid pd b => UserUttered_as_dict text pd ic mid b
  | BotUttered text data b => BotUttered_as_dict text data b
  | SlotSet key value b => SlotSet_as_dict key value b
  | ReminderScheduled a t kill name b => ReminderScheduled_as_dict a t name kill b
  | FollowupAction a b => FollowupAction_as_dict a b
  | ActionExecuted a p c _ b => ActionExecuted_as_dict a p c b
  | AgentUttered text data b => AgentUttered_as_dict text data b
  | Form name b => Form_as_dict name b
  | FormValidation v b => FormValidation_as_dict v b
  | ActionExecutionRejected a p c b => ActionExecutionRejected_as_dict a p c b
  | _ => Event_as_dict (class_of e) (event_base e)
  end.

(** ** Decoding a story line *)

(** The handler of the [except KeyError as e] blocks:
    [raise ValueError(f"Failed to parse ... event. {e}")]. *)
Definition failed_to_parse {A} (what : string) (e : exn) : M A :=
  eff_raise (ValueError (FailedToParse what
    match e with KeyError k => k | _ => PNone end)).

(** [Event._from_story_string]. *)
Definition Event_from_story_string (c : EventClass) (parameters : pydict pyval)
    : M (option (list Event)) :=
  e ← init2 c (param parameters "timestamp") (param parameters "metadata");
  mret (Some [e]).

Definition UserUttered_from_story_string (parameters : pydict pyval)
    : M (option (list Event)) :=
  eff_catch is_KeyError
    (e ← UserUttered_from_parse_data
           (param parameters "text")
           (param parameters "parse_data")
           (param parameters "timestamp")
           (param parameters "input_channel")
           (param parameters "message_id")
           (param parameters "metadata");
     mret (Some [e]))
    (failed_to_parse "bot uttered").

Definition SlotSet_from_story_string (parameters : pydict pyval)
    : M (option (list Event)) :=
  slots ← eff_mapM (fun kv => SlotSet_init (PStr kv.1) kv.2 PNone PNone) parameters;
  mret (if bool_decide (slots = []) then None else Some slots).

Definition ReminderScheduled_from_story_string (parameters : pydict pyval)
    : M (option (list Event)) :=
  trigger_date_time ← eff_lift (dt_parse (param parameters "date_time"));
  e ← ReminderScheduled_init
         (param parameters "action")
         trigger_date_time
         (dict_get parameters "name" ?? PNone)
         (dict_get parameters "kill_on_user_msg" ?? PBool true)
         (param parameters "timestamp")
         (param parameters "metadata");
  mret (Some [e]).

Definition ReminderCancelled_from_story_string (parameters : pydict pyval)
    : M (option (list Event)) :=
  e ← ReminderCancelled_init
         (param parameters "action")
         (param parameters "timestamp")
         (param parameters "metadata");
  mret (Some [e]).

Definition StoryExported_from_story_string (parameters : pydict pyval)
    : M (option (list Event)) :=
  e ← StoryExported_init
         (param parameters "path")
         (param parameters "timestamp")
         (param parameters "metadata");
  mret (Some [e]).

Definition FollowupAction_from_story_string (parameters : pydict pyval)
    : M (option (list Event)) :=
  e ← FollowupAction_init
         (param parameters "name")
         (param parameters "timestamp")
         (param parameters "metadata");
  mret (Some [e]).

Definition ActionExecuted_from_story_string (parameters : pydict pyval)
    : M (option (list Event)) :=
  e ← ActionExecuted_init
         (param parameters "name")
         (param parameters "policy")
         (param parameters "confidence")
         (param parameters "timestamp")
         (param parameters "metadata");
  mret (Some [e]).

Definition Form_from_story_string (parameters : pydict pyval)
    : M (option (list Event)) :=
  e ← Form_init
         (param parameters "name")
         (param parameters "timestamp")
         (param parameters "metadata");
  mret (Some [e]).

(** [cls._from_story_string(parameters)]. *)
Definition cls_from_story_string (c : EventClass) (parameters : pydict pyval)
    : M (option (list Event)) :=
  match c with
  | CUserUttered => UserUttered_from_story_string parameters
  | CSlotSet => SlotSet_from_story_string parameters
  | CReminderScheduled => ReminderScheduled_from_story_string parameters
  | CReminderCancelled => ReminderCancelled_from_story_string parameters
  | CStoryExported => StoryExported_from_story_string parameters
  | CFollowupAction => FollowupAction_from_story_string parameters
  | CActionExecuted => ActionExecuted_from_story_string parameters
  | CForm => Form_from_story_string parameters
  | _ => Event_from_story_string c parameters
  end.

(** ** Decoding a dictionary *)

(** The text of the warning of [Event._from_parameters]. *)
Definition multiple_events_msg : string :=
  "Event from parameters called with parameters for multiple events. " +:+
  "This is not supported, only the first event will be returned. " +:+
  "Parameters: {}".

(** [Event._from_parameters]: the first event of [_from_story_string],
    with a warning when there are more.  [len(result)] raises
    [TypeError] when the result is [None]. *)
Definition Event_from_parameters (c : EventClass) (parameters : pydict pyval)
    : M (option Event) :=
  result ← cls_from_story_string c parameters;
  match result with
  | None => eff_raise TypeError
  | Some l =>
      (if decide (1 < length l)
       then logger_warning multiple_events_msg [PDict parameters]
       else mret tt);;
      mret (head l)
  end.

Definition BotUttered_from_parameters (parameters : pydict pyval) : M (option Event) :=
  eff_catch is_KeyError
    (e ← BotUttered_init
           (param parameters "text")
           (param parameters "data")
           (param parameters "metadata")
           (param parameters "timestamp");
     mret (Some e))
    (failed_to_parse "bot uttered").

Definition SlotSet_from_parameters (parameters : pydict pyval) : M (option Event) :=
  eff_catch is_KeyError
    (e ← SlotSet_init
           (param parameters "name")
           (param parameters "value")
           (param parameters "timestamp")
           (param parameters "metadata");
     mret (Some e))
    (failed_to_parse "set slot").

Definition AgentUttered_from_parameters (parameters : pydict pyval) : M (option Event) :=
  eff_catch is_KeyError
    (e ← AgentUttered_init
           (param parameters "text")
           (param parameters "data")
           (param parameters "timestamp")
           (param parameters "metadata");
     mret (Some e))
    (failed_to_parse "agent uttered").

Definition FormValidation_from_parameters (parameters : pydict pyval) : M (option Event) :=
  e ← FormValidation_init
         (param parameters "validate")
         (param parameters "timestamp")
         (param parameters "metadata");
  mret (Some e).

Definition ActionExecutionRejected_from_parameters (parameters : pydict pyval)
    : M (option Event) :=
  e ← ActionExecutionRejected_init
         (param parameters "name")
         (param parameters "policy")
         (param parameters "confidence")
         (param parameters "timestamp")
         (param parameters "metadata");
  mret (Some e).

(** [cls._from_parameters(parameters)]. *)
Definition cls_from_parameters (c : EventClass) (parameters : pydict pyval)
    : M (option Event) :=
  match c with
  | CBotUttered => BotUttered_from_parameters parameters
  | CSlotSet => SlotSet_from_parameters parameters
  | CAgentUttered => AgentUttered_from_parameters parameters
  | CFormValidation => FormValidation_from_parameters parameters
  | CActionExecutionRejected => ActionExecutionRejected_from_parameters parameters
  | _ => Event_from_parameters c parameters
  end.

(** ** The entry points *)

(** [Event.from_story_string(event_name, parameters, default)]. *)
Definition from_story_string (event_name : pyval) (parameters : pydict pyval)
    (default : option EventClass) : M (option (list Event)) :=
  event_class ← eff_lift (resolve_by_type event_name default);
  match event_class with
  | None => mret None
  | Some c => cls_from_story_string c parameters
  end.

(** [Event.from_parameters(parameters, default)]. *)
Definition from_parameters (parameters : pydict pyval)
    (default : option EventClass) : M (option Event) :=
  let event_name := param parameters "event" in
  if is_none event_name then mret None
  else
    event_class ← eff_lift (resolve_by_type event_name default);
    match event_class with
    | None => mret None
    | Some c => cls_from_parameters c parameters
    end.

(** The text of the warning of [deserialise_events]. *)
Definition unable_to_parse_msg : string :=
  "Unable to parse event '{}' while deserialising. The event" +:+
  " will be ignored.".

(** The loop of [deserialise_events], with the list built so far.  The
    warning interpolates [event], which is [None] where it is logged. *)
Fixpoint deserialise_loop (deserialised : list Event)
    (serialized_events : list (pydict pyval)) : M (list Event) :=
  match serialized_events with
  | [] => mret deserialised
  | e :: rest =>
      if dict_contains e "event" then
        event ← from_parameters e None;
        match event with
        | Some ev => deserialise_loop (deserialised ++ [ev]) rest
        | None =>
            logger_warning unable_to_parse_msg [PNone];;
            deserialise_loop deserialised rest
        end
      else deserialise_loop deserialised rest
  end.

(** [deserialise_events(serialized_events)]. *)
Definition deserialise_events (serialized_events : list (pydict pyval))
    : M (list Event) :=
  deserialise_loop [] serialized_events.

(** ** Reference decoder *)

(** What [cls._from_parameters(parameters)] returns and the world it
    leaves, without the plumbing: the attributes read from the
    dictionary, the base attributes in closed form ([new_base]), and the
    two ways a decoder can fail. *)
Definition decode_ref (c : EventClass) (p : pydict pyval) (w : World)
    : result exn (option Event) * World :=
  let ts := param p "timestamp" in
  let b := new_base ts (param p "metadata") w in
  let ok e := (Ok (Some e), tick ts w) in
  match c with
  | CEvent => ok (BareEvent b)
  | CUserUttered =>
      match param p "parse_data" with
      | PDict d =>
          let intent := param d "intent" in
          let entities := dict_get d "entities" ?? PList [] in
          let intent := if truthy intent then intent else PDict [] in
          let entities := if truthy entities then entities else PList [] in
          ok (UserUttered (param p "text") intent entities
                (Some (param p "input_channel")) (Some (param p "message_id"))
                (if truthy (PDict d) then PDict d
                 else PDict [("intent", intent); ("entities", entities);
                             ("text", param p "text");
                             ("message_id", param p "message_id");
                             ("metadata", metadata b)])
                b)
      | _ => (Raise (AttributeError "get"), w)
      end
  | CBotUttered =>
      ok (BotUttered (param p "text") (py_or (param p "data") (PDict [])) b)
  | CSlotSet => ok (SlotSet (param p "name") (param p "value") b)
  | CRestarted => ok (Restarted b)
  | CUserUtteranceReverted => ok (UserUtteranceReverted b)
  | CAllSlotsReset => ok (AllSlotsReset b)
  | CReminderScheduled =>
      match dt_parse (param p "date_time") with
      | Ok t =>
          let name := param p "name" in
          (Ok (Some (ReminderScheduled (param p "action") t
                       (dict_get p "kill_on_user_msg" ?? PBool true)
                       (fresh_name name w) b)),
           tick ts (draw name w))
      | Raise x => (Raise x, w)
      end
  | CReminderCancelled => ok (ReminderCancelled (param p "action") b)
  | CActionReverted => ok (ActionReverted b)
  | CStoryExported => ok (StoryExported (param p "path") b)
  | CFollowupAction => ok (FollowupAction (param p "name") b)
  | CConversationPaused => ok (ConversationPaused b)
  | CConversationResumed => ok (ConversationResumed b)
  | CActionExecuted =>
      ok (ActionExecuted (param p "name") (Some (param p "policy"))
            (Some (param p "confidence")) false b)
  | CAgentUttered => ok (AgentUttered (param p "text") (param p "data") b)
  | CForm => ok (Form (param p "name") b)
  | CFormValidation => ok (FormValidation (param p "validate") b)
  | CActionExecutionRejected =>
      ok (ActionExecutionRejected (param p "name") (param p "policy")
            (param p "confidence") b)
  end.

(** The record [deserialise_events] logs for a record that decodes to
    nothing. *)
Definition unable_to_parse : LogRecord :=
  {| log_msg := unable_to_parse_msg; log_args := [PNone] |}.

(** The world after [deserialise_events] has looked at what a record
    decoded to. *)
Definition ignored (event : option Event) (w : World) : World :=
  if event then w else logged unable_to_parse w.

(** The events [deserialise_events] returns when nothing raises: the
    records without the key [event] and the records that decode to
    nothing are skipped, the latter with a warning, and the order of
    the others is kept. *)
Fixpoint deserialise_ref (l : list (pydict pyval)) : M (list Event) :=
  match l with
  | [] => mret []
  | e :: rest =>
      if dict_contains e "event" then
        event ← from_parameters e None;
        (fun w => (Ok tt, ignored event w));;
        evs ← deserialise_ref rest;
        mret (option_list event ++ evs)
      else deserialise_ref rest
  end.

(** ** Events that survive a round trip *)

Definition base_rt (b : EventBase) : bool :=
  truthy (timestamp b) &&
  match _metadata b with
  | Some md => truthy_or (PDict []) md
  | None => false
  end.

(** The events [from_parameters (as_dict e)] returns unchanged: the
    timestamp is truthy, the attributes are those a constructor leaves,
    the intent and the entities of a user message are those of its parse
    data, and the attributes that [as_dict] does not write are [None]. *)
Definition rt_ok (e : Event) : bool :=
  base_rt (event_base e) &&
  match e with
  | BareEvent _ => false
  | UserUttered _ intent entities ic mid pd _ =>
      present ic && present mid && truthy pd &&
      match pd with
      | PDict d =>
          bool_decide (intent = py_or (param d "intent") (PDict [])) &&
          bool_decide (entities = py_or (dict_get d "entities" ?? PList []) (PList []))
      | _ => false
      end
  | BotUttered _ data _ => truthy_or (PDict []) data
  | ReminderScheduled _ _ _ name _ => negb (is_none name)
  | ReminderCancelled a _ => is_none a
  | StoryExported path _ => is_none path
  | ActionExecuted _ p c u _ => present p && present c && negb u
  | _ => true
  end.

(** ** The shape of an encoded event and of a story line *)

(** The entries a subclass adds to the dictionary of the base class. *)
Definition own_entries (e : Event) : pydict pyval :=
  match e with
  | UserUttered text _ _ ic mid pd b =>
      [("text", text); ("parse_data", pd); ("input_channel", ic ?? PNone);
       ("message_id", mid ?? PNone)]
  | BotUttered text data b => [("text", text); ("data", data)]
  | SlotSet key value _ => [("name", key); ("value", value)]
  | ReminderScheduled a t kill name _ =>
      [("action", a); ("date_time", PStr (dt_isoformat t)); ("name", name);
       ("kill_on_user_msg", kill)]
  | FollowupAction a _ => [("name", a)]
  | ActionExecuted a p c _ _ =>
      [("name", a); ("policy", p ?? PNone); ("confidence", c ?? PNone)]
  | AgentUttered text data _ => [("text", text); ("data", data)]
  | Form name _ => [("name", name)]
  | FormValidation v _ => [("validate", v)]
  | ActionExecutionRejected a p c _ =>
      [("name", a); ("policy", p); ("confidence", c)]
  | _ => []
  end.

(** [UserUttered] and [BotUttered] write the metadata themselves. *)
Definition writes_metadata (e : Event) : bool :=
  match e with
  | UserUttered _ _ _ _ _ _ _ | BotUttered _ _ _ => true
  | _ => false
  end.

(** The events of a [slot] line in closed form: one per entry, in the
    order of the entries, each with a clock reading of its own. *)
Fixpoint slot_events (p : pydict pyval) (w : World) : list Event :=
  match p with
  | [] => []
  | (k, v) :: p' => SlotSet (PStr k) v (new_base PNone PNone w) :: slot_events p' (tick PNone w)
  end.

End codec.

(** ** Example events and records *)

(** The base attributes of an event stamped at [1.5e9] seconds. *)
Definition demo_base : EventBase :=
  {| timestamp := PFloat (FFin 1500000000 0); _metadata := Some (PDict []) |}.

Definition demo_slot : @Event string_datetime :=
  SlotSet (PStr "city") (PStr "Oslo") demo_base.

Definition demo_user : @Event string_datetime :=
  UserUttered (PStr "hello") (PDict [("name", PStr "greet")]) (PList [])
    (Some (PStr "rest")) (Some PNone)
    (PDict [("intent", PDict [("name", PStr "greet")]); ("entities", PList [])])
    {| timestamp := PInt 12; _metadata := Some (PDict [("k", PInt 1)]) |}.

Definition demo_reminder : @Event string_datetime :=
  ReminderScheduled (PStr "ping") "2020-01-01T10:00:00" (PBool true)
    (PStr "wake") demo_base.

(** The batch of the specification: a record with an unknown tag between
    two slot records. *)
Definition slot_record (name : string) (value : Z) : pydict pyval :=
  [("event", PStr "slot"); ("name", PStr name); ("value", PInt value)].

Definition bogus_record : pydict pyval := [("event", PStr "bogus")].


(** Reduce lookups and updates on dictionaries whose keys are known. *)
Ltac dict_simpl := unfold param in *; simpl in *.

(** Run a decoder: unfold the binds and rewrite the constructor calls to
    their closed forms. *)
Ltac run_codec :=
  unfold cls_from_parameters, Event_from_parameters, cls_from_story_string,
    Event_from_story_string, init2, UserUttered_from_story_string,
    ReminderScheduled_from_story_string, ReminderCancelled_from_story_string,
    StoryExported_from_story_string, FollowupAction_from_story_string,
    ActionExecuted_from_story_string, Form_from_story_string,
    BotUttered_from_parameters, SlotSet_from_parameters,
    AgentUttered_from_parameters, FormValidation_from_parameters,
    ActionExecutionRejected_from_parameters, eff_catch, failed_to_parse,
    eff_raise;
  init_eq;
  repeat first
    [ rewrite eff_bind_run | rewrite eff_ret_run | rewrite eff_lift_run
    | rewrite super_init_eq | rewrite UserUttered_init_eq
    | rewrite ReminderScheduled_init_eq | progress cbv beta iota ].

(** The ways through [decode_ref] that return an event, one for each
    class: a goal [decode_ref c p w = (Ok (Some e), w') -> _] is left with
    [e] and [w'] replaced by what the class builds. *)
Ltac decode_ref_cases :=
  unfold decode_ref;
  match goal with |- match ?c with _ => _ end = _ -> _ => destruct c end;
  try match goal with
      | |- match ?x with _ => _ end = _ -> _ => destruct x eqn:?; try done
      end;
  intros [= <- <-].

Section codec_theory.
Context {DT : DateTimeLib}.

(** ** The shape of an encoded event *)


Lemma Event_as_dict_shape c b :
  Event_as_dict c b =
  [("event", PStr (type_name c)); ("timestamp", timestamp b)] ++
  (if truthy (metadata b) then [("metadata", metadata b)] else []).
Proof. unfold Event_as_dict. by destruct (truthy (metadata b)). Qed.

(** The encoded event, entry by entry: the tag, the timestamp, the
    metadata when it is truthy, the entries of the class, and for
    [UserUttered] and [BotUttered] the metadata even when it is empty. *)
Lemma as_dict_shape e :
  let b := event_base e in
  as_dict e =
  [("event", PStr (type_name (class_of e))); ("timestamp", timestamp b)] ++
  (if truthy (metadata b) then [("metadata", metadata b)] else []) ++
  own_entries e ++
  (if writes_metadata e && negb (truthy (metadata b))
   then [("metadata", metadata b)] else []).
Proof.
  destruct e; simpl;
    unfold UserUttered_as_dict, BotUttered_as_dict, SlotSet_as_dict,
      ReminderScheduled_as_dict, ReminderScheduled_data_obj,
      FollowupAction_as_dict, ActionExecuted_as_dict, AgentUttered_as_dict,
      Form_as_dict, FormValidation_as_dict, ActionExecutionRejected_as_dict;
    rewrite Event_as_dict_shape; destruct (truthy (metadata b)); try done.
  all: by destruct policy, confidence.
Qed.

Lemma as_dict_wf e : dict_wf (as_dict e).
Proof.
  rewrite as_dict_shape. unfold dict_wf, dict_keys.
  destruct e, (truthy (metadata _)); simpl; compute_done.
Qed.

Lemma as_dict_event e : param (as_dict e) "event" = PStr (type_name (class_of e)).
Proof. by rewrite as_dict_shape. Qed.

Lemma as_dict_timestamp e : param (as_dict e) "timestamp" = timestamp (event_base e).
Proof. by rewrite as_dict_shape. Qed.

(** The metadata can be read back from the dictionary up to [or {}]. *)
Lemma as_dict_metadata e :
  py_or (param (as_dict e) "metadata") (PDict []) =
  py_or (metadata (event_base e)) (PDict []).
Proof.
  rewrite as_dict_shape. unfold py_or.
  destruct e; dict_simpl; destruct (truthy (metadata b)) eqn:Hm; simpl;
    by rewrite ?Hm.
Qed.

(** C5: [as_dict] writes the key [metadata] exactly when the metadata
    is truthy or the event is a [UserUttered] or a [BotUttered], which
    write it even when it is empty. *)
Theorem as_dict_metadata_key e :
  dict_contains (as_dict e) "metadata" =
  truthy (metadata (event_base e)) || writes_metadata e.
Proof.
  rewrite as_dict_shape. simpl.
  destruct (truthy (metadata (event_base e))); [done|]. by destruct e.
Qed.

(** ** The decoders implement the reference decoder *)

Lemma UserUttered_from_story_string_ref p w :
  UserUttered_from_story_string p w =
  match decode_ref CUserUttered p w with
  | (Ok (Some e), w') => (Ok (Some [e]), w')
  | (Ok None, w') => (Ok None, w')
  | (Raise x, w') => (Raise x, w')
  end.
Proof.
  unfold UserUttered_from_story_string, eff_catch, decode_ref.
  rewrite eff_bind_run.
  destruct (param p "parse_data") as [| | | | | |d] eqn:Hpd;
    rewrite ?UserUttered_from_parse_data_error by done; try done.
  by rewrite UserUttered_from_parse_data_dict, UserUttered_init_eq.
Qed.

(** Decoding a dictionary, class by class: what is returned and what
    becomes of the world.  The [except KeyError] handlers are never
    entered and [len(result)] is never applied to [None]. *)
Lemma cls_from_parameters_ref c p w :
  cls_from_parameters c p w = decode_ref c p w.
Proof.
  destruct c; try (by run_codec).
  - unfold cls_from_parameters, Event_from_parameters, cls_from_story_string.
    rewrite eff_bind_run, UserUttered_from_story_string_ref.
    unfold decode_ref. by destruct (param p "parse_data").
  - run_codec. unfold decode_ref. destruct (dt_parse _); [|done]. by run_codec.
Qed.

(** The three ways out of [from_parameters]. *)
Lemma from_parameters_resolved p d w c :
  is_none (param p "event") = false ->
  resolve_by_type (param p "event") d = Ok (Some c) ->
  from_parameters p d w = decode_ref c p w.
Proof.
  intros Hn Hr. unfold from_parameters. rewrite Hn, eff_bind_run, eff_lift_run, Hr.
  apply cls_from_parameters_ref.
Qed.

Lemma from_parameters_skipped p d w :
  is_none (param p "event") = true \/
  resolve_by_type (param p "event") d = Ok None ->
  from_parameters p d w = (Ok None, w).
Proof.
  unfold from_parameters. intros [->|Hr]; [done|]. destruct (is_none _); [done|].
  by rewrite eff_bind_run, eff_lift_run, Hr.
Qed.

Lemma from_parameters_raises p d w x :
  is_none (param p "event") = false ->
  resolve_by_type (param p "event") d = Raise x ->
  from_parameters p d w = (Raise x, w).
Proof.
  intros Hn Hr. unfold from_parameters.
  by rewrite Hn, eff_bind_run, eff_lift_run, Hr.
Qed.

(** [Event.from_story_string] once the class is resolved. *)
Lemma from_story_string_resolved name p d w c :
  resolve_by_type name d = Ok (Some c) ->
  from_story_string name p d w = cls_from_story_string c p w.
Proof.
  intros Hr. unfold from_story_string. by rewrite eff_bind_run, eff_lift_run, Hr.
Qed.

(** A call of [Event.from_parameters] takes one of the three ways. *)
Lemma from_parameters_cases p d w :
  from_parameters p d w = (Ok None, w) /\
    (is_none (param p "event") = true \/
     resolve_by_type (param p "event") d = Ok None) \/
  (exists c, from_parameters p d w = decode_ref c p w /\
             resolve_by_type (param p "event") d = Ok (Some c)) \/
  (exists x, from_parameters p d w = (Raise x, w) /\
             resolve_by_type (param p "event") d = Raise x).
Proof.
  destruct (is_none (param p "event")) eqn:Hn;
    [left; rewrite from_parameters_skipped by auto; auto|].
  destruct (resolve_by_type (param p "event") d) as [[c|]|x] eqn:Hr.
  - right; left. eauto using from_parameters_resolved.
  - left. rewrite from_parameters_skipped by auto. auto.
  - right; right. eauto using from_parameters_raises.
Qed.

(** A record that decodes to an event has a tag that resolves to the
    class whose decoder ran. *)
Lemma from_parameters_Some p d w e w' :
  from_parameters p d w = (Ok (Some e), w') ->
  exists c, resolve_by_type (param p "event") d = Ok (Some c) /\
            decode_ref c p w = (Ok (Some e), w').
Proof.
  destruct (from_parameters_cases p d w) as [[-> _]|[(c & -> & ?)|(x & -> & _)]];
    [done|eauto|done].
Qed.

(** C3: [Event.from_parameters] implements the reference decoder: a
    dictionary without a tag, or with the tag [None], gives no event;
    otherwise the class of the tag is resolved, an unresolved tag raises,
    the legacy tag gives no event, and a resolved class yields the event
    of [decode_ref] and the world it leaves. *)
Theorem from_parameters_ref p d w :
  from_parameters p d w =
  if is_none (param p "event") then (Ok None, w)
  else match resolve_by_type (param p "event") d with
       | Ok (Some c) => decode_ref c p w
       | Ok None => (Ok None, w)
       | Raise x => (Raise x, w)
       end.
Proof.
  destruct (is_none (param p "event")) eqn:Hn;
    [by rewrite from_parameters_skipped by auto|].
  destruct (resolve_by_type (param p "event") d) as [[c|]|x] eqn:Hr;
    eauto using from_parameters_resolved, from_parameters_skipped,
      from_parameters_raises.
Qed.

(** ** Round trip *)

Lemma truthy_or_py_or_id d v : truthy_or d v = true -> py_or v d = v.
Proof.
  unfold truthy_or, py_or. destruct (truthy v); [done|].
  by intros ->%bool_decide_eq_true.
Qed.

(** The base attributes are read back unchanged and the clock is not
    consulted. *)
Lemma base_rt_new_base e w :
  base_rt (event_base e) = true ->
  new_base (param (as_dict e) "timestamp") (param (as_dict e) "metadata") w =
    event_base e.
Proof.
  intros [Hts Hmd]%andb_true_iff. rewrite as_dict_timestamp.
  unfold new_base. rewrite stamp_truthy, as_dict_metadata by done.
  unfold metadata. destruct (event_base e) as [ts [md|]]; [|done]. simpl in *.
  by rewrite truthy_or_py_or_id.
Qed.

Lemma base_rt_tick e w :
  base_rt (event_base e) = true -> tick (param (as_dict e) "timestamp") w = w.
Proof.
  intros [Hts Hmd]%andb_true_iff. by rewrite as_dict_timestamp, tick_truthy.
Qed.

Lemma rt_ok_class e : rt_ok e = true -> class_of e ≠ CEvent.
Proof. destruct e; [|done..]. unfold rt_ok. by rewrite andb_false_r. Qed.

(** The reference decoder inverts [as_dict]. *)
Lemma decode_ref_as_dict e w :
  rt_ok e = true -> decode_ref (class_of e) (as_dict e) w = (Ok (Some e), w).
Proof.
  intros [Hb He]%andb_true_iff.
  destruct e; try done; unfold decode_ref; cbn [class_of];
    cbv zeta; rewrite !base_rt_new_base, !base_rt_tick by done;
    rewrite ?as_dict_shape; cbn [event_base] in *;
    destruct (truthy (metadata b)); dict_simpl; try done.
  all: try (by rewrite truthy_or_py_or_id).
  all: try (rewrite dt_parse_isoformat;
            by rewrite fresh_name_given, draw_given by by apply negb_true_iff).
  all: try (by destruct action_name).
  all: try (by destruct path).
  all: try (by destruct policy, confidence, unpredictable).
  all: destruct input_channel, message_id, parse_data; try done;
    simpl in He; rewrite ?andb_false_r in He; try done;
    destruct_and?; repeat case_bool_decide; try done; subst;
    unfold py_or; simpl; try done.
Qed.

Lemma as_dict_tagged e : is_none (param (as_dict e) "event") = false.
Proof. by rewrite as_dict_event. Qed.

Lemma as_dict_resolves e d :
  class_of e ≠ CEvent ->
  resolve_by_type (param (as_dict e) "event") d = Ok (Some (class_of e)).
Proof.
  intros Hc. rewrite as_dict_event.
  by apply resolve_registered, registry_lookup.
Qed.

(** A decoded event is one that survives the round trip, provided its
    timestamp is truthy and it is not a [ReminderCancelled] or a
    [StoryExported] with a payload, which [as_dict] does not write. *)
Lemma decode_ref_rt_ok c p w e w' :
  decode_ref c p w = (Ok (Some e), w') ->
  truthy (stamp (param p "timestamp") w) = true ->
  c ≠ CEvent ->
  (c = CReminderCancelled -> is_none (param p "action") = true) ->
  (c = CStoryExported -> is_none (param p "path") = true) ->
  rt_ok e = true.
Proof.
  intros Hdec Hts Hc Hcancel Hexport.
  assert (base_rt (new_base (param p "timestamp") (param p "metadata") w) = true)
    as Hb by (unfold base_rt; simpl; by rewrite Hts, truthy_or_py_or).
  destruct c; try done; unfold decode_ref in Hdec; cbv zeta in Hdec.
  all: try (simplify_eq; unfold rt_ok; cbn [event_base]; rewrite Hb; simpl;
            by rewrite ?truthy_or_py_or, ?Hcancel, ?Hexport).
  - destruct (param p "parse_data") as [| | | | | |d]; simplify_eq.
    unfold rt_ok. cbn [event_base]. rewrite Hb. simpl.
    destruct d as [|kv d].
    + by rewrite (bool_decide_eq_true_2 ([] = [])) by done.
    + rewrite (bool_decide_eq_false_2 (kv :: d = [])) by done. simpl.
      by rewrite !bool_decide_eq_true_2.
  - destruct (dt_parse _); simplify_eq.
    unfold rt_ok. cbn [event_base]. rewrite Hb. simpl.
    unfold fresh_name. by destruct (param p "name").
Qed.

(** The clock is read exactly when the timestamp of the record is
    falsy. *)
Lemma decode_ref_ticks c p w o w' :
  decode_ref c p w = (Ok o, w') ->
  w_ticks w' = if truthy (param p "timestamp") then w_ticks w else S (w_ticks w).
Proof.
  unfold decode_ref. destruct c; try (intros [= _ <-]; apply tick_fields).
  - destruct (param p "parse_data"); try done. intros [= _ <-]; apply tick_fields.
  - destruct (dt_parse _); [|done]. intros [= _ <-].
    destruct (tick_fields (param p "timestamp") (draw (param p "name") w))
      as (_ & _ & _ & ->).
    by destruct (draw_fields (param p "name") w) as (_ & _ & -> & _).
Qed.

(** The dictionary of an instance of the base class does not decode:
    its tag is not registered. *)
Lemma from_parameters_bare b w :
  from_parameters (as_dict (BareEvent b)) None w =
  (Raise (ValueError (UnknownEventName (PStr "event"))), w).
Proof.
  apply from_parameters_raises; rewrite as_dict_event; [done|].
  by apply resolve_unregistered.
Qed.

(** Only the events of [rt_ok] come back unchanged. *)
Lemma as_dict_fixed_rt_ok e w :
  from_parameters (as_dict e) None w = (Ok (Some e), w) -> rt_ok e = true.
Proof.
  intros Hd.
  assert (class_of e ≠ CEvent) as Hc
    by (intros Hc; destruct e; try done; by rewrite from_parameters_bare in Hd).
  rewrite (from_parameters_resolved _ _ _ (class_of e)) in Hd
    by auto using as_dict_tagged, as_dict_resolves.
  pose proof (decode_ref_ticks _ _ _ _ _ Hd) as Ht. rewrite as_dict_timestamp in Ht.
  destruct (truthy (timestamp (event_base e))) eqn:Hts; [|lia].
  apply (decode_ref_rt_ok _ _ _ _ _ Hd);
    [by rewrite as_dict_timestamp, stamp_truthy|done|..];
    intros He; destruct e; try done; rewrite as_dict_shape; cbv zeta;
    cbn [event_base writes_metadata own_entries andb];
    by destruct (truthy (metadata b)).
Qed.

(** C1: decoding the dictionary of an event with [Event.from_parameters]
    gives the event back and leaves the world as it was (the clock is not
    read, no identifier is drawn) exactly for the events whose
    attributes are the ones a decoder can produce ([rt_ok]). *)
Theorem from_parameters_as_dict e w :
  from_parameters (as_dict e) None w = (Ok (Some e), w) <-> rt_ok e = true.
Proof.
  split; [apply as_dict_fixed_rt_ok|]. intros Hrt.
  rewrite (from_parameters_resolved _ _ _ (class_of e))
    by auto using as_dict_tagged, as_dict_resolves, rt_ok_class.
  by apply decode_ref_as_dict.
Qed.

(** C27: decoding is idempotent through the dictionary form: an event
    decoded from a record of a subclass with a truthy timestamp (given or
    read from a clock that is not at zero), other than a
    [ReminderCancelled] or [StoryExported] with a payload, encodes to a
    dictionary that decodes to the same event. *)
Theorem from_parameters_idempotent p c w e w' w2 :
  resolve_by_type (param p "event") None = Ok (Some c) ->
  from_parameters p None w = (Ok (Some e), w') ->
  truthy (stamp (param p "timestamp") w) = true ->
  (c = CReminderCancelled -> is_none (param p "action") = true) ->
  (c = CStoryExported -> is_none (param p "path") = true) ->
  from_parameters (as_dict e) None w2 = (Ok (Some e), w2).
Proof.
  intros Hr Hdec Hts Hcancel Hexport.
  destruct (is_none (param p "event")) eqn:Hn;
    [by rewrite from_parameters_skipped in Hdec by auto|].
  rewrite (from_parameters_resolved _ _ _ c) in Hdec by done.
  pose proof (resolve_subclass _ _ Hr) as Hc.
  pose proof (decode_ref_rt_ok _ _ _ _ _ Hdec Hts Hc Hcancel Hexport) as Hrt.
  rewrite (from_parameters_resolved _ _ _ (class_of e))
    by auto using as_dict_tagged, as_dict_resolves, rt_ok_class.
  by apply decode_ref_as_dict.
Qed.

(** ** Decoding, then encoding *)

(** A decoder that returns has built an event. *)
Lemma decode_ref_Some c p w o w' :
  decode_ref c p w = (Ok o, w') -> exists e, o = Some e.
Proof.
  unfold decode_ref. intros H. destruct c; repeat case_match; simplify_eq; eauto.
Qed.

(** A decoded event is an instance of the class that decoded it, with
    the base attributes [Event.__init__] makes of the record. *)
Lemma decode_ref_base c p w e w' :
  decode_ref c p w = (Ok (Some e), w') ->
  class_of e = c /\
  event_base e = new_base (param p "timestamp") (param p "metadata") w.
Proof. revert e w'. intros e w'. by decode_ref_cases. Qed.

Lemma own_entries_wf (e : Event) : dict_wf (own_entries e).
Proof. unfold dict_wf, dict_keys. destruct e; simpl; compute_done. Qed.

(** Where an entry of an encoded event comes from. *)
Lemma as_dict_get (e : Event) k v :
  dict_get (as_dict e) k = Some v ->
  k = "event" /\ v = PStr (type_name (class_of e)) \/
  k = "timestamp" /\ v = timestamp (event_base e) \/
  k = "metadata" /\ v = metadata (event_base e) \/
  dict_get (own_entries e) k = Some v.
Proof.
  intros Hg%dict_get_Some_elem. rewrite as_dict_shape in Hg. simpl in Hg.
  rewrite !elem_of_cons, !elem_of_app in Hg.
  destruct Hg as [[= -> ->]|[[= -> ->]|[Hm|[Ho|Hm]]]]; auto.
  - destruct (truthy _); [|by apply elem_of_nil in Hm].
    apply list_elem_of_singleton in Hm as [= -> ->]. auto.
  - auto using dict_get_elem, own_entries_wf.
  - destruct (_ && _); [|by apply elem_of_nil in Hm].
    apply list_elem_of_singleton in Hm as [= -> ->]. auto.
Qed.

(** The entries of the class hold what the record has under their key,
    but for the date of a reminder and for what a constructor puts in
    the place of a falsy argument. *)
Lemma decode_ref_own c p w e w' k v :
  decode_ref c p w = (Ok (Some e), w') ->
  dict_get (own_entries e) k = Some v -> k ≠ "date_time" ->
  truthy (param p k) = true -> v = param p k.
Proof.
  revert e w'. intros e w'. decode_ref_cases; simpl; intros Hg Hk Ht;
    repeat case_decide; simplify_eq; try done.
  - rewrite Heqp0 in *. simpl in Ht. by rewrite Ht.
  - unfold py_or. by rewrite Ht.
  - unfold fresh_name. revert Ht. destruct (param p "name"); by simpl.
  - unfold param in *. revert Ht. destruct (dict_get p "kill_on_user_msg"); by simpl.
Qed.

(** C32: an event that [Event.from_parameters] decoded from a record
    writes the values of the record back.  Every entry [(k, v)] of the
    dictionary that [as_dict] makes of the event holds the value the
    record has under the same key, when that value is truthy.  Two keys
    are excepted: ["date_time"], which [as_dict] renders again from the
    parsed date, and ["event"] when the caller gave a default class,
    which an unknown tag resolves to.  A falsy value of the record is
    not written back where a constructor replaces it: a timestamp by a
    clock reading, the metadata and the data of a bot utterance by an
    empty dictionary, the name [None] of a reminder by a fresh
    identifier.  So each decoder reads an attribute under the key under
    which [as_dict] writes it. *)
Theorem from_parameters_reencode p d w e w' k v :
  from_parameters p d w = (Ok (Some e), w') ->
  dict_get (as_dict e) k = Some v ->
  k ≠ "date_time" -> (k = "event" -> d = None) ->
  truthy (param p k) = true ->
  v = param p k.
Proof.
  intros (c & Hr & Hd)%from_parameters_Some Hg Hk Hev Ht.
  destruct (decode_ref_base _ _ _ _ _ Hd) as [Hc Hb].
  destruct (as_dict_get _ _ _ Hg) as [[-> ->]|[[-> ->]|[[-> ->]|Ho]]].
  - rewrite Hev in Hr by done.
    destruct (resolve_sound _ _ _ Hr) as [[_ ->]|]; [by rewrite Hc|done].
  - rewrite Hb. simpl. unfold stamp. by rewrite Ht.
  - rewrite Hb. unfold metadata. simpl. unfold py_or. by rewrite Ht.
  - eauto using decode_ref_own.
Qed.

(** [as_dict] is injective on the events that survive the round
    trip: two such events with the same dictionary are the same event. *)
Theorem as_dict_inj e1 e2 :
  rt_ok e1 = true -> rt_ok e2 = true -> as_dict e1 = as_dict e2 -> e1 = e2.
Proof.
  intros H1 H2 Heq.
  pose proof (decode_ref_as_dict e1 demo_world H1) as D1.
  pose proof (decode_ref_as_dict e2 demo_world H2) as D2.
  assert (class_of e1 = class_of e2) as Hc.
  { apply type_name_inj. pose proof (as_dict_event e1) as E1.
    rewrite Heq, as_dict_event in E1. congruence. }
  rewrite Heq, Hc, D2 in D1. congruence.
Qed.

(** The payload of a [ReminderCancelled] and of a [StoryExported]
    does not survive the round trip: [as_dict] does not write the action
    name or the path, and the decoded event has [None] in its place. *)
Theorem payload_lost a path b w :
  base_rt b = true ->
  from_parameters (as_dict (ReminderCancelled a b)) None w =
    (Ok (Some (ReminderCancelled PNone b)), w) /\
  from_parameters (as_dict (StoryExported path b)) None w =
    (Ok (Some (StoryExported PNone b)), w).
Proof.
  intros Hb.
  assert (forall x, as_dict (ReminderCancelled x b) = as_dict (ReminderCancelled PNone b))
    as -> by done.
  assert (forall x, as_dict (StoryExported x b) = as_dict (StoryExported PNone b))
    as -> by done.
  split.
  - rewrite (from_parameters_resolved _ _ _ CReminderCancelled)
      by (by rewrite as_dict_event).
    apply (decode_ref_as_dict (ReminderCancelled PNone b)).
    unfold rt_ok. simpl. by rewrite Hb.
  - rewrite (from_parameters_resolved _ _ _ CStoryExported)
      by (by rewrite as_dict_event).
    apply (decode_ref_as_dict (StoryExported PNone b)).
    unfold rt_ok. simpl. by rewrite Hb.
Qed.

(** ** Errors of the decoder *)

(** C8: [Event.from_parameters] fails in three ways only: the tag is
    unknown ([ValueError] naming the tag), the parse data of a user
    message is not a dictionary ([AttributeError]), or the date of a
    reminder does not parse.  A failing call leaves the world as it was,
    and no missing field raises the [ValueError] of the [except KeyError]
    handlers. *)
Theorem from_parameters_errors p d w x w' :
  from_parameters p d w = (Raise x, w') ->
  w' = w /\
  (x = ValueError (UnknownEventName (param p "event")) \/
   x = AttributeError "get" \/
   dt_parse (param p "date_time") = Raise x).
Proof.
  destruct (is_none (param p "event")) eqn:Hn;
    [by rewrite from_parameters_skipped by auto|].
  destruct (resolve_by_type (param p "event") d) as [[c|]|y] eqn:Hres.
  - rewrite (from_parameters_resolved _ _ _ c) by done.
    unfold decode_ref. destruct c; try done.
    + destruct (param p "parse_data"); intros; simplify_eq; auto.
    + destruct (dt_parse _) eqn:Hd; intros; simplify_eq; auto.
  - by rewrite from_parameters_skipped by auto.
  - rewrite (from_parameters_raises _ _ _ y) by done.
    intros [= <- <-]. split; [done|left].
    unfold resolve_by_type in Hres. repeat case_match; simplify_eq. done.
Qed.

(** A record of a class other than [UserUttered] and [ReminderScheduled]
    always decodes: a missing field is read as [None]. *)
Lemma decode_ref_total c p w :
  c ≠ CUserUttered -> c ≠ CReminderScheduled ->
  exists e, decode_ref c p w = (Ok (Some e), tick (param p "timestamp") w) /\
            class_of e = c.
Proof. intros ? ?. destruct c; try done; by eexists. Qed.

(** C28: a record whose tag is that of a subclass other than
    [UserUttered] and [ReminderScheduled] always decodes to an event of
    that subclass, whatever fields it holds or lacks: a missing field is
    read as [None] and no error is raised.  The clock is read exactly when
    the timestamp is missing or falsy. *)
Theorem from_parameters_total p c w :
  c ∈ all_subclasses -> c ≠ CUserUttered -> c ≠ CReminderScheduled ->
  dict_get p "event" = Some (PStr (type_name c)) ->
  exists e, from_parameters p None w = (Ok (Some e), tick (param p "timestamp") w) /\
            class_of e = c.
Proof.
  intros Hc%all_subclasses_spec Hu Hr Hev.
  rewrite (from_parameters_resolved _ _ _ c).
  - by apply decode_ref_total.
  - unfold param. by rewrite Hev.
  - unfold param. rewrite Hev. by apply resolve_registered, registry_lookup.
Qed.

(** ** Lists of records *)

(** The loop of [deserialise_events] computes the reference list. *)
Lemma deserialise_loop_ref acc l w :
  deserialise_loop acc l w =
  match deserialise_ref l w with
  | (Ok evs, w') => (Ok (acc ++ evs), w')
  | (Raise x, w') => (Raise x, w')
  end.
Proof.
  revert acc w. induction l as [|r l IH]; intros acc w; simpl.
  - by rewrite eff_ret_run, app_nil_r.
  - destruct (dict_contains r "event"); [|apply IH].
    rewrite !eff_bind_run.
    destruct (from_parameters r None w) as [[[ev|]|x] w1]; [..|done];
      rewrite !eff_bind_run; unfold logger_warning; simpl; rewrite IH;
      destruct (deserialise_ref l _) as [[evs|x] w2]; try done.
    by rewrite eff_ret_run, <- app_assoc.
Qed.

Lemma deserialise_events_run l w : deserialise_events l w = deserialise_loop [] l w.
Proof. reflexivity. Qed.

(** The loop started with the empty list. *)
Lemma deserialise_loop_nil l w : deserialise_loop [] l w = deserialise_ref l w.
Proof.
  rewrite deserialise_loop_ref. by destruct (deserialise_ref l w) as [[evs|x] w'].
Qed.

(** C23: the loop of [deserialise_events], which appends to a list as it
    goes, returns what the recursive reference returns: the events of the
    records that have a tag and decode to an event, in the order of the
    records, or the first error. *)
Theorem deserialise_events_ref l w : deserialise_events l w = deserialise_ref l w.
Proof. rewrite deserialise_events_run. apply deserialise_loop_nil. Qed.

(** One record and then the rest. *)
Lemma deserialise_events_cons r l w :
  deserialise_events (r :: l) w =
  if dict_contains r "event" then
    match from_parameters r None w with
    | (Ok o, w1) =>
        match deserialise_events l (ignored o w1) with
        | (Ok evs, w2) => (Ok (option_list o ++ evs), w2)
        | (Raise x, w2) => (Raise x, w2)
        end
    | (Raise x, w1) => (Raise x, w1)
    end
  else deserialise_events l w.
Proof.
  rewrite !deserialise_events_run, !deserialise_loop_nil. simpl.
  destruct (dict_contains r "event"); [|done].
  rewrite eff_bind_run. destruct (from_parameters r None w) as [[o|x] w1]; [|done].
  rewrite !eff_bind_run. cbv beta iota.
  rewrite deserialise_events_run, deserialise_loop_nil.
  by destruct (deserialise_ref l _) as [[]].
Qed.

(** An encoded event, which decodes to an event, and then the rest:
    nothing is logged for it. *)
Lemma deserialise_events_encoded e l w e' w1 evs w2 :
  from_parameters (as_dict e) None w = (Ok (Some e'), w1) ->
  deserialise_events l w1 = (Ok evs, w2) ->
  deserialise_events (as_dict e :: l) w = (Ok (e' :: evs), w2).
Proof.
  intros Hd Hl. rewrite deserialise_events_cons. unfold dict_contains.
  pose proof (as_dict_tagged e) as Hev. unfold param in Hev.
  destruct (dict_get (as_dict e) "event"); [|done].
  rewrite Hd. unfold ignored. by rewrite Hl.
Qed.

Lemma deserialise_events_app l1 l2 w evs w1 :
  deserialise_events l1 w = (Ok evs, w1) ->
  deserialise_events (l1 ++ l2) w =
  match deserialise_events l2 w1 with
  | (Ok evs', w2) => (Ok (evs ++ evs'), w2)
  | (Raise x, w2) => (Raise x, w2)
  end.
Proof.
  revert w evs. induction l1 as [|r l1 IH]; intros w evs.
  - intros [= <- <-]. simpl. by destruct (deserialise_events l2 w) as [[]].
  - rewrite <- app_comm_cons, !deserialise_events_cons.
    destruct (dict_contains r "event"); [|apply IH].
    destruct (from_parameters r None w) as [[o|x] w0]; [|done].
    destruct (deserialise_events l1 (ignored o w0)) as [[evs0|x] w0'] eqn:H1; [|done].
    intros [= <- <-]. rewrite (IH _ _ H1).
    destruct (deserialise_events l2 w0') as [[]]; by rewrite ?app_assoc.
Qed.

(** A call that returns has decoded its first records without an
    error. *)
Lemma deserialise_events_app_inv l1 l2 w evs w' :
  deserialise_events (l1 ++ l2) w = (Ok evs, w') ->
  exists evs1 w1 evs2,
    deserialise_events l1 w = (Ok evs1, w1) /\
    deserialise_events l2 w1 = (Ok evs2, w') /\ evs = evs1 ++ evs2.
Proof.
  revert w evs. induction l1 as [|r l1 IH]; intros w evs; [by exists [], w, evs|].
  rewrite <- app_comm_cons, !deserialise_events_cons.
  destruct (dict_contains r "event"); [|apply IH].
  destruct (from_parameters r None w) as [[o|x] w0]; [|done].
  destruct (deserialise_events (l1 ++ l2) _) as [[evs0|x] w0'] eqn:H; [|done].
  intros [= <- <-]. destruct (IH _ _ H) as (evs1 & w1 & evs2 & -> & ? & ->).
  exists (option_list o ++ evs1), w1, evs2. by rewrite app_assoc.
Qed.

(** The event of the record after [evs1] events is the next event of
    the result. *)
Lemma delivered_at (evs1 evs2 : list Event) o e :
  o = Some e -> (evs1 ++ option_list o ++ evs2) !! length evs1 = Some e.
Proof. intros ->. by rewrite lookup_app_r, Nat.sub_diag by done. Qed.

(** C2: one record with an unknown tag makes the whole call of
    [deserialise_events] raise [ValueError]: the events decoded before it
    are lost and the records after it are not read. *)
Theorem deserialise_events_unknown l1 r l2 s w evs w1 :
  deserialise_events l1 w = (Ok evs, w1) ->
  dict_get r "event" = Some (PStr s) -> unknown_tag s ->
  deserialise_events (l1 ++ r :: l2) w =
  (Raise (ValueError (UnknownEventName (PStr s))), w1).
Proof.
  intros H1 Hr [Hs Ht]. rewrite (deserialise_events_app _ _ _ _ _ H1).
  rewrite deserialise_events_cons. unfold dict_contains. rewrite Hr.
  assert (param r "event" = PStr s) as Hp by (unfold param; by rewrite Hr).
  rewrite (from_parameters_raises _ _ _ (ValueError (UnknownEventName (PStr s))));
    rewrite ?Hp; try done.
  by apply (resolve_unregistered s None).
Qed.

(** C31: no record is lost and no event is delivered out of order.
    When a call of [deserialise_events] returns, every record [r] of its
    argument that has the key [event] was handed to
    [Event.from_parameters], in the world that the records before it
    left, and the decoder did not raise; a record without the key was
    not decoded.  The result is the events of the records before [r],
    then the event of [r] if it gave one, then the events of the records
    after [r]: the event of [r] stands in the result at the position
    that counts the events decoded before it. *)
Theorem deserialise_events_delivers l1 r l2 w evs w' :
  deserialise_events (l1 ++ r :: l2) w = (Ok evs, w') ->
  exists evs1 w1 o w2 evs2,
    deserialise_events l1 w = (Ok evs1, w1) /\
    (if dict_contains r "event" then from_parameters r None w1 = (Ok o, w2)
     else o = None /\ w2 = w1) /\
    deserialise_events l2 (if dict_contains r "event" then ignored o w2 else w2) =
      (Ok evs2, w') /\
    evs = evs1 ++ option_list o ++ evs2 /\
    (forall e, o = Some e -> evs !! length evs1 = Some e).
Proof.
  intros (evs1 & w1 & evs' & H1 & Hr & ->)%deserialise_events_app_inv.
  rewrite deserialise_events_cons in Hr. exists evs1, w1.
  destruct (dict_contains r "event").
  - destruct (from_parameters r None w1) as [[o|x] w2]; [|done].
    destruct (deserialise_events l2 (ignored o w2)) as [[evs2|x] w3] eqn:H2; [|done].
    injection Hr as <- <-. exists o, w2, evs2. eauto 6 using delivered_at.
  - exists None, w1, evs'. split_and!; try done.
Qed.

(** [deserialise_events] skips the records without the key [event]
    and the records with the legacy tag [topic]; it logs nothing for
    the former and one warning for each of the latter. *)
Theorem deserialise_events_skip r l w :
  dict_get r "event" = None \/ dict_get r "event" = Some (PStr "topic") ->
  deserialise_events (r :: l) w =
  deserialise_events l
    (if dict_contains r "event" then logged unable_to_parse w else w).
Proof.
  intros [Hr|Hr]; rewrite deserialise_events_cons; unfold dict_contains;
    rewrite Hr; [done|].
  rewrite from_parameters_skipped by (right; unfold param; by rewrite Hr).
  by destruct (deserialise_events l _) as [[]].
Qed.

(** C4: a list of encoded events decodes with [deserialise_events] to
    the events, in their order, and leaves the world as it was. *)
Theorem deserialise_events_as_dict es w :
  Forall (fun e => rt_ok e = true) es ->
  deserialise_events (as_dict <$> es) w = (Ok es, w).
Proof.
  induction 1 as [|e es He _ IH]; [done|].
  rewrite fmap_cons. apply (deserialise_events_encoded _ _ _ _ w); [|done].
  rewrite (from_parameters_resolved _ _ _ (class_of e))
    by auto using as_dict_tagged, as_dict_resolves, rt_ok_class.
  by apply decode_ref_as_dict.
Qed.

(** [deserialise_events] returns no more events than it is given
    records. *)
Theorem deserialise_events_length l w evs w' :
  deserialise_events l w = (Ok evs, w') -> length evs <= length l.
Proof.
  revert w evs w'. induction l as [|r l IH]; intros w evs w'.
  - by intros [= <- _].
  - rewrite deserialise_events_cons.
    destruct (dict_contains r "event");
      [|intros ?%IH; simpl; lia].
    destruct (from_parameters r None w) as [[o|x] w1]; [|done].
    destruct (deserialise_events l _) as [[evs1|x] w2] eqn:H1; [|done].
    intros [= <- _]. apply IH in H1. rewrite length_app.
    destruct o; simpl; lia.
Qed.

(** ** Story lines *)

Lemma slot_events_mapM p w :
  eff_mapM (fun kv => SlotSet_init (PStr kv.1) kv.2 PNone PNone) p w =
  (Ok (slot_events p w), Nat.iter (length p) (tick PNone) w).
Proof.
  revert w. induction p as [|[k v] p IH]; intros w; [done|].
  cbn [eff_mapM slot_events length]. rewrite eff_bind_run. init_eq.
  rewrite eff_bind_run, IH, eff_ret_run. by rewrite Nat.iter_succ_r.
Qed.

Lemma slot_events_length p w : length (slot_events p w) = length p.
Proof. revert w. induction p as [|[k v] p IH]; intros w; simpl; by rewrite ?IH. Qed.

Lemma iter_tick_ticks n w :
  w_ticks (Nat.iter n (tick PNone) w) = n + w_ticks w /\
  w_clock (Nat.iter n (tick PNone) w) = w_clock w /\
  w_uuids (Nat.iter n (tick PNone) w) = w_uuids w.
Proof.
  induction n as [|n (IH1 & IH2 & IH3)]; [done|].
  rewrite Nat.iter_succ. unfold tick at 1 3 5. simpl. by rewrite IH1, IH2, IH3.
Qed.

(** C22: [SlotSet._from_story_string] yields one [SlotSet] per entry of
    the dictionary of a [slot] line, in the order of the entries, and
    reads the clock once per entry; a line without entries yields [None];
    it never raises. *)
Theorem SlotSet_from_story_string_spec p w :
  SlotSet_from_story_string p w =
  (Ok (if bool_decide (p = []) then None else Some (slot_events p w)),
   Nat.iter (length p) (tick PNone) w).
Proof.
  unfold SlotSet_from_story_string.
  rewrite eff_bind_run, slot_events_mapM, eff_ret_run.
  by destruct p as [|[k v] p].
Qed.

(** The [i]-th event of a [slot] line sets the slot of the [i]-th
    entry to its value, carries no metadata, and is stamped with the
    [i]-th reading of the clock from now. *)
Theorem slot_events_lookup p w i k v :
  p !! i = Some (k, v) ->
  slot_events p w !! i =
  Some (SlotSet (PStr k) v
          {| timestamp := PFloat (w_clock w (i + w_ticks w));
             _metadata := Some (PDict []) |}).
Proof.
  revert w i. induction p as [|[k' v'] p IH]; intros w [|i]; try done.
  - by intros [= -> ->].
  - simpl. intros Hi. rewrite (IH _ _ Hi). simpl.
    by rewrite Nat.add_succ_r.
Qed.

(** C30: [BotUttered], [AgentUttered], [FormValidation] and
    [ActionExecutionRejected] inherit [Event._from_story_string], which
    passes the timestamp and the metadata of the line by position: they
    land in the first two parameters of the class, and the event is
    stamped by the clock unless the second parameter is the timestamp. *)
Theorem story_string_positional p w :
  let ts := param p "timestamp" in
  let md := param p "metadata" in
  let b := new_base PNone PNone w in
  cls_from_story_string CBotUttered p w =
    (Ok (Some [BotUttered ts (py_or md (PDict [])) b]), tick PNone w) /\
  cls_from_story_string CAgentUttered p w =
    (Ok (Some [AgentUttered ts md b]), tick PNone w) /\
  cls_from_story_string CFormValidation p w =
    (Ok (Some [FormValidation ts (new_base md PNone w)]), tick md w) /\
  cls_from_story_string CActionExecutionRejected p w =
    (Ok (Some [ActionExecutionRejected ts md PNone b]), tick PNone w).
Proof.
  unfold cls_from_story_string, Event_from_story_string, init2.
  split_and!; by rewrite eff_bind_run; init_eq; rewrite eff_ret_run.
Qed.

(** A class that does not override [_from_parameters] decodes a
    story line to the one event that the reference decoder gives for the
    same parameters, or raises the same error. *)
Lemma cls_from_story_string_ref c p w :
  c ∉ [CBotUttered; CSlotSet; CAgentUttered; CFormValidation;
       CActionExecutionRejected] ->
  cls_from_story_string c p w =
  match decode_ref c p w with
  | (Ok o, w') => (Ok (Some (option_list o)), w')
  | (Raise x, w') => (Raise x, w')
  end.
Proof.
  intros Hc. destruct c; try (by run_codec); try (by exfalso; apply Hc; repeat constructor).
  - unfold cls_from_story_string. rewrite UserUttered_from_story_string_ref.
    unfold decode_ref. by destruct (param p "parse_data").
  - run_codec. unfold decode_ref. destruct (dt_parse _); [|done]. by run_codec.
Qed.

End codec_theory.

(** ** The theorems at concrete events and records *)

Lemma from_parameters_as_dict_witness :
  from_parameters (as_dict demo_user) None demo_world = (Ok (Some demo_user), demo_world).
Proof. apply (from_parameters_as_dict demo_user demo_world). by vm_compute. Defined.

Lemma deserialise_events_unknown_witness :
  deserialise_events (DT := string_datetime)
    [slot_record "a" 1; bogus_record; slot_record "b" 2] demo_world =
  (Raise (ValueError (UnknownEventName (PStr "bogus"))), tick PNone demo_world).
Proof.
  apply (deserialise_events_unknown (DT := string_datetime)
           [slot_record "a" 1] bogus_record [slot_record "b" 2] "bogus" demo_world
           [SlotSet (PStr "a") (PInt 1) (new_base PNone PNone demo_world)]);
    [reflexivity..|by vm_compute].
Defined.

Lemma deserialise_events_delivers_witness :
  let l1 := [slot_record "a" 1; [("event", PStr "topic")]] in
  let r := slot_record "b" 2 in
  let l2 := [[("name", PStr "no tag")]] in
  exists evs1 w1 o w2 evs2,
    deserialise_events (DT := string_datetime) l1 demo_world = (Ok evs1, w1) /\
    (if dict_contains r "event" then from_parameters r None w1 = (Ok o, w2)
     else o = None /\ w2 = w1) /\
    deserialise_events l2 (if dict_contains r "event" then ignored o w2 else w2) =
      (Ok evs2, tick PNone (logged unable_to_parse (tick PNone demo_world))) /\
    [SlotSet (PStr "a") (PInt 1) (new_base PNone PNone demo_world);
     SlotSet (PStr "b") (PInt 2)
       (new_base PNone PNone (logged unable_to_parse (tick PNone demo_world)))] =
      evs1 ++ option_list o ++ evs2 /\
    (forall e, o = Some e ->
       [SlotSet (PStr "a") (PInt 1) (new_base PNone PNone demo_world);
        SlotSet (PStr "b") (PInt 2)
          (new_base PNone PNone (logged unable_to_parse (tick PNone demo_world)))]
         !! length evs1 = Some e).
Proof.
  intros l1 r l2.
  exact (deserialise_events_delivers (DT := string_datetime) l1 r l2 demo_world _ _
           eq_refl).
Defined.

Lemma deserialise_events_as_dict_witness :
  deserialise_events (as_dict <$> [demo_user; demo_slot; demo_reminder]) demo_world =
  (Ok [demo_user; demo_slot; demo_reminder], demo_world).
Proof.
  apply (deserialise_events_as_dict [demo_user; demo_slot; demo_reminder] demo_world).
  repeat constructor; by vm_compute.
Defined.

Lemma from_parameters_reencode_witness : PStr "a" = param (slot_record "a" 1) "name".
Proof.
  apply (from_parameters_reencode (DT := string_datetime) (slot_record "a" 1) None
           demo_world (SlotSet (PStr "a") (PInt 1) (new_base PNone PNone demo_world))
           (tick PNone demo_world) "name" (PStr "a"));
    (reflexivity || discriminate).
Defined.

(** A timestamp [0] of the record is not written back: the event holds
    a clock reading. *)
Example reencode_falsy_timestamp :
  let p := [("event", PStr "restart"); ("timestamp", PInt 0)] in
  exists e, from_parameters (DT := string_datetime) p None demo_world =
              (Ok (Some e), tick (PInt 0) demo_world) /\
            dict_get (as_dict e) "timestamp" = Some (PFloat (w_clock demo_world 0)) /\
            param p "timestamp" = PInt 0.
Proof. by eexists. Qed.

Lemma from_parameters_idempotent_witness :
  let e := SlotSet (DT := string_datetime) (PStr "a") (PInt 1)
             (new_base PNone PNone demo_world) in
  from_parameters (as_dict e) None demo_world = (Ok (Some e), demo_world).
Proof.
  apply (from_parameters_idempotent (DT := string_datetime)
           (slot_record "a" 1) CSlotSet demo_world _ (tick PNone demo_world) demo_world);
    (reflexivity || discriminate).
Defined.

Lemma from_parameters_errors_witness :
  demo_world = demo_world /\
  (AttributeError "get" = ValueError (UnknownEventName (PStr "user")) \/
   AttributeError "get" = AttributeError "get" \/
   dt_parse (DateTimeLib := string_datetime) PNone = Raise (AttributeError "get")).
Proof.
  by apply (from_parameters_errors (DT := string_datetime)
              [("event", PStr "user")] None demo_world (AttributeError "get") demo_world).
Defined.

Lemma from_parameters_total_witness :
  exists e, from_parameters (DT := string_datetime) [("event", PStr "slot")] None demo_world =
              (Ok (Some e), tick PNone demo_world) /\
            class_of e = CSlotSet.
Proof.
  apply (from_parameters_total (DT := string_datetime) [("event", PStr "slot")] CSlotSet);
    (reflexivity || discriminate || compute_done).
Defined.

Lemma deserialise_events_skip_witness :
  deserialise_events (DT := string_datetime)
    [[("event", PStr "topic")]; slot_record "a" 1] demo_world =
  deserialise_events [slot_record "a" 1] (logged unable_to_parse demo_world).
Proof.
  apply (deserialise_events_skip (DT := string_datetime)
           [("event", PStr "topic")] [slot_record "a" 1] demo_world).
  by right.
Defined.

Lemma deserialise_events_length_witness : length [demo_slot] <= length [as_dict demo_slot].
Proof.
  by apply (deserialise_events_length [as_dict demo_slot] demo_world [demo_slot] demo_world).
Defined.

Lemma as_dict_inj_witness : demo_slot = demo_slot.
Proof. by apply (as_dict_inj demo_slot demo_slot). Defined.

Lemma payload_lost_witness :
  from_parameters (as_dict (ReminderCancelled (DT := string_datetime) (PStr "ping") demo_base))
      None demo_world =
    (Ok (Some (ReminderCancelled PNone demo_base)), demo_world) /\
  from_parameters (as_dict (StoryExported (DT := string_datetime) (PStr "out.md") demo_base))
      None demo_world =
    (Ok (Some (StoryExported PNone demo_base)), demo_world).
Proof.
  by apply (payload_lost (DT := string_datetime) (PStr "ping") (PStr "out.md")
              demo_base demo_world).
Defined.

Lemma slot_events_lookup_witness :
  slot_events (DT := string_datetime) [("a", PInt 1); ("b", PInt 2)] demo_world !! 1 =
  Some (SlotSet (PStr "b") (PInt 2)
          {| timestamp := PFloat (w_clock demo_world (1 + w_ticks demo_world));
             _metadata := Some (PDict []) |}).
Proof.
  by apply (slot_events_lookup (DT := string_datetime)
              [("a", PInt 1); ("b", PInt 2)] demo_world 1 "b" (PInt 2)).
Defined.

Lemma cls_from_story_string_ref_witness :
  cls_from_story_string (DT := string_datetime) CFollowupAction
    [("name", PStr "action_listen")] demo_world =
  (Ok (Some [FollowupAction (PStr "action_listen") (new_base PNone PNone demo_world)]),
   tick PNone demo_world).
Proof.
  apply (cls_from_story_string_ref (DT := string_datetime) CFollowupAction
           [("name", PStr "action_listen")] demo_world).
  compute_done.
Defined.
