(* ===== verification/Logging.v ===== *)
(** * Logging: what the module writes to its logger

    The module logs two warnings: [deserialise_events] for a record
    that has the key [event] and decodes to nothing, and
    [Event._from_parameters] when [_from_story_string] returns more
    than one event.  Both are calls of [logger_warning], which appends
    a record to the log of the world; [log_text] is the text of a
    record.

    The theorems account for the log of [deserialise_events]: one
    warning for each record whose tag is [None] or the legacy tag, no
    other record, and as many events and warnings together as there are
    records with a tag.  The warning of [Event._from_parameters] is
    never logged from [Event.from_parameters], because the one class
    whose story decoder returns several events decodes dictionaries by
    a method of its own. *)

From S2P Require Import Prelude PyDict PyValue Runtime Events Registry DictCodec Display.

(** [len([r for r in l if f(r)])]. *)
Definition count {A} (f : A -> bool) (l : list A) : nat :=
  length (filter (fun x => Is_true (f x)) l).

(** The records [deserialise_events] decodes: those with the key
    [event]. *)
Definition tagged (r : pydict pyval) : bool := dict_contains r "event".

(** The records [deserialise_events] warns about: the tag is [None] or
    the legacy tag. *)
Definition unparsed (r : pydict pyval) : bool :=
  tagged r &&
  (is_none (param r "event") || bool_decide (param r "event" = PStr "topic")).

Section logging.
Context {DT : DateTimeLib} {FM : Formatter}.

(** The text of a record: the f-string with [str] of each value in its
    place. *)
Definition log_text (r : LogRecord) : result exn string :=
  py_format (log_msg r) (py_str <$> log_args r).

(** ** Counting *)

Lemma count_cons {A} (f : A -> bool) x l :
  count f (x :: l) = (if f x then 1 else 0) + count f l.
Proof. unfold count. rewrite filter_cons. by destruct (f x). Qed.

Lemma unparsed_tagged r : unparsed r = true -> tagged r = true.
Proof. unfold unparsed. by intros [? _]%andb_true_iff. Qed.

(** ** The decoders of one record log nothing *)

Lemma decode_ref_log c p w : w_log (decode_ref c p w).2 = w_log w.
Proof.
  unfold decode_ref. destruct c; simpl; rewrite ?tick_log; try done.
  - destruct (param p "parse_data"); simpl; by rewrite ?tick_log.
  - destruct (dt_parse _); simpl; by rewrite ?tick_log, ?draw_log.
Qed.

Lemma from_parameters_log p d w : w_log (from_parameters p d w).2 = w_log w.
Proof.
  destruct (from_parameters_cases p d w) as [[-> _]|[(c & -> & _)|(x & -> & _)]];
    [done|apply decode_ref_log|done].
Qed.

(** A record decodes to nothing exactly when its tag is [None] or the
    legacy tag. *)
Lemma from_parameters_None p w o w' :
  tagged p = true -> from_parameters p None w = (Ok o, w') ->
  o = None <-> unparsed p = true.
Proof.
  intros Ht. unfold unparsed. rewrite Ht. simpl.
  rewrite orb_true_iff, bool_decide_eq_true.
  destruct (from_parameters_cases p None w)
    as [[-> Hs]|[(c & -> & Hr)|(x & -> & _)]]; [| |done].
  - intros [= <- _]. split; [intros _|done].
    destruct Hs as [Hn|Hr%resolve_None]; auto.
  - intros [e ->]%decode_ref_Some. split; [done|].
    intros [Hn|Hp]; [revert Hn Hr; by destruct (param p "event")|].
    rewrite Hp in Hr. by destruct c.
Qed.

(** ** The log of a list of records *)

(** Whatever [deserialise_events] returns, all it logs is the warning
    for a record that decodes to nothing. *)
Lemma deserialise_events_log_only l w :
  exists n, w_log (deserialise_events l w).2 = w_log w ++ replicate n unable_to_parse.
Proof.
  revert w. induction l as [|r l IH]; intros w; [exists 0; by rewrite app_nil_r|].
  rewrite deserialise_events_cons. destruct (dict_contains r "event"); [|apply IH].
  pose proof (from_parameters_log r None w) as Hw.
  destruct (from_parameters r None w) as [[o|x] w1]; simpl in Hw;
    [|exists 0; by rewrite app_nil_r].
  destruct (IH (ignored o w1)) as [n Hn].
  destruct (deserialise_events l _) as [[evs|x] w2]; simpl in *; rewrite Hn;
    (destruct o; simpl; rewrite Hw; [by exists n|exists (S n)]);
    by rewrite <- app_assoc.
Qed.

(** When it returns, it has logged one warning for each record whose
    tag is [None] or the legacy tag, and every record with a tag has
    given an event or a warning. *)
Lemma deserialise_events_log_ok l w evs w' :
  deserialise_events l w = (Ok evs, w') ->
  w_log w' = w_log w ++ replicate (count unparsed l) unable_to_parse /\
  length evs + count unparsed l = count tagged l.
Proof.
  revert w evs. induction l as [|r l IH]; intros w evs.
  - intros [= <- <-]. by rewrite app_nil_r.
  - rewrite deserialise_events_cons, !count_cons.
    pose proof (unparsed_tagged r) as Hu. unfold tagged in *.
    destruct (dict_contains r "event") eqn:Ht;
      [|destruct (unparsed r); [by discriminate Hu|apply IH]].
    pose proof (from_parameters_log r None w) as Hw.
    destruct (from_parameters r None w) as [[o|x] w1] eqn:Hd; [|done]. simpl in Hw.
    apply (from_parameters_None r w o w1 Ht) in Hd.
    destruct (deserialise_events l _) as [[evs1|x] w2] eqn:Hl; [|done].
    intros [= <- <-]. apply IH in Hl as [-> <-]. rewrite length_app.
    destruct o as [e|]; simpl.
    + rewrite Hw. destruct (unparsed r); [by destruct Hd as [_ Hd]; discriminate Hd|done].
    + rewrite (proj1 Hd eq_refl), Hw. simpl. rewrite <- app_assoc. split; [done|lia].
Qed.

(** The text of the warning of [deserialise_events] names no record. *)
Lemma unable_to_parse_text :
  log_text unable_to_parse =
  Ok "Unable to parse event 'None' while deserialising. The event will be ignored.".
Proof. unfold log_text. simpl. by rewrite py_str_none. Qed.

(** C29: when [deserialise_events] returns, it has logged one warning
    for each record whose tag is [None] or the legacy tag [topic] and
    nothing else, so the warning of [Event._from_parameters] is never
    logged; the events returned and the warnings logged are together as
    many as the records with the key [event]; and the text of the
    warning is the same for every record: it prints the result [None]
    of the decoder in place of the record. *)
Theorem deserialise_events_log l w evs w' :
  deserialise_events l w = (Ok evs, w') ->
  w_log w' = w_log w ++ replicate (count unparsed l) unable_to_parse /\
  length evs + count unparsed l = count tagged l /\
  log_text unable_to_parse =
  Ok "Unable to parse event 'None' while deserialising. The event will be ignored.".
Proof.
  intros [Hlog Hn]%deserialise_events_log_ok. auto using unable_to_parse_text.
Qed.

End logging.

(** ** The theorems at concrete records *)

Lemma deserialise_events_log_witness :
  let l := [[("event", PStr "topic")]; slot_record "a" 1; [("name", PStr "b")]] in
  let w' := tick PNone (logged unable_to_parse demo_world) in
  w_log w' = w_log demo_world ++ replicate (count unparsed l) unable_to_parse /\
  1 + count unparsed l = count tagged l /\
  log_text unable_to_parse =
  Ok "Unable to parse event 'None' while deserialising. The event will be ignored.".
Proof.
  intros l w'.
  exact (deserialise_events_log (DT := string_datetime) l demo_world
           [SlotSet (PStr "a") (PInt 1)
              (new_base PNone PNone (logged unable_to_parse demo_world))] w' eq_refl).
Defined.

(** The warning of [Event._from_parameters] is logged when the method is
    run for the class whose story decoder returns several events; that
    class overrides the method. *)
Example multiple_events_warning :
  let p := [("a", PInt 1); ("b", PInt 2)] in
  w_log (Event_from_parameters (DT := string_datetime) CSlotSet p demo_world).2 =
    [{| log_msg := multiple_events_msg; log_args := [PDict p] |}] /\
  w_log (cls_from_parameters (DT := string_datetime) CSlotSet p demo_world).2 = [].
Proof. by split. Qed.
