(* ===== verification/Loop.v ===== *)
(** * Loop: the loop of [deserialise_events] as a transition system

    [deserialise_loop] is the loop as a function.  Here the same loop
    is a machine: a state holds the list built so far, the records not
    yet read and the world, and [loop_step] has one rule for each way
    through the body of the loop and one for the [return].
    [loop_next] computes the step.

    The machine is there for its invariant.  Every state that a call
    reaches satisfies [loop_inv]: the events built so far are instances
    of subclasses, there are no more of them than records read, and the
    clock and the generator of identifiers were read at most once for
    each.  The lemmas on the way say that the machine is deterministic
    and that it runs, within one step per record and one more, to the
    state that [deserialise_loop] computes, so that the invariant holds
    of what [deserialise_events] returns. *)

From stdpp Require Import relations.
From S2P Require Import Prelude PyDict PyValue Runtime Events Registry DictCodec.

(** ** Relations in general *)

Section relation.
Context {A : Type} (R : relation A).

(** A relation whose steps decrease a measure has no infinite run. *)
Lemma measure_sn (f : A -> nat) :
  (forall x y, R x y -> f y < f x) -> forall x, sn R x.
Proof.
  intros Hf x. remember (f x) as n eqn:Hn. revert x Hn.
  induction n as [n IH] using lt_wf_ind. intros x ->.
  constructor. intros y Hy. apply (IH (f y)); [by apply Hf|done].
Qed.

End relation.

(** ** The machine *)

(** [w'] is [w] after at most [n] readings of the clock and at most [n]
    draws of an identifier. *)
Definition within (n : nat) (w w' : World) : Prop :=
  w_clock w' = w_clock w /\ w_uuid w' = w_uuid w /\
  w_ticks w <= w_ticks w' <= w_ticks w + n /\
  w_uuids w <= w_uuids w' <= w_uuids w + n.

Section loop.
Context {DT : DateTimeLib}.

(** A state of [deserialise_events]: in the loop, with the list
    [deserialised] and the records the iteration has not reached; or
    after the call, which returned a list or raised. *)
Inductive loop_state :=
| InLoop (deserialised : list Event) (serialized_events : list (pydict pyval))
         (w : World)
| Returned (r : result exn (list Event)) (w : World).

(** One iteration of the loop, or the [return] after it. *)
Inductive loop_step : relation loop_state :=
| step_return acc w :
    loop_step (InLoop acc [] w) (Returned (Ok acc) w)
| step_untagged acc e rest w :
    dict_contains e "event" = false ->
    loop_step (InLoop acc (e :: rest) w) (InLoop acc rest w)
| step_append acc e rest w ev w1 :
    dict_contains e "event" = true ->
    from_parameters e None w = (Ok (Some ev), w1) ->
    loop_step (InLoop acc (e :: rest) w) (InLoop (acc ++ [ev]) rest w1)
| step_warn acc e rest w w1 :
    dict_contains e "event" = true ->
    from_parameters e None w = (Ok None, w1) ->
    loop_step (InLoop acc (e :: rest) w) (InLoop acc rest (logged unable_to_parse w1))
| step_raise acc e rest w x w1 :
    dict_contains e "event" = true ->
    from_parameters e None w = (Raise x, w1) ->
    loop_step (InLoop acc (e :: rest) w) (Returned (Raise x) w1).

(** The step as a function. *)
Definition loop_next (s : loop_state) : option loop_state :=
  match s with
  | InLoop acc [] w => Some (Returned (Ok acc) w)
  | InLoop acc (e :: rest) w =>
      if dict_contains e "event" then
        match from_parameters e None w with
        | (Ok (Some ev), w1) => Some (InLoop (acc ++ [ev]) rest w1)
        | (Ok None, w1) => Some (InLoop acc rest (logged unable_to_parse w1))
        | (Raise x, w1) => Some (Returned (Raise x) w1)
        end
      else Some (InLoop acc rest w)
  | Returned _ _ => None
  end.

(** The steps a state has left, at most. *)
Definition loop_size (s : loop_state) : nat :=
  match s with
  | InLoop _ l _ => S (length l)
  | Returned _ _ => 0
  end.

(** The state after the call, as [deserialise_loop] computes it. *)
Definition outcome (s : loop_state) : loop_state :=
  match s with
  | InLoop acc l w => let (r, w') := deserialise_loop acc l w in Returned r w'
  | Returned r w => Returned r w
  end.

(** The events [acc] built from the world [w0] on: instances of
    subclasses, with at most one reading of the clock and one identifier
    each. *)
Definition accounted (w0 : World) (acc : list Event) (w : World) : Prop :=
  Forall (fun ev => class_of ev ≠ CEvent) acc /\ within (length acc) w0 w.

(** What holds of every state of a call on the records [l0] in the
    world [w0]. *)
Definition loop_inv (l0 : list (pydict pyval)) (w0 : World) (s : loop_state) : Prop :=
  match s with
  | InLoop acc rest w =>
      (exists read, l0 = read ++ rest /\ length acc <= length read) /\
      accounted w0 acc w
  | Returned (Ok acc) w => length acc <= length l0 /\ accounted w0 acc w
  | Returned (Raise x) w =>
      exists acc, length acc < length l0 /\ accounted w0 acc w
  end.

(** ** Worlds *)

Lemma within_refl w : within 0 w w.
Proof. unfold within. split_and!; (done || lia). Qed.

Lemma within_trans n m w1 w2 w3 :
  within n w1 w2 -> within m w2 w3 -> within (n + m) w1 w3.
Proof.
  intros (Hc & Hu & ? & ?) (Hc' & Hu' & ? & ?). unfold within.
  rewrite Hc', Hc, Hu', Hu. split_and!; (done || lia).
Qed.

Lemma within_logged n r w w' : within n w w' -> within n w (logged r w').
Proof. done. Qed.

(** A constructor reads the clock once and draws one identifier, at
    most. *)
Lemma within_tick_draw ts name w : within 1 w (tick ts (draw name w)).
Proof.
  destruct (tick_fields ts (draw name w)) as (Hc & Hu & Hn & Ht).
  destruct (draw_fields name w) as (Hc' & Hu' & Ht' & Hn').
  unfold within. rewrite Hc, Hc', Hu, Hu', Hn, Hn', Ht, Ht'.
  destruct (truthy ts), (is_none name); split_and!; (done || lia).
Qed.

Lemma within_tick ts w : within 1 w (tick ts w).
Proof. apply (within_tick_draw ts (PStr "")). Qed.

(** ** What decoding one record does to the world *)

Lemma decode_ref_within c p w o w1 :
  decode_ref c p w = (Ok o, w1) ->
  exists e, o = Some e /\ class_of e = c /\ within 1 w w1.
Proof.
  unfold decode_ref. destruct c;
    try (intros [= <- <-]; eauto using within_tick).
  - destruct (param p "parse_data"); try done.
    intros [= <- <-]; eauto using within_tick.
  - destruct (dt_parse _); [|done].
    intros [= <- <-]; eauto using within_tick_draw.
Qed.

Lemma from_parameters_within p w o w1 :
  from_parameters p None w = (Ok o, w1) ->
  within (length (option_list o)) w w1 /\
  Forall (fun ev => class_of ev ≠ CEvent) (option_list o).
Proof.
  destruct (from_parameters_cases p None w)
    as [[-> _]|[(c & -> & Hr)|(x & -> & _)]];
    [intros [= <- <-]; auto using within_refl| |done].
  intros (e & -> & <- & Hw)%decode_ref_within. split; [done|].
  repeat constructor. by apply (resolve_subclass _ _ Hr).
Qed.

(** A decoder that raises has not touched the world. *)
Lemma from_parameters_Raise p d w x w1 :
  from_parameters p d w = (Raise x, w1) -> w1 = w.
Proof.
  destruct (from_parameters_cases p d w) as [[-> _]|[(c & -> & _)|(y & -> & _)]];
    [done| |by intros [= _ <-]].
  unfold decode_ref. destruct c; try done.
  - destruct (param p "parse_data"); try done; by intros [= _ <-].
  - destruct (dt_parse _); [done|by intros [= _ <-]].
Qed.

(** ** The step *)

(** [loop_next] computes [loop_step]. *)
Lemma loop_step_next s s' : loop_step s s' <-> loop_next s = Some s'.
Proof.
  split.
  - destruct 1 as [| |? ? ? ? ? ? H1 H2|? ? ? ? ? H1 H2|? ? ? ? ? ? H1 H2]; simpl;
      rewrite ?H1, ?H2; by try case_match.
  - destruct s as [acc [|e rest] w|]; simpl; [intros [= <-]; constructor| |done].
    destruct (dict_contains e "event") eqn:He;
      [|intros [= <-]; by constructor].
    destruct (from_parameters e None w) as [[[ev|]|x] w1] eqn:Hd;
      intros [= <-]; by constructor.
Qed.

Lemma loop_step_deterministic : deterministic loop_step.
Proof. intros s s1 s2 H1%loop_step_next H2%loop_step_next. congruence. Qed.

(** Every step brings the end closer. *)
Lemma loop_step_size s s' : loop_step s s' -> loop_size s' < loop_size s.
Proof. destruct 1; simpl; lia. Qed.

(** The loop steps as long as the call has not returned. *)
Lemma InLoop_red acc l w : red loop_step (InLoop acc l w).
Proof.
  destruct (loop_next (InLoop acc l w)) as [s'|] eqn:Hs;
    [exists s'; by apply loop_step_next|].
  destruct l as [|e rest]; simpl in Hs; repeat case_match; done.
Qed.

Lemma Returned_nf r w : nf loop_step (Returned r w).
Proof. intros [s' Hs]. inversion Hs. Qed.

Lemma loop_nf s : nf loop_step s <-> exists r w, s = Returned r w.
Proof.
  split; [|intros (r & w & ->); apply Returned_nf].
  destruct s as [acc l w|r w]; [|by eauto].
  intros []. apply InLoop_red.
Qed.

(** A step does not change where the call ends. *)
Lemma outcome_step s s' : loop_step s s' -> outcome s = outcome s'.
Proof.
  destruct 1 as [|? ? ? ? H1|? ? ? ? ? ? H1 H2|? ? ? ? ? H1 H2|? ? ? ? ? ? H1 H2];
    simpl; rewrite ?eff_ret_run, ?H1, ?eff_bind_run, ?H2, ?eff_bind_run; done.
Qed.

(** ** Runs *)

(** From every state the machine reaches the state that
    [deserialise_loop] computes, within the steps the state has left. *)
Lemma loop_run s :
  exists n, n <= loop_size s /\ nsteps loop_step n s (outcome s).
Proof.
  induction (measure_sn loop_step loop_size loop_step_size s) as [s _ IH].
  destruct s as [acc l w|r w]; [|exists 0; split; [done|constructor]].
  destruct (InLoop_red acc l w) as [s' Hs].
  destruct (IH s' Hs) as (n & Hn & Hrun). exists (S n).
  pose proof (loop_step_size _ _ Hs). split; [lia|].
  rewrite (outcome_step _ _ Hs). by econstructor.
Qed.

Lemma outcome_nf s : nf loop_step (outcome s).
Proof.
  destruct s as [acc l w|r w]; simpl; [|apply Returned_nf].
  destruct (deserialise_loop acc l w). apply Returned_nf.
Qed.

(** ** The invariant *)

Lemma loop_inv_init l w : loop_inv l w (InLoop [] l w).
Proof.
  split; [by exists []|]. split; [constructor|apply within_refl].
Qed.

Lemma accounted_snoc w0 acc w o w1 :
  accounted w0 acc w -> within (length (option_list o)) w w1 ->
  Forall (fun ev => class_of ev ≠ CEvent) (option_list o) ->
  accounted w0 (acc ++ option_list o) w1.
Proof.
  intros [Hacc Hw] Hw1 Ho. split; [by apply Forall_app|].
  rewrite length_app. by apply (within_trans _ _ _ w).
Qed.

Lemma loop_inv_step l0 w0 s s' :
  loop_inv l0 w0 s -> loop_step s s' -> loop_inv l0 w0 s'.
Proof.
  intros Hinv Hs.
  destruct Hs as [acc w|acc e rest w He|acc e rest w ev w1 He Hd
                 |acc e rest w w1 He Hd|acc e rest w x w1 He Hd];
    destruct Hinv as [(read & -> & Hlen) Hacc].
  - rewrite app_nil_r. by split.
  - split; [|done]. exists (read ++ [e]). rewrite <- app_assoc, length_app. simpl.
    split; [done|lia].
  - apply from_parameters_within in Hd as [Hw Hev]. split.
    + exists (read ++ [e]). rewrite <- app_assoc, !length_app. simpl. split; [done|lia].
    + by apply (accounted_snoc _ _ w (Some ev)).
  - apply from_parameters_within in Hd as [Hw Hev]. split.
    + exists (read ++ [e]). rewrite <- app_assoc, !length_app. simpl. split; [done|lia].
    + rewrite <- (app_nil_r acc).
      destruct (accounted_snoc _ _ _ None _ Hacc Hw Hev) as [? ?].
      split; [done|by apply within_logged].
  - apply from_parameters_Raise in Hd as ->. exists acc. split; [|done].
    rewrite length_app. simpl. lia.
Qed.

Lemma loop_inv_reachable l w s :
  rtc loop_step (InLoop [] l w) s -> loop_inv l w s.
Proof.
  apply (rtc_ind_r (loop_inv l w)); eauto using loop_inv_init, loop_inv_step.
Qed.

Lemma outcome_reachable s : rtc loop_step s (outcome s).
Proof. destruct (loop_run s) as (n & _ & Hn). by apply (rtc_nsteps_2 n). Qed.

(** What [deserialise_events] returns, by the invariant of its loop. *)
Corollary deserialise_events_accounted l w evs w' :
  deserialise_events l w = (Ok evs, w') ->
  length evs <= length l /\ accounted w evs w'.
Proof.
  intros Hd. pose proof (loop_inv_reachable l w _ (outcome_reachable _)) as Hinv.
  simpl in Hinv. rewrite <- deserialise_events_run in Hinv. by rewrite Hd in Hinv.
Qed.

(** C40: every state that a call of [deserialise_events] on the records
    [l] reaches, and the state in which it ends, satisfies the
    invariant of the loop: the events built so far are instances of
    subclasses and no more than the records read, the supplies of the
    clock and of the identifiers are those of the start, and each was
    read at most once for each event. *)
Theorem loop_invariant l w s :
  rtc loop_step (InLoop [] l w) s -> loop_inv l w s /\ loop_inv l w (outcome s).
Proof.
  intros Hs. split; apply loop_inv_reachable; [done|].
  etrans; [done|apply outcome_reachable].
Qed.

End loop.

(** ** The theorems at concrete records *)

Lemma loop_invariant_witness :
  let l := [slot_record "a" 1; [("event", PStr "topic")]] in
  let s := InLoop (DT := string_datetime)
             [SlotSet (PStr "a") (PInt 1) (new_base PNone PNone demo_world)]
             [[("event", PStr "topic")]] (tick PNone demo_world) in
  loop_inv l demo_world s /\ loop_inv l demo_world (outcome s).
Proof.
  intros l s. apply (loop_invariant (DT := string_datetime) l demo_world s).
  apply rtc_once.
  by apply (step_append [] (slot_record "a" 1) [[("event", PStr "topic")]] demo_world).
Defined.

(** The machine run on two records: three steps, one warning. *)
Example loop_next_run :
  let l := [slot_record "a" 1; [("event", PStr "topic")]] in
  let s := InLoop (DT := string_datetime) [] l demo_world in
  Nat.iter 3 (mbind loop_next) (Some s) = Some (outcome s) /\
  Nat.iter 4 (mbind loop_next) (Some s) = None.
Proof. by split. Qed.
