(* ===== verification/RoundTrip.v ===== *)
(** * RoundTrip: the dictionary codec preserves identity

    The round trip of [DictCodec] returns the very event for the events
    [rt_ok] describes.  For the others it returns an event that may
    differ in its timestamp or in a payload that [as_dict] does not
    write, but that [==] still identifies with the original: the
    theorem of this file, for every event a constructor can return whose
    identity key can be computed. *)

From S2P Require Import Prelude PyDict PyValue Runtime Events Identity Message StoryCodec Registry DictCodec.

Section round_trip.
Context {DT : DateTimeLib} {JP : Pickler}.

(** The user messages whose intent and entities are those of their
    parse data, as [UserUttered._from_parse_data] builds them. *)
Definition user_consistent (e : Event) : bool :=
  match e with
  | UserUttered _ intent entities _ _ (PDict d) _ =>
      bool_decide (intent = py_or (param d "intent") (PDict [])) &&
      bool_decide (entities = py_or (dict_get d "entities" ?? PList []) (PList []))
  | UserUttered _ _ _ _ _ _ _ => false
  | _ => true
  end.

(** The events that the round trip preserves up to [==]: the events of
    subclasses that satisfy the invariant of constructed events, whose
    identity key can be computed, and, for user messages, whose intent
    and entities are those of the parse data. *)
Definition id_rt_ok (e : Event) : bool :=
  bool_decide (class_of e ≠ CEvent) && event_inv e && key_wf e && user_consistent e.

(** The parameters of the story line of an event: those of
    [story_params], or none for a class whose line is its tag. *)
Definition line_params (e : Event) : option (pydict pyval) :=
  match story_params e with
  | Some (_, p) => Some p
  | None => if bare_tag_class (class_of e) then Some [] else None
  end.

(** A dictionary is left alone by [or {}]. *)
Lemma py_or_dict d : py_or (PDict d) (PDict []) = PDict d.
Proof. unfold py_or. simpl. by destruct d. Qed.

Lemma metadata_new_base_dict ts d w : metadata (new_base ts (PDict d) w) = PDict d.
Proof. unfold metadata, new_base. simpl. apply py_or_dict. Qed.

(** The values of an identity key. *)
Lemma key_wf_cons e v k :
  identity_key e = Ok (v :: k) -> key_wf e = true -> val_wf v = true.
Proof. unfold key_wf. intros ->. by intros [? _]%andb_true_iff. Qed.

(** An event is equal to an event with the same identity key. *)
Lemma event_eq_same_key e' e :
  class_of e ≠ CEvent -> class_of e' = class_of e ->
  identity_key e' = identity_key e -> key_wf e = true ->
  event_eq e' e = Some (Ok true).
Proof.
  intros Hc Hc' Hk Hwf. rewrite event_eq_sub by congruence. f_equal.
  apply eq_spec_true. split; [done|]. unfold key_wf in Hwf.
  destruct (identity_key e) as [k|] eqn:Hke; [|done].
  exists k, k. auto using list_py_eq_refl.
Qed.

(** Decoding the dictionary of an event gives an event of the same
    class with the same identity key. *)
Lemma decode_ref_same_key e w :
  class_of e ≠ CEvent -> event_inv e = true -> key_wf e = true ->
  user_consistent e = true ->
  exists e' w', decode_ref (class_of e) (as_dict e) w = (Ok (Some e'), w') /\
                class_of e' = class_of e /\ identity_key e' = identity_key e.
Proof.
  intros Hc [Hb Hinv]%andb_true_iff Hk Hu.
  destruct e; try done; unfold decode_ref; cbn [class_of]; cbv zeta;
    rewrite as_dict_shape; cbn [event_base] in *;
    destruct (truthy (metadata b)) eqn:Hm; dict_simpl;
    try (by eexists _, _).
  1-2: destruct parse_data as [| | | | | |d]; try done;
    apply andb_true_iff in Hu as [->%bool_decide_eq_true ->%bool_decide_eq_true];
    by eexists _, _.
  1-2: eexists _, _; (split_and!; [done..|]); unfold key_wf in Hk; simpl in *;
    unfold BotUttered_members in *; destruct data; try done;
    rewrite py_or_dict; simpl in *; destruct (metadata b) eqn:Hmd; try done;
    by rewrite metadata_new_base_dict.
  1-2: rewrite dt_parse_isoformat, fresh_name_given by (by apply negb_true_iff);
    by eexists _, _.
Qed.

Lemma id_rt_ok_inv e :
  id_rt_ok e = true ->
  class_of e ≠ CEvent /\ event_inv e = true /\ key_wf e = true /\
  user_consistent e = true.
Proof.
  unfold id_rt_ok. rewrite !andb_true_iff, bool_decide_eq_true. naive_solver.
Qed.

Lemma from_parameters_same_key e w :
  id_rt_ok e = true ->
  exists e' w', from_parameters (as_dict e) None w = (Ok (Some e'), w') /\
                event_eq e' e = Some (Ok true).
Proof.
  intros (Hc & Hinv & Hk & Hu)%id_rt_ok_inv.
  destruct (decode_ref_same_key e w Hc Hinv Hk Hu) as (e' & w' & Hd & Hc' & Hk').
  exists e', w'. split; [|by apply event_eq_same_key].
  by rewrite (from_parameters_resolved _ _ _ (class_of e))
    by auto using as_dict_tagged, as_dict_resolves.
Qed.

(** C15: the round trip through the dictionary form preserves identity:
    for every event of a subclass that satisfies the invariant of
    constructed events and has a computable identity key (and, for a user
    message, an intent and entities that are those of its parse data),
    [Event.from_parameters] decodes the dictionary of [as_dict] to an
    event that [==] identifies with the original. *)
Theorem round_trip_identity e w :
  class_of e ≠ CEvent -> event_inv e = true -> key_wf e = true ->
  user_consistent e = true ->
  exists e' w', from_parameters (as_dict e) None w = (Ok (Some e'), w') /\
                event_eq e' e = Some (Ok true).
Proof.
  intros Hc Hinv Hk Hu. apply from_parameters_same_key. unfold id_rt_ok.
  by rewrite Hinv, Hk, Hu, bool_decide_eq_true_2.
Qed.

(** [deserialise_events] decodes the dictionaries of a list of such
    events to a list of the same length whose events are equal, one by
    one and in order, to the originals. *)
Theorem deserialise_events_identity es w :
  Forall (fun e => id_rt_ok e = true) es ->
  exists es' w', deserialise_events (as_dict <$> es) w = (Ok es', w') /\
                 Forall2 (fun e' e => event_eq e' e = Some (Ok true)) es' es.
Proof.
  intros Hes. revert w. induction Hes as [|e es He _ IH]; intros w.
  - by exists [], w.
  - destruct (from_parameters_same_key e w He) as (e' & w1 & Hd & Heq).
    destruct (IH w1) as (es' & w' & Hes' & Hall).
    exists (e' :: es'), w'. split; [|by constructor].
    rewrite fmap_cons. eauto using deserialise_events_encoded.
Qed.

(** ** Story lines *)

(** Decoding the parameters of the line of an event gives one event of
    the same class with the same identity key. *)
Lemma cls_from_story_string_same_key e p w :
  line_params e = Some p -> event_inv e = true ->
  exists e' w', cls_from_story_string (class_of e) p w = (Ok (Some [e']), w') /\
                class_of e' = class_of e /\ identity_key e' = identity_key e.
Proof.
  intros Hp [_ Hinv]%andb_true_iff.
  destruct e; try done; unfold line_params in Hp; simpl in Hp; try done.
  1: { destruct key; try done. injection Hp as <-.
       unfold cls_from_story_string, SlotSet_from_story_string. simpl.
       run_codec. by eexists _, _. }
  all: injection Hp as <-;
    rewrite cls_from_story_string_ref by (rewrite !elem_of_cons, elem_of_nil; naive_solver);
    unfold decode_ref; cbn [class_of]; cbv zeta; dict_simpl;
    rewrite ?dt_parse_isoformat, ?fresh_name_given by (by apply negb_true_iff);
    by eexists _, _.
Qed.

(** C16: the round trip through the story form preserves identity: for
    an event whose line carries parameters or is the tag of its class,
    [Event.from_story_string] applied to the tag and the parameters of
    the line returns one event, which [==] identifies with the
    original.  The original is an event as a constructor leaves it
    ([event_inv]), and its identity key can be computed and holds no
    NaN ([key_wf]): without the first a decoder would put a default in
    the place of a falsy attribute, without the second [==] raises or
    is not reflexive. *)
Theorem story_round_trip e p w :
  line_params e = Some p -> event_inv e = true -> key_wf e = true ->
  exists e' w',
    from_story_string (PStr (type_name (class_of e))) p None w = (Ok (Some [e']), w') /\
    event_eq e' e = Some (Ok true).
Proof.
  intros Hp Hinv Hk.
  assert (class_of e ≠ CEvent) as Hc by (by destruct e).
  destruct (cls_from_story_string_same_key e p w Hp Hinv) as (e' & w' & Hd & Hc' & Hk').
  exists e', w'. split; [|by apply event_eq_same_key].
  rewrite (from_story_string_resolved _ _ _ _ (class_of e)); [done|].
  by apply resolve_registered, registry_lookup.
Qed.

End round_trip.

(** ** The theorems at concrete events *)

Lemma round_trip_identity_witness :
  let e := ReminderCancelled (DT := string_datetime) (PStr "ping") demo_base in
  exists e' w', from_parameters (as_dict e) None demo_world = (Ok (Some e'), w') /\
                event_eq e' e = Some (Ok true).
Proof.
  by apply (round_trip_identity (DT := string_datetime)
              (ReminderCancelled (PStr "ping") demo_base) demo_world).
Defined.

Lemma deserialise_events_identity_witness :
  let es := [ReminderCancelled (DT := string_datetime) (PStr "ping") demo_base;
             demo_user; StoryExported (PStr "out.md") demo_base] in
  exists es' w', deserialise_events (as_dict <$> es) demo_world = (Ok es', w') /\
                 Forall2 (fun e' e => event_eq e' e = Some (Ok true)) es' es.
Proof.
  apply (deserialise_events_identity (DT := string_datetime)
           [ReminderCancelled (PStr "ping") demo_base; demo_user;
            StoryExported (PStr "out.md") demo_base] demo_world).
  repeat constructor.
Defined.

Lemma story_round_trip_witness :
  exists e' w',
    from_story_string (PStr (type_name (class_of demo_reminder)))
      (ReminderScheduled_data_obj (DT := string_datetime) (PStr "ping")
         "2020-01-01T10:00:00" (PStr "wake") (PBool true)) None demo_world =
      (Ok (Some [e']), w') /\
    event_eq e' demo_reminder = Some (Ok true).
Proof. by apply (story_round_trip demo_reminder _ demo_world). Defined.
