(* ===== verification/WellFormed.v ===== *)
(** * WellFormed: JSON values in, JSON values out

    A record that [json.loads] returns is a tree of [None], booleans,
    numbers, strings, lists and dictionaries with distinct keys; a
    record that is to be written holds no NaN ([val_wf]).  [event_wf]
    says the same of the attributes of an event.  The theorems show that
    a decoded event is an instance of the class its tag names and
    satisfies the invariant of constructed events, and that the codecs
    keep values in that fragment: the dictionary [as_dict]
    writes for a well-formed event is well formed, and a well-formed
    dictionary decodes to a well-formed event, provided the clock does
    not read NaN ([clock_wf]). *)

From S2P Require Import Prelude PyDict PyValue Runtime Events Registry DictCodec.

(** The readings of the clock are numbers. *)
Definition clock_wf (w : World) : Prop :=
  forall n, float_is_nan (w_clock w n) = false.

Definition opt_wf (o : option pyval) : bool :=
  match o with
  | Some v => val_wf v
  | None => true
  end.

Definition base_wf (b : EventBase) : bool :=
  val_wf (timestamp b) && opt_wf (_metadata b).

Section wf.
Context {DT : DateTimeLib}.

(** Every attribute of the event is a well-formed value. *)
Definition event_wf (e : Event) : bool :=
  base_wf (event_base e) &&
  match e with
  | UserUttered text intent entities ic mid pd _ =>
      val_wf text && val_wf intent && val_wf entities && opt_wf ic && opt_wf mid &&
      val_wf pd
  | BotUttered text data _ | AgentUttered text data _ => val_wf text && val_wf data
  | SlotSet key value _ => val_wf key && val_wf value
  | ReminderScheduled a _ kill name _ => val_wf a && val_wf kill && val_wf name
  | ReminderCancelled a _ | FollowupAction a _ => val_wf a
  | StoryExported path _ => val_wf path
  | ActionExecuted a p c _ _ => val_wf a && opt_wf p && opt_wf c
  | Form name _ => val_wf name
  | FormValidation v _ => val_wf v
  | ActionExecutionRejected a p c _ => val_wf a && val_wf p && val_wf c
  | _ => true
  end.

(** ** Values read from a well-formed dictionary *)

Lemma dict_get_wf p k v :
  val_wf (PDict p) = true -> dict_get p k = Some v -> val_wf v = true.
Proof.
  intros [_ Hp]%val_wf_dict Hg.
  apply (dict_values_Forall (fun kv => val_wf kv.2 = true) p k v Hp Hg).
Qed.

Lemma param_wf p k : val_wf (PDict p) = true -> val_wf (param p k) = true.
Proof.
  intros Hp. unfold param. destruct (dict_get p k) eqn:Hg; [|done].
  by apply (dict_get_wf p k).
Qed.

Lemma dict_get_default_wf p k d :
  val_wf (PDict p) = true -> val_wf d = true -> val_wf (dict_get p k ?? d) = true.
Proof.
  intros Hp Hd. destruct (dict_get p k) eqn:Hg; [|done]. by apply (dict_get_wf p k).
Qed.

Lemma py_or_wf a b : val_wf a = true -> val_wf b = true -> val_wf (py_or a b) = true.
Proof. unfold py_or. by destruct (truthy a). Qed.

Lemma if_wf (c : bool) a b :
  val_wf a = true -> val_wf b = true -> val_wf (if c then a else b) = true.
Proof. by destruct c. Qed.

Lemma opt_wf_default o d : opt_wf o = true -> val_wf d = true -> val_wf (o ?? d) = true.
Proof. by destruct o. Qed.

(** ** The base attributes *)

Lemma metadata_wf b : base_wf b = true -> val_wf (metadata b) = true.
Proof.
  unfold base_wf, metadata. intros [_ H]%andb_true_iff. by apply opt_wf_default.
Qed.

Lemma new_base_wf ts md w :
  clock_wf w -> val_wf ts = true -> val_wf md = true ->
  base_wf (new_base ts md w) = true.
Proof.
  intros Hw Hts Hmd. unfold base_wf, new_base, stamp. simpl.
  rewrite py_or_wf by done. rewrite andb_true_r.
  destruct (truthy ts); [done|]. simpl. by rewrite Hw.
Qed.

(** ** Encoding *)

Lemma as_dict_values_wf e :
  event_wf e = true -> Forall (fun kv => val_wf kv.2 = true) (as_dict e).
Proof.
  unfold event_wf. intros [Hb He]%andb_true_iff.
  pose proof (metadata_wf _ Hb) as Hmd.
  apply andb_true_iff in Hb as [Hts _].
  rewrite as_dict_shape. cbv zeta. rewrite !Forall_app. repeat split.
  - by repeat constructor.
  - destruct (truthy _); by repeat constructor.
  - destruct e; simpl in *; rewrite ?andb_true_iff in He; destruct_and?;
      repeat constructor; simpl; auto using opt_wf_default.
  - destruct (_ && _); by repeat constructor.
Qed.

Lemma as_dict_val_wf e : event_wf e = true -> val_wf (PDict (as_dict e)) = true.
Proof.
  intros He. apply val_wf_dict. split; [apply as_dict_wf|by apply as_dict_values_wf].
Qed.

(** ** Decoding *)

Lemma decode_ref_wf c p w e w' :
  val_wf (PDict p) = true -> clock_wf w ->
  decode_ref c p w = (Ok (Some e), w') -> event_wf e = true.
Proof.
  intros Hp Hw.
  assert (base_wf (new_base (param p "timestamp") (param p "metadata") w) = true)
    as Hb by (apply new_base_wf; auto using param_wf).
  pose proof (metadata_wf _ Hb) as Hmd.
  unfold decode_ref, event_wf.
  destruct c; try (intros [= <- <-]; simpl; rewrite Hb;
                   rewrite ?param_wf, ?py_or_wf by auto using param_wf; done).
  - pose proof (param_wf p "parse_data" Hp) as Hpd.
    destruct (param p "parse_data") as [| | | | | |d]; try done.
    intros [= <- <-]. simpl. rewrite Hb. simpl.
    rewrite !param_wf by done.
    rewrite !if_wf; auto using param_wf, dict_get_default_wf.
    simpl. rewrite Hmd. by rewrite !if_wf, !param_wf by auto using param_wf, dict_get_default_wf.
  - destruct (dt_parse _); [|done]. intros [= <- <-]. simpl. rewrite Hb.
    rewrite !param_wf, dict_get_default_wf by done. unfold fresh_name.
    by rewrite if_wf by auto using param_wf.
Qed.

(** ** The class and the invariant of a decoded event *)

(** The reference decoder of a class returns an instance of that class
    that satisfies the invariant of constructed events. *)
Lemma decode_ref_inv c p w e w' :
  decode_ref c p w = (Ok (Some e), w') -> class_of e = c /\ event_inv e = true.
Proof.
  pose proof (base_inv_new_base (param p "timestamp") (param p "metadata") w) as Hb.
  unfold decode_ref, event_inv.
  destruct c; try (intros [= <- <-]; simpl; by rewrite Hb).
  - destruct (param p "parse_data") as [| | | | | |pd]; try done.
    intros [= <- <-]. cbn [class_of event_base]. rewrite Hb, !truthy_or_if.
    split; [done|]. by destruct pd.
  - intros [= <- <-]. simpl. rewrite Hb. by rewrite truthy_or_py_or.
  - destruct (dt_parse _); [|done]. intros [= <- <-]. simpl. rewrite Hb.
    split; [done|]. unfold fresh_name.
    by destruct (is_none (param p "name")) eqn:Hn; rewrite ?Hn.
Qed.

(** C19: [Event.from_parameters] returns well-typed events.  The event
    is an instance of the class that [Event.resolve_by_type] gives for
    the tag of the record, so the decoder of no other class ran; it
    satisfies the invariant of constructed events: its timestamp and its
    metadata are not [None], and the attributes that a constructor
    defaults hold their default or a truthy value.  When the record is a
    JSON value (no NaN, distinct keys) and the clock reads numbers, the
    attributes of the event are such values, and so is the dictionary
    [as_dict] writes for it. *)
Theorem from_parameters_wf p d w e w' :
  from_parameters p d w = (Ok (Some e), w') ->
  resolve_by_type (param p "event") d = Ok (Some (class_of e)) /\
  event_inv e = true /\
  (val_wf (PDict p) = true -> clock_wf w ->
   event_wf e = true /\ val_wf (PDict (as_dict e)) = true).
Proof.
  intros (c & Hr & Hc)%from_parameters_Some.
  destruct (decode_ref_inv _ _ _ _ _ Hc) as [<- Hinv]. split_and!; [done..|].
  intros Hp Hw. assert (event_wf e = true) as He by eauto using decode_ref_wf.
  split; [done|by apply as_dict_val_wf].
Qed.

End wf.

(** ** The theorem at a concrete record *)

Lemma from_parameters_wf_witness :
  let e := SlotSet (DT := string_datetime) (PStr "city") (PInt 5)
             (new_base PNone PNone demo_world) in
  resolve_by_type (param (slot_record "city" 5) "event") None = Ok (Some (class_of e)) /\
  event_inv e = true /\
  (val_wf (PDict (slot_record "city" 5)) = true -> clock_wf demo_world ->
   event_wf e = true /\ val_wf (PDict (as_dict e)) = true).
Proof.
  intros e.
  exact (from_parameters_wf (DT := string_datetime) (slot_record "city" 5) None
           demo_world e (tick PNone demo_world) eq_refl).
Defined.

(** The hypotheses of the last part hold of that record and that
    world. *)
Example slot_record_wf :
  val_wf (PDict (slot_record "city" 5)) = true /\ clock_wf demo_world.
Proof. split; [done|by intros n]. Qed.
