(* ===== verification/Replay.v ===== *)
(** * Replay: a persisted event acts on the tracker as the original

    An event is written with [as_dict], read back with
    [Event.from_parameters], and the event read back is applied to the
    tracker: that is how a conversation is restored.  The event read
    back may differ from the original in what [as_dict] does not write,
    and [apply_to] may read just that.  [replay_calls] is the sequence
    of tracker calls that the event read back makes, stated on the
    original: the calls of the original, except that the export of a
    story is lost with its path.  The theorem is stated for a log: the
    records of [as_dict] read back by [deserialise_events] and replayed
    in order.  Reading back is not free of effects: [Event.__init__]
    reads the clock for an event whose timestamp is falsy, so a log is
    read back in the world [reread] gives, one reading later for each
    event of [unstamped].  The user and the bot messages hand themselves
    to the tracker and are left to [RoundTrip]. *)

From S2P Require Import Prelude PyDict PyValue Runtime Events Apply Registry DictCodec.

Section replay.
Context {DT : DateTimeLib}.

(** The classes whose [apply_to] hands the event itself to the
    tracker. *)
Definition carries_event (c : EventClass) : bool :=
  match c with
  | CUserUttered | CBotUttered => true
  | _ => false
  end.

(** The events of the theorem: instances of subclasses that do not hand
    themselves to the tracker and satisfy the invariant of constructed
    events. *)
Definition replayable (e : Event) : bool :=
  bool_decide (class_of e ≠ CEvent) && negb (carries_event (class_of e)) &&
  event_inv e.

(** The calls of the event that the round trip returns. *)
Definition replay_calls (e : Event) : list TrackerCall :=
  match e with
  | StoryExported _ _ => []
  | _ => calls e
  end.

(** The world after the log was read back: the clock is read once for
    each event whose timestamp is falsy, since [Event.__init__] then
    takes the time of the reading. *)
Definition reread (es : list Event) (w : World) : World :=
  foldl (fun w e => tick (timestamp (event_base e)) w) w es.

(** The events that make the decoder read the clock. *)
Definition unstamped (es : list Event) : list Event :=
  filter (fun e => truthy (timestamp (event_base e)) = false) es.

(** Decoding the dictionary of an event gives an event with the calls
    of [replay_calls], and reads the clock when the timestamp of the
    event is falsy. *)
Lemma decode_ref_calls e w :
  carries_event (class_of e) = false -> event_inv e = true ->
  exists e', decode_ref (class_of e) (as_dict e) w =
               (Ok (Some e'), tick (timestamp (event_base e)) w) /\
             calls e' = replay_calls e.
Proof.
  intros Hc [Hb Hinv]%andb_true_iff.
  destruct e; try done; unfold decode_ref; cbn [class_of]; cbv zeta;
    rewrite as_dict_shape; cbn [event_base] in *;
    destruct (truthy (metadata b)) eqn:Hm; dict_simpl;
    try (by eexists).
  all: rewrite dt_parse_isoformat, draw_given by (by apply negb_true_iff); by eexists.
Qed.

Lemma from_parameters_calls e w :
  class_of e ≠ CEvent -> carries_event (class_of e) = false -> event_inv e = true ->
  exists e', from_parameters (as_dict e) None w =
               (Ok (Some e'), tick (timestamp (event_base e)) w) /\
             calls e' = replay_calls e.
Proof.
  intros Hc Hcar Hinv.
  destruct (decode_ref_calls e w Hcar Hinv) as (e' & Hd & Hcalls).
  exists e'. split; [|done].
  by rewrite (from_parameters_resolved _ _ _ (class_of e))
    by auto using as_dict_tagged, as_dict_resolves.
Qed.

Lemma replayable_inv e :
  replayable e = true ->
  class_of e ≠ CEvent /\ carries_event (class_of e) = false /\ event_inv e = true.
Proof.
  unfold replayable. rewrite !andb_true_iff, bool_decide_eq_true, negb_true_iff.
  naive_solver.
Qed.

(** A log of events that is written and read back has the calls of
    [replay_calls], event by event. *)
Lemma deserialise_events_calls es w :
  Forall (fun e => replayable e = true) es ->
  exists es', deserialise_events (as_dict <$> es) w = (Ok es', reread es w) /\
              calls <$> es' = replay_calls <$> es.
Proof.
  intros Hes. revert w. induction Hes as [|e es He _ IH]; intros w.
  - by exists [].
  - destruct (replayable_inv e He) as (Hc & Hcar & Hinv).
    destruct (from_parameters_calls e w Hc Hcar Hinv) as (e' & Hd & Hcalls).
    destruct (IH (tick (timestamp (event_base e)) w)) as (es' & Hes' & Hall).
    exists (e' :: es'). split; [|by rewrite !fmap_cons, Hcalls, Hall].
    rewrite fmap_cons. eauto using deserialise_events_encoded.
Qed.

(** Reading back changes the count of the clock readings only, by the
    number of events without a truthy timestamp. *)
Lemma reread_cons e es w :
  reread (e :: es) w = reread es (tick (timestamp (event_base e)) w).
Proof. reflexivity. Qed.

Lemma unstamped_cons e es :
  unstamped (e :: es) =
  if truthy (timestamp (event_base e)) then unstamped es else e :: unstamped es.
Proof.
  unfold unstamped. rewrite filter_cons.
  by destruct (truthy (timestamp (event_base e))); case_decide.
Qed.

Lemma reread_fields es w :
  w_ticks (reread es w) = w_ticks w + length (unstamped es) /\
  w_clock (reread es w) = w_clock w /\ w_uuid (reread es w) = w_uuid w /\
  w_uuids (reread es w) = w_uuids w /\ w_log (reread es w) = w_log w.
Proof.
  revert w. induction es as [|e es IH]; intros w; [simpl; auto with lia|].
  rewrite reread_cons, unstamped_cons.
  destruct (IH (tick (timestamp (event_base e)) w)) as (-> & -> & -> & -> & ->).
  destruct (tick_fields (timestamp (event_base e)) w) as (-> & -> & -> & ->).
  rewrite tick_log. destruct (truthy _); simpl; auto with lia.
Qed.

Lemma reread_stamped es w : unstamped es = [] -> reread es w = w.
Proof.
  revert w. induction es as [|e es IH]; intros w; [done|].
  rewrite reread_cons, unstamped_cons.
  destruct (truthy _) eqn:Ht; [|done]. rewrite tick_truthy by done. apply IH.
Qed.

Lemma replay_calls_eq es :
  Forall (fun e => class_of e ≠ CStoryExported) es ->
  replay_calls <$> es = calls <$> es.
Proof.
  induction 1 as [|e es He _ IH]; [done|]. rewrite !fmap_cons, IH. f_equal.
  by destruct e.
Qed.

(** C20: a log of events of subclasses other than [UserUttered] and
    [BotUttered] that satisfy the invariant of constructed events,
    written with [as_dict], is read back in full by
    [deserialise_events].  The clock is read once for each event whose
    timestamp is falsy, and otherwise the world is as before: nothing
    is drawn and nothing is logged, and a log of events with truthy
    timestamps leaves the world untouched.  The events read back are
    replayed on every tracker with the tracker calls of the original
    log, in the same order, except the calls of the [StoryExported]
    events: their path is not written, and the events read back make no
    call where the originals export the stories. *)
Theorem replay_round_trip {T} `{TO : !TrackerOps T} es w (t : T) :
  Forall (fun e => replayable e = true) es ->
  exists es',
    deserialise_events (as_dict <$> es) w = (Ok es', reread es w) /\
    length es' = length es /\
    (w_ticks (reread es w) = w_ticks w + length (unstamped es) /\
     w_uuids (reread es w) = w_uuids w /\ w_log (reread es w) = w_log w /\
     (unstamped es = [] -> reread es w = w)) /\
    apply_all es' t = run_calls (concat (replay_calls <$> es)) t /\
    (Forall (fun e => class_of e ≠ CStoryExported) es ->
     apply_all es' t = apply_all es t).
Proof.
  intros Hes. destruct (deserialise_events_calls es w Hes) as (es' & Hd & Hcalls).
  exists es'. destruct (reread_fields es w) as (Ht & _ & _ & Hu & Hl).
  split_and!; try done.
  - by rewrite <- (length_fmap calls es'), Hcalls, length_fmap.
  - apply reread_stamped.
  - by rewrite apply_all_run, Hcalls.
  - intros Hx. by rewrite !apply_all_run, Hcalls, replay_calls_eq.
Qed.

End replay.

(** ** The theorem at a concrete event *)

Lemma replay_round_trip_witness :
  let es := [demo_slot; StoryExported (DT := string_datetime) (PStr "stories.md") demo_base;
             Restarted {| timestamp := PInt 0; _metadata := Some (PDict []) |}] in
  exists es',
    deserialise_events (as_dict <$> es) demo_world = (Ok es', reread es demo_world) /\
    length es' = length es /\
    (w_ticks (reread es demo_world) = w_ticks demo_world + length (unstamped es) /\
     w_uuids (reread es demo_world) = w_uuids demo_world /\
     w_log (reread es demo_world) = w_log demo_world /\
     (unstamped es = [] -> reread es demo_world = demo_world)) /\
    apply_all (TO := trace_tracker) es' [] =
      run_calls (concat (replay_calls <$> es)) [] /\
    (Forall (fun e => class_of e ≠ CStoryExported) es ->
     apply_all (TO := trace_tracker) es' [] = apply_all es []).
Proof.
  intros es.
  apply (replay_round_trip (DT := string_datetime) (TO := trace_tracker) es demo_world []).
  by repeat constructor.
Defined.

(** A restart with the timestamp 0 is read back with the time of the
    reading: the decoder reads the clock once. *)
Example restart_at_zero_is_restamped :
  let e := Restarted (DT := string_datetime)
             {| timestamp := PInt 0; _metadata := Some (PDict []) |} in
  replayable e = true /\
  deserialise_events [as_dict e] demo_world =
    (Ok [Restarted {| timestamp := PFloat (w_clock demo_world (w_ticks demo_world));
                      _metadata := Some (PDict []) |}],
     tick PNone demo_world).
Proof. by split. Qed.

(** The export of a story is lost when the event is restored. *)
Example export_lost_on_replay :
  let e := StoryExported (DT := string_datetime) (PStr "stories.md") demo_base in
  apply_to (TO := trace_tracker) e [] = Ok [Call_export_stories_to_file (PStr "stories.md")] /\
  (e' ← fst (from_parameters (as_dict e) None demo_world);
   match e' with
   | Some e' => apply_to (TO := trace_tracker) e' []
   | None => Raise TypeError
   end) = Ok [].
Proof. by vm_compute. Qed.
