(* ===== verification/Store.v ===== *)
(** * Store: objects, references and aliasing

    The other files treat a Python value as a tree ([pyval]).  In the
    interpreter a list or a dictionary is an object, and a variable, an
    attribute or an entry of a container holds a reference to it: two
    references to one object see each other's changes.  This file models
    that: a value is a scalar or a reference ([sval]), an object is a
    list or a dictionary of such values ([sobj]), and the store is the
    list of the objects allocated so far, a location being an index.

    The operations are computations in the monad [SM] over the store:
    allocation ([s_alloc], at the end of the store), [d[k] = v]
    ([s_setitem]), [d.get(k)] ([s_get]), [d.update(o)] ([s_update]),
    [d.copy()] ([s_copy]), [bool(v)] ([s_truthy]) and [a == b]
    ([s_eq]).  A computation ends with a value, with a Python exception
    ([Py]), with [Dangling] when it follows a reference that points
    outside the store, or with [Unmodelled] where the tree model ends as
    well ([dict.update] with an argument that is not a dictionary).

    [heap_vals] reads the store back as trees, one per object, from the
    first object to the last: it succeeds when every object refers to
    objects allocated before it only, which holds for every store that
    the methods of the events build.  [load_val] reads one value.  The
    lemmas say that allocation and updates of the newest object leave
    the trees of all other objects alone, and that the operations on
    dictionaries of references compute what [dict_set] and [dict_update]
    compute on trees. *)

From S2P Require Import Prelude PyDict PyValue.

(** ** Values, objects and the store *)

Definition loc := nat.

Inductive sval :=
| SNone
| SBool (b : bool)
| SInt (z : Z)
| SFloat (f : pyfloat)
| SStr (s : string)
| SRef (l : loc).

Inductive sobj :=
| OList (l : list sval)
| ODict (d : pydict sval).

Abbreviation store := (list sobj).

#[export] Instance sval_eq_dec : EqDecision sval.
Proof. solve_decision. Defined.

#[export] Instance sobj_eq_dec : EqDecision sobj.
Proof. solve_decision. Defined.

(** How a computation over the store fails. *)
Inductive fault :=
| Dangling
| Unmodelled
| Py (x : exn).

Abbreviation SM := (eff store fault).

Definition s_raise {A} (x : exn) : SM A := eff_raise (Py x).

(** ** Operations *)

(** A new object, as a display [{...}] or [[...]] creates it. *)
Definition s_alloc (o : sobj) : SM sval := fun σ : list sobj =>
  (Ok (SRef (length σ)), σ ++ [o]).

Definition s_deref (l : loc) : SM sobj := fun σ : list sobj =>
  match σ !! l with
  | Some o => (Ok o, σ)
  | None => (Raise Dangling, σ)
  end.

Definition s_write (l : loc) (o : sobj) : SM unit := fun σ : list sobj =>
  (Ok tt, <[l := o]> σ).

(** [v[k] = x] for a string [k]. *)
Definition s_setitem (v : sval) (k : string) (x : sval) : SM unit :=
  match v with
  | SRef l =>
      o ← s_deref l;
      match o with
      | ODict d => s_write l (ODict (dict_set d k x))
      | OList _ => s_raise TypeError
      end
  | _ => s_raise TypeError
  end.

(** [v.get(k)]. *)
Definition s_get (v : sval) (k : string) : SM sval :=
  match v with
  | SRef l =>
      o ← s_deref l;
      match o with
      | ODict d => mret (dict_get d k ?? SNone)
      | OList _ => s_raise (AttributeError "get")
      end
  | _ => s_raise (AttributeError "get")
  end.

(** [v.update(entries)] for the entries of a display or of another
    dictionary. *)
Definition s_update_entries (v : sval) (entries : pydict sval) : SM unit :=
  match v with
  | SRef l =>
      o ← s_deref l;
      match o with
      | ODict d => s_write l (ODict (dict_update d entries))
      | OList _ => s_raise (AttributeError "update")
      end
  | _ => s_raise (AttributeError "update")
  end.

(** [v.update(other)]: [other] is read when the call is made. *)
Definition s_update (v other : sval) : SM unit :=
  match other with
  | SRef l' =>
      o' ← s_deref l';
      match o' with
      | ODict entries => s_update_entries v entries
      | OList _ => eff_raise Unmodelled
      end
  | _ => eff_raise Unmodelled
  end.

(** [v.copy()]: a new object with the entries of the old one, which
    are shared. *)
Definition s_copy (v : sval) : SM sval :=
  match v with
  | SRef l => o ← s_deref l; s_alloc o
  | _ => s_raise (AttributeError "copy")
  end.

(** [bool(v)]. *)
Definition s_truthy (v : sval) : SM bool :=
  match v with
  | SNone => mret false
  | SBool b => mret b
  | SInt z => mret (negb (z =? 0)%Z)
  | SFloat f => mret (float_truthy f)
  | SStr s => mret (negb (bool_decide (s = "")))
  | SRef l =>
      o ← s_deref l;
      mret (match o with
            | OList l => negb (bool_decide (l = []))
            | ODict d => negb (bool_decide (d = []))
            end)
  end.

(** ** Reading the store back as trees *)

(** The tree of a value, given the trees of the objects. *)
Definition load_val (vals : list pyval) (v : sval) : option pyval :=
  match v with
  | SNone => Some PNone
  | SBool b => Some (PBool b)
  | SInt z => Some (PInt z)
  | SFloat f => Some (PFloat f)
  | SStr s => Some (PStr s)
  | SRef l => vals !! l
  end.

Fixpoint load_list (vals : list pyval) (l : list sval) : option (list pyval) :=
  match l with
  | [] => Some []
  | v :: l => x ← load_val vals v; l' ← load_list vals l; Some (x :: l')
  end.

Fixpoint load_dict (vals : list pyval) (d : pydict sval) : option (pydict pyval) :=
  match d with
  | [] => Some []
  | (k, v) :: d => x ← load_val vals v; d' ← load_dict vals d; Some ((k, x) :: d')
  end.

Definition load_obj (vals : list pyval) (o : sobj) : option pyval :=
  match o with
  | OList l => PList <$> load_list vals l
  | ODict d => PDict <$> load_dict vals d
  end.

(** The trees of the objects of [σ], after those of the objects before
    them. *)
Fixpoint load_from (vals : list pyval) (σ : store) : option (list pyval) :=
  match σ with
  | [] => Some vals
  | o :: σ => x ← load_obj vals o; load_from (vals ++ [x]) σ
  end.

Definition heap_vals (σ : store) : option (list pyval) := load_from [] σ.

(** The tree of a value in a store. *)
Definition load (σ : store) (v : sval) : option pyval :=
  vals ← heap_vals σ; load_val vals v.

(** [a == b]: the comparison of the trees of the operands. *)
Definition s_eq (a b : sval) : SM bool := fun σ =>
  match load σ a, load σ b with
  | Some x, Some y => (Ok (py_eq x y), σ)
  | _, _ => (Raise Dangling, σ)
  end.

(** ** Trees survive the allocation of more objects *)

Lemma load_val_app vals more v x :
  load_val vals v = Some x -> load_val (vals ++ more) v = Some x.
Proof. destruct v; simpl; try done. apply lookup_app_l_Some. Qed.

Lemma load_list_app vals more l l' :
  load_list vals l = Some l' -> load_list (vals ++ more) l = Some l'.
Proof.
  revert l'. induction l as [|v l IH]; intros l'; simpl; [done|].
  destruct (load_val vals v) as [x|] eqn:Hx; [|done]. simpl.
  destruct (load_list vals l) as [l0|]; [|done]. simpl. intros [= <-].
  by rewrite (load_val_app _ _ _ _ Hx), (IH l0).
Qed.

Lemma load_dict_app vals more d d' :
  load_dict vals d = Some d' -> load_dict (vals ++ more) d = Some d'.
Proof.
  revert d'. induction d as [|[k v] d IH]; intros d'; simpl; [done|].
  destruct (load_val vals v) as [x|] eqn:Hx; [|done]. simpl.
  destruct (load_dict vals d) as [d0|]; [|done]. simpl. intros [= <-].
  by rewrite (load_val_app _ _ _ _ Hx), (IH d0).
Qed.

Lemma load_obj_app vals more o x :
  load_obj vals o = Some x -> load_obj (vals ++ more) o = Some x.
Proof.
  destruct o as [l|d]; simpl.
  - destruct (load_list vals l) as [l'|] eqn:Hl; [|done].
    by rewrite (load_list_app _ _ _ _ Hl).
  - destruct (load_dict vals d) as [d'|] eqn:Hd; [|done].
    by rewrite (load_dict_app _ _ _ _ Hd).
Qed.

(** ** The trees of a store *)

Lemma load_from_app vals σ τ :
  load_from vals (σ ++ τ) = load_from vals σ ≫= fun vals' => load_from vals' τ.
Proof.
  revert vals. induction σ as [|o σ IH]; intros vals; simpl; [done|].
  destruct (load_obj vals o); simpl; [apply IH|done].
Qed.

(** The trees of a store with one more object: those of the store,
    and the tree of the object. *)
Lemma heap_vals_snoc σ o :
  heap_vals (σ ++ [o]) =
  vals ← heap_vals σ; x ← load_obj vals o; Some (vals ++ [x]).
Proof.
  unfold heap_vals. rewrite load_from_app.
  destruct (load_from [] σ) as [vals|]; simpl; [|done].
  by destruct (load_obj vals o).
Qed.

(** A new dictionary whose entries read back adds its tree. *)
Lemma heap_vals_snoc_dict σ vals d d' :
  heap_vals σ = Some vals -> load_dict vals d = Some d' ->
  heap_vals (σ ++ [ODict d]) = Some (vals ++ [PDict d']).
Proof. intros Hσ Hd. rewrite heap_vals_snoc, Hσ. simpl. by rewrite Hd. Qed.

Lemma load_from_spec vals0 σ vals :
  load_from vals0 σ = Some vals ->
  exists new, vals = vals0 ++ new /\
              Forall2 (fun o x => load_obj vals o = Some x) σ new.
Proof.
  revert vals0. induction σ as [|o σ IH]; intros vals0; simpl.
  - intros [= <-]. exists []. by rewrite app_nil_r.
  - destruct (load_obj vals0 o) as [x|] eqn:Hx; [|done]. simpl.
    intros (new & -> & Hnew)%IH. exists (x :: new).
    rewrite <- app_assoc in *. split; [done|]. constructor; [|done].
    by apply load_obj_app.
Qed.

(** Every object reads back as its tree, under the trees of the whole
    store. *)
Lemma heap_vals_spec σ vals :
  heap_vals σ = Some vals -> Forall2 (fun o x => load_obj vals o = Some x) σ vals.
Proof. by intros (new & -> & H)%load_from_spec. Qed.

Lemma heap_vals_length σ vals : heap_vals σ = Some vals -> length vals = length σ.
Proof. intros H%heap_vals_spec. symmetry. by eapply Forall2_length. Qed.

Lemma heap_vals_lookup σ vals l x :
  heap_vals σ = Some vals -> vals !! l = Some x ->
  exists o, σ !! l = Some o /\ load_obj vals o = Some x.
Proof.
  intros H%heap_vals_spec Hx.
  destruct (Forall2_lookup_r _ _ _ _ _ H Hx) as (o & Ho & Hox). eauto.
Qed.

(** ** Dictionaries of references compute as dictionaries of trees *)

Lemma load_dict_get vals d d' k :
  load_dict vals d = Some d' ->
  dict_get d' k = dict_get d k ≫= load_val vals.
Proof.
  revert d'. induction d as [|[k' v] d IH]; intros d'; simpl.
  - by intros [= <-].
  - destruct (load_val vals v) as [x|] eqn:Hx; [|done]. simpl.
    destruct (load_dict vals d) as [d0|]; [|done]. simpl. intros [= <-]. simpl.
    case_decide; [done|by apply IH].
Qed.

Lemma load_dict_default vals d d' k :
  load_dict vals d = Some d' ->
  load_val vals (dict_get d k ?? SNone) = Some (dict_get d' k ?? PNone).
Proof.
  revert d'. induction d as [|[k' v] d IH]; intros d'; simpl.
  - by intros [= <-].
  - destruct (load_val vals v) as [x|] eqn:Hx; [|done]. simpl.
    destruct (load_dict vals d) as [d0|]; [|done]. simpl. intros [= <-]. simpl.
    case_decide; [done|by apply IH].
Qed.

Lemma load_dict_set vals d d' k v x :
  load_dict vals d = Some d' -> load_val vals v = Some x ->
  load_dict vals (dict_set d k v) = Some (dict_set d' k x).
Proof.
  intros Hd Hv. revert d' Hd. induction d as [|[k' v'] d IH]; intros d'; simpl.
  - intros [= <-]. by rewrite Hv.
  - destruct (load_val vals v') as [x'|] eqn:Hx'; [|done]. simpl.
    destruct (load_dict vals d) as [d0|] eqn:Hd0; [|done]. simpl. intros [= <-].
    simpl. case_decide; simpl.
    + by rewrite Hv, Hd0.
    + by rewrite Hx', (IH d0).
Qed.

Lemma load_dict_update vals d d' o o' :
  load_dict vals d = Some d' -> load_dict vals o = Some o' ->
  load_dict vals (dict_update d o) = Some (dict_update d' o').
Proof.
  revert d d' o'. induction o as [|[k v] o IH]; intros d d' o' Hd; simpl.
  - by intros [= <-].
  - destruct (load_val vals v) as [x|] eqn:Hx; [|done]. simpl.
    destruct (load_dict vals o) as [o0|] eqn:Ho; [|done]. simpl. intros [= <-].
    rewrite !dict_update_cons. apply IH; [|done]. by apply load_dict_set.
Qed.

Lemma load_dict_nil_iff vals d d' :
  load_dict vals d = Some d' -> d' = [] <-> d = [].
Proof.
  destruct d as [|[k v] d]; simpl; [by intros [= <-]|].
  destruct (load_val vals v); [|done]. simpl.
  destruct (load_dict vals d); [|done]. simpl. by intros [= <-].
Qed.

Lemma load_list_nil_iff vals l l' :
  load_list vals l = Some l' -> l' = [] <-> l = [].
Proof.
  destruct l as [|v l]; simpl; [by intros [= <-]|].
  destruct (load_val vals v); [|done]. simpl.
  destruct (load_list vals l); [|done]. simpl. by intros [= <-].
Qed.

(** ** Running the operations *)

Lemma s_deref_run σ l o : σ !! l = Some o -> s_deref l σ = (Ok o, σ).
Proof. intros H. unfold s_deref. by rewrite H. Qed.

Lemma s_deref_old σ τ l o :
  σ !! l = Some o -> s_deref l (σ ++ τ) = (Ok o, σ ++ τ).
Proof. intros H. apply s_deref_run. by apply lookup_app_l_Some. Qed.

Lemma s_deref_last σ o : s_deref (length σ) (σ ++ [o]) = (Ok o, σ ++ [o]).
Proof. unfold s_deref. by rewrite list_lookup_middle. Qed.

Lemma s_write_last σ o o' : s_write (length σ) o' (σ ++ [o]) = (Ok tt, σ ++ [o']).
Proof.
  unfold s_write. f_equal. rewrite insert_app_r_alt by done.
  by rewrite Nat.sub_diag.
Qed.

(** An assignment to the newest object changes that object only. *)
Lemma s_setitem_last σ d k x :
  s_setitem (SRef (length σ)) k x (σ ++ [ODict d]) =
  (Ok tt, σ ++ [ODict (dict_set d k x)]).
Proof.
  unfold s_setitem. by rewrite eff_bind_run, s_deref_last, s_write_last.
Qed.

Lemma s_update_entries_last σ d entries :
  s_update_entries (SRef (length σ)) entries (σ ++ [ODict d]) =
  (Ok tt, σ ++ [ODict (dict_update d entries)]).
Proof.
  unfold s_update_entries. by rewrite eff_bind_run, s_deref_last, s_write_last.
Qed.

Lemma s_update_last σ d l' entries :
  σ !! l' = Some (ODict entries) ->
  s_update (SRef (length σ)) (SRef l') (σ ++ [ODict d]) =
  (Ok tt, σ ++ [ODict (dict_update d entries)]).
Proof.
  intros H. unfold s_update.
  by rewrite eff_bind_run, (s_deref_old _ _ _ _ H), s_update_entries_last.
Qed.

Lemma s_get_last σ d k :
  s_get (SRef (length σ)) k (σ ++ [ODict d]) = (Ok (dict_get d k ?? SNone), σ ++ [ODict d]).
Proof. unfold s_get. by rewrite eff_bind_run, s_deref_last. Qed.

(** [bool] of a value is the truthiness of its tree, and reads only. *)
Lemma s_truthy_load σ vals v x :
  heap_vals σ = Some vals -> load_val vals v = Some x ->
  s_truthy v σ = (Ok (truthy x), σ).
Proof.
  intros Hσ Hv. destruct v; simpl in Hv; simplify_eq; try done.
  destruct (heap_vals_lookup _ _ _ _ Hσ Hv) as (o & Ho & Hox).
  unfold s_truthy. rewrite eff_bind_run, (s_deref_run _ _ _ Ho). simpl.
  destruct o as [l0|d]; simpl in Hox.
  - destruct (load_list vals l0) as [l'|] eqn:Hl; simplify_eq/=.
    pose proof (load_list_nil_iff _ _ _ Hl). do 3 f_equal.
    by repeat case_bool_decide; intuition.
  - destruct (load_dict vals d) as [d'|] eqn:Hd; simplify_eq/=.
    pose proof (load_dict_nil_iff _ _ _ Hd). do 3 f_equal.
    by repeat case_bool_decide; intuition.
Qed.

Lemma s_alloc_run σ o : s_alloc o σ = (Ok (SRef (length σ)), σ ++ [o]).
Proof. reflexivity. Qed.

(** [==] is the comparison of the trees, and reads only. *)
Lemma s_eq_load σ vals a b x y :
  heap_vals σ = Some vals -> load_val vals a = Some x -> load_val vals b = Some y ->
  s_eq a b σ = (Ok (py_eq x y), σ).
Proof. intros Hσ Ha Hb. unfold s_eq, load. rewrite Hσ. simpl. by rewrite Ha, Hb. Qed.

(** A copy is a new object with the same tree. *)
Lemma s_copy_run σ l o :
  σ !! l = Some o ->
  s_copy (SRef l) σ = (Ok (SRef (length σ)), σ ++ [o]).
Proof. intros H. unfold s_copy. by rewrite eff_bind_run, (s_deref_run _ _ _ H). Qed.
