(* ===== verification/Aliasing.v ===== *)
(** * Aliasing: the methods that build dictionaries, run on the store

    [as_dict] and [BotUttered.message] build their result by assignment:
    [as_dict] creates a dictionary and updates it in place, and
    [message] copies the data of the event and writes into the copy.
    The results hold references to the objects of the event.  This file
    runs these methods on the store of [Store.v].

    An event object here is a value of [SEvent]: the constructors of
    [Event] with attributes that are scalars or references ([sval]).
    [abs_event] reads such an object back as an [Event], given the trees
    of the objects of the store.  [s_metadata_prop] is the property
    [metadata]; [s_Event_as_dict] is [Event.as_dict], [s_X_as_dict] the
    override of class [X], [s_as_dict] the method of the class of the
    event, and [s_BotUttered_message] the property [BotUttered.message].
    A dictionary display that is passed to [update] and dropped is not
    allocated: its entries are the argument of [s_update_entries].

    The theorems show, for an event whose attribute [_metadata] is
    there: each method leaves every object of the store as it was and
    adds exactly one, its result; the result read back as a tree is the
    dictionary that the tree model computes ([as_dict],
    [BotUttered_message]); and the result holds the very references of
    the event, so that a change made through the result is a change of
    the event. *)

From S2P Require Import Prelude PyDict PyValue Runtime Events Message DictCodec Store.

Section aliasing.
Context {DT : DateTimeLib}.

(** ** Event objects in the store *)

Record SBase := {
  s_timestamp : sval;
  s_metadata : option sval;
}.

Inductive SEvent :=
| SBareEvent (b : SBase)
| SUserUttered (text intent entities : sval)
    (input_channel message_id : option sval) (parse_data : sval) (b : SBase)
| SBotUttered (text data : sval) (b : SBase)
| SSlotSet (key value : sval) (b : SBase)
| SRestarted (b : SBase)
| SUserUtteranceReverted (b : SBase)
| SAllSlotsReset (b : SBase)
| SReminderScheduled (action_name : sval) (trigger_date_time : datetime)
    (kill_on_user_message name : sval) (b : SBase)
| SReminderCancelled (action_name : sval) (b : SBase)
| SActionReverted (b : SBase)
| SStoryExported (path : sval) (b : SBase)
| SFollowupAction (action_name : sval) (b : SBase)
| SConversationPaused (b : SBase)
| SConversationResumed (b : SBase)
| SActionExecuted (action_name : sval) (policy confidence : option sval)
    (unpredictable : bool) (b : SBase)
| SAgentUttered (text data : sval) (b : SBase)
| SForm (name : sval) (b : SBase)
| SFormValidation (validate : sval) (b : SBase)
| SActionExecutionRejected (action_name policy confidence : sval) (b : SBase).

Definition s_class_of (e : SEvent) : EventClass :=
  match e with
  | SBareEvent _ => CEvent
  | SUserUttered _ _ _ _ _ _ _ => CUserUttered
  | SBotUttered _ _ _ => CBotUttered
  | SSlotSet _ _ _ => CSlotSet
  | SRestarted _ => CRestarted
  | SUserUtteranceReverted _ => CUserUtteranceReverted
  | SAllSlotsReset _ => CAllSlotsReset
  | SReminderScheduled _ _ _ _ _ => CReminderScheduled
  | SReminderCancelled _ _ => CReminderCancelled
  | SActionReverted _ => CActionReverted
  | SStoryExported _ _ => CStoryExported
  | SFollowupAction _ _ => CFollowupAction
  | SConversationPaused _ => CConversationPaused
  | SConversationResumed _ => CConversationResumed
  | SActionExecuted _ _ _ _ _ => CActionExecuted
  | SAgentUttered _ _ _ => CAgentUttered
  | SForm _ _ => CForm
  | SFormValidation _ _ => CFormValidation
  | SActionExecutionRejected _ _ _ _ => CActionExecutionRejected
  end.

Definition s_event_base (e : SEvent) : SBase :=
  match e with
  | SBareEvent b | SUserUttered _ _ _ _ _ _ b | SBotUttered _ _ b | SSlotSet _ _ b
  | SRestarted b | SUserUtteranceReverted b | SAllSlotsReset b
  | SReminderScheduled _ _ _ _ b | SReminderCancelled _ b | SActionReverted b
  | SStoryExported _ b | SFollowupAction _ b | SConversationPaused b
  | SConversationResumed b | SActionExecuted _ _ _ _ b | SAgentUttered _ _ b
  | SForm _ b | SFormValidation _ b | SActionExecutionRejected _ _ _ b => b
  end.

(** ** Reading an event object back *)

Definition abs_opt (vals : list pyval) (o : option sval) : option (option pyval) :=
  match o with
  | Some v => Some <$> load_val vals v
  | None => Some None
  end.

Definition abs_base (vals : list pyval) (b : SBase) : option EventBase :=
  ts ← load_val vals (s_timestamp b);
  md ← abs_opt vals (s_metadata b);
  Some {| timestamp := ts; _metadata := md |}.

Definition abs_event (vals : list pyval) (e : SEvent) : option Event :=
  b ← abs_base vals (s_event_base e);
  match e with
  | SBareEvent _ => Some (BareEvent b)
  | SUserUttered text intent entities ic mid pd _ =>
      text ← load_val vals text; intent ← load_val vals intent;
      entities ← load_val vals entities; ic ← abs_opt vals ic;
      mid ← abs_opt vals mid; pd ← load_val vals pd;
      Some (UserUttered text intent entities ic mid pd b)
  | SBotUttered text data _ =>
      text ← load_val vals text; data ← load_val vals data;
      Some (BotUttered text data b)
  | SSlotSet key value _ =>
      key ← load_val vals key; value ← load_val vals value;
      Some (SlotSet key value b)
  | SRestarted _ => Some (Restarted b)
  | SUserUtteranceReverted _ => Some (UserUtteranceReverted b)
  | SAllSlotsReset _ => Some (AllSlotsReset b)
  | SReminderScheduled a t kill name _ =>
      a ← load_val vals a; kill ← load_val vals kill; name ← load_val vals name;
      Some (ReminderScheduled a t kill name b)
  | SReminderCancelled a _ => a ← load_val vals a; Some (ReminderCancelled a b)
  | SActionReverted _ => Some (ActionReverted b)
  | SStoryExported path _ => path ← load_val vals path; Some (StoryExported path b)
  | SFollowupAction a _ => a ← load_val vals a; Some (FollowupAction a b)
  | SConversationPaused _ => Some (ConversationPaused b)
  | SConversationResumed _ => Some (ConversationResumed b)
  | SActionExecuted a p c u _ =>
      a ← load_val vals a; p ← abs_opt vals p; c ← abs_opt vals c;
      Some (ActionExecuted a p c u b)
  | SAgentUttered text data _ =>
      text ← load_val vals text; data ← load_val vals data;
      Some (AgentUttered text data b)
  | SForm name _ => name ← load_val vals name; Some (Form name b)
  | SFormValidation v _ => v ← load_val vals v; Some (FormValidation v b)
  | SActionExecutionRejected a p c _ =>
      a ← load_val vals a; p ← load_val vals p; c ← load_val vals c;
      Some (ActionExecutionRejected a p c b)
  end.

(** ** The methods *)

(** The property [metadata]: [getattr(self, "_metadata", {})].  The
    default is a new dictionary at every call. *)
Definition s_metadata_prop (b : SBase) : SM sval :=
  match s_metadata b with
  | Some md => mret md
  | None => s_alloc (ODict [])
  end.

(** [Event.as_dict]. *)
Definition s_Event_as_dict (c : EventClass) (b : SBase) : SM sval :=
  d ← s_alloc (ODict (dict_of_list
                        [("event", SStr (type_name c)); ("timestamp", s_timestamp b)]));
  md ← s_metadata_prop b;
  t ← s_truthy md;
  (if t : bool then md ← s_metadata_prop b; s_setitem d "metadata" md else mret tt);;
  mret d.

Definition s_UserUttered_as_dict (text parse_data : sval)
    (input_channel message_id : option sval) (b : SBase) : SM sval :=
  _dict ← s_Event_as_dict CUserUttered b;
  md ← s_metadata_prop b;
  s_update_entries _dict
    (dict_of_list
       [("text", text); ("parse_data", parse_data);
        ("input_channel", input_channel ?? SNone);
        ("message_id", message_id ?? SNone);
        ("metadata", md)]);;
  mret _dict.

Definition s_BotUttered_as_dict (text data : sval) (b : SBase) : SM sval :=
  d ← s_Event_as_dict CBotUttered b;
  md ← s_metadata_prop b;
  s_update_entries d
    (dict_of_list [("text", text); ("data", data); ("metadata", md)]);;
  mret d.

Definition s_SlotSet_as_dict (key value : sval) (b : SBase) : SM sval :=
  d ← s_Event_as_dict CSlotSet b;
  s_update_entries d (dict_of_list [("name", key); ("value", value)]);;
  mret d.

Definition s_ReminderScheduled_as_dict (action_name : sval)
    (trigger_date_time : datetime) (name kill_on_user_message : sval)
    (b : SBase) : SM sval :=
  d ← s_Event_as_dict CReminderScheduled b;
  s_update_entries d
    (dict_of_list
       [("action", action_name);
        ("date_time", SStr (dt_isoformat trigger_date_time));
        ("name", name);
        ("kill_on_user_msg", kill_on_user_message)]);;
  mret d.

Definition s_FollowupAction_as_dict (action_name : sval) (b : SBase) : SM sval :=
  d ← s_Event_as_dict CFollowupAction b;
  s_update_entries d (dict_of_list [("name", action_name)]);;
  mret d.

Definition s_ActionExecuted_as_dict (action_name : sval)
    (policy confidence : option sval) (b : SBase) : SM sval :=
  d ← s_Event_as_dict CActionExecuted b;
  let policy := match policy with Some p => p | None => SNone end in
  let confidence := match confidence with Some c => c | None => SNone end in
  s_update_entries d
    (dict_of_list
       [("name", action_name); ("policy", policy); ("confidence", confidence)]);;
  mret d.

Definition s_AgentUttered_as_dict (text data : sval) (b : SBase) : SM sval :=
  d ← s_Event_as_dict CAgentUttered b;
  s_update_entries d (dict_of_list [("text", text); ("data", data)]);;
  mret d.

Definition s_Form_as_dict (name : sval) (b : SBase) : SM sval :=
  d ← s_Event_as_dict CForm b;
  s_update_entries d (dict_of_list [("name", name)]);;
  mret d.

Definition s_FormValidation_as_dict (validate : sval) (b : SBase) : SM sval :=
  d ← s_Event_as_dict CFormValidation b;
  s_update_entries d (dict_of_list [("validate", validate)]);;
  mret d.

Definition s_ActionExecutionRejected_as_dict (action_name policy confidence : sval)
    (b : SBase) : SM sval :=
  d ← s_Event_as_dict CActionExecutionRejected b;
  s_update_entries d
    (dict_of_list
       [("name", action_name); ("policy", policy); ("confidence", confidence)]);;
  mret d.

(** [e.as_dict()]. *)
Definition s_as_dict (e : SEvent) : SM sval :=
  match e with
  | SUserUttered text _ _ ic mid pd b => s_UserUttered_as_dict text pd ic mid b
  | SBotUttered text data b => s_BotUttered_as_dict text data b
  | SSlotSet key value b => s_SlotSet_as_dict key value b
  | SReminderScheduled a t kill name b => s_ReminderScheduled_as_dict a t name kill b
  | SFollowupAction a b => s_FollowupAction_as_dict a b
  | SActionExecuted a p c _ b => s_ActionExecuted_as_dict a p c b
  | SAgentUttered text data b => s_AgentUttered_as_dict text data b
  | SForm name b => s_Form_as_dict name b
  | SFormValidation v b => s_FormValidation_as_dict v b
  | SActionExecutionRejected a p c b => s_ActionExecutionRejected_as_dict a p c b
  | _ => s_Event_as_dict (s_class_of e) (s_event_base e)
  end.

(** [BotUttered.message]. *)
Definition s_BotUttered_message (text data : sval) (b : SBase) : SM sval :=
  m ← s_copy data;
  s_setitem m "text" text;;
  s_setitem m "timestamp" (s_timestamp b);;
  md ← s_metadata_prop b;
  s_update m md;;
  image ← s_get m "image";
  attachment ← s_get m "attachment";
  same ← s_eq image attachment;
  (if same : bool then s_setitem m "attachment" SNone else mret tt);;
  mret m.

(** ** What the result of [as_dict] shares with the event *)

(** The references that [as_dict] stores in its result: those of the
    attributes of the event that hold objects. *)
Definition shared_entries (e : SEvent) : pydict sval :=
  match e with
  | SUserUttered _ _ _ _ _ pd b =>
      [("parse_data", pd); ("metadata", s_metadata b ?? SNone)]
  | SBotUttered _ data b => [("data", data); ("metadata", s_metadata b ?? SNone)]
  | SAgentUttered _ data _ => [("data", data)]
  | SSlotSet _ value _ => [("value", value)]
  | _ => []
  end.

End aliasing.

(** ** An example store *)

(** A store with the data and the metadata of a bot message. *)
Definition demo_store : store :=
  [ODict [("image", SStr "a.png")]; ODict [("channel", SStr "web")]].

Definition demo_sbot : @SEvent string_datetime :=
  SBotUttered (SStr "hello") (SRef 0)
    {| s_timestamp := SInt 7; s_metadata := Some (SRef 1) |}.

Definition demo_bot : @Event string_datetime :=
  BotUttered (PStr "hello") (PDict [("image", PStr "a.png")])
    {| timestamp := PInt 7; _metadata := Some (PDict [("channel", PStr "web")]) |}.


Section aliasing_theory.
Context {DT : DateTimeLib}.

(** ** Attributes *)

Lemma abs_opt_default vals o o' :
  abs_opt vals o = Some o' -> load_val vals (o ?? SNone) = Some (o' ?? PNone).
Proof.
  destruct o as [v|]; simpl; [|by intros [= <-]].
  destruct (load_val vals v); simpl; [|done]. by intros [= <-].
Qed.

Lemma abs_base_inv vals b b' :
  abs_base vals b = Some b' ->
  load_val vals (s_timestamp b) = Some (timestamp b') /\
  abs_opt vals (s_metadata b) = Some (_metadata b').
Proof.
  unfold abs_base. destruct (load_val vals (s_timestamp b)); [|done]. simpl.
  destruct (abs_opt vals (s_metadata b)); [|done]. simpl. by intros [= <-].
Qed.

(** The metadata of an object that has the attribute is the tree of
    the attribute. *)
Lemma abs_base_metadata vals b b' md :
  abs_base vals b = Some b' -> s_metadata b = Some md ->
  load_val vals md = Some (metadata b').
Proof.
  intros [_ Hmd]%abs_base_inv Hb. rewrite Hb in Hmd. simpl in Hmd.
  unfold metadata. destruct (load_val vals md); simpl in Hmd; [|done].
  by injection Hmd as <-.
Qed.

Lemma abs_opt_app vals more o o' :
  abs_opt vals o = Some o' -> abs_opt (vals ++ more) o = Some o'.
Proof.
  destruct o as [v|]; simpl; [|done].
  destruct (load_val vals v) as [x|] eqn:Hx; [|done].
  by rewrite (load_val_app _ _ _ _ Hx).
Qed.

Lemma abs_base_app vals more b b' :
  abs_base vals b = Some b' -> abs_base (vals ++ more) b = Some b'.
Proof.
  intros H. destruct (abs_base_inv _ _ _ H) as [Hts Hmd]. unfold abs_base.
  rewrite (load_val_app _ _ _ _ Hts), (abs_opt_app _ _ _ _ Hmd). simpl.
  by destruct b'.
Qed.

(** An event object reads back the same after more objects have been
    allocated. *)
Lemma abs_event_app vals more se e :
  abs_event vals se = Some e -> abs_event (vals ++ more) se = Some e.
Proof.
  unfold abs_event. intros H.
  destruct (abs_base vals (s_event_base se)) as [b'|] eqn:Hb; [|done].
  rewrite (abs_base_app _ more _ _ Hb). simpl in *.
  destruct se; simplify_option_eq;
    repeat match goal with
           | H : load_val _ _ = Some _ |- _ =>
               rewrite (load_val_app _ more _ _ H); clear H; simpl
           | H : abs_opt _ _ = Some _ |- _ =>
               rewrite (abs_opt_app _ more _ _ H); clear H; simpl
           end; done.
Qed.

Lemma s_metadata_prop_run b md σ :
  s_metadata b = Some md -> s_metadata_prop b σ = (Ok md, σ).
Proof. unfold s_metadata_prop. by intros ->. Qed.

(** ** [Event.as_dict] on the store *)

Lemma s_Event_as_dict_run c b b' md σ vals :
  heap_vals σ = Some vals -> abs_base vals b = Some b' -> s_metadata b = Some md ->
  exists d,
    s_Event_as_dict c b σ = (Ok (SRef (length σ)), σ ++ [ODict d]) /\
    load_dict vals d = Some (Event_as_dict c b') /\
    dict_get d "metadata" = (if truthy (metadata b') then Some md else None).
Proof.
  intros Hσ Hb Hmd. pose proof (abs_base_metadata _ _ _ _ Hb Hmd) as Hmd'.
  destruct (abs_base_inv _ _ _ Hb) as [Hts _].
  set (d0 := dict_of_list [("event", SStr (type_name c)); ("timestamp", s_timestamp b)]).
  assert (load_dict vals d0 =
          Some (dict_of_list [("event", PStr (type_name c)); ("timestamp", timestamp b')]))
    as Hd0 by (simpl; by rewrite Hts).
  assert (heap_vals (σ ++ [ODict d0]) =
          Some (vals ++ [PDict (dict_of_list [("event", PStr (type_name c));
                                             ("timestamp", timestamp b')])])) as Hσ'.
  { by apply heap_vals_snoc_dict. }
  unfold s_Event_as_dict. fold d0.
  rewrite eff_bind_run, s_alloc_run, eff_bind_run, (s_metadata_prop_run _ _ _ Hmd).
  rewrite eff_bind_run, (s_truthy_load _ _ _ _ Hσ' (load_val_app _ _ _ _ Hmd')).
  unfold Event_as_dict. destruct (truthy (metadata b')).
  - exists (dict_set d0 "metadata" md).
    rewrite !eff_bind_run, (s_metadata_prop_run _ _ _ Hmd), s_setitem_last.
    split; [done|]. split; [by apply load_dict_set|by rewrite dict_get_set_eq].
  - exists d0. rewrite eff_bind_run. by repeat split.
Qed.

(** The pattern of an override: the dictionary of the base class,
    updated with the entries of the class. *)
Lemma s_override_run c b b' md σ vals entries entries' :
  heap_vals σ = Some vals -> abs_base vals b = Some b' -> s_metadata b = Some md ->
  load_dict vals entries = Some entries' ->
  exists d0,
    (d ← s_Event_as_dict c b; s_update_entries d entries;; mret d) σ =
      (Ok (SRef (length σ)), σ ++ [ODict (dict_update d0 entries)]) /\
    load_dict vals (dict_update d0 entries) =
      Some (dict_update (Event_as_dict c b') entries').
Proof.
  intros Hσ Hb Hmd He.
  destruct (s_Event_as_dict_run c _ _ _ _ _ Hσ Hb Hmd) as (d0 & Hrun & Hload & _).
  exists d0. rewrite eff_bind_run, Hrun, eff_bind_run, s_update_entries_last.
  split; [done|]. by apply load_dict_update.
Qed.

Lemma dict_get_update_lit {V} (d : pydict V) l k v :
  dict_get (dict_of_list l) k = Some v ->
  dict_get (dict_update d (dict_of_list l)) k = Some v.
Proof. intros H. by rewrite dict_get_update, H by apply dict_of_list_wf. Qed.

(** The same with the metadata among the entries, as [UserUttered] and
    [BotUttered] write it. *)
Lemma s_override_md_run c b b' md σ vals (entries : sval -> pydict sval) entries' :
  heap_vals σ = Some vals -> abs_base vals b = Some b' -> s_metadata b = Some md ->
  load_dict vals (entries md) = Some entries' ->
  exists d0,
    (d ← s_Event_as_dict c b; md ← s_metadata_prop b;
     s_update_entries d (entries md);; mret d) σ =
      (Ok (SRef (length σ)), σ ++ [ODict (dict_update d0 (entries md))]) /\
    load_dict vals (dict_update d0 (entries md)) =
      Some (dict_update (Event_as_dict c b') entries').
Proof.
  intros Hσ Hb Hmd He.
  destruct (s_Event_as_dict_run c _ _ _ _ _ Hσ Hb Hmd) as (d0 & Hrun & Hload & _).
  exists d0. rewrite eff_bind_run, Hrun, eff_bind_run, (s_metadata_prop_run _ _ _ Hmd).
  rewrite eff_bind_run, s_update_entries_last.
  split; [done|]. by apply load_dict_update.
Qed.

(** The entries of a display read back, attribute by attribute. *)
Ltac load_entries :=
  simpl;
  repeat match goal with
         | H : load_val _ _ = Some _ |- _ => rewrite H
         | H : abs_opt _ _ = Some _ |- _ => rewrite (abs_opt_default _ _ _ H)
         end;
  reflexivity.

(** The conclusion of the lemmas on [as_dict], from the run of the
    override, which is in the context. *)
Ltac share_entries :=
  eexists; split; [eassumption|]; split; [eassumption|];
  repeat constructor; by apply dict_get_update_lit.

Ltac by_override :=
  unfold s_SlotSet_as_dict, s_ReminderScheduled_as_dict, s_FollowupAction_as_dict,
    s_ActionExecuted_as_dict, s_AgentUttered_as_dict, s_Form_as_dict,
    s_FormValidation_as_dict, s_ActionExecutionRejected_as_dict;
  match goal with
  | Hσ : heap_vals ?σ = Some ?vals, Hb : abs_base ?vals ?b = Some ?b',
    Hmd : s_metadata ?b = Some ?md |- context [s_Event_as_dict ?c ?b] =>
      edestruct (s_override_run c b b' md σ vals)
        as (d0 & Hrun & Hload); [done..| |share_entries]; load_entries
  end.

(** ** [as_dict] on the store *)

(** [as_dict] adds one dictionary to the store; its entries read back
    as the dictionary of the tree model, and the entries for the
    attributes that hold objects are the references of the event. *)
Lemma s_as_dict_run se e md σ vals :
  heap_vals σ = Some vals -> abs_event vals se = Some e ->
  s_metadata (s_event_base se) = Some md ->
  exists d,
    s_as_dict se σ = (Ok (SRef (length σ)), σ ++ [ODict d]) /\
    load_dict vals d = Some (as_dict e) /\
    Forall (fun kv => dict_get d kv.1 = Some kv.2) (shared_entries se).
Proof.
  intros Hσ Ha Hmd. unfold abs_event in Ha.
  destruct (abs_base vals (s_event_base se)) as [b'|] eqn:Hb; [|done].
  pose proof (abs_base_metadata _ _ _ _ Hb Hmd) as Hmd'.
  destruct se; simpl in *; simplify_option_eq;
    try (match goal with
         | |- context [s_Event_as_dict ?c _ _ = _] =>
             destruct (s_Event_as_dict_run c _ _ _ _ _ Hσ Hb Hmd) as (d & ? & ? & ?);
             exists d; by repeat split
         end).
  - edestruct (s_override_md_run CUserUttered b b' md σ vals
      (fun md => dict_of_list
         [("text", text); ("parse_data", parse_data);
          ("input_channel", input_channel ?? SNone);
          ("message_id", message_id ?? SNone); ("metadata", md)]))
      as (d0 & Hrun & Hload); [done..|load_entries|share_entries].
  - edestruct (s_override_md_run CBotUttered b b' md σ vals
      (fun md => dict_of_list [("text", text); ("data", data); ("metadata", md)]))
      as (d0 & Hrun & Hload); [done..|load_entries|share_entries].
  - by_override.
  - by_override.
  - by_override.
  - destruct policy, confidence; simpl in *; simplify_option_eq; by_override.
  - by_override.
  - by_override.
  - by_override.
  - by_override.
Qed.

(** ** [BotUttered.message] on the store *)

(** A value whose tree is a dictionary is a reference to a dictionary
    object. *)
Lemma load_val_dict σ vals v d' :
  heap_vals σ = Some vals -> load_val vals v = Some (PDict d') ->
  exists l d, v = SRef l /\ σ !! l = Some (ODict d) /\ load_dict vals d = Some d'.
Proof.
  intros Hσ Hv. destruct v; simpl in Hv; simplify_eq.
  destruct (heap_vals_lookup _ _ _ _ Hσ Hv) as (o & Ho & Hox).
  destruct o as [l0|d]; simpl in Hox.
  - destruct (load_list vals l0); simplify_eq/=.
  - destruct (load_dict vals d) as [d0|] eqn:Hd; simplify_eq/=. eauto.
Qed.

(** [message] adds one dictionary to the store, a copy of the data
    with the text, the timestamp and the metadata written into it; its
    entries read back as the message of the tree model. *)
Lemma s_BotUttered_message_run text data b text' d' b' md' σ vals :
  heap_vals σ = Some vals ->
  load_val vals text = Some text' -> load_val vals data = Some (PDict d') ->
  abs_base vals b = Some b' -> is_Some (s_metadata b) -> metadata b' = PDict md' ->
  exists dm m,
    s_BotUttered_message text data b σ = (Ok (SRef (length σ)), σ ++ [ODict dm]) /\
    BotUttered_message text' (PDict d') b' = Some (Ok m) /\
    load_dict vals dm = Some m.
Proof.
  intros Hσ Ht Hd Hb [md Hmd] Hmd'.
  pose proof (abs_base_metadata _ _ _ _ Hb Hmd) as Hmdv. rewrite Hmd' in Hmdv.
  destruct (abs_base_inv _ _ _ Hb) as [Hts _].
  destruct (load_val_dict _ _ _ _ Hσ Hd) as (l & sd & -> & Hl & Hsd).
  destruct (load_val_dict _ _ _ _ Hσ Hmdv) as (lm & smd & -> & Hlm & Hsmd).
  set (cur := dict_update (dict_set (dict_set sd "text" text) "timestamp"
                             (s_timestamp b)) smd).
  set (cur' := dict_update (dict_set (dict_set d' "text" text') "timestamp"
                              (timestamp b')) md').
  assert (load_dict vals cur = Some cur') as Hcur
    by (apply load_dict_update; [by repeat apply load_dict_set|done]).
  pose proof (heap_vals_snoc_dict _ _ _ _ Hσ Hcur) as Hσ'.
  unfold s_BotUttered_message, BotUttered_message. rewrite Hmd'. fold cur'.
  rewrite eff_bind_run, (s_copy_run _ _ _ Hl).
  rewrite eff_bind_run, s_setitem_last, eff_bind_run, s_setitem_last.
  rewrite eff_bind_run, (s_metadata_prop_run _ _ _ Hmd).
  rewrite eff_bind_run, (s_update_last _ _ _ _ Hlm). fold cur.
  rewrite eff_bind_run, s_get_last, eff_bind_run, s_get_last.
  rewrite eff_bind_run,
    (s_eq_load _ _ _ _ _ _ Hσ'
       (load_val_app _ _ _ _ (load_dict_default _ _ _ "image" Hcur))
       (load_val_app _ _ _ _ (load_dict_default _ _ _ "attachment" Hcur))).
  unfold param. destruct (py_eq _ _).
  - rewrite eff_bind_run, s_setitem_last. do 2 eexists. split; [done|].
    split; [done|]. by apply load_dict_set.
  - rewrite eff_bind_run. do 2 eexists. by repeat split.
Qed.

Lemma abs_event_bot vals text data b text' data' b' :
  abs_event vals (SBotUttered text data b) = Some (BotUttered text' data' b') ->
  load_val vals text = Some text' /\ load_val vals data = Some data' /\
  abs_base vals b = Some b'.
Proof.
  unfold abs_event. simpl. destruct (abs_base vals b); [|done]. simpl.
  destruct (load_val vals text); [|done]. simpl.
  destruct (load_val vals data); [|done]. simpl. by intros [= -> -> ->].
Qed.

(** ** The methods implement the tree model and change no object *)

(** C11: [as_dict] run on the store, on an event object that has the
    attribute [_metadata] and reads back as the event [e], allocates one
    dictionary and changes no other object: the store after the call is
    the store before it with the result at its end.  The result reads
    back as [as_dict e], every other object and the event read back as
    before, and the entries of the result for the attributes that hold
    objects (the metadata, the data, the parse data, the value of a
    slot) are the references the event holds, not copies. *)
Theorem s_as_dict_refines se e σ vals :
  heap_vals σ = Some vals -> abs_event vals se = Some e ->
  is_Some (s_metadata (s_event_base se)) ->
  exists d,
    s_as_dict se σ = (Ok (SRef (length σ)), σ ++ [ODict d]) /\
    heap_vals (σ ++ [ODict d]) = Some (vals ++ [PDict (as_dict e)]) /\
    abs_event (vals ++ [PDict (as_dict e)]) se = Some e /\
    Forall (fun kv => dict_get d kv.1 = Some kv.2) (shared_entries se).
Proof.
  intros Hσ Ha [md Hmd].
  destruct (s_as_dict_run _ _ _ _ _ Hσ Ha Hmd) as (d & Hrun & Hload & Hshare).
  exists d. split; [done|]. split; [by apply heap_vals_snoc_dict|].
  split; [by apply abs_event_app|done].
Qed.

(** C10: [BotUttered.message] run on the store, on a bot message whose
    data and metadata are dictionaries, allocates one dictionary, the
    copy of the data, and writes into the copy only: the store after the
    call is the store before it with the result at its end.  The result
    reads back as the message of the tree model, and the event reads
    back as before. *)
Theorem s_message_refines text data b text' d' b' md' σ vals :
  heap_vals σ = Some vals ->
  abs_event vals (SBotUttered text data b) = Some (BotUttered text' (PDict d') b') ->
  is_Some (s_metadata b) -> metadata b' = PDict md' ->
  exists dm m,
    s_BotUttered_message text data b σ = (Ok (SRef (length σ)), σ ++ [ODict dm]) /\
    BotUttered_message text' (PDict d') b' = Some (Ok m) /\
    heap_vals (σ ++ [ODict dm]) = Some (vals ++ [PDict m]) /\
    abs_event (vals ++ [PDict m]) (SBotUttered text data b) =
      Some (BotUttered text' (PDict d') b').
Proof.
  intros Hσ Ha Hmd Hmd'. destruct (abs_event_bot _ _ _ _ _ _ _ Ha) as (Ht & Hd & Hb).
  destruct (s_BotUttered_message_run _ _ _ _ _ _ _ _ _ Hσ Ht Hd Hb Hmd Hmd')
    as (dm & m & Hrun & Hm & Hload).
  exists dm, m. split; [done|]. split; [done|].
  split; [by apply heap_vals_snoc_dict|by apply abs_event_app].
Qed.

End aliasing_theory.

(** ** The theorems at a concrete store *)

Lemma s_as_dict_refines_witness :
  exists d,
    s_as_dict demo_sbot demo_store = (Ok (SRef 2), demo_store ++ [ODict d]) /\
    heap_vals (demo_store ++ [ODict d]) =
      Some ([PDict [("image", PStr "a.png")]; PDict [("channel", PStr "web")]] ++
            [PDict (as_dict demo_bot)]) /\
    abs_event ([PDict [("image", PStr "a.png")]; PDict [("channel", PStr "web")]] ++
               [PDict (as_dict demo_bot)]) demo_sbot = Some demo_bot /\
    Forall (fun kv => dict_get d kv.1 = Some kv.2) (shared_entries demo_sbot).
Proof.
  by apply (s_as_dict_refines (DT := string_datetime) demo_sbot demo_bot demo_store
              [PDict [("image", PStr "a.png")]; PDict [("channel", PStr "web")]]).
Defined.

Lemma s_message_refines_witness :
  exists dm m,
    s_BotUttered_message (SStr "hello") (SRef 0)
      {| s_timestamp := SInt 7; s_metadata := Some (SRef 1) |} demo_store =
      (Ok (SRef 2), demo_store ++ [ODict dm]) /\
    BotUttered_message (PStr "hello") (PDict [("image", PStr "a.png")])
      {| timestamp := PInt 7; _metadata := Some (PDict [("channel", PStr "web")]) |} =
      Some (Ok m) /\
    heap_vals (demo_store ++ [ODict dm]) =
      Some ([PDict [("image", PStr "a.png")]; PDict [("channel", PStr "web")]] ++
            [PDict m]) /\
    abs_event ([PDict [("image", PStr "a.png")]; PDict [("channel", PStr "web")]] ++
               [PDict m]) demo_sbot = Some demo_bot.
Proof.
  by apply (s_message_refines (DT := string_datetime) (SStr "hello") (SRef 0)
              {| s_timestamp := SInt 7; s_metadata := Some (SRef 1) |}
              (PStr "hello") [("image", PStr "a.png")]
              {| timestamp := PInt 7;
                 _metadata := Some (PDict [("channel", PStr "web")]) |}
              [("channel", PStr "web")] demo_store
              [PDict [("image", PStr "a.png")]; PDict [("channel", PStr "web")]]).
Defined.

(** A change made through the result of [as_dict] is a change of the
    event: the metadata of the event gains the key that was written into
    the entry [metadata] of its dictionary. *)
Example as_dict_result_aliases :
  let change :=
    d ← s_as_dict demo_sbot; md ← s_get d "metadata"; s_setitem md "seen" (SBool true) in
  load demo_store (SRef 1) = Some (PDict [("channel", PStr "web")]) /\
  load (eff_state change demo_store) (SRef 1) =
    Some (PDict [("channel", PStr "web"); ("seen", PBool true)]).
Proof. by vm_compute. Qed.

(** The message is a copy: a change made through it leaves the data of
    the event alone. *)
Example message_result_is_a_copy :
  let change :=
    m ← s_BotUttered_message (SStr "hello") (SRef 0)
          {| s_timestamp := SInt 7; s_metadata := Some (SRef 1) |};
    s_setitem m "image" SNone in
  load (eff_state change demo_store) (SRef 0) = Some (PDict [("image", PStr "a.png")]).
Proof. by vm_compute. Qed.
