(* ===== verification/Construct.v ===== *)
(** * Construct: the constructors and the decoders, run on the store

    A constructor keeps the objects it is given: [Event.__init__]
    stores the metadata dictionary of the caller unless it is falsy,
    [BotUttered.__init__] the data, [UserUttered.__init__] the intent,
    the entities and the parse data; where an argument is falsy it
    creates a new object in its place.  A decoder reads the values of
    the record with [get] and hands them to the constructor, so the
    event it returns refers to the objects of the record.  This file
    runs both on the store of [Store.v], together with the world: the
    state of a computation in [CM] is the world and the store.

    [sim] relates a computation on the store to a computation on
    trees: run in the same world, from a store that reads back, both
    end in the same world, both raise the same exception or both
    return, and then the result on the store reads back as the result
    on trees; the store has grown and no object of it has changed.
    [sim_bind] composes such facts, so that the method is related to
    its tree model step by step. *)

From S2P Require Import Prelude PyDict PyValue Runtime Events Registry DictCodec.
From S2P Require Import Store Aliasing.

(** ** Computations on the world and the store *)

Abbreviation CM := (eff (World * list sobj) fault).

Definition on_store {A} (m : SM A) : CM A := fun s =>
  let '(r, σ') := m s.2 in (r, (s.1, σ')).

Definition on_world {A} (m : M A) : CM A := fun s =>
  let '(r, w') := m s.1 in
  (match r with Ok a => Ok a | Raise x => Raise (Py x) end, (w', s.2)).

(** A scalar as a value of the store. *)
Definition scalar (v : pyval) : sval :=
  match v with
  | PBool b => SBool b
  | PInt z => SInt z
  | PFloat f => SFloat f
  | PStr s => SStr s
  | _ => SNone
  end.

(** [time.time()] and [str(uuid.uuid1())]. *)
Definition s_time_time : CM sval := scalar <$> on_world time_time.

Definition s_uuid1_str : CM sval := scalar <$> on_world uuid1_str.

(** [v or <display>], [v if v else <display>]: the display is
    evaluated, and its object created, only when [v] is falsy. *)
Definition s_or_new (v : sval) (o : sobj) : SM sval :=
  b ← s_truthy v;
  if b : bool then mret v else s_alloc o.

(** ** The relation between the two models *)

(** The store [σ'] with the trees [vals'] is the store [σ] with the
    trees [vals] and more objects. *)
Definition grows (σ : list sobj) (vals : list pyval)
    (σ' : list sobj) (vals' : list pyval) : Prop :=
  σ `prefix_of` σ' /\ vals `prefix_of` vals' /\ heap_vals σ' = Some vals'.

Section sim.
Context {A B : Type} (abs : list pyval -> A -> option B).

(** [m] does on the store what [t] does on trees. *)
Definition sim (σ : list sobj) (vals : list pyval) (w : World)
    (m : CM A) (t : M B) : Prop :=
  match t w with
  | (Ok b, w') =>
      exists a σ' vals', m (w, σ) = (Ok a, (w', σ')) /\
                         grows σ vals σ' vals' /\ abs vals' a = Some b
  | (Raise x, w') =>
      exists σ' vals', m (w, σ) = (Raise (Py x), (w', σ')) /\ grows σ vals σ' vals'
  end.

End sim.

(** What is known of a value stays known when the store grows. *)
Lemma grows_refl σ vals : heap_vals σ = Some vals -> grows σ vals σ vals.
Proof. by split. Qed.

Lemma grows_trans σ1 vals1 σ2 vals2 σ3 vals3 :
  grows σ1 vals1 σ2 vals2 -> grows σ2 vals2 σ3 vals3 -> grows σ1 vals1 σ3 vals3.
Proof. intros (? & ? & _) (? & ? & ?). split_and!; [by etrans..|done]. Qed.

Lemma grows_heap σ vals σ' vals' : grows σ vals σ' vals' -> heap_vals σ' = Some vals'.
Proof. by intros (_ & _ & ?). Qed.

Lemma grows_lookup σ vals σ' vals' l o :
  grows σ vals σ' vals' -> σ !! l = Some o -> σ' !! l = Some o.
Proof. intros (Hσ & _) Hl. by apply (prefix_lookup_Some σ). Qed.

Lemma grows_load_val σ vals σ' vals' v x :
  grows σ vals σ' vals' -> load_val vals v = Some x -> load_val vals' v = Some x.
Proof. intros (_ & [more ->] & _). apply load_val_app. Qed.

Lemma grows_load_dict σ vals σ' vals' d p :
  grows σ vals σ' vals' -> load_dict vals d = Some p -> load_dict vals' d = Some p.
Proof. intros (_ & [more ->] & _). apply load_dict_app. Qed.

Lemma grows_abs_base σ vals σ' vals' b b' :
  grows σ vals σ' vals' -> abs_base vals b = Some b' -> abs_base vals' b = Some b'.
Proof. intros (_ & [more ->] & _). apply abs_base_app. Qed.

Lemma grows_alloc σ vals o x :
  heap_vals σ = Some vals -> load_obj vals o = Some x ->
  grows σ vals (σ ++ [o]) (vals ++ [x]).
Proof.
  intros Hσ Ho. split_and!; [by apply prefix_app_r..|].
  rewrite heap_vals_snoc, Hσ. simpl. by rewrite Ho.
Qed.

Create HintDb store discriminated.
#[export] Hint Resolve grows_refl grows_heap grows_lookup grows_load_val
  grows_load_dict grows_abs_base : store.

(** ** Rules *)

Section rules.
Context {A B A' B' : Type}.
Implicit Types (absA : list pyval -> A -> option B)
  (absB : list pyval -> A' -> option B').

Lemma sim_ret absA σ vals w a b :
  heap_vals σ = Some vals -> absA vals a = Some b ->
  sim absA σ vals w (mret a) (mret b).
Proof. intros Hσ Ha. exists a, σ, vals. auto with store. Qed.

Lemma sim_raise absA σ vals w x :
  heap_vals σ = Some vals ->
  sim absA σ vals w (eff_raise (Py x)) (eff_raise x).
Proof. intros Hσ. exists σ, vals. auto with store. Qed.

(** Two computations in sequence. *)
Lemma sim_bind absA absB σ vals w (m : CM A) (t : M B) (f : A -> CM A') (g : B -> M B') :
  sim absA σ vals w m t ->
  (forall a b w' σ1 vals1,
     t w = (Ok b, w') -> grows σ vals σ1 vals1 -> absA vals1 a = Some b ->
     sim absB σ1 vals1 w' (f a) (g b)) ->
  sim absB σ vals w (m ≫= f) (t ≫= g).
Proof.
  unfold sim. intros Hm Hk. rewrite (eff_bind_run t).
  destruct (t w) as [[b|x] w'] eqn:Ht.
  - destruct Hm as (a & σ1 & vals1 & Hrun & Hg & Ha).
    specialize (Hk a b w' σ1 vals1 eq_refl Hg Ha).
    rewrite (eff_bind_run m), Hrun.
    destruct (g b w') as [[b'|x] w''].
    + destruct Hk as (a' & σ2 & vals2 & ? & ? & ?).
      exists a', σ2, vals2. eauto using grows_trans.
    + destruct Hk as (σ2 & vals2 & ? & ?). exists σ2, vals2. eauto using grows_trans.
  - destruct Hm as (σ1 & vals1 & Hrun & Hg). exists σ1, vals1.
    by rewrite (eff_bind_run m), Hrun.
Qed.

(** A step of the store alone: on trees the value is there already. *)
Lemma sim_bind_l absA absB σ vals w (m : CM A) b (f : A -> CM A') (u : M B') :
  sim absA σ vals w m (mret b) ->
  (forall a σ1 vals1,
     grows σ vals σ1 vals1 -> absA vals1 a = Some b -> sim absB σ1 vals1 w (f a) u) ->
  sim absB σ vals w (m ≫= f) u.
Proof.
  intros Hm Hk. apply (sim_bind absA absB σ vals w m (mret b) f (fun _ => u) Hm).
  intros a b' w' σ1 vals1 [= <- <-]. apply Hk.
Qed.

End rules.

(** ** Primitives *)

(** A result that is a boolean, a class or another value without
    references reads back as itself. *)
Definition abs_pure {A} (_ : list pyval) (a : A) : option A := Some a.

(** [a or <effectful b>] on the store. *)
Definition s_or_else (v : sval) (m : CM sval) : CM sval :=
  b ← on_store (s_truthy v);
  if b : bool then mret v else m.

(** [v.get(k, <display>)]: the object of the display is created when it
    is the result. *)
Definition s_get_default (v : sval) (k : string) (o : sobj) : SM sval :=
  match v with
  | SRef l =>
      obj ← s_deref l;
      match obj with
      | ODict d =>
          match dict_get d k with
          | Some x => mret x
          | None => s_alloc o
          end
      | OList _ => s_raise (AttributeError "get")
      end
  | _ => s_raise (AttributeError "get")
  end.

Lemma on_store_run {A} (m : SM A) w σ :
  on_store m (w, σ) = let '(r, σ') := m σ in (r, (w, σ')).
Proof. reflexivity. Qed.

(** The tree of a reference to the newest object. *)
Lemma load_val_new σ vals x :
  heap_vals σ = Some vals -> load_val (vals ++ [x]) (SRef (length σ)) = Some x.
Proof.
  intros Hσ. simpl. rewrite <- (heap_vals_length _ _ Hσ). apply list_lookup_middle. done.
Qed.

Section primitives.
Context (σ : list sobj) (vals : list pyval) (w : World).
Hypothesis Hσ : heap_vals σ = Some vals.

Lemma sim_truthy v x :
  load_val vals v = Some x ->
  sim abs_pure σ vals w (on_store (s_truthy v)) (mret (truthy x)).
Proof.
  intros Hv. exists (truthy x), σ, vals.
  rewrite on_store_run, (s_truthy_load _ _ _ _ Hσ Hv). auto with store.
Qed.

Lemma sim_alloc o x :
  load_obj vals o = Some x -> sim load_val σ vals w (on_store (s_alloc o)) (mret x).
Proof.
  intros Ho. exists (SRef (length σ)), (σ ++ [o]), (vals ++ [x]).
  split_and!; [done|by apply grows_alloc|by apply load_val_new].
Qed.

Lemma sim_or_new v x o y :
  load_val vals v = Some x -> load_obj vals o = Some y ->
  sim load_val σ vals w (on_store (s_or_new v o)) (mret (py_or x y)).
Proof.
  intros Hv Ho. unfold sim, s_or_new, py_or. simpl.
  rewrite on_store_run, eff_bind_run, (s_truthy_load _ _ _ _ Hσ Hv).
  destruct (truthy x).
  - exists v, σ, vals. auto with store.
  - exists (SRef (length σ)), (σ ++ [o]), (vals ++ [y]).
    split_and!; [done|by apply grows_alloc|by apply load_val_new].
Qed.

Lemma sim_time_time : sim load_val σ vals w s_time_time time_time.
Proof. eexists _, σ, vals. split_and!; [reflexivity|auto with store|done]. Qed.

Lemma sim_uuid1_str : sim load_val σ vals w s_uuid1_str uuid1_str.
Proof. eexists _, σ, vals. split_and!; [reflexivity|auto with store|done]. Qed.

(** [v.get(k)] on any value. *)
Lemma sim_get v x k :
  load_val vals v = Some x ->
  sim load_val σ vals w (on_store (s_get v k)) (eff_lift (py_get x k)).
Proof.
  intros Hv. unfold sim. rewrite eff_lift_run, on_store_run.
  destruct v; simpl in Hv; simplify_eq; try (exists σ, vals; auto with store).
  destruct (heap_vals_lookup _ _ _ _ Hσ Hv) as ([l0|d] & Hl & Ho); simpl in Ho;
    unfold s_get; rewrite eff_bind_run, (s_deref_run _ _ _ Hl).
  - destruct (load_list vals l0); simplify_eq/=. exists σ, vals. auto with store.
  - destruct (load_dict vals d) as [p|] eqn:Hd; simplify_eq/=.
    exists (dict_get d k ?? SNone), σ, vals.
    split_and!; [done|auto with store|by apply load_dict_default].
Qed.

End primitives.

Section construct.
Context {DT : DateTimeLib}.

(** ** The constructors *)

(** [Event.__init__]: the metadata of the caller is kept unless it is
    falsy. *)
Definition s_Event_init (timestamp metadata : sval) : CM SBase :=
  t ← s_or_else timestamp s_time_time;
  md ← on_store (s_or_new metadata (ODict []));
  mret {| s_timestamp := t; s_metadata := Some md |}.

Definition s_super_init (mk : SBase -> SEvent) (timestamp metadata : sval)
    : CM SEvent :=
  b ← s_Event_init timestamp metadata;
  mret (mk b).

(** The parse data [UserUttered.__init__] assigns: the one given, or a
    new dictionary that refers to the attributes of the event. *)
Definition s_parse_data (parse_data intent entities text message_id : sval)
    (b : SBase) : CM sval :=
  t ← on_store (s_truthy parse_data);
  if t : bool then mret parse_data
  else
    mdv ← on_store (s_metadata_prop b);
    on_store (s_alloc (ODict (dict_of_list
      [("intent", intent); ("entities", entities); ("text", text);
       ("message_id", message_id); ("metadata", mdv)]))).

Definition s_UserUttered_init
    (text intent entities parse_data timestamp input_channel message_id
     md : sval) : CM SEvent :=
  intent ← on_store (s_or_new intent (ODict []));
  entities ← on_store (s_or_new entities (OList []));
  b ← s_Event_init timestamp md;
  parse_data ← s_parse_data parse_data intent entities text message_id b;
  mret (SUserUttered text intent entities (Some input_channel) (Some message_id)
          parse_data b).

Definition s_UserUttered_from_parse_data
    (text parse_data timestamp input_channel message_id metadata : sval)
    : CM SEvent :=
  intent ← on_store (s_get parse_data "intent");
  entities ← on_store (s_get_default parse_data "entities" (OList []));
  s_UserUttered_init text intent entities parse_data timestamp input_channel
    message_id metadata.

Definition s_BotUttered_init (text data metadata timestamp : sval) : CM SEvent :=
  data ← on_store (s_or_new data (ODict []));
  s_super_init (SBotUttered text data) timestamp metadata.

Definition s_ReminderScheduled_init
    (action_name : sval) (trigger_date_time : datetime)
    (name kill_on_user_message timestamp metadata : sval) : CM SEvent :=
  name ← (if decide (name = SNone) then s_uuid1_str else mret name);
  s_super_init
    (SReminderScheduled action_name trigger_date_time kill_on_user_message name)
    timestamp metadata.

(** [cls(a, b)], as [Event._from_story_string] calls the class. *)
Definition s_init2 (c : EventClass) (a b : sval) : CM SEvent :=
  match c with
  | CEvent => s_super_init SBareEvent a b
  | CUserUttered => s_UserUttered_init a b SNone SNone SNone SNone SNone SNone
  | CBotUttered => s_BotUttered_init a b SNone SNone
  | CSlotSet => s_super_init (SSlotSet a b) SNone SNone
  | CRestarted => s_super_init SRestarted a b
  | CUserUtteranceReverted => s_super_init SUserUtteranceReverted a b
  | CAllSlotsReset => s_super_init SAllSlotsReset a b
  | CReminderScheduled => eff_raise (Py TypeError)
  | CReminderCancelled => s_super_init (SReminderCancelled a) b SNone
  | CActionReverted => s_super_init SActionReverted a b
  | CStoryExported => s_super_init (SStoryExported a) b SNone
  | CFollowupAction => s_super_init (SFollowupAction a) b SNone
  | CConversationPaused => s_super_init SConversationPaused a b
  | CConversationResumed => s_super_init SConversationResumed a b
  | CActionExecuted =>
      s_super_init (SActionExecuted a (Some b) (Some SNone) false) SNone SNone
  | CAgentUttered => s_super_init (SAgentUttered a b) SNone SNone
  | CForm => s_super_init (SForm a) b SNone
  | CFormValidation => s_super_init (SFormValidation a) b SNone
  | CActionExecutionRejected =>
      s_super_init (SActionExecutionRejected a b SNone) SNone SNone
  end.

(** ** The decoders *)

(** [v.get(k, dflt)] for a default that is a value already. *)
Definition s_get_or (v : sval) (k : string) (dflt : sval) : SM sval :=
  match v with
  | SRef l =>
      o ← s_deref l;
      match o with
      | ODict d => mret (dict_get d k ?? dflt)
      | OList _ => s_raise (AttributeError "get")
      end
  | _ => s_raise (AttributeError "get")
  end.

(** [v.items()]. *)
Definition s_items (v : sval) : SM (pydict sval) :=
  match v with
  | SRef l =>
      o ← s_deref l;
      match o with
      | ODict d => mret d
      | OList _ => s_raise (AttributeError "items")
      end
  | _ => s_raise (AttributeError "items")
  end.

(** A library function applied to the tree of a value. *)
Definition on_tree {A} (f : pyval -> result exn A) (v : sval) : CM A := fun s =>
  match load s.2 v with
  | Some x => (match f x with Ok a => Ok a | Raise e => Raise (Py e) end, s)
  | None => (Raise Dangling, s)
  end.

(** [logger.warning] with a value of the store in its text. *)
Definition s_logger_warning (msg : string) (v : sval) : CM unit := fun s =>
  match load s.2 v with
  | Some x => on_world (logger_warning msg [x]) s
  | None => (Raise Dangling, s)
  end.

Definition s_is_KeyError (f : fault) : bool :=
  match f with
  | Py x => is_KeyError x
  | _ => false
  end.

Definition s_failed_to_parse {A} (what : string) (f : fault) : CM A :=
  eff_raise (Py (ValueError (FailedToParse what
    match f with Py (KeyError k) => k | _ => PNone end))).

Definition s_Event_from_story_string (c : EventClass) (parameters : sval)
    : CM (option (list SEvent)) :=
  ts ← on_store (s_get parameters "timestamp");
  md ← on_store (s_get parameters "metadata");
  e ← s_init2 c ts md;
  mret (Some [e]).

Definition s_UserUttered_from_story_string (parameters : sval)
    : CM (option (list SEvent)) :=
  eff_catch s_is_KeyError
    (text ← on_store (s_get parameters "text");
     pd ← on_store (s_get parameters "parse_data");
     ts ← on_store (s_get parameters "timestamp");
     ic ← on_store (s_get parameters "input_channel");
     mid ← on_store (s_get parameters "message_id");
     md ← on_store (s_get parameters "metadata");
     e ← s_UserUttered_from_parse_data text pd ts ic mid md;
     mret (Some [e]))
    (s_failed_to_parse "bot uttered").

Definition s_SlotSet_from_story_string (parameters : sval)
    : CM (option (list SEvent)) :=
  items ← on_store (s_items parameters);
  slots ← eff_mapM
    (fun kv => s_super_init (SSlotSet (SStr kv.1) kv.2) SNone SNone) items;
  mret (if bool_decide (slots = []) then None else Some slots).

Definition s_ReminderScheduled_from_story_string (parameters : sval)
    : CM (option (list SEvent)) :=
  date_time ← on_store (s_get parameters "date_time");
  trigger_date_time ← on_tree dt_parse date_time;
  action ← on_store (s_get parameters "action");
  name ← on_store (s_get_or parameters "name" SNone);
  kill ← on_store (s_get_or parameters "kill_on_user_msg" (SBool true));
  ts ← on_store (s_get parameters "timestamp");
  md ← on_store (s_get parameters "metadata");
  e ← s_ReminderScheduled_init action trigger_date_time name kill ts md;
  mret (Some [e]).

(** The decoders that read one attribute, then the timestamp and the
    metadata. *)
Definition s_decode1 (mk : sval -> SBase -> SEvent) (k : string) (parameters : sval)
    : CM SEvent :=
  a ← on_store (s_get parameters k);
  ts ← on_store (s_get parameters "timestamp");
  md ← on_store (s_get parameters "metadata");
  s_super_init (mk a) ts md.

Definition s_ActionExecuted_from_story_string (parameters : sval)
    : CM (option (list SEvent)) :=
  name ← on_store (s_get parameters "name");
  policy ← on_store (s_get parameters "policy");
  confidence ← on_store (s_get parameters "confidence");
  ts ← on_store (s_get parameters "timestamp");
  md ← on_store (s_get parameters "metadata");
  e ← s_super_init (SActionExecuted name (Some policy) (Some confidence) false) ts md;
  mret (Some [e]).

Definition s_cls_from_story_string (c : EventClass) (parameters : sval)
    : CM (option (list SEvent)) :=
  match c with
  | CUserUttered => s_UserUttered_from_story_string parameters
  | CSlotSet => s_SlotSet_from_story_string parameters
  | CReminderScheduled => s_ReminderScheduled_from_story_string parameters
  | CReminderCancelled =>
      e ← s_decode1 SReminderCancelled "action" parameters; mret (Some [e])
  | CStoryExported =>
      e ← s_decode1 SStoryExported "path" parameters; mret (Some [e])
  | CFollowupAction =>
      e ← s_decode1 SFollowupAction "name" parameters; mret (Some [e])
  | CActionExecuted => s_ActionExecuted_from_story_string parameters
  | CForm => e ← s_decode1 SForm "name" parameters; mret (Some [e])
  | _ => s_Event_from_story_string c parameters
  end.

(** [Event._from_parameters]. *)
Definition s_Event_from_parameters (c : EventClass) (parameters : sval)
    : CM (option SEvent) :=
  result ← s_cls_from_story_string c parameters;
  match result with
  | None => eff_raise (Py TypeError)
  | Some l =>
      (if decide (1 < length l)
       then s_logger_warning multiple_events_msg parameters
       else mret tt);;
      mret (head l)
  end.

Definition s_BotUttered_from_parameters (parameters : sval) : CM (option SEvent) :=
  eff_catch s_is_KeyError
    (text ← on_store (s_get parameters "text");
     data ← on_store (s_get parameters "data");
     md ← on_store (s_get parameters "metadata");
     ts ← on_store (s_get parameters "timestamp");
     e ← s_BotUttered_init text data md ts;
     mret (Some e))
    (s_failed_to_parse "bot uttered").

Definition s_SlotSet_from_parameters (parameters : sval) : CM (option SEvent) :=
  eff_catch s_is_KeyError
    (name ← on_store (s_get parameters "name");
     value ← on_store (s_get parameters "value");
     ts ← on_store (s_get parameters "timestamp");
     md ← on_store (s_get parameters "metadata");
     e ← s_super_init (SSlotSet name value) ts md;
     mret (Some e))
    (s_failed_to_parse "set slot").

Definition s_AgentUttered_from_parameters (parameters : sval) : CM (option SEvent) :=
  eff_catch s_is_KeyError
    (text ← on_store (s_get parameters "text");
     data ← on_store (s_get parameters "data");
     ts ← on_store (s_get parameters "timestamp");
     md ← on_store (s_get parameters "metadata");
     e ← s_super_init (SAgentUttered text data) ts md;
     mret (Some e))
    (s_failed_to_parse "agent uttered").

Definition s_ActionExecutionRejected_from_parameters (parameters : sval)
    : CM (option SEvent) :=
  name ← on_store (s_get parameters "name");
  policy ← on_store (s_get parameters "policy");
  confidence ← on_store (s_get parameters "confidence");
  ts ← on_store (s_get parameters "timestamp");
  md ← on_store (s_get parameters "metadata");
  e ← s_super_init (SActionExecutionRejected name policy confidence) ts md;
  mret (Some e).

Definition s_cls_from_parameters (c : EventClass) (parameters : sval)
    : CM (option SEvent) :=
  match c with
  | CBotUttered => s_BotUttered_from_parameters parameters
  | CSlotSet => s_SlotSet_from_parameters parameters
  | CAgentUttered => s_AgentUttered_from_parameters parameters
  | CFormValidation =>
      e ← s_decode1 SFormValidation "validate" parameters; mret (Some e)
  | CActionExecutionRejected => s_ActionExecutionRejected_from_parameters parameters
  | _ => s_Event_from_parameters c parameters
  end.

(** [Event.from_story_string] and [Event.from_parameters]. *)
Definition s_from_story_string (event_name parameters : sval)
    (default : option EventClass) : CM (option (list SEvent)) :=
  event_class ← on_tree (fun name => resolve_by_type name default) event_name;
  match event_class with
  | None => mret None
  | Some c => s_cls_from_story_string c parameters
  end.

Definition s_from_parameters (parameters : sval) (default : option EventClass)
    : CM (option SEvent) :=
  event_name ← on_store (s_get parameters "event");
  if decide (event_name = SNone) then mret None
  else
    event_class ← on_tree (fun name => resolve_by_type name default) event_name;
    match event_class with
    | None => mret None
    | Some c => s_cls_from_parameters c parameters
    end.

End construct.

(** ** The constructors implement the tree model *)

(** Carry what is known of the values over to the store that has
    grown. *)
Ltac grown :=
  repeat match goal with
    | Hg : grows _ ?vals _ _, H : load_val ?vals _ = Some _ |- _ =>
        apply (grows_load_val _ _ _ _ _ _ Hg) in H
    | Hg : grows _ ?vals _ _, H : load_dict ?vals _ = Some _ |- _ =>
        apply (grows_load_dict _ _ _ _ _ _ Hg) in H
    | Hg : grows _ ?vals _ _, H : abs_base ?vals _ = Some _ |- _ =>
        apply (grows_abs_base _ _ _ _ _ _ Hg) in H
    | Hg : grows ?σ _ _ _, H : ?σ !! _ = Some _ |- _ =>
        apply (grows_lookup _ _ _ _ _ _ Hg) in H
    end;
  repeat match goal with
    | Hg : grows _ _ ?σ ?vals |- _ =>
        lazymatch goal with
        | _ : heap_vals σ = Some vals |- _ => fail
        | _ => pose proof (grows_heap _ _ _ _ Hg)
        end
    end.

Lemma sim_or_else σ vals w v x m t :
  heap_vals σ = Some vals -> load_val vals v = Some x ->
  sim load_val σ vals w m t ->
  sim load_val σ vals w (s_or_else v m) (or_else x t).
Proof.
  intros Hσ Hv Hm. unfold sim, s_or_else, or_else.
  rewrite eff_bind_run, on_store_run, (s_truthy_load _ _ _ _ Hσ Hv).
  destruct (truthy x); [|done]. exists v, σ, vals. auto with store.
Qed.

Lemma sim_get_default σ vals w v x k o y :
  heap_vals σ = Some vals -> load_val vals v = Some x -> load_obj vals o = Some y ->
  sim load_val σ vals w (on_store (s_get_default v k o))
    (eff_lift (py_get_default x k y)).
Proof.
  intros Hσ Hv Ho. unfold sim. rewrite eff_lift_run, on_store_run.
  destruct v; simpl in Hv; simplify_eq; try (exists σ, vals; auto with store).
  destruct (heap_vals_lookup _ _ _ _ Hσ Hv) as ([l0|d] & Hl & Hx); simpl in Hx;
    unfold s_get_default; rewrite eff_bind_run, (s_deref_run _ _ _ Hl).
  - destruct (load_list vals l0); simplify_eq/=. exists σ, vals. auto with store.
  - destruct (load_dict vals d) as [p|] eqn:Hd; simplify_eq/=.
    pose proof (load_dict_get _ _ _ k Hd) as Hk.
    pose proof (load_dict_default _ _ _ k Hd) as Hk'.
    destruct (dict_get d k) as [xv|]; simpl in *; rewrite Hk.
    + exists xv, σ, vals. rewrite Hk'. rewrite Hk, Hk'. auto with store.
    + exists (SRef (length σ)), (σ ++ [o]), (vals ++ [y]).
      split_and!; [done|by apply grows_alloc|by apply load_val_new].
Qed.

(** A reference reads back as a list or a dictionary, never as
    [None]. *)
Lemma load_val_is_none σ vals v x :
  heap_vals σ = Some vals -> load_val vals v = Some x ->
  is_none x = bool_decide (v = SNone).
Proof.
  intros Hσ Hv. destruct v; simpl in Hv; simplify_eq; try done.
  destruct (heap_vals_lookup _ _ _ _ Hσ Hv) as ([l0|d] & _ & Hx); simpl in Hx.
  - by destruct (load_list vals l0); simplify_eq/=.
  - by destruct (load_dict vals d); simplify_eq/=.
Qed.

(** Read an event object back from what is known of its attributes. *)
Ltac abs_solve :=
  unfold abs_event; cbn [s_event_base mbind option_bind];
  repeat (match goal with
          | H : abs_base _ _ = Some _ |- _ => rewrite H
          | H : load_val _ _ = Some _ |- _ => rewrite H
          end; simpl);
  try done.

Section construct_theory.
Context {DT : DateTimeLib}.

Lemma sim_Event_init σ vals w ts x md y :
  heap_vals σ = Some vals -> load_val vals ts = Some x -> load_val vals md = Some y ->
  sim abs_base σ vals w (s_Event_init ts md) (Event_init x y).
Proof.
  intros Hσ Hts Hmd. unfold s_Event_init, Event_init.
  eapply (sim_bind load_val); [by apply sim_or_else, sim_time_time|].
  intros t t' w' σ1 vals1 _ Hg Ht. grown.
  eapply (sim_bind_l load_val); [by apply sim_or_new|].
  intros md' σ2 vals2 Hg2 Hmd'. grown. apply sim_ret; [done|].
  unfold abs_base. simpl. by rewrite Ht, Hmd'.
Qed.

(** A constructor that assigns its arguments and calls
    [super().__init__]. *)
Lemma sim_super_init σ vals w smk mk ts x md y :
  heap_vals σ = Some vals -> load_val vals ts = Some x -> load_val vals md = Some y ->
  (forall σ1 vals1 b b',
     grows σ vals σ1 vals1 -> abs_base vals1 b = Some b' ->
     abs_event vals1 (smk b) = Some (mk b')) ->
  sim abs_event σ vals w (s_super_init smk ts md) (super_init mk x y).
Proof.
  intros Hσ Hts Hmd Hmk. unfold s_super_init, super_init.
  eapply (sim_bind abs_base); [by apply sim_Event_init|].
  intros b b' w' σ1 vals1 _ Hg Hb. grown. apply sim_ret; eauto.
Qed.

Lemma sim_BotUttered_init σ vals w text text' data data' md md' ts ts' :
  heap_vals σ = Some vals ->
  load_val vals text = Some text' -> load_val vals data = Some data' ->
  load_val vals md = Some md' -> load_val vals ts = Some ts' ->
  sim abs_event σ vals w (s_BotUttered_init text data md ts)
    (BotUttered_init text' data' md' ts').
Proof.
  intros Hσ Htext Hdata Hmd Hts. unfold s_BotUttered_init, BotUttered_init.
  eapply (sim_bind_l load_val); [by apply sim_or_new|].
  intros d σ1 vals1 Hg Hd. grown. apply sim_super_init; try done.
  intros σ2 vals2 b b' Hg2 Hb. grown. abs_solve.
Qed.

Lemma sim_ReminderScheduled_init σ vals w a a' t name name' kill kill' ts ts' md md' :
  heap_vals σ = Some vals ->
  load_val vals a = Some a' -> load_val vals name = Some name' ->
  load_val vals kill = Some kill' ->
  load_val vals ts = Some ts' -> load_val vals md = Some md' ->
  sim abs_event σ vals w (s_ReminderScheduled_init a t name kill ts md)
    (ReminderScheduled_init a' t name' kill' ts' md').
Proof.
  intros Hσ Ha Hname Hkill Hts Hmd.
  unfold s_ReminderScheduled_init, ReminderScheduled_init.
  eapply (sim_bind load_val).
  - rewrite (load_val_is_none _ _ _ _ Hσ Hname).
    case_bool_decide; case_decide; try done;
      [apply sim_uuid1_str|apply sim_ret]; done.
  - intros n n' w' σ1 vals1 _ Hg Hn. grown. apply sim_super_init; try done.
    intros σ2 vals2 b b' Hg2 Hb. grown. abs_solve.
Qed.

(** The parse data of a user message: the one given, or a new
    dictionary that refers to the intent, the entities and the metadata
    of the event. *)
Lemma sim_parse_data σ vals w pd pd' intent intent' entities entities' text text'
    mid mid' b b' :
  heap_vals σ = Some vals ->
  load_val vals pd = Some pd' -> load_val vals intent = Some intent' ->
  load_val vals entities = Some entities' -> load_val vals text = Some text' ->
  load_val vals mid = Some mid' ->
  abs_base vals b = Some b' -> is_Some (_metadata b') ->
  sim load_val σ vals w (s_parse_data pd intent entities text mid b)
    (mret (if truthy pd' then pd'
           else PDict (dict_of_list
                  [("intent", intent'); ("entities", entities'); ("text", text');
                   ("message_id", mid'); ("metadata", metadata b')]))).
Proof.
  intros Hσ Hpd Hi He Ht Hm Hb [mdt Hmd].
  destruct (abs_base_inv _ _ _ Hb) as [_ Habs]. rewrite Hmd in Habs.
  destruct (s_metadata b) as [mdv|] eqn:Hmdv; simpl in Habs; [|done].
  pose proof (abs_base_metadata _ _ _ _ Hb Hmdv) as Hmdl. unfold s_parse_data.
  eapply (sim_bind_l abs_pure); [by apply sim_truthy|].
  intros t σ1 vals1 Hg [= ->]. grown.
  destruct (truthy pd'); [by apply sim_ret|].
  eapply (sim_bind_l load_val).
  - exists mdv, σ1, vals1. rewrite on_store_run, (s_metadata_prop_run _ _ _ Hmdv).
    split_and!; [done|auto with store|exact Hmdl].
  - intros mdv' σ2 vals2 Hg2 Hmdv'. grown. apply sim_alloc; [done|]. simpl.
    by rewrite Hi, He, Ht, Hm, Hmdv'.
Qed.

Lemma sim_UserUttered_init σ vals w text text' intent intent' entities entities'
    pd pd' ts ts' ic ic' mid mid' md md' :
  heap_vals σ = Some vals ->
  load_val vals text = Some text' -> load_val vals intent = Some intent' ->
  load_val vals entities = Some entities' -> load_val vals pd = Some pd' ->
  load_val vals ts = Some ts' -> load_val vals ic = Some ic' ->
  load_val vals mid = Some mid' -> load_val vals md = Some md' ->
  sim abs_event σ vals w (s_UserUttered_init text intent entities pd ts ic mid md)
    (UserUttered_init text' intent' entities' pd' ts' ic' mid' md').
Proof.
  intros Hσ Htext Hi He Hpd Hts Hic Hmid Hmd.
  unfold s_UserUttered_init, UserUttered_init.
  eapply (sim_bind_l load_val); [by apply sim_or_new|].
  intros i σ1 vals1 Hg1 Hi1. grown.
  eapply (sim_bind_l load_val); [by apply sim_or_new|].
  intros e σ2 vals2 Hg2 He2. grown.
  eapply (sim_bind abs_base); [by apply sim_Event_init|].
  intros b b' w' σ3 vals3 Hb' Hg3 Hb. grown.
  rewrite Event_init_eq in Hb'. injection Hb' as <- <-.
  eapply (sim_bind_l load_val); [by apply (sim_parse_data _ _ _ pd pd')|].
  intros p σ4 vals4 Hg4 Hp. grown. apply sim_ret; [done|].
  abs_solve.
Qed.

Lemma sim_UserUttered_from_parse_data σ vals w text text' pd pd' ts ts' ic ic'
    mid mid' md md' :
  heap_vals σ = Some vals ->
  load_val vals text = Some text' -> load_val vals pd = Some pd' ->
  load_val vals ts = Some ts' -> load_val vals ic = Some ic' ->
  load_val vals mid = Some mid' -> load_val vals md = Some md' ->
  sim abs_event σ vals w (s_UserUttered_from_parse_data text pd ts ic mid md)
    (UserUttered_from_parse_data text' pd' ts' ic' mid' md').
Proof.
  intros Hσ Htext Hpd Hts Hic Hmid Hmd.
  unfold s_UserUttered_from_parse_data, UserUttered_from_parse_data.
  eapply (sim_bind load_val); [by apply sim_get|].
  intros i i' w1 σ1 vals1 _ Hg1 Hi. grown.
  eapply (sim_bind load_val); [by apply sim_get_default|].
  intros e e' w2 σ2 vals2 _ Hg2 He. grown.
  by apply sim_UserUttered_init.
Qed.

Lemma sim_init2 σ vals w c a a' b b' :
  heap_vals σ = Some vals -> load_val vals a = Some a' -> load_val vals b = Some b' ->
  sim abs_event σ vals w (s_init2 c a b) (init2 c a' b').
Proof.
  intros Hσ Ha Hb.
  destruct c; simpl;
    try (apply sim_super_init; try done; intros; grown; abs_solve).
  - by apply sim_UserUttered_init.
  - by apply sim_BotUttered_init.
  - by apply sim_raise.
Qed.

End construct_theory.

(** ** The decoders implement the tree model *)

(** The events a decoder returns, read back. *)
Definition abs_opt_event {DT : DateTimeLib} (vals : list pyval) (o : option SEvent)
    : option (option Event) :=
  match o with
  | Some e => Some <$> abs_event vals e
  | None => Some None
  end.

Definition abs_opt_list {DT : DateTimeLib} (vals : list pyval)
    (o : option (list SEvent)) : option (option (list Event)) :=
  match o with
  | Some l => Some <$> mapM (abs_event vals) l
  | None => Some None
  end.

Lemma load_dict_get_or vals d p k v x :
  load_dict vals d = Some p -> load_val vals v = Some x ->
  load_val vals (dict_get d k ?? v) = Some (dict_get p k ?? x).
Proof.
  intros Hd Hv. pose proof (load_dict_get _ _ _ k Hd) as Hk.
  pose proof (load_dict_default _ _ _ k Hd) as Hk'.
  destruct (dict_get d k); simpl in *; rewrite Hk; [by rewrite Hk'|done].
Qed.

Section record.
Context (σ : list sobj) (vals : list pyval) (w : World).
Hypothesis Hσ : heap_vals σ = Some vals.

(** A value that reads back as a dictionary is a reference to a
    dictionary object. *)
Lemma load_val_dict_inv v p :
  load_val vals v = Some (PDict p) ->
  exists l d, v = SRef l /\ σ !! l = Some (ODict d) /\ load_dict vals d = Some p.
Proof.
  intros Hv. destruct v; simpl in Hv; simplify_eq.
  destruct (heap_vals_lookup _ _ _ _ Hσ Hv) as ([l0|d] & Hl & Hx); simpl in Hx.
  - by destruct (load_list vals l0); simplify_eq/=.
  - destruct (load_dict vals d) as [p'|] eqn:Hd; simplify_eq/=. eauto.
Qed.

(** [parameters.get(k)] on a dictionary of parameters. *)
Lemma sim_param_get v p k :
  load_val vals v = Some (PDict p) ->
  sim load_val σ vals w (on_store (s_get v k)) (mret (param p k)).
Proof. intros Hv. by apply (sim_get σ vals w Hσ v (PDict p) k). Qed.

Lemma sim_param_or v p k dv x :
  load_val vals v = Some (PDict p) -> load_val vals dv = Some x ->
  sim load_val σ vals w (on_store (s_get_or v k dv)) (mret (dict_get p k ?? x)).
Proof.
  intros (l & d & -> & Hl & Hd)%load_val_dict_inv Hv. exists (dict_get d k ?? dv), σ, vals.
  rewrite on_store_run. unfold s_get_or. rewrite eff_bind_run, (s_deref_run _ _ _ Hl).
  split_and!; [done|auto with store|by apply load_dict_get_or].
Qed.

Lemma sim_items v p :
  load_val vals v = Some (PDict p) ->
  sim load_dict σ vals w (on_store (s_items v)) (mret p).
Proof.
  intros (l & d & -> & Hl & Hd)%load_val_dict_inv. exists d, σ, vals.
  rewrite on_store_run. unfold s_items. rewrite eff_bind_run, (s_deref_run _ _ _ Hl).
  auto with store.
Qed.

Lemma sim_on_tree {A} (f : pyval -> result exn A) v x :
  load_val vals v = Some x -> sim abs_pure σ vals w (on_tree f v) (eff_lift (f x)).
Proof.
  intros Hv. unfold sim, on_tree, load. rewrite eff_lift_run. simpl. rewrite Hσ. simpl.
  rewrite Hv. destruct (f x) as [a|e]; [exists a, σ, vals|exists σ, vals];
    auto with store.
Qed.

Lemma sim_logger_warning msg v x :
  load_val vals v = Some x ->
  sim abs_pure σ vals w (s_logger_warning msg v) (logger_warning msg [x]).
Proof.
  intros Hv. exists tt, σ, vals. unfold s_logger_warning, load. simpl. rewrite Hσ. simpl.
  rewrite Hv. auto with store.
Qed.

End record.

(** [try ... except KeyError]. *)
Lemma sim_catch {A B} (abs : list pyval -> A -> option B) σ vals w m t sh h :
  sim abs σ vals w m t ->
  (forall x w1 σ1 vals1,
     is_KeyError x = true -> grows σ vals σ1 vals1 ->
     sim abs σ1 vals1 w1 (sh (Py x)) (h x)) ->
  sim abs σ vals w (eff_catch s_is_KeyError m sh) (eff_catch is_KeyError t h).
Proof.
  unfold sim, eff_catch. intros Hm Hh. destruct (t w) as [[b|x] w1].
  - destruct Hm as (a & σ1 & vals1 & -> & ?). by exists a, σ1, vals1.
  - destruct Hm as (σ1 & vals1 & -> & Hg). simpl.
    destruct (is_KeyError x) eqn:Hx; [|by exists σ1, vals1].
    specialize (Hh x w1 σ1 vals1 Hx Hg).
    destruct (h x w1) as [[b|y] w2].
    + destruct Hh as (a & σ2 & vals2 & ? & ? & ?). exists a, σ2, vals2.
      eauto using grows_trans.
    + destruct Hh as (σ2 & vals2 & ? & ?). exists σ2, vals2. eauto using grows_trans.
Qed.

Lemma sim_failed_to_parse {A B} (abs : list pyval -> A -> option B) σ vals w what x :
  heap_vals σ = Some vals ->
  sim abs σ vals w (s_failed_to_parse what (Py x)) (failed_to_parse what x).
Proof. intros Hσ. by apply sim_raise. Qed.

Lemma grows_abs_event {DT : DateTimeLib} σ vals σ' vals' e e' :
  grows σ vals σ' vals' -> abs_event vals e = Some e' -> abs_event vals' e = Some e'.
Proof. intros (_ & [more ->] & _). apply abs_event_app. Qed.

(** One more step of the store: read a parameter. *)
Ltac sim_get_step :=
  eapply (sim_bind_l load_val);
  [first [by eapply sim_param_get | by eapply sim_param_or]|];
  intros ? ? ? ?Hg ?; grown.

Section decode_theory.
Context {DT : DateTimeLib}.

Lemma sim_some_list σ vals w m t :
  sim abs_event σ vals w m t ->
  sim abs_opt_list σ vals w (e ← m; mret (Some [e])) (e ← t; mret (Some [e])).
Proof.
  intros Hm. eapply sim_bind; [done|]. intros e e' w' σ1 vals1 _ Hg He.
  apply sim_ret; [eauto with store|]. simpl. by rewrite He.
Qed.

Lemma sim_some σ vals w m t :
  sim abs_event σ vals w m t ->
  sim abs_opt_event σ vals w (e ← m; mret (Some e)) (e ← t; mret (Some e)).
Proof.
  intros Hm. eapply sim_bind; [done|]. intros e e' w' σ1 vals1 _ Hg He.
  apply sim_ret; [eauto with store|]. simpl. by rewrite He.
Qed.

(** A decoder that reads one attribute. *)
Lemma sim_decode1 σ vals w v p smk mk k :
  heap_vals σ = Some vals -> load_val vals v = Some (PDict p) ->
  (forall vals1 a a' b b',
     load_val vals1 a = Some a' -> abs_base vals1 b = Some b' ->
     abs_event vals1 (smk a b) = Some (mk a' b')) ->
  sim abs_event σ vals w (s_decode1 smk k v)
    (super_init (mk (param p k)) (param p "timestamp") (param p "metadata")).
Proof.
  intros Hσ Hv Hmk. unfold s_decode1. do 3 sim_get_step.
  apply sim_super_init; try done. intros. grown. by apply Hmk.
Qed.

Lemma sim_Event_from_story_string σ vals w c v p :
  heap_vals σ = Some vals -> load_val vals v = Some (PDict p) ->
  sim abs_opt_list σ vals w (s_Event_from_story_string c v)
    (Event_from_story_string c p).
Proof.
  intros Hσ Hv. unfold s_Event_from_story_string, Event_from_story_string.
  do 2 sim_get_step. by apply sim_some_list, sim_init2.
Qed.

Lemma sim_UserUttered_from_story_string σ vals w v p :
  heap_vals σ = Some vals -> load_val vals v = Some (PDict p) ->
  sim abs_opt_list σ vals w (s_UserUttered_from_story_string v)
    (UserUttered_from_story_string p).
Proof.
  intros Hσ Hv. unfold s_UserUttered_from_story_string, UserUttered_from_story_string.
  apply sim_catch; [|intros; apply sim_failed_to_parse; eauto with store].
  do 6 sim_get_step. by apply sim_some_list, sim_UserUttered_from_parse_data.
Qed.

Lemma sim_ReminderScheduled_from_story_string σ vals w v p :
  heap_vals σ = Some vals -> load_val vals v = Some (PDict p) ->
  sim abs_opt_list σ vals w (s_ReminderScheduled_from_story_string v)
    (ReminderScheduled_from_story_string p).
Proof.
  intros Hσ Hv.
  unfold s_ReminderScheduled_from_story_string, ReminderScheduled_from_story_string.
  sim_get_step.
  eapply (sim_bind abs_pure); [by apply sim_on_tree|].
  intros t t' w' σt valst _ Hgt [= ->]. grown.
  do 5 sim_get_step. by apply sim_some_list, sim_ReminderScheduled_init.
Qed.

Lemma sim_ActionExecuted_from_story_string σ vals w v p :
  heap_vals σ = Some vals -> load_val vals v = Some (PDict p) ->
  sim abs_opt_list σ vals w (s_ActionExecuted_from_story_string v)
    (ActionExecuted_from_story_string p).
Proof.
  intros Hσ Hv.
  unfold s_ActionExecuted_from_story_string, ActionExecuted_from_story_string.
  do 5 sim_get_step. apply sim_some_list, sim_super_init; try done.
  intros. grown. abs_solve.
Qed.

(** The events of a [slot] line, one for each entry. *)
Lemma sim_slots σ vals w d p :
  heap_vals σ = Some vals -> load_dict vals d = Some p ->
  sim (fun vals l => mapM (abs_event vals) l) σ vals w
    (eff_mapM (fun kv => s_super_init (SSlotSet (SStr kv.1) kv.2) SNone SNone) d)
    (eff_mapM (fun kv => SlotSet_init (PStr kv.1) kv.2 PNone PNone) p).
Proof.
  revert p σ vals w. induction d as [|[k v] d IH]; intros p σ vals w Hσ Hd; simpl in Hd.
  - injection Hd as <-. by apply sim_ret.
  - destruct (load_val vals v) as [x|] eqn:Hv; [|done]. simpl in Hd.
    destruct (load_dict vals d) as [p'|] eqn:Hd'; [|done]. injection Hd as <-.
    simpl. eapply (sim_bind abs_event).
    { apply sim_super_init; try done. intros. grown. abs_solve. }
    intros e e' w1 σ1 vals1 _ Hg1 He. grown.
    eapply sim_bind; [by apply IH|].
    intros es es' w2 σ2 vals2 _ Hg2 Hes.
    pose proof (grows_abs_event _ _ _ _ _ _ Hg2 He) as He2.
    apply sim_ret; [eauto with store|]. simpl. by rewrite He2, Hes.
Qed.

Lemma sim_SlotSet_from_story_string σ vals w v p :
  heap_vals σ = Some vals -> load_val vals v = Some (PDict p) ->
  sim abs_opt_list σ vals w (s_SlotSet_from_story_string v)
    (SlotSet_from_story_string p).
Proof.
  intros Hσ Hv. unfold s_SlotSet_from_story_string, SlotSet_from_story_string.
  eapply (sim_bind_l load_dict); [by apply sim_items|].
  intros d σ1 vals1 Hg1 Hd. grown.
  eapply sim_bind; [by apply sim_slots|].
  intros es es' w2 σ2 vals2 _ Hg2 Hes. apply sim_ret; [eauto with store|].
  destruct es, es'; simplify_option_eq; done.
Qed.

Lemma sim_cls_from_story_string σ vals w c v p :
  heap_vals σ = Some vals -> load_val vals v = Some (PDict p) ->
  sim abs_opt_list σ vals w (s_cls_from_story_string c v) (cls_from_story_string c p).
Proof.
  intros Hσ Hv.
  destruct c; simpl;
    auto using sim_Event_from_story_string, sim_UserUttered_from_story_string,
      sim_SlotSet_from_story_string, sim_ReminderScheduled_from_story_string,
      sim_ActionExecuted_from_story_string;
    apply sim_some_list, sim_decode1; try done; intros; abs_solve.
Qed.

Lemma abs_list_app vals more l l' :
  mapM (abs_event vals) l = Some l' -> mapM (abs_event (vals ++ more)) l = Some l'.
Proof.
  revert l'. induction l as [|e l IH]; intros l'; simpl; [done|].
  destruct (abs_event vals e) as [e'|] eqn:He; [|done]. simpl.
  destruct (mapM (abs_event vals) l) as [l0|]; [|done]. simpl. intros [= <-].
  by rewrite (abs_event_app _ more _ _ He), (IH l0).
Qed.

(** [result[0] if result else None]. *)
Lemma abs_head vals l l' :
  mapM (abs_event vals) l = Some l' -> abs_opt_event vals (head l) = Some (head l').
Proof. destruct l as [|e l]; intros; simplify_option_eq; done. Qed.

Lemma sim_Event_from_parameters σ vals w c v p :
  heap_vals σ = Some vals -> load_val vals v = Some (PDict p) ->
  sim abs_opt_event σ vals w (s_Event_from_parameters c v) (Event_from_parameters c p).
Proof.
  intros Hσ Hv. unfold s_Event_from_parameters, Event_from_parameters.
  eapply sim_bind; [by apply sim_cls_from_story_string|].
  intros r r' w1 σ1 vals1 _ Hg1 Hr. grown.
  destruct r as [l|]; simpl in Hr; [|injection Hr as <-; by apply sim_raise].
  destruct (mapM (abs_event vals1) l) as [l'|] eqn:Hl; simplify_eq/=.
  eapply (sim_bind abs_pure).
  - rewrite (length_mapM _ _ _ Hl).
    case_decide; [by apply sim_logger_warning|by apply sim_ret].
  - intros [] [] w2 σ2 vals2 _ Hg2 _. apply sim_ret; [eauto with store|].
    apply abs_head. destruct Hg2 as (_ & [more ->] & _). by apply abs_list_app.
Qed.

Lemma sim_BotUttered_from_parameters σ vals w v p :
  heap_vals σ = Some vals -> load_val vals v = Some (PDict p) ->
  sim abs_opt_event σ vals w (s_BotUttered_from_parameters v)
    (BotUttered_from_parameters p).
Proof.
  intros Hσ Hv. unfold s_BotUttered_from_parameters, BotUttered_from_parameters.
  apply sim_catch; [|intros; apply sim_failed_to_parse; eauto with store].
  do 4 sim_get_step. by apply sim_some, sim_BotUttered_init.
Qed.

Lemma sim_SlotSet_from_parameters σ vals w v p :
  heap_vals σ = Some vals -> load_val vals v = Some (PDict p) ->
  sim abs_opt_event σ vals w (s_SlotSet_from_parameters v)
    (SlotSet_from_parameters p).
Proof.
  intros Hσ Hv. unfold s_SlotSet_from_parameters, SlotSet_from_parameters.
  apply sim_catch; [|intros; apply sim_failed_to_parse; eauto with store].
  do 4 sim_get_step. apply sim_some, sim_super_init; try done.
  intros. grown. abs_solve.
Qed.

Lemma sim_AgentUttered_from_parameters σ vals w v p :
  heap_vals σ = Some vals -> load_val vals v = Some (PDict p) ->
  sim abs_opt_event σ vals w (s_AgentUttered_from_parameters v)
    (AgentUttered_from_parameters p).
Proof.
  intros Hσ Hv. unfold s_AgentUttered_from_parameters, AgentUttered_from_parameters.
  apply sim_catch; [|intros; apply sim_failed_to_parse; eauto with store].
  do 4 sim_get_step. apply sim_some, sim_super_init; try done.
  intros. grown. abs_solve.
Qed.

Lemma sim_ActionExecutionRejected_from_parameters σ vals w v p :
  heap_vals σ = Some vals -> load_val vals v = Some (PDict p) ->
  sim abs_opt_event σ vals w (s_ActionExecutionRejected_from_parameters v)
    (ActionExecutionRejected_from_parameters p).
Proof.
  intros Hσ Hv.
  unfold s_ActionExecutionRejected_from_parameters,
    ActionExecutionRejected_from_parameters.
  do 5 sim_get_step. apply sim_some, sim_super_init; try done.
  intros. grown. abs_solve.
Qed.

Lemma sim_cls_from_parameters σ vals w c v p :
  heap_vals σ = Some vals -> load_val vals v = Some (PDict p) ->
  sim abs_opt_event σ vals w (s_cls_from_parameters c v) (cls_from_parameters c p).
Proof.
  intros Hσ Hv.
  destruct c; simpl;
    auto using sim_Event_from_parameters, sim_BotUttered_from_parameters,
      sim_SlotSet_from_parameters, sim_AgentUttered_from_parameters,
      sim_ActionExecutionRejected_from_parameters.
  apply sim_some, sim_decode1; try done. intros. abs_solve.
Qed.

(** [Event.from_parameters] on the store implements
    [Event.from_parameters] on trees. *)
Lemma sim_from_parameters σ vals w v p default :
  heap_vals σ = Some vals -> load_val vals v = Some (PDict p) ->
  sim abs_opt_event σ vals w (s_from_parameters v default) (from_parameters p default).
Proof.
  intros Hσ Hv. unfold s_from_parameters, from_parameters.
  sim_get_step. rename H into Hname.
  rewrite (load_val_is_none _ _ _ _ ltac:(eassumption) Hname).
  case_bool_decide; case_decide; try done; [by apply sim_ret|].
  eapply (sim_bind abs_pure);
    [by unshelve eapply (sim_on_tree _ _ _ _ (fun name => resolve_by_type name default))|].
  intros c c' wc σc valsc _ Hgc [= ->]. grown.
  destruct c' as [c|]; [by apply sim_cls_from_parameters|by apply sim_ret].
Qed.

Lemma sim_from_story_string σ vals w name name' v p default :
  heap_vals σ = Some vals -> load_val vals name = Some name' ->
  load_val vals v = Some (PDict p) ->
  sim abs_opt_list σ vals w (s_from_story_string name v default)
    (from_story_string name' p default).
Proof.
  intros Hσ Hname Hv. unfold s_from_story_string, from_story_string.
  eapply (sim_bind abs_pure);
    [by unshelve eapply (sim_on_tree _ _ _ _ (fun name => resolve_by_type name default))|].
  intros c c' wc σc valsc _ Hgc [= ->]. grown.
  destruct c' as [c|]; [by apply sim_cls_from_story_string|by apply sim_ret].
Qed.

End decode_theory.

(** ** What the constructors keep *)

Section keeps.
Context {DT : DateTimeLib}.

(** [v or {}] is [v] itself when [v] is truthy: nothing is created. *)
Lemma s_or_new_keeps σ vals v x o :
  heap_vals σ = Some vals -> load_val vals v = Some x -> truthy x = true ->
  s_or_new v o σ = (Ok v, σ).
Proof.
  intros Hσ Hv Hx. unfold s_or_new.
  by rewrite eff_bind_run, (s_truthy_load _ _ _ _ Hσ Hv), Hx.
Qed.

(** [Event.__init__] with a truthy metadata keeps the object of the
    caller as the metadata of the event and creates nothing; with a
    falsy one it creates a new dictionary. *)
Lemma s_Event_init_keeps σ vals w ts x md y :
  heap_vals σ = Some vals -> load_val vals ts = Some x -> load_val vals md = Some y ->
  exists t,
    load_val vals t = Some (stamp x w) /\
    s_Event_init ts md (w, σ) =
    if truthy y
    then (Ok {| s_timestamp := t; s_metadata := Some md |}, (tick x w, σ))
    else (Ok {| s_timestamp := t; s_metadata := Some (SRef (length σ)) |},
          (tick x w, σ ++ [ODict []])).
Proof.
  intros Hσ Hts Hmd. unfold s_Event_init, s_or_else, s_or_new, stamp, tick.
  exists (if truthy x then ts else SFloat (w_clock w (w_ticks w))).
  rewrite !eff_bind_run, on_store_run, (s_truthy_load _ _ _ _ Hσ Hts).
  destruct (truthy x); (split; [done|]); simpl;
    rewrite !eff_bind_run, on_store_run, eff_bind_run, (s_truthy_load _ _ _ _ Hσ Hmd);
    by destruct (truthy y).
Qed.

(** C13: [Event.from_parameters] run on the store, on a record that is
    a dictionary object, does what [Event.from_parameters] does on the
    tree of the record: it ends in the same world; it raises the same
    exception, or returns an event object that reads back as the event
    of the tree model, or returns [None] as well; every object of the
    store before the call is in the store after it, unchanged, so the
    objects that the decoder and the constructors create are added at
    the end. *)
Theorem s_from_parameters_refines σ vals w v p default :
  heap_vals σ = Some vals -> load_val vals v = Some (PDict p) ->
  match from_parameters p default w with
  | (Ok o, w') =>
      exists so σ' vals',
        s_from_parameters v default (w, σ) = (Ok so, (w', σ')) /\
        σ `prefix_of` σ' /\ vals `prefix_of` vals' /\ heap_vals σ' = Some vals' /\
        abs_opt_event vals' so = Some o
  | (Raise x, w') =>
      exists σ', s_from_parameters v default (w, σ) = (Raise (Py x), (w', σ')) /\
                 σ `prefix_of` σ'
  end.
Proof.
  intros Hσ Hv. pose proof (sim_from_parameters σ vals w v p default Hσ Hv) as Hsim.
  unfold sim, grows in Hsim. destruct (from_parameters p default w) as [[o|x] w'].
  - destruct Hsim as (so & σ' & vals' & ? & (? & ? & ?) & ?). by exists so, σ', vals'.
  - destruct Hsim as (σ' & vals' & ? & ? & _). by exists σ'.
Qed.

End keeps.

(** ** The theorems on a concrete store *)

(** The record of a bot message, with its data and its metadata as
    objects of their own. *)
Definition demo_record_store : store :=
  [ODict [("image", SStr "a.png")]; ODict [("channel", SStr "web")];
   ODict [("event", SStr "bot"); ("text", SStr "hello"); ("data", SRef 0);
          ("metadata", SRef 1); ("timestamp", SInt 7)]].

Definition demo_record : pydict pyval :=
  [("event", PStr "bot"); ("text", PStr "hello");
   ("data", PDict [("image", PStr "a.png")]);
   ("metadata", PDict [("channel", PStr "web")]); ("timestamp", PInt 7)].

Lemma s_from_parameters_refines_witness :
  let vals := [PDict [("image", PStr "a.png")]; PDict [("channel", PStr "web")];
               PDict demo_record] in
  match from_parameters (DT := string_datetime) demo_record None demo_world with
  | (Ok o, w') =>
      exists so σ' vals',
        s_from_parameters (SRef 2) None (demo_world, demo_record_store) =
          (Ok so, (w', σ')) /\
        demo_record_store `prefix_of` σ' /\ vals `prefix_of` vals' /\
        heap_vals σ' = Some vals' /\ abs_opt_event vals' so = Some o
  | (Raise x, w') =>
      exists σ', s_from_parameters (SRef 2) None (demo_world, demo_record_store) =
                   (Raise (Py x), (w', σ')) /\
                 demo_record_store `prefix_of` σ'
  end.
Proof.
  intros vals.
  exact (s_from_parameters_refines (DT := string_datetime) demo_record_store vals
           demo_world (SRef 2) demo_record None eq_refl eq_refl).
Defined.

(** The event decoded from the record holds the data and the metadata
    of the record by reference, and nothing was created. *)
Example decoded_event_aliases_record :
  s_from_parameters (DT := string_datetime) (SRef 2) None
    (demo_world, demo_record_store) =
  (Ok (Some (SBotUttered (SStr "hello") (SRef 0)
               {| s_timestamp := SInt 7; s_metadata := Some (SRef 1) |})),
   (demo_world, demo_record_store)).
Proof. reflexivity. Qed.

(** A record without data and metadata: the decoder creates the two
    dictionaries of the event. *)
Example decoded_event_creates_objects :
  s_from_parameters (DT := string_datetime) (SRef 0) None
    (demo_world, [ODict [("event", SStr "bot"); ("timestamp", SInt 7)]]) =
  (Ok (Some (SBotUttered SNone (SRef 1)
               {| s_timestamp := SInt 7; s_metadata := Some (SRef 2) |})),
   (demo_world,
    [ODict [("event", SStr "bot"); ("timestamp", SInt 7)]; ODict []; ODict []])).
Proof. reflexivity. Qed.
