(* ===== verification/Batch.v ===== *)
(** * Batch: [deserialise_events] run on the store

    [deserialise_events] receives a reference to a list of records.  It
    iterates over the list, asks of each record whether it has the key
    ["event"], hands the record to [Event.from_parameters] and appends
    the event to a new list.  This file runs it on the world and the
    store ([CM]), on any value: a dictionary in place of the list is
    iterated by its keys, a string by its characters, and a record that
    is a string is searched for the text ["event"].

    The events of the result are values of the model and hold
    references, as in [Aliasing.v]; the list that collects them is a
    list of the model.  The loop writes into no object of the store, so
    the list it iterates is the list it was given.

    The theorems relate the loop to [deserialise_events] on trees where
    the argument is a list of dictionaries, and show on a concrete store
    that two records which share a metadata dictionary decode to two
    events that share it. *)

From S2P Require Import Prelude PyDict PyValue Runtime Events Registry DictCodec.
From S2P Require Import Store Aliasing Construct.

(** ** The operations of the loop *)

(** [k in s] for two strings: [k] occurs in [s]. *)
Fixpoint str_contains (k s : string) : bool :=
  String.prefix k s ||
  match s with
  | EmptyString => false
  | String _ s' => str_contains k s'
  end.

(** [k in v] for a string [k]: a key of a dictionary, an element of a
    list, a part of a string. *)
Definition s_contains (k : string) (v : sval) : SM bool :=
  match v with
  | SRef l =>
      o ← s_deref l;
      mret (match o with
            | ODict d => dict_contains d k
            | OList xs => bool_decide (SStr k ∈ xs)
            end)
  | SStr s => mret (str_contains k s)
  | _ => s_raise TypeError
  end.

(** The values [for e in v] binds to [e]: the elements of a list, the
    keys of a dictionary, the characters of a string. *)
Definition s_iter (v : sval) : SM (list sval) :=
  match v with
  | SRef l =>
      o ← s_deref l;
      mret (match o with
            | OList xs => xs
            | ODict d => SStr <$> d.*1
            end)
  | SStr s => mret ((fun c => SStr (String c EmptyString)) <$> String.list_ascii_of_string s)
  | _ => s_raise TypeError
  end.

Section batch.
Context {DT : DateTimeLib}.

(** The loop of [deserialise_events], with the list built so far. *)
Fixpoint s_deserialise_loop (deserialised : list SEvent) (l : list sval)
    : CM (list SEvent) :=
  match l with
  | [] => mret deserialised
  | e :: rest =>
      tagged ← on_store (s_contains "event" e);
      if tagged : bool then
        event ← s_from_parameters e None;
        match event with
        | Some ev => s_deserialise_loop (deserialised ++ [ev]) rest
        | None =>
            s_logger_warning unable_to_parse_msg SNone;;
            s_deserialise_loop deserialised rest
        end
      else s_deserialise_loop deserialised rest
  end.

(** [deserialise_events(serialized_events)]. *)
Definition s_deserialise_events (serialized_events : sval) : CM (list SEvent) :=
  l ← on_store (s_iter serialized_events);
  s_deserialise_loop [] l.

(** The events of a list, read back. *)
Definition abs_events (vals : list pyval) (l : list SEvent) : option (list Event) :=
  mapM (abs_event vals) l.

(** The values [ls] read back as the dictionaries [l]. *)
Definition records (vals : list pyval) (ls : list sval) (l : list (pydict pyval))
    : Prop :=
  Forall2 (fun v p => load_val vals v = Some (PDict p)) ls l.

(** ** What is known of lists stays known when the store grows *)

Lemma grows_abs_events σ vals σ' vals' l l' :
  grows σ vals σ' vals' -> abs_events vals l = Some l' -> abs_events vals' l = Some l'.
Proof. intros (_ & [more ->] & _). apply abs_list_app. Qed.

Lemma grows_records σ vals σ' vals' ls l :
  grows σ vals σ' vals' -> records vals ls l -> records vals' ls l.
Proof. intros Hg Hl. eapply Forall2_impl; [done|]. eauto using grows_load_val. Qed.

Lemma abs_events_snoc vals l l' e e' :
  abs_events vals l = Some l' -> abs_event vals e = Some e' ->
  abs_events vals (l ++ [e]) = Some (l' ++ [e']).
Proof.
  unfold abs_events. rewrite !mapM_Some. intros Hl He.
  apply Forall2_app; [done|by constructor].
Qed.

(** The elements of a list read back one by one. *)
Lemma load_list_records vals ls l :
  load_list vals ls = Some (PDict <$> l) -> records vals ls l.
Proof.
  revert l. induction ls as [|v ls IH]; intros l; simpl.
  - destruct l; [constructor|done].
  - destruct (load_val vals v) as [x|] eqn:Hv; [|done]. simpl.
    destruct (load_list vals ls) as [xs|]; [|done]. simpl.
    destruct l as [|p l]; [done|]. intros [= -> ->]. constructor; [done|by apply IH].
Qed.

(** ** The loop implements the loop on trees *)

Lemma sim_contains σ vals w v p k :
  heap_vals σ = Some vals -> load_val vals v = Some (PDict p) ->
  sim abs_pure σ vals w (on_store (s_contains k v)) (mret (dict_contains p k)).
Proof.
  intros Hσ (l & d & -> & Hl & Hd)%(load_val_dict_inv σ); [|done].
  exists (dict_contains d k), σ, vals. rewrite on_store_run. unfold s_contains.
  rewrite eff_bind_run, (s_deref_run _ _ _ Hl). split_and!; [done|auto with store|].
  unfold abs_pure, dict_contains. rewrite (load_dict_get _ _ _ k Hd).
  destruct (dict_get d k) as [x|] eqn:Hk; [|done]. simpl.
  pose proof (load_dict_default _ _ _ k Hd) as Hx. rewrite Hk in Hx. simpl in Hx.
  by rewrite Hx.
Qed.

Lemma sim_deserialise_loop σ vals w sacc acc ls l :
  heap_vals σ = Some vals -> abs_events vals sacc = Some acc -> records vals ls l ->
  sim abs_events σ vals w (s_deserialise_loop sacc ls) (deserialise_loop acc l).
Proof.
  revert ls σ vals w sacc acc.
  induction l as [|p l IH]; intros ls σ vals w sacc acc Hσ Hacc Hl.
  { apply Forall2_nil_inv_r in Hl as ->. by apply sim_ret. }
  apply Forall2_cons_inv_r in Hl as (v & ls' & Hv & Hl & ->). simpl.
  eapply (sim_bind_l abs_pure); [by apply sim_contains|].
  intros b σ1 vals1 Hg1 [= ->]. grown.
  pose proof (grows_abs_events _ _ _ _ _ _ Hg1 Hacc) as Hacc1.
  destruct (dict_contains p "event"); [|eauto using grows_records].
  eapply sim_bind; [by apply sim_from_parameters|].
  intros so o w2 σ2 vals2 _ Hg2 Ho.
  pose proof (grows_abs_events _ _ _ _ _ _ Hg2 Hacc1) as Hacc2.
  pose proof (grows_trans _ _ _ _ _ _ Hg1 Hg2) as Hg. grown.
  destruct so as [ev|]; simpl in Ho.
  - destruct (abs_event vals2 ev) as [ev'|] eqn:Hev; simplify_eq/=.
    eauto using grows_records, abs_events_snoc.
  - injection Ho as <-. eapply (sim_bind abs_pure); [by apply sim_logger_warning|].
    intros [] [] w3 σ3 vals3 _ Hg3 _.
    pose proof (grows_trans _ _ _ _ _ _ Hg Hg3). grown.
    eauto using grows_records, grows_abs_events.
Qed.

(** A value that reads back as a list is a reference to a list
    object. *)
Lemma load_val_list_inv σ vals v xs :
  heap_vals σ = Some vals -> load_val vals v = Some (PList xs) ->
  exists l ls, v = SRef l /\ σ !! l = Some (OList ls) /\ load_list vals ls = Some xs.
Proof.
  intros Hσ Hv. destruct v; simpl in Hv; simplify_eq.
  destruct (heap_vals_lookup _ _ _ _ Hσ Hv) as ([ls|d] & Hl & Hx); simpl in Hx.
  - destruct (load_list vals ls) as [xs'|] eqn:Hls; simplify_eq/=. eauto.
  - by destruct (load_dict vals d); simplify_eq/=.
Qed.

(** The iteration over a list of records visits the records. *)
Lemma s_iter_records σ vals w v l :
  heap_vals σ = Some vals -> load_val vals v = Some (PList (PDict <$> l)) ->
  exists ls, on_store (s_iter v) (w, σ) = (Ok ls, (w, σ)) /\ records vals ls l.
Proof.
  intros Hσ (lv & ls & -> & Hl & Hls)%(load_val_list_inv σ); [|done].
  exists ls. rewrite on_store_run. unfold s_iter.
  rewrite eff_bind_run, (s_deref_run _ _ _ Hl). eauto using load_list_records.
Qed.

Lemma sim_deserialise_events σ vals w v l :
  heap_vals σ = Some vals -> load_val vals v = Some (PList (PDict <$> l)) ->
  sim abs_events σ vals w (s_deserialise_events v) (deserialise_events l).
Proof.
  intros Hσ Hv. destruct (s_iter_records σ vals w v l Hσ Hv) as (ls & Hrun & Hls).
  pose proof (sim_deserialise_loop σ vals w [] [] ls l Hσ eq_refl Hls) as Hsim.
  unfold sim, s_deserialise_events, deserialise_events in *.
  by rewrite eff_bind_run, Hrun.
Qed.

(** C21: [deserialise_events] run on the store, on a list object whose
    elements are dictionary objects, does what [deserialise_events] does
    on the trees of the records: it ends in the same world, with the
    same warnings logged; it raises the same exception or returns events
    that read back, one by one and in order, as the events of the tree
    model; and the objects of the store before the call are unchanged. *)
Theorem s_deserialise_events_refines σ vals w v l :
  heap_vals σ = Some vals -> load_val vals v = Some (PList (PDict <$> l)) ->
  match deserialise_events l w with
  | (Ok evs, w') =>
      exists sevs σ' vals',
        s_deserialise_events v (w, σ) = (Ok sevs, (w', σ')) /\
        σ `prefix_of` σ' /\ vals `prefix_of` vals' /\ heap_vals σ' = Some vals' /\
        abs_events vals' sevs = Some evs
  | (Raise x, w') =>
      exists σ', s_deserialise_events v (w, σ) = (Raise (Py x), (w', σ')) /\
                 σ `prefix_of` σ'
  end.
Proof.
  intros Hσ Hv. pose proof (sim_deserialise_events σ vals w v l Hσ Hv) as Hsim.
  unfold sim, grows in Hsim. destruct (deserialise_events l w) as [[evs|x] w'].
  - destruct Hsim as (sevs & σ' & vals' & ? & (? & ? & ?) & ?). by exists sevs, σ', vals'.
  - destruct Hsim as (σ' & vals' & ? & ? & _). by exists σ'.
Qed.

End batch.

(** ** The loop on a concrete store *)

(** Two records that refer to one metadata dictionary, and the list of
    the two. *)
Definition demo_batch_store : store :=
  [ODict [("channel", SStr "web")];
   ODict [("event", SStr "slot"); ("name", SStr "city"); ("value", SInt 5);
          ("timestamp", SInt 7); ("metadata", SRef 0)];
   ODict [("event", SStr "restart"); ("timestamp", SInt 8); ("metadata", SRef 0)];
   OList [SRef 1; SRef 2]].

Definition demo_batch : list (pydict pyval) :=
  [[("event", PStr "slot"); ("name", PStr "city"); ("value", PInt 5);
    ("timestamp", PInt 7); ("metadata", PDict [("channel", PStr "web")])];
   [("event", PStr "restart"); ("timestamp", PInt 8);
    ("metadata", PDict [("channel", PStr "web")])]].

Lemma s_deserialise_events_refines_witness :
  let vals := [PDict [("channel", PStr "web")]; PDict (demo_batch !!! 0%nat);
               PDict (demo_batch !!! 1%nat); PList (PDict <$> demo_batch)] in
  match deserialise_events (DT := string_datetime) demo_batch demo_world with
  | (Ok evs, w') =>
      exists sevs σ' vals',
        s_deserialise_events (SRef 3) (demo_world, demo_batch_store) =
          (Ok sevs, (w', σ')) /\
        demo_batch_store `prefix_of` σ' /\ vals `prefix_of` vals' /\
        heap_vals σ' = Some vals' /\ abs_events vals' sevs = Some evs
  | (Raise x, w') =>
      exists σ', s_deserialise_events (SRef 3) (demo_world, demo_batch_store) =
                   (Raise (Py x), (w', σ')) /\
                 demo_batch_store `prefix_of` σ'
  end.
Proof.
  intros vals.
  exact (s_deserialise_events_refines (DT := string_datetime) demo_batch_store vals
           demo_world (SRef 3) demo_batch eq_refl eq_refl).
Defined.

(** The two events hold the metadata of the records, one object, and
    the call created nothing. *)
Example decoded_events_share_metadata :
  s_deserialise_events (DT := string_datetime) (SRef 3) (demo_world, demo_batch_store) =
  (Ok [SSlotSet (SStr "city") (SInt 5)
         {| s_timestamp := SInt 7; s_metadata := Some (SRef 0) |};
       SRestarted {| s_timestamp := SInt 8; s_metadata := Some (SRef 0) |}],
   (demo_world, demo_batch_store)).
Proof. reflexivity. Qed.

(** A string in place of the list of records is iterated by its
    characters, none of which holds the text [event]; a number is not
    iterable. *)
Example deserialise_events_of_a_string :
  s_deserialise_events (DT := string_datetime) (SStr "event") (demo_world, []) =
    (Ok [], (demo_world, [])) /\
  s_deserialise_events (DT := string_datetime) (SInt 3) (demo_world, []) =
    (Raise (Py TypeError), (demo_world, [])).
Proof. by split. Qed.
