(* ===== verification/Sharing.v ===== *)
(** * Sharing: a decoded event holds the metadata of its record

    [Event.from_parameters] reads the metadata of the record with
    [parameters.get("metadata")] and every class hands it to
    [Event.__init__], which stores it unless it is falsy.  The event
    and the record then refer to one dictionary: what a caller writes
    into the metadata of the record after decoding, the event reads.

    The proof is a program logic for the computations on the store.
    [grow m] says that [m] adds objects and changes none.  [keeps m Q]
    says that [m], started in a store that holds the record and its
    metadata, ends in such a store, with a result that satisfies [Q].
    There is a rule for each construct ([keeps_bind], [keeps_catch]) and
    each primitive, and the tactic [keeps_go] applies them along a
    decoder. *)

From S2P Require Import Prelude PyDict PyValue Runtime Events Registry DictCodec.
From S2P Require Import Store Aliasing Construct.

(** ** Operations that add objects and change none *)

Definition grow {A} (m : SM A) : Prop := forall σ, σ `prefix_of` (m σ).2.

Section grow.
Context {A B : Type}.

Lemma grow_ret (a : A) : grow (mret a).
Proof. by intros σ. Qed.

Lemma grow_raise (f : fault) : grow (eff_raise f : SM A).
Proof. by intros σ. Qed.

Lemma grow_s_raise (x : exn) : grow (s_raise x : SM A).
Proof. by intros σ. Qed.

Lemma grow_bind (m : SM A) (f : A -> SM B) :
  grow m -> (forall a, grow (f a)) -> grow (m ≫= f).
Proof.
  intros Hm Hf σ. rewrite eff_bind_run. specialize (Hm σ).
  destruct (m σ) as [[a|x] σ1]; [|done]. etrans; [exact Hm|apply Hf].
Qed.

End grow.

Lemma grow_deref l : grow (s_deref l).
Proof. intros σ. unfold s_deref. by destruct (σ !! l). Qed.

Lemma grow_alloc o : grow (s_alloc o).
Proof. intros σ. by apply prefix_app_r. Qed.

(** Prove [grow] of a composition of the operations above. *)
Ltac grow_solve :=
  repeat first
    [ apply grow_ret | apply grow_raise | apply grow_s_raise | apply grow_deref
    | apply grow_alloc | apply grow_bind; [|intros ?] | case_match ].

Lemma grow_get v k : grow (s_get v k).
Proof. unfold s_get. grow_solve. Qed.

Lemma grow_get_or v k dflt : grow (s_get_or v k dflt).
Proof. unfold s_get_or. grow_solve. Qed.

Lemma grow_get_default v k o : grow (s_get_default v k o).
Proof. unfold s_get_default. grow_solve. Qed.

Lemma grow_truthy v : grow (s_truthy v).
Proof. unfold s_truthy. grow_solve. Qed.

Lemma grow_or_new v o : grow (s_or_new v o).
Proof. unfold s_or_new. apply grow_bind; [apply grow_truthy|intros ?]. grow_solve. Qed.

Lemma grow_metadata_prop b : grow (s_metadata_prop b).
Proof. unfold s_metadata_prop. grow_solve. Qed.

(** ** Computations that keep the record and its metadata *)

Section keeps.
Context {DT : DateTimeLib}.
Context (lr lm : loc) (d : pydict sval) (dm : pydict sval).
Hypothesis Hmd : dict_get d "metadata" = Some (SRef lm).
Hypothesis Hdm : dm ≠ [].

(** The record is the object at [lr], its metadata the dictionary at
    [lm]. *)
Definition known (σ : store) : Prop :=
  σ !! lr = Some (ODict d) /\ σ !! lm = Some (ODict dm).

Definition keeps {A} (m : CM A) (Q : A -> Prop) : Prop :=
  forall w σ, known σ ->
    match m (w, σ) with
    | (Ok a, s') => known s'.2 /\ Q a
    | (Raise _, _) => True
    end.

(** The metadata of the event is the metadata of the record. *)
Definition md_kept (e : SEvent) : Prop :=
  s_metadata (s_event_base e) = Some (SRef lm).

Definition opt_kept (o : option SEvent) : Prop :=
  forall e, o = Some e -> md_kept e.

Definition list_kept (o : option (list SEvent)) : Prop :=
  forall l, o = Some l -> Forall md_kept l.

(** [result[0] if result else None]. *)
Lemma list_kept_head l : list_kept (Some l) -> opt_kept (head l).
Proof.
  intros Hl e He. specialize (Hl l eq_refl). destruct Hl; simplify_eq/=. done.
Qed.

Lemma known_prefix σ σ' : known σ -> σ `prefix_of` σ' -> known σ'.
Proof. intros [? ?] Hp. split; by apply (prefix_lookup_Some σ). Qed.

(** *** Rules *)

Lemma keeps_ret {A} (a : A) (Q : A -> Prop) : Q a -> keeps (mret a) Q.
Proof. by intros Ha w σ Hk. Qed.

Lemma keeps_raise {A} f (Q : A -> Prop) : keeps (eff_raise f) Q.
Proof. by intros w σ Hk. Qed.

Lemma keeps_bind {A B} (m : CM A) (f : A -> CM B) (P : A -> Prop) (Q : B -> Prop) :
  keeps m P -> (forall a, P a -> keeps (f a) Q) -> keeps (m ≫= f) Q.
Proof.
  intros Hm Hf w σ Hk. rewrite eff_bind_run. specialize (Hm w σ Hk).
  destruct (m (w, σ)) as [[a|x] [w1 σ1]]; [|done].
  destruct Hm as [Hk1 Ha]. by apply Hf.
Qed.

Lemma keeps_mono {A} (m : CM A) (P Q : A -> Prop) :
  keeps m P -> (forall a, P a -> Q a) -> keeps m Q.
Proof.
  intros Hm HPQ w σ Hk. specialize (Hm w σ Hk).
  destruct (m (w, σ)) as [[a|x] s1]; [|done]. destruct Hm. auto.
Qed.

Lemma keeps_assoc {A B C} (m : CM A) (f : A -> CM B) (g : B -> CM C) (Q : C -> Prop) :
  keeps (m ≫= fun a => f a ≫= g) Q -> keeps ((m ≫= f) ≫= g) Q.
Proof.
  intros H w σ Hk. specialize (H w σ Hk). rewrite !eff_bind_run in *.
  by destruct (m (w, σ)) as [[a|x] s1].
Qed.

Lemma keeps_ret_bind {A B} (a : A) (f : A -> CM B) (Q : B -> Prop) :
  keeps (f a) Q -> keeps (mret a ≫= f) Q.
Proof. intros H w σ Hk. by apply H. Qed.

(** [try ... except KeyError] with a handler that raises. *)
Lemma keeps_catch {A} (m : CM A) what (Q : A -> Prop) :
  keeps m Q -> keeps (eff_catch s_is_KeyError m (s_failed_to_parse what)) Q.
Proof.
  intros Hm w σ Hk. specialize (Hm w σ Hk). unfold eff_catch.
  destruct (m (w, σ)) as [[a|x] s1]; [done|]. by destruct (s_is_KeyError x).
Qed.

(** *** Primitives *)

Lemma keeps_on_store {A} (m : SM A) : grow m -> keeps (on_store m) (fun _ => True).
Proof.
  intros Hm w σ Hk. rewrite on_store_run. specialize (Hm σ).
  destruct (m σ) as [[a|x] σ1]; [|done]. eauto using known_prefix.
Qed.

Lemma keeps_on_world {A} (m : M A) : keeps (on_world m) (fun _ => True).
Proof.
  intros w σ Hk. unfold on_world. simpl. by destruct (m w) as [[a|x] w1].
Qed.

Lemma keeps_on_tree {A} (f : pyval -> result exn A) v : keeps (on_tree f v) (fun _ => True).
Proof.
  intros w σ Hk. unfold on_tree. simpl. destruct (load σ v); [|done].
  by destruct (f _).
Qed.

Lemma keeps_logger_warning msg v : keeps (s_logger_warning msg v) (fun _ => True).
Proof.
  intros w σ Hk. unfold s_logger_warning. simpl. by destruct (load σ v).
Qed.

(** [parameters.get(k)] returns the entry of the record. *)
Lemma keeps_param k :
  keeps (on_store (s_get (SRef lr) k)) (fun a => a = dict_get d k ?? SNone).
Proof.
  intros w σ [Hr Hm]. rewrite on_store_run. unfold s_get.
  by rewrite eff_bind_run, (s_deref_run _ _ _ Hr).
Qed.

Lemma keeps_param_or k dflt :
  keeps (on_store (s_get_or (SRef lr) k dflt)) (fun a => a = dict_get d k ?? dflt).
Proof.
  intros w σ [Hr Hm]. rewrite on_store_run. unfold s_get_or.
  by rewrite eff_bind_run, (s_deref_run _ _ _ Hr).
Qed.

(** [metadata or {}] is the metadata: it is not empty. *)
Lemma keeps_or_new_md o :
  keeps (on_store (s_or_new (SRef lm) o)) (fun a => a = SRef lm).
Proof.
  intros w σ [Hr Hm]. rewrite on_store_run. unfold s_or_new, s_truthy.
  rewrite !eff_bind_run, (s_deref_run _ _ _ Hm). simpl.
  by rewrite bool_decide_eq_false_2.
Qed.

Lemma keeps_or_else v (m : CM sval) :
  keeps m (fun _ => True) -> keeps (s_or_else v m) (fun _ => True).
Proof.
  intros Hm. unfold s_or_else.
  eapply keeps_bind; [apply keeps_on_store, grow_truthy|].
  intros [] _; [by apply keeps_ret|done].
Qed.

Lemma keeps_time_time : keeps s_time_time (fun _ => True).
Proof. by intros w σ Hk. Qed.

Lemma keeps_uuid1_str : keeps s_uuid1_str (fun _ => True).
Proof. by intros w σ Hk. Qed.

(** A step whose result does not matter. *)
Ltac keeps_any :=
  first
    [ apply keeps_on_store;
      first [ apply grow_get | apply grow_get_or | apply grow_get_default
            | apply grow_truthy | apply grow_or_new | apply grow_metadata_prop
            | apply grow_alloc ]
    | apply keeps_on_world | apply keeps_on_tree | apply keeps_logger_warning
    | apply keeps_or_else | apply keeps_time_time | apply keeps_uuid1_str ].

(** The event that is returned keeps the metadata. *)
Ltac kept_solve :=
  first
    [ by apply list_kept_head
    | unfold opt_kept, list_kept, md_kept in *; intros; simplify_eq/=;
      repeat constructor; done ].

(** Walk along a computation.  [call] proves the steps that are calls
    of a constructor. *)
Ltac keeps_with call :=
  repeat first
    [ lazymatch goal with
      | |- keeps ((_ ≫= _) ≫= _) _ => apply keeps_assoc
      | |- keeps (mret _ ≫= _) _ => apply keeps_ret_bind; cbn beta iota
      end
    | apply keeps_catch
    | apply keeps_raise
    | apply keeps_ret; kept_solve
    | progress (rewrite ?Hmd; cbn [default from_option id])
    | call
    | eapply keeps_bind; [apply keeps_param|intros ? ->]
    | eapply keeps_bind; [apply keeps_param_or|intros ? ->]
    | eapply keeps_bind; [apply keeps_or_new_md|intros ? ->]
    | eapply keeps_bind; [call|intros ? ?]
    | eapply keeps_bind; [keeps_any|intros ? _]
    | case_decide
    | case_match ].

(** *** The constructors *)

Lemma keeps_Event_init ts :
  keeps (s_Event_init ts (SRef lm)) (fun b => s_metadata b = Some (SRef lm)).
Proof. unfold s_Event_init. keeps_with fail. Qed.

Lemma keeps_super_init mk ts :
  (forall b, s_event_base (mk b) = b) ->
  keeps (s_super_init mk ts (SRef lm)) md_kept.
Proof.
  intros Hmk. unfold s_super_init. keeps_with ltac:(apply keeps_Event_init).
  apply keeps_ret. unfold md_kept. by rewrite Hmk.
Qed.

Lemma keeps_parse_data pd intent entities text mid b :
  keeps (s_parse_data pd intent entities text mid b) (fun _ => True).
Proof.
  unfold s_parse_data. eapply keeps_bind; [keeps_any|]. intros [] _;
    [by apply keeps_ret|]. eapply keeps_bind; [keeps_any|]. intros mdv _. keeps_any.
Qed.

Lemma keeps_UserUttered_from_parse_data text pd ts ic mid :
  keeps (s_UserUttered_from_parse_data text pd ts ic mid (SRef lm)) md_kept.
Proof.
  unfold s_UserUttered_from_parse_data, s_UserUttered_init.
  keeps_with ltac:(first [apply keeps_Event_init|apply keeps_parse_data]).
Qed.

(** A constructor that is called with the metadata of the record. *)
Ltac keeps_call :=
  first [ apply keeps_super_init; done
        | apply keeps_UserUttered_from_parse_data ].

(** *** The decoders *)

Lemma keeps_decode1 mk k :
  (forall a b, s_event_base (mk a b) = b) ->
  keeps (s_decode1 mk k (SRef lr)) md_kept.
Proof. intros Hmk. unfold s_decode1. keeps_with keeps_call. Qed.

Lemma keeps_UserUttered_from_story_string :
  keeps (s_UserUttered_from_story_string (SRef lr)) list_kept.
Proof. unfold s_UserUttered_from_story_string. keeps_with keeps_call. Qed.

Lemma keeps_cls_from_parameters c :
  keeps (s_cls_from_parameters c (SRef lr)) opt_kept.
Proof.
  destruct c; cbn [s_cls_from_parameters];
    unfold s_Event_from_parameters, s_BotUttered_from_parameters,
      s_SlotSet_from_parameters, s_AgentUttered_from_parameters,
      s_ActionExecutionRejected_from_parameters, s_BotUttered_init;
    cbn [s_cls_from_story_string];
    unfold s_Event_from_story_string, s_ReminderScheduled_from_story_string,
      s_ReminderScheduled_init, s_ActionExecuted_from_story_string;
    cbn [s_init2];
    keeps_with ltac:(first [ keeps_call | apply keeps_decode1; done
                           | apply keeps_UserUttered_from_story_string ]).
Qed.

Lemma keeps_from_parameters default :
  keeps (s_from_parameters (SRef lr) default) opt_kept.
Proof.
  unfold s_from_parameters. eapply keeps_bind; [apply keeps_param|]. intros name ->.
  case_decide; [by apply keeps_ret|].
  eapply keeps_bind; [apply keeps_on_tree|]. intros [c|] _; [|by apply keeps_ret].
  apply keeps_cls_from_parameters.
Qed.

End keeps.

(** ** The event and the record share the metadata *)

Section shared.
Context {DT : DateTimeLib}.

(** C14: an event decoded from a record whose metadata is a dictionary
    that is not empty holds that dictionary itself, for every class: the
    attribute [_metadata] of the event is the reference the record holds
    under ["metadata"] ([md_kept]).  The record and its metadata are
    unchanged by the decoding ([known]), and when the caller then writes
    [record["metadata"][k] = x], the event reads [x] under
    [metadata.get(k)]. *)
Theorem s_from_parameters_shares_metadata σ w lr lm d dm default ev w' σ' :
  known lr lm d dm σ -> dict_get d "metadata" = Some (SRef lm) -> dm ≠ [] ->
  s_from_parameters (SRef lr) default (w, σ) = (Ok (Some ev), (w', σ')) ->
  md_kept lm ev /\ known lr lm d dm σ' /\
  forall k x,
    (rmd ← s_get (SRef lr) "metadata"; s_setitem rmd k x;;
     emd ← s_metadata_prop (s_event_base ev); s_get emd k) σ' =
    (Ok x, <[lm := ODict (dict_set dm k x)]> σ').
Proof.
  intros Hk Hmd Hdm Hrun.
  pose proof (keeps_from_parameters lr lm d dm Hmd Hdm default w σ Hk) as H.
  rewrite Hrun in H. destruct H as [[Hr' Hm'] Hev]. simpl in Hr', Hm'.
  specialize (Hev ev eq_refl).
  split_and!; [done..|]. intros k x. unfold s_metadata_prop, s_get, s_setitem.
  rewrite Hev, !eff_bind_run, (s_deref_run _ _ _ Hr'), eff_ret_run, Hmd. simpl.
  rewrite !eff_bind_run, (s_deref_run _ _ _ Hm'). unfold s_write.
  rewrite !eff_bind_run, eff_ret_run, eff_bind_run.
  rewrite (s_deref_run _ lm (ODict (dict_set dm k x))), eff_ret_run.
  - by rewrite dict_get_set_eq.
  - apply list_lookup_insert_eq. by apply (lookup_lt_Some _ _ (ODict dm)).
Qed.

End shared.

(** ** The theorem on a concrete store *)

Lemma s_from_parameters_shares_metadata_witness :
  let d := [("event", SStr "bot"); ("text", SStr "hello"); ("data", SRef 0);
            ("metadata", SRef 1); ("timestamp", SInt 7)] in
  let dm := [("channel", SStr "web")] in
  let ev := SBotUttered (DT := string_datetime) (SStr "hello") (SRef 0)
              {| s_timestamp := SInt 7; s_metadata := Some (SRef 1) |} in
  md_kept 1 ev /\ known 2 1 d dm demo_record_store /\
  forall k x,
    (rmd ← s_get (SRef 2) "metadata"; s_setitem rmd k x;;
     emd ← s_metadata_prop (s_event_base ev); s_get emd k) demo_record_store =
    (Ok x, <[1%nat := ODict (dict_set dm k x)]> demo_record_store).
Proof.
  intros d dm ev.
  exact (s_from_parameters_shares_metadata demo_record_store demo_world 2 1 d dm None
           ev demo_world demo_record_store (conj eq_refl eq_refl) eq_refl
           ltac:(discriminate) eq_refl).
Defined.

(** The event, read back before and after the caller marks the metadata
    of the record as seen: the metadata of the event has changed. *)
Example write_to_record_changes_event :
  let ev := SBotUttered (SStr "hello") (SRef 0)
              {| s_timestamp := SInt 7; s_metadata := Some (SRef 1) |} in
  let σ2 := (s_setitem (SRef 1) "seen" (SBool true) demo_record_store).2 in
  (vals ← heap_vals demo_record_store; abs_event (DT := string_datetime) vals ev) =
    Some (BotUttered (PStr "hello") (PDict [("image", PStr "a.png")])
            {| timestamp := PInt 7;
               _metadata := Some (PDict [("channel", PStr "web")]) |}) /\
  (vals ← heap_vals σ2; abs_event (DT := string_datetime) vals ev) =
    Some (BotUttered (PStr "hello") (PDict [("image", PStr "a.png")])
            {| timestamp := PInt 7;
               _metadata := Some (PDict [("channel", PStr "web");
                                         ("seen", PBool true)]) |}).
Proof. by split. Qed.
