(* ===== verification/Reencode.v ===== *)
(** * Reencode: a record decoded and encoded again, on the store

    A tracker store reads a record, decodes it to an event and later
    writes the event back with [as_dict].  On the store of objects the
    two steps compose: the decoder keeps the objects of the record that
    the constructor keeps, and [as_dict] writes the references of the
    event into a new dictionary.  The theorem here joins the simulation
    of [Construct.v] with the refinement of [Aliasing.v]: the record
    that is written reads back as [as_dict] of the event the tree model
    decodes, and it holds the references of the event, so it shares the
    metadata, the data and the parse data with the record that was
    read. *)

From S2P Require Import Prelude PyDict PyValue Runtime Events Registry DictCodec.
From S2P Require Import Store Aliasing Construct.

Section reencode.
Context {DT : DateTimeLib}.

(** ** Decoded events have the attribute [_metadata] *)

Lemma decode_ref_metadata c p w e w' :
  decode_ref c p w = (Ok (Some e), w') -> is_Some (_metadata (event_base e)).
Proof. intros [_ ->]%decode_ref_base. by eexists. Qed.

Lemma from_parameters_metadata p d w e w' :
  from_parameters p d w = (Ok (Some e), w') -> is_Some (_metadata (event_base e)).
Proof. intros (c & _ & Hc)%from_parameters_Some. eauto using decode_ref_metadata. Qed.

(** The base of an event object reads back as the base of the event. *)
Lemma abs_event_base vals se e :
  abs_event vals se = Some e -> abs_base vals (s_event_base se) = Some (event_base e).
Proof.
  unfold abs_event. destruct (abs_base vals (s_event_base se)) as [b'|]; [|done].
  simpl. destruct se; intros; simplify_option_eq; done.
Qed.

Lemma abs_event_has_metadata vals se e :
  abs_event vals se = Some e -> is_Some (_metadata (event_base e)) ->
  is_Some (s_metadata (s_event_base se)).
Proof.
  intros [_ Hmd]%abs_event_base%abs_base_inv [md Hsome]. rewrite Hsome in Hmd.
  destruct (s_metadata (s_event_base se)); [by eexists|done].
Qed.

(** ** Decoding, then encoding *)

(** A record that decodes to an event on the store, encoded again with
    [as_dict]: the tree model decodes the tree of the record to an event
    [e], the encoding adds one dictionary to the store and changes no
    other object, the new dictionary reads back as [as_dict e], and its
    entries for the attributes that hold objects are the references of
    the event. *)
Theorem s_reencode σ vals w v p default ev w' σ1 :
  heap_vals σ = Some vals -> load_val vals v = Some (PDict p) ->
  s_from_parameters v default (w, σ) = (Ok (Some ev), (w', σ1)) ->
  exists e d',
    from_parameters p default w = (Ok (Some e), w') /\
    σ `prefix_of` σ1 /\
    s_as_dict ev σ1 = (Ok (SRef (length σ1)), σ1 ++ [ODict d']) /\
    load (σ1 ++ [ODict d']) (SRef (length σ1)) = Some (PDict (as_dict e)) /\
    Forall (fun kv => dict_get d' kv.1 = Some kv.2) (shared_entries ev).
Proof.
  intros Hσ Hv Hrun. pose proof (sim_from_parameters σ vals w v p default Hσ Hv) as Hsim.
  unfold sim in Hsim. destruct (from_parameters p default w) as [[o|x] w2] eqn:Hdec.
  - destruct Hsim as (so & σ' & vals' & Hrun' & (Hpre & _ & Hσ') & Habs).
    rewrite Hrun in Hrun'. injection Hrun' as <- <- <-. simpl in Habs.
    destruct (abs_event vals' ev) as [e|] eqn:He; simplify_eq/=.
    pose proof (from_parameters_metadata _ _ _ _ _ Hdec) as Hmd.
    destruct (abs_event_has_metadata _ _ _ He Hmd) as [md Hsmd].
    destruct (s_as_dict_run ev e md σ1 vals' Hσ' He Hsmd) as (d' & Hd' & Hload & Hshare).
    exists e, d'. split_and!; try done. unfold load.
    rewrite (heap_vals_snoc_dict _ _ _ _ Hσ' Hload). simpl.
    rewrite <- (heap_vals_length _ _ Hσ'). by apply list_lookup_middle.
  - destruct Hsim as (σ' & vals' & Hrun' & _). by rewrite Hrun in Hrun'.
Qed.

End reencode.

(** The record of a bot message, decoded and encoded again: the new
    record is the fourth object of the store, and its data and metadata
    are the objects [0] and [1] of the record that was read. *)
Example reencoded_record_shares_objects :
  let ev := SBotUttered (DT := string_datetime) (SStr "hello") (SRef 0)
              {| s_timestamp := SInt 7; s_metadata := Some (SRef 1) |} in
  exists e d',
    from_parameters demo_record None demo_world = (Ok (Some e), demo_world) /\
    demo_record_store `prefix_of` demo_record_store /\
    s_as_dict ev demo_record_store =
      (Ok (SRef 3), demo_record_store ++ [ODict d']) /\
    load (demo_record_store ++ [ODict d']) (SRef 3) = Some (PDict (as_dict e)) /\
    Forall (fun kv => dict_get d' kv.1 = Some kv.2) (shared_entries ev).
Proof.
  exact (s_reencode (DT := string_datetime) demo_record_store _ demo_world (SRef 2)
           demo_record None _ demo_world demo_record_store eq_refl eq_refl eq_refl).
Qed.
